(* ===== verification/_CoqProject ===== *)
-Q . S2P
Prelude.v
Stats.v
Model.v
Features.v
Ingest.v
Paging.v
Baseline.v
Driver.v
Integrity.v
Outlier.v
Pipeline.v
Trust.v
Rules.v
DailyStats.v
Webhook.v
Server.v
Classifier.v
Reports.v
