(* ===== verification/Prelude.v ===== *)
(** * A verification development of anomaluser

    anomaluser (src/app/) scores the commits pushed to a GitHub repository.
    A batch (run.py) loads the history from the GitHub API into a SQLite
    database (models.py) and computes per-developer and per-day statistics
    and the behavioural baselines (utils.py), and prints reports of them.
    A Flask webhook (webhook_handler.py) then scores each push with six
    rules and a trust verdict (rule_check.py) and is meant to append a
    report; the day it passes to the rules is a [str], which the
    database refuses, so no push is ever reported (C11, C15).  An
    offline one-class SVM is trained on the daily statistics, whose means
    are also plotted (anomaly_detection.py).  The
    files of this development, leaves first, and the parts they model:

    - [Prelude] (this file): what every component shares.  Python's
      exceptions are the inductive [PyExc], and a result type [res] has a
      bind notation [let*] in [py_scope].  [raises_in E r] says that the
      exceptions [r] may raise are among [E], and [raises_one_of E r]
      that [r] raises, one of [E]: it never returns.  The file also has Python's
      [/] ([py_div], raising [ZeroDivisionError]) and [round] (half to
      even: [round_half_even], [py_round], [py_round_n]), and [min]/[max]
      of a list ([py_min], [py_max], raising [ValueError] on an empty
      list).  For automation: the hint databases [anom], [anom_rw] and
      [raises]; the tactics [inv_res], [res_inv], [qsimpl], [raises_auto]
      and [raises_one_auto]; [res_fold_left_rel] and [res_mapM_Forall2] for loops;
      and the [Proper] instances that rewrite [round] under [==].
    - [Stats] (Module [Stats]): [get_mean_and_variance] (utils.py 107-114,
      copied in anomaly_detection.py 34-41), [statistics.variance], and the
      SQL variance and [AVG] queries with SQLite's NULL ([sql_variance],
      [sql_avg]).  Theorems: totality (C4) and the refinement of the SQL
      query by the Python computation (C28); order independence and shift
      invariance are lemmas.
    - [Model] (Module [Model]): the tables of models.py as records, and
      the database [Db] as one list of rows per table.  Also rules.ini as
      [Config], the date and the GitHub search as [Env], the API payloads,
      and the queries: [one_or_none]/[one] (with SQLAlchemy's
      exceptions), [get_developer], [first_commit] and the joins on a
      username.
    - [Features] (Module [Features]): [str.split], the changed-characters
      loop of [save_file_changes], the file type, [count_files_by_status]
      (rule_check.py 76-88), the time-interval loop, and [parse_commits]
      (anomaly_detection.py 44-92) over an explicit [ParseState].
      Theorems C5, C29, C37; the exceptions of [parse_commits] are a
      lemma.
    - [Ingest] (Module [Ingest]): [get_file], [save_file_changes],
      [get_commits], [create_user], [get_contributors] and [get_pulls]
      (utils.py 39-104, 189-280), the paging loops over the list of pages.
      The GitHub responses are section variables.  The file store is
      updated row by row through [put_file], because SQLAlchemy's
      autoflush and identity map make the writes visible to the next
      query.  Its invariant [store_wf] (unique ids, filenames, non-empty
      previous filenames and (commit, file) pairs) is preserved, and the
      stored counts are those of [count_files_by_status] (C17).  A row
      written by [save_file] is read back by [get_file] (C31).  A merge
      commit with no known author inherits the previous entry's developer
      (C19).
    - [Paging] (Module [Paging]): the [while True] loops of [get_commits],
      [get_contributors] and [get_pulls] over page numbers, as
      [while_pages] with fuel ([None] when the fuel runs out), and the
      SQLAlchemy [Session] with what it has committed, what it sees, and
      the commit row a flush inserted before the [db_session.commit()] of
      utils.py line 91 ([line91_commit]).  Fuel monotonicity
      ([while_pages_mono]) and the first short page ([first_short]) are
      lemmas; the loop of [get_commits] refines the list model of
      Ingest.v, and what it commits is the database after its full pages,
      or, after a line-91 commit on the last page, more, with a commit row
      whose [changed_chars] and file counts are NULL (C14); the
      contributors loop stops exactly on a listing with a short page
      (C30).  Fuel: one more than the number of full pages before the
      first short page is enough, and any larger fuel gives the same
      result.
    - [Baseline] (Module [Baseline]): [math.sqrt], the four variance
      functions, [calculate_global_dev_stats] and [calculate_repo_stats]
      (utils.py 288-387).  Each returns the database with the row
      appended.  The unique [developer_id] of DeveloperStats raises
      [IntegrityError].  Theorems C6, C27, C32.
    - [Driver] (Module [Driver]): [get_repository_info] (run.py 28-42),
      the composition of ingestion and baselines: on a database without
      baselines, a run leaves one baseline row per developer (C20).
      [get_commits_user] (run.py 87-90) closes its session without a
      commit and keeps what the loop committed (C23); the script's top
      level is [open_database] with [create_tables] (models.py 166-167)
      then [run_script].
    - [Integrity] (Module [Integrity]): the foreign keys of models.py
      ([fk_with], [fk_wf]), which SQLite does not enforce, and the proof
      that every write of the ingestion and the baselines keeps them: the
      batch [get_repository_info] and [get_pulls] preserve [fk_wf] (C22).
    - [Outlier] (Module [Outlier]): [outlier_stats_check] and
      [outlier_check] (rule_check.py 91-127).  [outlier_stats_check]
      works over any row with a baseline, through the class
      [HasBaseline] with instances for DeveloperStats and RepoStats, as
      the code duck-types them.  The band test (C7) refines the abstract
      detector [deviates], a squared deviation above the variance (a
      lemma).  [outlier_check] over both baselines is C12, and its [one()]
      failure after two repository runs is C33.
    - [Pipeline] (Module [Pipeline]): the batch and the webhook composed
      through the database: after a run of [get_repository_info] from a
      database without baselines, the lookups of [outlier_check] find
      their rows, so it raises at most the [TypeError] of a NULL average
      (C21); a contributor loaded without commits has such a baseline.
    - [Trust] (Module [Trust], a Section over [cfg] and [env]): [is_trusted]
      and its six predicates (rule_check.py 140-189), with the [int] or
      [str] that [user_contributions] returns as a [PyValue] and
      Python's [int()] as [py_int].  The day of [commits_per_day] is a
      [DayArg]: a [datetime.date] or a [str], which the SQLite [Date]
      column refuses with [TypeError] ([date_param]).  Theorems C2, C8.
    - [Rules] (Module [Rules], a Section over [cfg] and [env]): the five
      rules and [rules_violated] (rule_check.py 15-73).  Touched files are
      a [gset], and the contributions of [is_major_contributor_to_files] a
      [gmap]; the query of the major contributions is modelled with its
      joins, and counts every commit of the author against each file the
      author owns (C38).  Theorems C1, C16, C38.  A lemma lists the
      exceptions the scoring can raise; [raises_auto] proves the
      per-component bounds.
    - [DailyStats] (Module [DailyStats]): [calculate_daily_stats] and
      [daily_commit_stats] (utils.py 117-186), as a fold over developers
      and commits whose state [DayAcc] holds the loop's variables.  The
      specification groups the commits into runs of equal days and
      carries the open day from one developer to the next.  The reachable
      accumulators are an inductive relation ([reachable]) with its
      invariant (C34).  The refinement is C3, and the carry-over of the
      last day from one developer to the next is C9.
    - [Webhook] (Module [Webhook]): [push_payload] (webhook_handler.py
      37-50), with the HTTP request [get_commit_info] as a section
      variable, [write_file] appending to a map of report files,
      [pull_payload] and [get_commit].  The day is the [str]
      [commit['timestamp'][:10]].  Theorems C10, C11.
    - [Server] (Module [Server]): the Flask application
      (webhook_handler.py 10-18, 37-71): [handle] dispatches a request to
      its view and answers 500 when the view raises; [app.run] is the
      step relation [step] on [Server] (pending requests with connection
      numbers, report store, responses sent), any pending request being
      served next.  The reachable states keep distinct connection numbers
      and a growing report store (C35, by rule induction), and a pending
      push with commits can be served, and once served was answered 500
      with the report store unchanged (C15): the server never writes a
      report.
    - [Classifier] (Module [Classifier]): [get_dev_commits_stats] with
      SQLite's rounding and scikit-learn's [MinMaxScaler], [split_array],
      [model] and its metrics, [divide_train_predict],
      [analyze_user_behaviour] and the script's evaluation of forged
      commits (anomaly_detection.py 138-283), and [predict_over_rules]
      (lines 166-169).  The SVM's decision function and
      [rule_simulation.clever_commit] are section variables.  Theorems
      C13, C18, C25, C36.
    - [Reports] (Module [Reports]): what [get_dev_commits] and
      [get_all_dev_daily_stats] (run.py 45-84) print, in a small monad
      [Out] of printed lines and a result with its notation [let!], the
      [__repr__] methods of models.py as instances of the class [Repr];
      and [create_graph_commits] (anomaly_detection.py 95-135) as the
      figures it hands to matplotlib.  Theorems C24, C26; that the plot
      never raises is a lemma.

    Numbers.  Python's floats are exact rationals [Q]; integer columns are
    [Z].  The development proves the arithmetic the code means, not IEEE
    rounding: a division is exact, and [round] is applied to the exact
    quotient.  Equalities of computed rationals are stated with [==]
    (Qeq).  [math.sqrt] is the exact floor square root at the precision
    of the argument's denominator ([Baseline.math_sqrt]).

    Errors.  An exception the code does not catch ends the handler.  It is
    a value [Raise e] of [res A], so every theorem about a fallible
    operation says which inputs raise and which return.  On an exception
    the model keeps the exception, not the rows a session had committed
    before it, except for the line-91 commit of the ingestion loop
    (Paging.v), whose committed rows C14 and C23 describe.

    State.  The database is passed explicitly: a write returns the new
    [Db], and a read is a function of it.  The loops over query results
    are folds ([fold_left], [res_fold_left]), structural and total.  The
    paging loops exist twice: over the list of pages the API returns
    (Ingest.v, used by the driver), and over page numbers with fuel
    (Paging.v), related by C14.  The daily batch's loop state is a record
    ([DayAcc]) with a reachability relation; the Flask server is a step
    relation.

    Not modelled: [get_languages] and [get_commit_info], which only
    perform an HTTP request (and print it); the module-level
    configuration ([configparser], the engines, [input()] of a database
    name); [plt.show()] and the plot style; the learning of
    scikit-learn's OneClassSVM and [rule_simulation.clever_commit]
    (absent from the repository), both parameters; [json.loads], [str] of
    a float, a date or a datetime (parameters); parsing of ISO dates
    (timestamps are seconds, days are day numbers).  Flask's threads are
    modelled at the granularity of a request: a handler's report is
    appended when its file is closed. *)

From Stdlib Require Export ZArith QArith Qround Lqa List Permutation Ascii String Bool.
From stdpp Require Export base list gmap strings.
Export ListNotations.

Declare Scope py_scope.
Delimit Scope py_scope with py.
Open Scope Q_scope.

(** ** Python exceptions and fallible results *)

Inductive PyExc :=
  | ZeroDivisionError
  | IndexError
  | ValueError
  | TypeError
  | StatisticsError
  | NoResultFound
  | MultipleResultsFound
  | NameError
  | IntegrityError
  | KeyError
  | AttributeError.

#[export] Instance PyExc_eq_dec : EqDecision PyExc.
Proof. solve_decision. Defined.

Inductive res (A : Type) : Type :=
  | Ok (a : A)
  | Raise (e : PyExc).
Arguments Ok {A} a.
Arguments Raise {A} e.

Definition res_bind {A B} (r : res A) (k : A -> res B) : res B :=
  match r with
  | Ok a => k a
  | Raise e => Raise e
  end.

Definition res_map {A B} (f : A -> B) (r : res A) : res B :=
  res_bind r (fun a => Ok (f a)).

Notation "'let*' x := c 'in' k" := (res_bind c (fun x => k))
  (at level 10, x name, c at level 100, k at level 200) : py_scope.
Notation "'let*' ' p := c 'in' k" := (res_bind c (fun x => match x with p => k end))
  (at level 10, p pattern, c at level 100, k at level 200) : py_scope.

Open Scope py_scope.

(** A Python [for] loop whose body may raise: the items in order, the
    first exception stops the loop. *)
Fixpoint res_fold_left {A B} (f : B -> A -> res B) (l : list A) (acc : B) : res B :=
  match l with
  | [] => Ok acc
  | x :: t => let* acc' := f acc x in res_fold_left f t acc'
  end.

Fixpoint res_mapM {A B} (f : A -> res B) (l : list A) : res (list B) :=
  match l with
  | [] => Ok []
  | x :: t => let* y := f x in let* ys := res_mapM f t in Ok (y :: ys)
  end.

(** ** Python numbers *)

Definition QZ (z : Z) : Q := inject_Z z.
Definition Qlen {A} (l : list A) : Q := inject_Z (Z.of_nat (length l)).

(** [a / b]: Python raises [ZeroDivisionError] on a zero divisor. *)
Definition py_div (a b : Q) : res Q :=
  if Qeq_bool b 0 then Raise ZeroDivisionError else Ok (a / b).

(** Python 3's [round]: to the nearest integer, ties to the even one. *)
Definition round_half_even (q : Q) : Z :=
  let f := Qfloor q in
  match Qcompare (q - inject_Z f) (1 # 2) with
  | Lt => f
  | Gt => (f + 1)%Z
  | Eq => if Z.even f then f else (f + 1)%Z
  end.

(** [round(x)] (an int) and [round(x, n)] (a float with n decimals). *)
Definition py_round (q : Q) : Q := inject_Z (round_half_even q).

Definition py_round_n (n : nat) (q : Q) : Q :=
  let s := inject_Z (10 ^ Z.of_nat n) in
  inject_Z (round_half_even (q * s)) / s.

(** [min(l)] and [max(l)]: Python raises [ValueError] on an empty list. *)
Definition py_min (l : list Z) : res Z :=
  match l with
  | [] => Raise ValueError
  | x :: t => Ok (fold_left Z.min t x)
  end.

Definition py_max (l : list Z) : res Z :=
  match l with
  | [] => Raise ValueError
  | x :: t => Ok (fold_left Z.max t x)
  end.

Definition b2Z (b : bool) : Z := if b then 1%Z else 0%Z.

(** The exceptions a computation may raise are among [E]. *)
Definition raises_in {A} (E : list PyExc) (r : res A) : Prop :=
  match r with
  | Ok _ => True
  | Raise e => In e E
  end.

(** The computation raises, and its exception is among [E]: it never
    returns. *)
Definition raises_one_of {A} (E : list PyExc) (r : res A) : Prop :=
  match r with
  | Ok _ => False
  | Raise e => In e E
  end.

(** ** Automation *)

Create HintDb anom.
Create Rewrite HintDb anom_rw.

Ltac inv_res :=
  repeat match goal with
  | H : Ok _ = Ok _ |- _ => injection H as H; subst
  | H : Ok _ = Raise _ |- _ => discriminate H
  | H : Raise _ = Ok _ |- _ => discriminate H
  | H : Raise _ = Raise _ |- _ => injection H as H; subst
  end.

Ltac qsimpl := unfold QZ, Qlen in *; simpl in *.

(** ** Generic lemmas on results *)

Lemma res_bind_Ok {A B} (c : res A) (k : A -> res B) b :
  res_bind c k = Ok b <-> exists a, c = Ok a /\ k a = Ok b.
Proof.
  destruct c as [a|e]; simpl; split.
  - eauto.
  - intros (a' & H & ?). inv_res. done.
  - discriminate.
  - intros (a' & H & _). discriminate.
Qed.

Lemma res_bind_Raise_l {A B} e (k : A -> res B) :
  res_bind (Raise e) k = Raise e.
Proof. reflexivity. Qed.

Lemma res_mapM_length {A B} (f : A -> res B) l l' :
  res_mapM f l = Ok l' -> length l' = length l.
Proof.
  revert l'. induction l as [|x t IH]; simpl; intros l' H.
  - by inv_res.
  - apply res_bind_Ok in H as (y & _ & H).
    apply res_bind_Ok in H as (ys & Hys & H). inv_res. simpl. f_equal. auto.
Qed.

(** A [map] whose function returns on every element returns, with the
    results related to the elements. *)
Lemma res_mapM_Forall2 {A B} (P : A -> B -> Prop) (f : A -> res B) l :
  (forall x, In x l -> exists y, f x = Ok y /\ P x y) ->
  exists ys, res_mapM f l = Ok ys /\ Forall2 P l ys.
Proof.
  induction l as [|x t IH]; intros Hf; simpl; [by exists []|].
  destruct (Hf x (or_introl eq_refl)) as (y & -> & Hy).
  destruct IH as (ys & -> & Hys); [intros; apply Hf; by right|].
  exists (y :: ys). split; [done|]. by constructor.
Qed.

(** ** Lemmas on Python's rounding *)

Lemma Qfloor_inject_Z z : Qfloor (inject_Z z) = z.
Proof. unfold Qfloor. simpl. apply Z.div_1_r. Qed.

Lemma round_half_even_bounds q :
  inject_Z (round_half_even q) - (1 # 2) <= q <= inject_Z (round_half_even q) + (1 # 2).
Proof.
  unfold round_half_even.
  pose proof (Qfloor_le q) as Hle. pose proof (Qlt_floor q) as Hlt.
  rewrite inject_Z_plus in Hlt.
  destruct (Qcompare_spec (q - inject_Z (Qfloor q)) (1 # 2)) as [Heq|Hlt'|Hgt].
  - destruct (Z.even _); rewrite ?inject_Z_plus; change (inject_Z 1) with 1 in *;
      split; lra.
  - change (inject_Z 1) with 1 in *. split; lra.
  - rewrite inject_Z_plus. change (inject_Z 1) with 1 in *. split; lra.
Qed.

Lemma round_half_even_Z z : round_half_even (inject_Z z) = z.
Proof.
  unfold round_half_even. rewrite Qfloor_inject_Z.
  destruct (Qcompare_spec (inject_Z z - inject_Z z) (1 # 2)); [lra|done|lra].
Qed.

Lemma py_round_Z z : py_round (inject_Z z) = inject_Z z.
Proof. unfold py_round. by rewrite round_half_even_Z. Qed.

#[export] Hint Rewrite round_half_even_Z py_round_Z Qfloor_inject_Z : anom_rw.

Lemma Qsq_nonneg (a : Q) : 0 <= a * a.
Proof. destruct (Qlt_le_dec a 0); nra. Qed.
#[export] Hint Resolve Qsq_nonneg : anom.

(** ** [min] and [max] of a list *)

Lemma fold_min_spec (t : list Z) x :
  (forall y, In y (x :: t) -> fold_left Z.min t x <= y)%Z /\ In (fold_left Z.min t x) (x :: t).
Proof.
  revert x. induction t as [|a t IH]; intros x; simpl.
  - split; [intros y [<-|[]]; lia|auto].
  - destruct (IH (Z.min x a)) as [H1 H2]. split.
    + intros y [<-|[<-|Hy]].
      * transitivity (Z.min x a); [apply H1; now left|lia].
      * transitivity (Z.min x a); [apply H1; now left|lia].
      * apply H1. now right.
    + destruct H2 as [<-|H2]; [|auto]. destruct (Z.min_spec x a) as [[_ ->]|[_ ->]]; auto.
Qed.

Lemma fold_max_spec (t : list Z) x :
  (forall y, In y (x :: t) -> y <= fold_left Z.max t x)%Z /\ In (fold_left Z.max t x) (x :: t).
Proof.
  revert x. induction t as [|a t IH]; intros x; simpl.
  - split; [intros y [<-|[]]; lia|auto].
  - destruct (IH (Z.max x a)) as [H1 H2]. split.
    + intros y [<-|[<-|Hy]].
      * transitivity (Z.max x a); [lia|apply H1; now left].
      * transitivity (Z.max x a); [lia|apply H1; now left].
      * apply H1. now right.
    + destruct H2 as [<-|H2]; [|auto]. destruct (Z.max_spec x a) as [[_ ->]|[_ ->]]; auto.
Qed.

Lemma py_min_Ok l : l <> [] ->
  exists m, py_min l = Ok m /\ In m l /\ (forall y, In y l -> m <= y)%Z.
Proof.
  destruct l as [|x t]; [done|]. intros _. destruct (fold_min_spec t x). simpl. eauto.
Qed.

Lemma py_max_Ok l : l <> [] ->
  exists m, py_max l = Ok m /\ In m l /\ (forall y, In y l -> y <= m)%Z.
Proof.
  destruct l as [|x t]; [done|]. intros _. destruct (fold_max_spec t x). simpl. eauto.
Qed.

Lemma res_map_Ok {A B} (f : A -> B) r b :
  res_map f r = Ok b -> exists a, r = Ok a /\ f a = b.
Proof. destruct r; simpl; intros H; inv_res; eauto. Qed.

Lemma res_map_Raise {A B} (f : A -> B) r e :
  res_map f r = Raise e -> r = Raise e.
Proof. destruct r; simpl; intros H; by inv_res. Qed.

(** Python's [<] on numbers. *)
Definition Qltb (a b : Q) : bool := negb (Qle_bool b a).

Lemma Qltb_iff a b : Qltb a b = true <-> a < b.
Proof.
  unfold Qltb. rewrite negb_true_iff. split.
  - intros H. apply Qnot_le_lt. intros H'. apply Qle_bool_iff in H'. congruence.
  - intros H. destruct (Qle_bool b a) eqn:E; [|done]. apply Qle_bool_iff in E. lra.
Qed.

(** ** Rounding respects [==] and the order *)

#[export] Instance Qfloor_proper : Proper (Qeq ==> eq) Qfloor.
Proof.
  intros x y H. apply Z.le_antisymm; apply Qfloor_resp_le; rewrite H; apply Qle_refl.
Qed.

#[export] Instance round_half_even_proper : Proper (Qeq ==> eq) round_half_even.
Proof.
  intros x y H. unfold round_half_even. rewrite (Qfloor_proper x y H).
  by rewrite (Qcompare_comp (x - inject_Z (Qfloor y)) (y - inject_Z (Qfloor y))
               ltac:(rewrite H; reflexivity) (1 # 2) (1 # 2) (Qeq_refl _)).
Qed.

Lemma round_half_even_floor q :
  (Qfloor q <= round_half_even q <= Qfloor q + 1)%Z.
Proof.
  unfold round_half_even. destruct (_ ?= _); [destruct (Z.even _)| |]; lia.
Qed.

Lemma round_half_even_mono q1 q2 : q1 <= q2 -> (round_half_even q1 <= round_half_even q2)%Z.
Proof.
  intros H. pose proof (Qfloor_resp_le _ _ H) as Hf.
  pose proof (round_half_even_floor q1). pose proof (round_half_even_floor q2).
  destruct (Z.lt_ge_cases (Qfloor q1) (Qfloor q2)) as [Hlt|Hge]; [lia|].
  assert (Heq : Qfloor q1 = Qfloor q2) by lia.
  unfold round_half_even. rewrite Heq.
  destruct (Qcompare_spec (q1 - inject_Z (Qfloor q2)) (1 # 2));
  destruct (Qcompare_spec (q2 - inject_Z (Qfloor q2)) (1 # 2));
  try lra; destruct (Z.even (Qfloor q2)); lia.
Qed.

Lemma py_round_n_mono n q1 q2 : q1 <= q2 -> py_round_n n q1 <= py_round_n n q2.
Proof.
  intros H. unfold py_round_n.
  assert (Hs : 0 < inject_Z (10 ^ Z.of_nat n)).
  { change 0 with (inject_Z 0). rewrite <- Zlt_Qlt. apply Z.pow_pos_nonneg; lia. }
  apply Qmult_le_compat_r; [|apply Qlt_le_weak, Qinv_lt_0_compat; done].
  rewrite <- Zle_Qle. apply round_half_even_mono. apply Qmult_le_compat_r; lra.
Qed.

Lemma Qle_bool_comp x x' y y' : x == x' -> y == y' -> Qle_bool x y = Qle_bool x' y'.
Proof.
  intros Hx Hy. destruct (Qle_bool x y) eqn:E1, (Qle_bool x' y') eqn:E2; try done.
  - apply Qle_bool_iff in E1. rewrite Hx, Hy in E1. apply Qle_bool_iff in E1. congruence.
  - apply Qle_bool_iff in E2. rewrite <- Hx, <- Hy in E2. apply Qle_bool_iff in E2. congruence.
Qed.

Lemma inject_Z_le_iff x y : (x <= y)%Z <-> inject_Z x <= inject_Z y.
Proof. rewrite Zle_Qle. reflexivity. Qed.

Lemma inject_Z_lt_iff x y : (x < y)%Z <-> inject_Z x < inject_Z y.
Proof. rewrite Zlt_Qlt. reflexivity. Qed.

(** [round(r / p)] for [0 <= r <= p]: ties go to the even 0. *)
Lemma round_ratio r p :
  (0 < p)%Z -> (0 <= r <= p)%Z ->
  round_half_even (inject_Z r / inject_Z p) = if (2 * r <=? p)%Z then 0%Z else 1%Z.
Proof.
  intros Hp Hr.
  assert (Hp' : 0 < inject_Z p) by (change 0 with (inject_Z 0); rewrite <- inject_Z_lt_iff; lia).
  assert (H0 : 0 <= inject_Z r) by (change 0 with (inject_Z 0); rewrite <- inject_Z_le_iff; lia).
  assert (H1 : inject_Z r <= inject_Z p) by (rewrite <- inject_Z_le_iff; lia).
  set (q := inject_Z r / inject_Z p).
  assert (Hq0 : 0 <= q) by (apply Qle_shift_div_l; lra).
  assert (Hq1 : q <= 1) by (apply Qle_shift_div_r; lra).
  pose proof (round_half_even_bounds q) as [Lo Hi].
  set (z := round_half_even q) in *.
  assert (H2 : inject_Z (2 * r) == 2 * inject_Z r) by (rewrite inject_Z_mult; reflexivity).
  assert (Lo' : inject_Z z <= q + (1 # 2)) by lra.
  assert (Hi' : q - (1 # 2) <= inject_Z z) by lra.
  destruct (Z.compare_spec (2 * r) p) as [E|E|E].
  - assert (Hr0 : ~ inject_Z r == 0).
    { intros Hz. rewrite <- E, H2, Hz in Hp'. lra. }
    assert (Hh : q == 1 # 2).
    { unfold q. rewrite <- E, H2. field. done. }
    unfold z. rewrite Hh. replace (2 * r <=? p)%Z with true by lia. reflexivity.
  - assert (Hl : q < 1 # 2).
    { apply Qlt_shift_div_r; [done|]. apply inject_Z_lt_iff in E. rewrite H2 in E. lra. }
    assert (Zu : (z < 1)%Z) by (rewrite inject_Z_lt_iff; change (inject_Z 1) with 1; lra).
    assert (Zl : (-1 < z)%Z) by (rewrite inject_Z_lt_iff; change (inject_Z (-1)) with (-1); lra).
    replace (2 * r <=? p)%Z with true by lia. lia.
  - assert (Hl : 1 # 2 < q).
    { apply Qlt_shift_div_l; [done|]. apply inject_Z_lt_iff in E. rewrite H2 in E. lra. }
    assert (Zu : (z < 2)%Z) by (rewrite inject_Z_lt_iff; change (inject_Z 2) with 2; lra).
    assert (Zl : (0 < z)%Z) by (rewrite inject_Z_lt_iff; change (inject_Z 0) with 0; lra).
    replace (2 * r <=? p)%Z with false by lia. lia.
Qed.

Lemma py_round_n_0 n q : q == 0 -> py_round_n n q == 0.
Proof.
  intros H. unfold py_round_n.
  rewrite (round_half_even_proper (q * inject_Z (10 ^ Z.of_nat n)) 0) by (rewrite H; ring).
  unfold Qdiv. change (inject_Z (round_half_even 0)) with 0. apply Qmult_0_l.
Qed.

(** ** Which exceptions a computation raises *)

Create HintDb raises.

Lemma raises_in_bind {A B} E (c : res A) (k : A -> res B) :
  raises_in E c -> (forall a, raises_in E (k a)) -> raises_in E (res_bind c k).
Proof. destruct c; simpl; auto. Qed.

Lemma raises_in_Raise {A} E e : In e E -> raises_in (A:=A) E (Raise e).
Proof. done. Qed.

Lemma raises_in_py_div E a b : In ZeroDivisionError E -> raises_in E (py_div a b).
Proof. unfold py_div. by destruct (Qeq_bool b 0). Qed.

Lemma raises_in_not {A} E e (r : res A) : raises_in E r -> ~ In e E -> r <> Raise e.
Proof. intros H Hn ->. exact (Hn H). Qed.

Lemma raises_one_of_bind {A B} E (c : res A) (k : A -> res B) :
  raises_in E c -> (forall a, raises_one_of E (k a)) -> raises_one_of E (res_bind c k).
Proof. destruct c; simpl; auto. Qed.

Lemma raises_one_of_bind_l {A B} E (c : res A) (k : A -> res B) :
  raises_one_of E c -> raises_one_of E (res_bind c k).
Proof. by destruct c. Qed.

Lemma raises_one_of_Raise {A} E e : In e E -> raises_one_of (A:=A) E (Raise e).
Proof. done. Qed.

Lemma raises_one_of_raises_in {A} E (r : res A) : raises_one_of E r -> raises_in E r.
Proof. by destruct r. Qed.

Lemma raises_one_of_not_Ok {A} E (r : res A) a : raises_one_of E r -> r <> Ok a.
Proof. by intros H ->. Qed.

#[export] Hint Resolve raises_in_py_div raises_in_Raise raises_one_of_Raise
  in_eq in_cons : raises.

(** Splits a computation at its binds and branches, and closes each leaf
    with the [raises] hints. *)
Ltac raises_auto :=
  repeat match goal with
  | |- raises_in _ (res_bind _ _) => apply raises_in_bind; [|intros ?]
  | |- raises_in _ (Ok _) => exact I
  | |- raises_in _ (match ?x with _ => _ end) => destruct x
  | |- raises_in _ (if ?b then _ else _) => destruct b
  end; eauto 10 with raises.

(** The same for a computation that never returns: the binds before the
    raising call may raise among [E]. *)
Ltac raises_one_auto :=
  repeat match goal with
  | |- raises_one_of _ (res_bind _ _) =>
      first [apply raises_one_of_bind_l; solve [eauto 10 with raises]
            | apply raises_one_of_bind; [eauto 10 with raises|intros ?]]
  | |- raises_one_of _ (match ?x with _ => _ end) => destruct x
  | |- raises_one_of _ (if ?b then _ else _) => destruct b
  end; eauto 10 with raises.

(** ** Relations kept by fallible loops *)

(** A relation that every successful step establishes between its input
    and its output holds between the start and the end of the loop. *)
Lemma res_fold_left_rel {A B} (R : B -> B -> Prop) (f : B -> A -> res B) l x y :
  (forall x, R x x) -> (forall x y z, R x y -> R y z -> R x z) ->
  (forall x a y, f x a = Ok y -> R x y) -> res_fold_left f l x = Ok y -> R x y.
Proof.
  intros Hr Ht Hf. revert x. induction l as [|a t IH]; intros x H; simpl in H.
  - injection H as <-. apply Hr.
  - apply res_bind_Ok in H as (x' & H1 & H2). eapply Ht; [exact (Hf _ _ _ H1)|]. by apply IH.
Qed.

(** Splits the hypotheses [res_bind c k = Ok b] into their steps. *)
Ltac res_inv :=
  repeat match goal with
  | H : res_bind _ _ = Ok _ |- _ => apply res_bind_Ok in H as (? & ? & H)
  end; inv_res.

