(* ===== verification/Stats.v ===== *)
(** * Statistics primitives

    [get_mean_and_variance] (src/app/utils.py, lines 107-114, and its copy
    in src/app/anomaly_detection.py, lines 34-41), Python's
    [statistics.variance] that it calls, and the SQL variance query that
    the baseline store runs in SQLite ([calculate_lines_variance_dev] and
    its siblings, utils.py lines 288-325), with SQLite's NULL for an
    empty aggregate and for a division by zero.

    The theorems: the function never raises and is (0,0) on an empty
    list, (x,0) on a singleton; the variance is non-negative, invariant
    under permutation and under shifting every value; and the SQL query
    computes the same variance whenever it is not NULL, and is NULL
    exactly on fewer than two rows. *)

From S2P Require Import Prelude.

Module Stats.

(** [sum(values)] *)
Fixpoint qsum (l : list Q) : Q :=
  match l with
  | [] => 0
  | x :: t => x + qsum t
  end.

(** [sum(values) / len(values)] *)
Definition mean (l : list Q) : Q := qsum l / Qlen l.

(** The sum of squared deviations from [m]. *)
Definition sq_dev (m : Q) (l : list Q) : Q :=
  qsum (map (fun x => (x - m) * (x - m)) l).

(** Python's [statistics.variance]: the sample variance (denominator
    n-1), which raises [StatisticsError] under two data points. *)
Definition statistics_variance (l : list Q) : res Q :=
  if (length l <? 2)%nat then Raise StatisticsError
  else Ok (sq_dev (mean l) l / (Qlen l - 1)).

(** utils.py, lines 107-114. *)
Definition get_mean_and_variance (values : list Q) : res (Q * Q) :=
  if (0 <? length values)%nat then
    let mean := qsum values / Qlen values in
    if (1 <? length values)%nat then
      let* var := statistics_variance values in Ok (mean, var)
    else Ok (mean, 0)
  else Ok (0, 0).

(** ** The SQL variance query, evaluated by SQLite

    [SELECT SUM((a - (SELECT AVG(a) ...)) * (a - (SELECT AVG(a) ...)))
       / (COUNT(a) - 1)]: [AVG] and [SUM] of no rows are NULL, every
    arithmetic operation on NULL is NULL, and SQLite's division by zero
    is NULL as well. *)

Definition sql_avg (l : list Q) : option Q :=
  match l with
  | [] => None
  | _ => Some (qsum l / Qlen l)
  end.

Definition sql_sum (l : list Q) : option Q :=
  match l with
  | [] => None
  | _ => Some (qsum l)
  end.

Definition sql_div (a : option Q) (b : Q) : option Q :=
  match a with
  | None => None
  | Some x => if Qeq_bool b 0 then None else Some (x / b)
  end.

Definition sql_variance (l : list Q) : option Q :=
  match sql_avg l with
  | None => None
  | Some m => sql_div (sql_sum (map (fun x => (x - m) * (x - m)) l)) (Qlen l - 1)
  end.

(** ** Lemmas on sums *)

Lemma qsum_app l1 l2 : qsum (l1 ++ l2) == qsum l1 + qsum l2.
Proof. induction l1 as [|x t IH]; simpl; [ring|]. rewrite IH. ring. Qed.

#[export] Instance qsum_perm : Proper (@Permutation Q ==> Qeq) qsum.
Proof.
  intros l l' H. induction H; simpl.
  - reflexivity.
  - by rewrite IHPermutation.
  - ring.
  - by rewrite IHPermutation1, IHPermutation2.
Qed.

#[export] Instance Qlen_perm : Proper (@Permutation Q ==> Qeq) Qlen.
Proof. intros l l' H. unfold Qlen. by rewrite (Permutation_length H). Qed.

Lemma qsum_map_ext (f g : Q -> Q) l :
  (forall x, In x l -> f x == g x) -> qsum (map f l) == qsum (map g l).
Proof.
  induction l as [|x t IH]; simpl; intros H; [reflexivity|].
  rewrite (H x (or_introl eq_refl)), IH; [reflexivity|]. auto.
Qed.

Lemma qsum_map_shift l c :
  qsum (map (fun x => x + c) l) == qsum l + Qlen l * c.
Proof.
  unfold Qlen. induction l as [|x t IH]; simpl; [ring|].
  rewrite IH, Nat2Z.inj_succ, <- Z.add_1_r, inject_Z_plus. ring.
Qed.

Lemma qsum_map_nonneg (f : Q -> Q) l :
  (forall x, 0 <= f x) -> 0 <= qsum (map f l).
Proof.
  intros H. induction l as [|x t IH]; simpl; [lra|].
  specialize (H x). lra.
Qed.

Lemma Qlen_map {A B} (f : A -> B) l : Qlen (map f l) = Qlen l.
Proof. unfold Qlen. by rewrite length_map. Qed.

Lemma Qlen_gt1 (l : list Q) : (2 <= length l)%nat -> 1 < Qlen l.
Proof.
  intros H. unfold Qlen. change 1 with (inject_Z 1).
  rewrite <- Zlt_Qlt. lia.
Qed.

Lemma Qlen_pos (l : list Q) : (1 <= length l)%nat -> 0 < Qlen l.
Proof.
  intros H. unfold Qlen. change 0 with (inject_Z 0).
  rewrite <- Zlt_Qlt. lia.
Qed.

Lemma sq_dev_nonneg m l : 0 <= sq_dev m l.
Proof. apply qsum_map_nonneg. intros x. apply Qsq_nonneg. Qed.

Lemma sq_dev_shift m c l :
  sq_dev (m + c) (map (fun x => x + c) l) == sq_dev m l.
Proof.
  unfold sq_dev. rewrite map_map. apply qsum_map_ext. intros x _. ring.
Qed.

#[export] Instance sq_dev_proper : Proper (Qeq ==> @Permutation Q ==> Qeq) sq_dev.
Proof.
  intros m m' Hm l l' Hl. unfold sq_dev.
  rewrite (Permutation_map _ Hl). apply qsum_map_ext. intros x _. by rewrite Hm.
Qed.

#[export] Instance mean_perm : Proper (@Permutation Q ==> Qeq) mean.
Proof. intros l l' H. unfold mean. by rewrite H. Qed.

Lemma mean_shift l c :
  (1 <= length l)%nat -> mean (map (fun x => x + c) l) == mean l + c.
Proof.
  intros H. pose proof (Qlen_pos l H) as Hp. unfold mean.
  rewrite qsum_map_shift. unfold Qlen in *. rewrite length_map.
  field. lra.
Qed.

Lemma statistics_variance_Ok l :
  (2 <= length l)%nat -> statistics_variance l = Ok (sq_dev (mean l) l / (Qlen l - 1)).
Proof.
  intros H. unfold statistics_variance.
  destruct (Nat.ltb_spec (length l) 2); [lia|done].
Qed.

Lemma div_nonneg a b : 0 <= a -> 0 < b -> 0 <= a / b.
Proof. intros Ha Hb. apply Qle_shift_div_l; [done|]. lra. Qed.

#[export] Hint Resolve sq_dev_nonneg Qlen_gt1 Qlen_pos div_nonneg : anom.

(** The shape of every result of [get_mean_and_variance]. *)
Lemma get_mean_and_variance_cases l :
  (l = [] /\ get_mean_and_variance l = Ok (0, 0)) \/
  (length l = 1%nat /\ get_mean_and_variance l = Ok (mean l, 0)) \/
  ((2 <= length l)%nat /\
   get_mean_and_variance l = Ok (mean l, sq_dev (mean l) l / (Qlen l - 1))).
Proof.
  unfold get_mean_and_variance.
  destruct l as [|x [|y t]]; [left; done| right; left; done|right; right].
  split; [simpl; lia|]. simpl (0 <? _)%nat; simpl (1 <? _)%nat.
  rewrite statistics_variance_Ok by (simpl; lia). done.
Qed.

Lemma sql_variance_spec l :
  sql_variance l =
    if (length l <? 2)%nat then None else Some (sq_dev (mean l) l / (Qlen l - 1)).
Proof.
  destruct l as [|x [|y t]]; [done|done|].
  pose proof (Qlen_gt1 (x :: y :: t) ltac:(simpl; lia)) as H.
  unfold sql_variance. simpl (sql_avg _). simpl (sql_sum _). unfold sql_div.
  destruct (Qeq_bool _ 0) eqn:E; [|done].
  apply Qeq_bool_iff in E. exfalso. lra.
Qed.


Lemma get_mean_and_variance_mean l m v :
  get_mean_and_variance l = Ok (m, v) -> l <> [] -> m = mean l.
Proof.
  intros H Hn.
  destruct (get_mean_and_variance_cases l) as [[-> _]|[[_ E]|[_ E]]];
  [done| |]; rewrite E in H; by inv_res.
Qed.

Lemma qsum_map_QZ_ge (l : list Z) lo :
  (forall x, In x l -> lo <= x)%Z -> Qlen l * inject_Z lo <= qsum (map inject_Z l).
Proof.
  unfold Qlen. induction l as [|x t IH]; intros H; cbn [length map qsum].
  { change (inject_Z (Z.of_nat 0)) with 0. lra. }
  rewrite Nat2Z.inj_succ, <- Z.add_1_r, inject_Z_plus.
  assert (Hx : inject_Z lo <= inject_Z x) by (rewrite <- Zle_Qle; apply H; now left).
  specialize (IH (fun y Hy => H y (or_intror Hy))). change (inject_Z 1) with 1. nra.
Qed.

Lemma qsum_map_QZ_le (l : list Z) hi :
  (forall x, In x l -> x <= hi)%Z -> qsum (map inject_Z l) <= Qlen l * inject_Z hi.
Proof.
  unfold Qlen. induction l as [|x t IH]; intros H; cbn [length map qsum].
  { change (inject_Z (Z.of_nat 0)) with 0. lra. }
  rewrite Nat2Z.inj_succ, <- Z.add_1_r, inject_Z_plus.
  assert (Hx : inject_Z x <= inject_Z hi) by (rewrite <- Zle_Qle; apply H; now left).
  specialize (IH (fun y Hy => H y (or_intror Hy))). change (inject_Z 1) with 1. nra.
Qed.

(** The mean of a non-empty list of integers lies between any lower and
    upper bound of its elements. *)
Lemma mean_bounds (l : list Z) lo hi :
  l <> [] -> (forall x, In x l -> lo <= x <= hi)%Z ->
  inject_Z lo <= mean (map inject_Z l) <= inject_Z hi.
Proof.
  intros Hn H. destruct l as [|x t]; [done|].
  pose proof (Qlen_pos (map inject_Z (x :: t)) ltac:(simpl; lia)) as Hp.
  pose proof (qsum_map_QZ_ge (x :: t) lo (fun y Hy => proj1 (H y Hy))) as H1.
  pose proof (qsum_map_QZ_le (x :: t) hi (fun y Hy => proj2 (H y Hy))) as H2.
  rewrite Qlen_map in Hp. unfold mean. rewrite Qlen_map. split.
  - apply Qle_shift_div_l; [done|]. lra.
  - apply Qle_shift_div_r; [done|]. lra.
Qed.

(** ** Properties of [get_mean_and_variance] *)

Lemma gmv_total l :
  exists m v : Q, get_mean_and_variance l = Ok (m, v) /\ 0 <= v /\
    (l = [] -> m == 0 /\ v == 0) /\
    (forall x, l = [x] -> m == x /\ v == 0).
Proof.
  destruct (get_mean_and_variance_cases l) as [[-> ->]|[[Hl ->]|[Hl ->]]].
  - exists 0, 0. repeat split; try lra; intros; discriminate.
  - exists (mean l), 0. repeat split; try lra; intros; subst; try discriminate.
    unfold mean, Qlen. simpl. field.
  - exists (mean l), (sq_dev (mean l) l / (Qlen l - 1)).
    repeat split; intros; subst; simpl in Hl; try lia.
    apply div_nonneg; [apply sq_dev_nonneg|]. pose proof (Qlen_gt1 l Hl). lra.
Qed.

(** C4. [get_mean_and_variance] never raises: on an empty list it is
    (0, 0), on a singleton [x] it is (x, 0), and the variance it returns
    is never negative. *)
Theorem get_mean_and_variance_total l :
  exists m v : Q, get_mean_and_variance l = Ok (m, v) /\ 0 <= v /\
    (l = [] -> m == 0 /\ v == 0) /\
    (forall x, l = [x] -> m == x /\ v == 0).
Proof. apply gmv_total. Qed.

(** The mean and the variance do not depend on the order of the
    values: a permutation of the input gives equal results. *)
Theorem get_mean_and_variance_perm l l' m v :
  Permutation l l' -> get_mean_and_variance l = Ok (m, v) ->
  exists m' v' : Q, get_mean_and_variance l' = Ok (m', v') /\ m == m' /\ v == v'.
Proof.
  intros HP H. pose proof (Permutation_length HP) as Hlen.
  destruct (get_mean_and_variance_cases l) as [[-> E]|[[Hl E]|[Hl E]]];
  destruct (get_mean_and_variance_cases l') as [[-> E']|[[Hl' E']|[Hl' E']]];
  rewrite E in H; inv_res; rewrite E'; simpl in *; try lia;
  (eexists _, _; split; [reflexivity|]).
  - split; reflexivity.
  - split; [by rewrite HP|reflexivity].
  - split; [by rewrite HP|]. by rewrite HP.
Qed.

(** Adding a constant [c] to every value shifts the mean by [c] and
    leaves the variance unchanged. *)
Theorem get_mean_and_variance_shift l c m v :
  get_mean_and_variance l = Ok (m, v) ->
  exists m' v' : Q, get_mean_and_variance (map (fun x => x + c) l) = Ok (m', v') /\
    v' == v /\ (l <> [] -> m' == m + c).
Proof.
  intros H.
  destruct (get_mean_and_variance_cases l) as [[-> E]|[[Hl E]|[Hl E]]];
  rewrite E in H; inv_res.
  - eexists _, _. split; [reflexivity|]. split; [reflexivity|]. done.
  - destruct (get_mean_and_variance_cases (map (fun x => x + c) l))
      as [[Hn _]|[[_ E']|[Hl' _]]]; rewrite ?length_map in *.
    + apply map_eq_nil in Hn. subst. discriminate.
    + rewrite E'. eexists _, _. split; [reflexivity|]. split; [reflexivity|].
      intros _. apply mean_shift. lia.
    + lia.
  - destruct (get_mean_and_variance_cases (map (fun x => x + c) l))
      as [[Hn _]|[[Hl' _]|[_ E']]]; rewrite ?length_map in *; try lia.
    + apply map_eq_nil in Hn. subst. simpl in Hl. lia.
    + rewrite E'. eexists _, _. split; [reflexivity|].
      assert (Hm : mean (map (fun x => x + c) l) == mean l + c) by (apply mean_shift; lia).
      split; [|done].
      rewrite Qlen_map.
      rewrite (sq_dev_proper _ _ Hm _ _ (Permutation_refl _)), sq_dev_shift. reflexivity.
Qed.

Lemma sql_variance_agrees l m v :
  get_mean_and_variance l = Ok (m, v) ->
  (sql_variance l = None <-> (length l < 2)%nat) /\
  (forall s, sql_variance l = Some s -> s == v).
Proof.
  intros H. rewrite sql_variance_spec.
  destruct (Nat.ltb_spec (length l) 2);
  destruct (get_mean_and_variance_cases l) as [[-> E]|[[Hl E]|[Hl E]]];
  rewrite E in H; inv_res; simpl in *; try lia.
  - split; [split; [lia|done]|discriminate].
  - split; [split; [lia|done]|discriminate].
  - split; [split; [discriminate|lia]|]. intros s Hs. injection Hs as <-. reflexivity.
Qed.

(** C28. The SQL variance query of the baseline store computes the same
    variance as [get_mean_and_variance] whenever SQLite returns a number,
    and SQLite returns NULL exactly when there are fewer than two rows. *)
Theorem sql_variance_refines l m v :
  get_mean_and_variance l = Ok (m, v) ->
  (sql_variance l = None <-> (length l < 2)%nat) /\
  (forall s, sql_variance l = Some s -> s == v).
Proof. apply sql_variance_agrees. Qed.

(** ** Witnesses *)

Lemma get_mean_and_variance_perm_witness :
  exists m v : Q, get_mean_and_variance [1; 2; 3] = Ok (m, v) /\
  exists m' v' : Q, get_mean_and_variance [3; 1; 2] = Ok (m', v') /\ m == m' /\ v == v'.
Proof.
  eexists _, _. split; [vm_compute; reflexivity|].
  apply (get_mean_and_variance_perm [1; 2; 3]).
  - apply Permutation_sym, (Permutation_cons_append [1; 2] 3).
  - vm_compute. reflexivity.
Defined.

Lemma get_mean_and_variance_shift_witness :
  exists m v : Q, get_mean_and_variance [1; 5] = Ok (m, v) /\
  exists m' v' : Q, get_mean_and_variance (map (fun x => x + 10) [1; 5]) = Ok (m', v') /\
    v' == v /\ ([1; 5] <> [] -> m' == m + 10).
Proof.
  eexists _, _. split; [vm_compute; reflexivity|].
  apply get_mean_and_variance_shift. vm_compute. reflexivity.
Defined.

Lemma sql_variance_refines_witness :
  exists m v : Q, get_mean_and_variance [2; 4; 9] = Ok (m, v) /\
  (sql_variance [2; 4; 9] = None <-> (length [2; 4; 9] < 2)%nat) /\
  (forall s, sql_variance [2; 4; 9] = Some s -> s == v).
Proof.
  eexists _, _. split; [vm_compute; reflexivity|].
  eapply sql_variance_refines. vm_compute. reflexivity.
Defined.

End Stats.
