(* ===== verification/Model.v ===== *)
(** * The data model (src/app/models.py) and the queries the core shares

    The SQLAlchemy tables of models.py as records, the database as a
    record of tables (each a list of rows in insertion order), the GitHub
    API payloads the code reads (a commit with its files), and the
    queries that several components run: [one_or_none] and [one] with the
    exceptions SQLAlchemy raises, [get_developer] (utils.py) and
    [first_commit] (rule_check.py), and the join of a developer's
    commits.  A SQL [JOIN ... WHERE] is modelled as the list of the row
    pairs that satisfy the condition, in the order of the driving table. *)

From S2P Require Import Prelude.

Module Model.

(** models.py, lines 18-31: [class Developer]. *)
Record Developer := mkDeveloper {
  dev_id : Z;
  username : string;
  contributions : Z;
  account_creation : Z;   (** a timestamp, in seconds *)
  follower_number : Z
}.

(** models.py, lines 38-56: [class Commits]. *)
Record Commit := mkCommit {
  commit_id : Z;
  day : Z;                (** a calendar day, as a day number *)
  timestamp : Z;          (** in seconds *)
  message : string;
  new_lines : Z;
  removed_lines : Z;
  changed_chars : Z;
  added_files : Z;
  modified_files : Z;
  removed_files : Z;
  renamed_files : Z;
  commit_developer : option Z;
  languages : list (string * Z)   (** the dictionary [json.dumps] stores, in insertion order *)
}.

(** The [status] of a file in a GitHub commit payload. *)
Inductive FileStatus :=
  | Added | Modified | Removed | Renamed | Copied | Changed | Unchanged.

#[export] Instance FileStatus_eq_dec : EqDecision FileStatus.
Proof. solve_decision. Defined.

(** models.py, lines 63-72: [class File]. *)
Record File := mkFile {
  file_id : Z;
  filename : string;
  previous_filename : option string;
  file_owner : option Z   (** [developer_id], the file's author *)
}.

(** models.py, lines 8-15: [class CommitsFiles], the association table. *)
Record CommitsFiles := mkCommitsFiles {
  cf_commit : Z;
  cf_file : Z;
  cf_status : FileStatus
}.

(** models.py, lines 78-108: [class CommitsStats], one row per developer
    and day.  [time_intervals_min]/[max] hold timestamps (the code stores
    [min(commits_time)] there). *)
Record CommitsStats := mkCommitsStats {
  cs_date : Z;
  cs_number_commits : Z;
  cs_time_intervals_min : Z;
  cs_time_intervals_max : Z;
  cs_time_intervals_mean : Q;
  cs_time_intervals_var : Q;
  cs_changed_lines_min : Z;
  cs_changed_lines_max : Z;
  cs_changed_lines_mean : Q;
  cs_changed_lines_var : Q;
  cs_changed_chars_min : Z;
  cs_changed_chars_max : Z;
  cs_changed_chars_mean : Q;
  cs_changed_chars_var : Q;
  cs_comments_size_min : Z;
  cs_comments_size_max : Z;
  cs_comments_size_mean : Q;
  cs_comments_size_var : Q;
  cs_added_files_mean : Q;
  cs_added_files_var : Q;
  cs_modified_files_mean : Q;
  cs_modified_files_var : Q;
  cs_removed_files_mean : Q;
  cs_removed_files_var : Q;
  cs_developer : Z
}.

(** The fifteen columns shared by [DeveloperStats] (models.py, lines
    111-131) and [RepoStats] (lines 134-152).  An average is [None] when
    SQLite's [AVG] ran over no rows. *)
Record Baseline := mkBaseline {
  new_lines_avg : option Q; new_lines_std : Q; new_lines_var : Q;
  removed_lines_avg : option Q; removed_lines_std : Q; removed_lines_var : Q;
  added_files_avg : option Q; added_files_std : Q; added_files_var : Q;
  modified_files_avg : option Q; modified_files_std : Q; modified_files_var : Q;
  removed_files_avg : option Q; removed_files_std : Q; removed_files_var : Q
}.

Record DeveloperStats := mkDeveloperStats {
  ds_developer : Z;
  ds_baseline : Baseline
}.

Record RepoStats := mkRepoStats {
  rs_id : Z;
  rs_baseline : Baseline
}.

(** models.py, lines 155-163: [class Pull]. *)
Record Pull := mkPull {
  pull_merged : bool;
  pull_state : string;
  pull_developer : option Z
}.

(** The database: one list of rows per table. *)
Record Db := mkDb {
  developers : list Developer;
  commits : list Commit;
  files : list File;
  commits_files : list CommitsFiles;
  commits_stats : list CommitsStats;
  developer_stats : list DeveloperStats;
  repo_stats : list RepoStats;
  pulls : list Pull
}.

(** ** Configuration and environment *)

(** The thresholds of rules.ini ([rules['Rules']] and [rules['Trust']]),
    read once; [Sensitive_Files] is a comma-separated list of extensions. *)
Record Config := mkConfig {
  sensitive_files : list string;          (** Rules.Sensitive_Files *)
  sensitive_files_threshold : Z;          (** Rules.Sensitive_Files_Threshold *)
  not_touched_files : Q;                  (** Rules.Not_Touched_Files *)
  owned_majority_files : Q;               (** Rules.Owned_Majority_Files *)
  new_files_outlier : Q;                  (** Rules.New_Files_Outlier *)
  contributions_threshold : Z;            (** Rules.Contributions *)
  trust_threshold : Q;                    (** Trust.Trust_Threshold *)
  min_time_contributor : Z;               (** Trust.Min_Time_Contributor, days *)
  few_commits_threshold : Q;              (** Trust.Few_Commits_Threshold *)
  same_day_commits : Q;                   (** Trust.Same_Day_Commits *)
  rejected_pr : Q                         (** Trust.Rejected_PR *)
}.

(** What the core reads outside the database: today's date (a day
    number) and the [total_count] of GitHub's commit search for an
    author ([None] when the response has no such key). *)
Record Env := mkEnv {
  today : Z;
  search_total_count : string -> option Z
}.

(** ** GitHub API payloads *)

(** An entry of a commit's ['files'] list. *)
Record FilePayload := mkFilePayload {
  fp_filename : string;
  fp_status : FileStatus;
  fp_patch : option string;          (** absent for binary files *)
  fp_previous_filename : option string
}.

(** The commit JSON of [GET /repos/{owner}/{repo}/commits/{sha}]. *)
Record CommitPayload := mkCommitPayload {
  cp_date : Z;                       (** ['commit']['author']['date'] *)
  cp_message : string;               (** ['commit']['message'] *)
  cp_additions : Z;                  (** ['stats']['additions'] *)
  cp_deletions : Z;                  (** ['stats']['deletions'] *)
  cp_total : Z;                      (** ['stats']['total'] *)
  cp_files : list FilePayload
}.

(** ** Queries *)

(** SQLAlchemy's [Query.one_or_none()] and [Query.one()]. *)
Definition one_or_none {A} (rows : list A) : res (option A) :=
  match rows with
  | [] => Ok None
  | [x] => Ok (Some x)
  | _ => Raise MultipleResultsFound
  end.

Definition one {A} (rows : list A) : res A :=
  match rows with
  | [] => Raise NoResultFound
  | [x] => Ok x
  | _ => Raise MultipleResultsFound
  end.

Definition developers_named (db : Db) (u : string) : list Developer :=
  List.filter (fun d => String.eqb (username d) u) (developers db).

(** utils.py, lines 35-36. *)
Definition get_developer (u : string) (db : Db) : res (option Developer) :=
  one_or_none (developers_named db u).

(** rule_check.py, lines 168-170. *)
Definition first_commit (db : Db) (u : string) : res bool :=
  let* dev := one_or_none (developers_named db u) in
  Ok (match dev with None => true | Some _ => false end).

Definition owned_by (c : option Z) (d : Developer) : bool :=
  match c with
  | Some i => Z.eqb i (dev_id d)
  | None => false
  end.

(** [query(Commits).join(Developer).filter(Developer.username == u)]. *)
Definition commits_of_user (db : Db) (u : string) : list Commit :=
  flat_map (fun c =>
    map (fun _ => c) (List.filter (owned_by (commit_developer c)) (developers_named db u)))
    (commits db).

(** [query(Pull).join(Developer).filter(Developer.username == u)]. *)
Definition pulls_of_user (db : Db) (u : string) : list Pull :=
  flat_map (fun p =>
    map (fun _ => p) (List.filter (owned_by (pull_developer p)) (developers_named db u)))
    (pulls db).

(** Developer ids are the table's primary key. *)
Definition dev_ids_unique (db : Db) : Prop := NoDup (map dev_id (developers db)).

(** ** The exceptions of the queries *)

Lemma one_or_none_raises {A} E (l : list A) :
  In MultipleResultsFound E -> raises_in E (one_or_none l).
Proof. intros H. destruct l as [|x [|y t]]; simpl; auto. Qed.

Lemma one_raises {A} E (l : list A) :
  In MultipleResultsFound E -> In NoResultFound E -> raises_in E (one l).
Proof. intros H1 H2. destruct l as [|x [|y t]]; simpl; auto. Qed.

Lemma first_commit_raises E db u :
  In MultipleResultsFound E -> raises_in E (first_commit db u).
Proof. intros H. unfold first_commit. raises_auto. by apply one_or_none_raises. Qed.

#[export] Hint Resolve one_or_none_raises one_raises first_commit_raises : raises.

End Model.
