(* ===== verification/Features.v ===== *)
(** * The feature extractor

    What the code derives from a GitHub commit payload: the changed
    characters of a patch (utils.py lines 76-80, and the per-line variant
    of anomaly_detection.py lines 65-69), a file's extension (utils.py line
    70, rule_check.py line 28), the per-status file counts (rule_check.py
    [count_files_by_status], lines 76-88; anomaly_detection.py lines 55-64;
    utils.py lines 99-102), the time intervals between consecutive commits
    (utils.py lines 124-130, anomaly_detection.py lines 78-84), and the
    sixteen-field feature vector of [parse_commits] (anomaly_detection.py,
    lines 44-92).

    Strings are Rocq [string]s (byte strings): [len] is [String.length].
    Python's [str.split] is [py_split]; the index [line[0]] raises
    [IndexError] on an empty line, which is what the code does on an
    empty patch or a patch with an empty line.

    The theorems: the changed-character count raises exactly on a patch
    with an empty line and otherwise sums the [+]/[-] lines, and the
    per-line variant agrees with it; the two extension computations and
    the two status counts agree; the time-interval loop yields the
    consecutive differences; [parse_commits] raises on an empty list or
    a malformed patch and otherwise returns a vector whose fields are the
    statistics of the commits. *)

From S2P Require Import Prelude Stats Model.

Module Features.
Import Stats Model.

(** ** Python string operations *)

(** [s.split(sep)] *)
Fixpoint py_split (sep : ascii) (s : string) : list string :=
  match s with
  | EmptyString => [EmptyString]
  | String c t =>
      let parts := py_split sep t in
      if Ascii.eqb c sep then EmptyString :: parts
      else match parts with
           | p :: ps => String c p :: ps
           | [] => [String c EmptyString]
           end
  end.

(** [sep.join(parts)] *)
Fixpoint py_join (sep : ascii) (parts : list string) : string :=
  match parts with
  | [] => EmptyString
  | [p] => p
  | p :: ps => (p ++ String sep (py_join sep ps))%string
  end.

(** [s.rfind(c)], with [None] for Python's [-1]. *)
Fixpoint py_rfind (c : ascii) (s : string) : option nat :=
  match s with
  | EmptyString => None
  | String x t =>
      match py_rfind c t with
      | Some i => Some (S i)
      | None => if Ascii.eqb x c then Some 0%nat else None
      end
  end.

(** [s[k:]] *)
Fixpoint py_slice_from (k : nat) (s : string) : string :=
  match k, s with
  | 0%nat, _ => s
  | S k', String _ t => py_slice_from k' t
  | S _, EmptyString => EmptyString
  end.

Definition newline : ascii := Ascii.ascii_of_nat 10.
Definition dot : ascii := "."%char.

(** ** Changed characters of a patch *)

(** utils.py, lines 79-80: [if line_change[0] == '+' or line_change[0] == '-']. *)
Definition line_changed_chars (line : string) : res Z :=
  match line with
  | EmptyString => Raise IndexError
  | String c _ =>
      if Ascii.eqb c "+"%char || Ascii.eqb c "-"%char
      then Ok (Z.of_nat (String.length line)) else Ok 0%Z
  end.

(** utils.py, lines 76-80: the characters of the lines of [patch] that
    begin with [+] or [-], added to the running count [acc]. *)
Definition patch_changed_chars (acc : Z) (patch : string) : res Z :=
  res_fold_left (fun n line => let* k := line_changed_chars line in Ok (n + k)%Z)
    (py_split newline patch) acc.

(** anomaly_detection.py, lines 65-69: the same scan, appending the
    length of each changed line to [changed_chars]. *)
Definition patch_changed_lines (acc : list Z) (patch : string) : res (list Z) :=
  res_fold_left (fun l line =>
      match line with
      | EmptyString => Raise IndexError
      | String c _ =>
          if Ascii.eqb c "+"%char || Ascii.eqb c "-"%char
          then Ok (l ++ [Z.of_nat (String.length line)]) else Ok l
      end)
    (py_split newline patch) acc.

(** ** Extensions *)

(** utils.py, line 70: [filename[filename.rfind('.') + 1:]]. *)
Definition file_type (filename : string) : string :=
  match py_rfind dot filename with
  | None => py_slice_from 0 filename
  | Some i => py_slice_from (S i) filename
  end.

(** rule_check.py, line 28: [i.split('.')[-1]]. *)
Definition extension (i : string) : string :=
  List.last (py_split dot i) EmptyString.

(** ** File counts per status *)

Record StatusCount := mkStatusCount {
  sc_added : Z;
  sc_modified : Z;
  sc_removed : Z
}.

(** rule_check.py, lines 76-88: three independent [if]s per file. *)
Definition count_files_by_status (fs : list FilePayload) : StatusCount :=
  fold_left (fun acc f =>
      let st := fp_status f in
      {| sc_added := sc_added acc + (if decide (st = Added) then 1 else 0);
         sc_modified := sc_modified acc + (if decide (st = Modified) then 1 else 0);
         sc_removed := sc_removed acc + (if decide (st = Removed) then 1 else 0) |}%Z)
    fs (mkStatusCount 0 0 0).

(** anomaly_detection.py, lines 59-64: an [if]/[elif]/[elif] chain. *)
Definition parse_status_step (acc : StatusCount) (f : FilePayload) : StatusCount :=
  match fp_status f with
  | Added => {| sc_added := sc_added acc + 1; sc_modified := sc_modified acc;
                sc_removed := sc_removed acc |}
  | Modified => {| sc_added := sc_added acc; sc_modified := sc_modified acc + 1;
                   sc_removed := sc_removed acc |}
  | Removed => {| sc_added := sc_added acc; sc_modified := sc_modified acc;
                  sc_removed := sc_removed acc + 1 |}
  | _ => acc
  end%Z.

Definition parse_status_counts (fs : list FilePayload) : StatusCount :=
  fold_left parse_status_step fs (mkStatusCount 0 0 0).

(** ** Time intervals *)

(** utils.py, lines 124-130: [for i in range(len): if len == i + 1: break;
    delta = commits_time[i] - commits_time[i + 1]]. *)
Definition time_intervals (commits_time : list Z) : list Z :=
  if (1 <? length commits_time)%nat then
    map (fun i => nth i commits_time 0 - nth (S i) commits_time 0)%Z
      (seq 0 (length commits_time - 1))
  else [].

(** The same differences, by structural recursion. *)
Fixpoint consecutive_deltas (ts : list Z) : list Z :=
  match ts with
  | a :: ((b :: _) as t) => (a - b)%Z :: consecutive_deltas t
  | _ => []
  end.


(** ** The feature vector of [parse_commits] *)

(** The sixteen features, in the order of the array the code builds. *)
Record FeatureVector := mkFeatureVector {
  fv_times_mean : Q;
  fv_commits : Q;
  fv_changed_chars_mean : Q;
  fv_changed_chars_var : Q;
  fv_lines_mean : Q;
  fv_lines_var : Q;
  fv_lines_min : Q;
  fv_lines_max : Q;
  fv_comments_size_mean : Q;
  fv_comments_size_var : Q;
  fv_added_files_mean : Q;
  fv_added_files_var : Q;
  fv_modified_files_mean : Q;
  fv_modified_files_var : Q;
  fv_removed_files_mean : Q;
  fv_removed_files_var : Q
}.

(** The lists [parse_commits] appends to (lines 45-51). *)
Record ParseState := mkParseState {
  ps_changed_chars : list Z;
  ps_changed_lines : list Z;
  ps_messages_len : list Z;
  ps_timestamps : list Z;
  ps_added : list Z;
  ps_modified : list Z;
  ps_removed : list Z
}.

Definition parse_init : ParseState := mkParseState [] [] [] [] [] [] [].

(** Lines 58-69: one file of a commit, its status counted, then its
    patch scanned. *)
Definition parse_file (acc : StatusCount * list Z) (f : FilePayload)
    : res (StatusCount * list Z) :=
  let '(cnt, chars) := acc in
  let cnt' := parse_status_step cnt f in
  match fp_patch f with
  | None => Ok (cnt', chars)
  | Some patch => let* chars' := patch_changed_lines chars patch in Ok (cnt', chars')
  end.

(** Lines 52-74: one commit. *)
Definition parse_commit (st : ParseState) (c : CommitPayload) : res ParseState :=
  let* '(cnt, chars) :=
    res_fold_left parse_file (cp_files c) (mkStatusCount 0 0 0, ps_changed_chars st) in
  Ok {| ps_changed_chars := chars;
        ps_changed_lines := ps_changed_lines st ++ [cp_total c];
        ps_messages_len := ps_messages_len st ++ [Z.of_nat (String.length (cp_message c))];
        ps_timestamps := ps_timestamps st ++ [cp_date c];
        ps_added := ps_added st ++ [sc_added cnt];
        ps_modified := ps_modified st ++ [sc_modified cnt];
        ps_removed := ps_removed st ++ [sc_removed cnt] |}.

Definition gmv_Z (l : list Z) : res (Q * Q) := get_mean_and_variance (map QZ l).

(** anomaly_detection.py, lines 44-92. *)
Definition parse_commits (cs : list CommitPayload) : res FeatureVector :=
  let* st := res_fold_left parse_commit cs parse_init in
  let* '(lines_mean, lines_var) := gmv_Z (ps_changed_lines st) in
  let* '(chars_mean, chars_var) := gmv_Z (ps_changed_chars st) in
  let* '(times_mean, times_var) := gmv_Z (time_intervals (ps_timestamps st)) in
  let* '(comments_mean, comments_var) := gmv_Z (ps_messages_len st) in
  let* '(added_mean, added_var) := gmv_Z (ps_added st) in
  let* '(modified_mean, modified_var) := gmv_Z (ps_modified st) in
  let* '(removed_mean, removed_var) := gmv_Z (ps_removed st) in
  let* lines_min := py_min (ps_changed_lines st) in
  let* lines_max := py_max (ps_changed_lines st) in
  Ok {| fv_times_mean := times_mean; fv_commits := Qlen cs;
        fv_changed_chars_mean := chars_mean; fv_changed_chars_var := chars_var;
        fv_lines_mean := lines_mean; fv_lines_var := lines_var;
        fv_lines_min := QZ lines_min; fv_lines_max := QZ lines_max;
        fv_comments_size_mean := comments_mean; fv_comments_size_var := comments_var;
        fv_added_files_mean := added_mean; fv_added_files_var := added_var;
        fv_modified_files_mean := modified_mean; fv_modified_files_var := modified_var;
        fv_removed_files_mean := removed_mean; fv_removed_files_var := removed_var |}.

(** The characters the code counts in a list of lines, when no line is empty. *)
Definition changed_total (lines : list string) : Z :=
  fold_right (fun line n =>
      match line with
      | String c _ =>
          if Ascii.eqb c "+"%char || Ascii.eqb c "-"%char
          then (Z.of_nat (String.length line) + n)%Z else n
      | EmptyString => n
      end) 0%Z lines.

Definition has_empty_line (lines : list string) : bool :=
  existsb (fun line => match line with EmptyString => true | _ => false end) lines.

Definition sum_Z (l : list Z) : Z := fold_right Z.add 0%Z l.

(** ** Lemmas *)

Lemma py_split_cons sep s : exists p ps, py_split sep s = p :: ps.
Proof.
  induction s as [|c t IH]; simpl; [eauto|].
  destruct IH as (p & ps & ->). destruct (Ascii.eqb c sep); eauto.
Qed.

Lemma py_rfind_None_split s : py_rfind dot s = None -> py_split dot s = [s].
Proof.
  induction s as [|x t IH]; simpl; [done|].
  destruct (py_rfind dot t); [discriminate|].
  destruct (Ascii.eqb x dot); [discriminate|]. intros _. by rewrite IH.
Qed.

Lemma py_rfind_Some_split s i :
  py_rfind dot s = Some i -> exists p q ps, py_split dot s = p :: q :: ps.
Proof.
  revert i. induction s as [|x t IH]; simpl; intros i H; [discriminate|].
  destruct (py_rfind dot t) as [j|] eqn:E.
  - destruct (IH j eq_refl) as (p & q & ps & ->).
    destruct (Ascii.eqb x dot); eauto.
  - rewrite (py_rfind_None_split t E).
    destruct (Ascii.eqb x dot); [eauto|discriminate].
Qed.

Lemma res_fold_left_app {A B} (f : B -> A -> res B) l1 l2 acc :
  res_fold_left f (l1 ++ l2) acc =
  let* acc' := res_fold_left f l1 acc in res_fold_left f l2 acc'.
Proof.
  revert acc. induction l1 as [|x t IH]; intros acc; simpl; [done|].
  destruct (f acc x); simpl; [apply IH|done].
Qed.

Lemma sum_Z_app l1 l2 : sum_Z (l1 ++ l2) = (sum_Z l1 + sum_Z l2)%Z.
Proof. induction l1; simpl; lia. Qed.

Lemma changed_chars_fold lines acc :
  res_fold_left (fun n line => let* k := line_changed_chars line in Ok (n + k)%Z) lines acc =
  if has_empty_line lines then Raise IndexError else Ok (acc + changed_total lines)%Z.
Proof.
  revert acc. induction lines as [|[|c t] ls IH]; intros acc; simpl.
  - f_equal. lia.
  - done.
  - destruct (Ascii.eqb c _ || Ascii.eqb c _); simpl; rewrite IH;
      destruct (has_empty_line ls); try done; f_equal; lia.
Qed.

Lemma changed_lines_fold lines acc :
  res_map sum_Z (res_fold_left (fun l line =>
      match line with
      | EmptyString => Raise IndexError
      | String c _ =>
          if Ascii.eqb c "+"%char || Ascii.eqb c "-"%char
          then Ok (l ++ [Z.of_nat (String.length line)]) else Ok l
      end) lines acc) =
  res_fold_left (fun n line => let* k := line_changed_chars line in Ok (n + k)%Z)
    lines (sum_Z acc).
Proof.
  revert acc. induction lines as [|[|c t] ls IH]; intros acc; simpl; [done|done|].
  destruct (Ascii.eqb c _ || Ascii.eqb c _); simpl; rewrite IH.
  - rewrite sum_Z_app. simpl. by rewrite Z.add_0_r.
  - by rewrite Z.add_0_r.
Qed.

Lemma consecutive_deltas_nth ts :
  consecutive_deltas ts =
  map (fun i => nth i ts 0 - nth (S i) ts 0)%Z (seq 0 (length ts - 1)).
Proof.
  induction ts as [|a [|b t] IH]; [done|done|].
  change (consecutive_deltas (a :: b :: t)) with ((a - b)%Z :: consecutive_deltas (b :: t)).
  rewrite IH. simpl length. rewrite !Nat.sub_succ, !Nat.sub_0_r.
  simpl seq. simpl map. f_equal. rewrite <- seq_shift, map_map. done.
Qed.

(** ** Theorems *)

(** [str.split] and [str.join] are inverse: joining the pieces of
    [py_split sep s] with [sep] gives back [s]. *)
Theorem py_join_split sep s : py_join sep (py_split sep s) = s.
Proof.
  induction s as [|c t IH]; simpl; [done|].
  destruct (py_split_cons sep t) as (p & ps & Ht). rewrite Ht in IH |- *.
  destruct (Ascii.eqb c sep) eqn:E.
  - apply Ascii.eqb_eq in E as ->.
    change (py_join sep ("" :: p :: ps)) with (String sep (py_join sep (p :: ps))).
    by rewrite IH.
  - destruct ps; simpl in *; by subst.
Qed.

(** C29. The changed-character count of utils.py raises [IndexError]
    exactly when the patch, split on newlines, has an empty line (an empty
    patch, a trailing newline, two consecutive newlines); otherwise it adds
    the lengths of the lines that begin with [+] or [-]. *)
Theorem patch_changed_chars_spec acc patch :
  patch_changed_chars acc patch =
  if has_empty_line (py_split newline patch) then Raise IndexError
  else Ok (acc + changed_total (py_split newline patch))%Z.
Proof. apply changed_chars_fold. Qed.

(** C37. The per-line lengths appended by anomaly_detection.py sum to the
    count utils.py computes for the same patch, and both raise on the same
    patches. *)
Theorem patch_changed_lines_sum acc patch :
  res_map sum_Z (patch_changed_lines acc patch) = patch_changed_chars (sum_Z acc) patch.
Proof. apply changed_lines_fold. Qed.

(** The two extension computations of the code agree: the slice
    after [rfind('.')] (utils.py) is the last piece of [split('.')]
    (rule_check.py), also for a name without a dot. *)
Theorem file_type_extension f : file_type f = extension f.
Proof.
  unfold file_type, extension.
  induction f as [|x t IH]; [done|]. simpl py_rfind. simpl py_split.
  destruct (py_rfind dot t) as [i|] eqn:E.
  - destruct (py_rfind_Some_split t i E) as (p & q & ps & Hs). rewrite Hs in IH |- *.
    change (py_slice_from (S (S i)) (String x t)) with (py_slice_from (S i) t).
    rewrite IH. destruct (Ascii.eqb x dot); reflexivity.
  - rewrite (py_rfind_None_split t E). destruct (Ascii.eqb x dot); reflexivity.
Qed.

(** Counting statuses with three independent [if]s
    (rule_check.py) and with an [if]/[elif] chain (anomaly_detection.py)
    gives the same counts. *)
Theorem count_files_by_status_parse fs :
  count_files_by_status fs = parse_status_counts fs.
Proof.
  unfold count_files_by_status, parse_status_counts.
  generalize (mkStatusCount 0 0 0). induction fs as [|f fs IH]; intros acc; [done|].
  simpl. rewrite <- IH. f_equal.
  destruct acc as [a m r]. unfold parse_status_step.
  destruct (fp_status f); simpl; rewrite ?Z.add_0_r; reflexivity.
Qed.

Lemma time_intervals_deltas ts : time_intervals ts = consecutive_deltas ts.
Proof.
  unfold time_intervals. rewrite consecutive_deltas_nth.
  destruct (Nat.ltb_spec 1 (length ts)); [done|].
  destruct ts as [|a [|b t]]; simpl in *; [done|done|lia].
Qed.

Lemma consecutive_deltas_length ts : length (consecutive_deltas ts) = (length ts - 1)%nat.
Proof. rewrite consecutive_deltas_nth, length_map, length_seq. lia. Qed.

Lemma consecutive_deltas_sum a t :
  sum_Z (consecutive_deltas (a :: t)) = (a - List.last (a :: t) 0)%Z.
Proof.
  revert a. induction t as [|b t IH]; intros a; [simpl; lia|].
  change (sum_Z (consecutive_deltas (a :: b :: t)))
    with ((a - b) + sum_Z (consecutive_deltas (b :: t)))%Z.
  change (List.last (a :: b :: t) 0%Z) with (List.last (b :: t) 0%Z).
  rewrite IH. lia.
Qed.

(** The index loop of utils.py computes the differences of
    consecutive timestamps, one fewer than the timestamps, and they add
    up to the first timestamp minus the last one. *)
Theorem time_intervals_spec ts :
  time_intervals ts = consecutive_deltas ts /\
  length (time_intervals ts) = (length ts - 1)%nat /\
  forall a z, hd_error ts = Some a -> List.last ts 0%Z = z ->
    sum_Z (time_intervals ts) = (a - z)%Z.
Proof.
  rewrite time_intervals_deltas. split; [done|]. split; [apply consecutive_deltas_length|].
  intros a z Ha <-. destruct ts as [|x t]; [discriminate|]. injection Ha as ->.
  apply consecutive_deltas_sum.
Qed.

(** ** [parse_commits] *)

Definition patch_ok (f : FilePayload) : bool :=
  match fp_patch f with
  | None => true
  | Some p => negb (has_empty_line (py_split newline p))
  end.

Definition commit_ok (c : CommitPayload) : bool := forallb patch_ok (cp_files c).

Lemma patch_changed_lines_cases acc p :
  if has_empty_line (py_split newline p) then patch_changed_lines acc p = Raise IndexError
  else exists l, patch_changed_lines acc p = Ok l.
Proof.
  pose proof (changed_lines_fold (py_split newline p) acc) as H.
  rewrite changed_chars_fold in H. fold (patch_changed_lines acc p) in H.
  destruct (has_empty_line _).
  - by apply res_map_Raise in H.
  - apply res_map_Ok in H as (l & -> & _). eauto.
Qed.

Lemma parse_files_cases fs acc :
  if forallb patch_ok fs then exists r, res_fold_left parse_file fs acc = Ok r
  else res_fold_left parse_file fs acc = Raise IndexError.
Proof.
  revert acc. induction fs as [|f fs IH]; intros [cnt chars]; simpl; [eauto|].
  unfold patch_ok at 1. destruct (fp_patch f) as [p|]; simpl; [|apply IH].
  pose proof (patch_changed_lines_cases chars p) as Hp.
  destruct (has_empty_line _); simpl.
  - by rewrite Hp.
  - destruct Hp as (l & ->). simpl. apply IH.
Qed.

Lemma parse_commit_eq st c :
  parse_commit st c =
  let* '(cnt, chars) :=
    res_fold_left parse_file (cp_files c) (mkStatusCount 0 0 0, ps_changed_chars st) in
  Ok {| ps_changed_chars := chars;
        ps_changed_lines := ps_changed_lines st ++ [cp_total c];
        ps_messages_len := ps_messages_len st ++ [Z.of_nat (String.length (cp_message c))];
        ps_timestamps := ps_timestamps st ++ [cp_date c];
        ps_added := ps_added st ++ [sc_added cnt];
        ps_modified := ps_modified st ++ [sc_modified cnt];
        ps_removed := ps_removed st ++ [sc_removed cnt] |}.
Proof. reflexivity. Qed.

Lemma parse_loop cs st :
  if forallb commit_ok cs then exists st', res_fold_left parse_commit cs st = Ok st' /\
     ps_changed_lines st' = ps_changed_lines st ++ map cp_total cs /\
     ps_timestamps st' = ps_timestamps st ++ map cp_date cs
  else res_fold_left parse_commit cs st = Raise IndexError.
Proof.
  revert st. induction cs as [|c cs IH]; intros st; simpl.
  - exists st. by rewrite !app_nil_r.
  - pose proof (parse_files_cases (cp_files c) (mkStatusCount 0 0 0, ps_changed_chars st)) as Hf.
    unfold commit_ok at 1.
    destruct (forallb patch_ok (cp_files c)); simpl; rewrite (parse_commit_eq st c).
    + destruct Hf as ([cnt chars] & ->). simpl.
      match goal with |- context [res_fold_left parse_commit cs ?s] => specialize (IH s) end.
      destruct (forallb commit_ok cs); simpl; [|exact IH].
      destruct IH as (st' & H1 & H2 & H3). exists st'. simpl in H2, H3.
      by rewrite H1, H2, H3, <- !app_assoc.
    + by rewrite Hf.
Qed.

Lemma qsum_map_QZ l : qsum (map QZ l) == QZ (sum_Z l).
Proof.
  unfold QZ. induction l as [|x t IH]; simpl; [reflexivity|].
  by rewrite IH, inject_Z_plus.
Qed.

Lemma last_indep {A} (l : list A) d d' : l <> [] -> List.last l d = List.last l d'.
Proof. induction l as [|x [|y t] IH]; intros H; [done|done|]. apply IH. done. Qed.

Lemma last_map {A B} (f : A -> B) l d : List.last (map f l) (f d) = f (List.last l d).
Proof. induction l as [|x [|y t] IH]; simpl in *; auto. Qed.

(** The seven [get_mean_and_variance] calls of [parse_commits] return. *)
Ltac gmv_Ok l :=
  let m := fresh "m" in let v := fresh "v" in let E := fresh "E" in
  destruct (gmv_total (map QZ l)) as (m & v & E & _);
  unfold gmv_Z at 1; rewrite E; simpl res_bind.

(** [parse_commits] raises [ValueError] on an empty list of commits
    ([min] of an empty list), and [IndexError] as soon as one file's
    patch has an empty line. *)
Theorem parse_commits_errors cs :
  parse_commits [] = Raise ValueError /\
  (forallb commit_ok cs = false -> parse_commits cs = Raise IndexError).
Proof.
  split; [reflexivity|]. intros H. unfold parse_commits.
  pose proof (parse_loop cs parse_init) as L. rewrite H in L. by rewrite L.
Qed.

(** C5. On a non-empty list of commits whose patches have no empty
    line, [parse_commits] returns a feature vector whose commit count is
    the number of commits, whose mean changed lines lie between their
    minimum and maximum, and whose mean time interval is the time between
    the first and the last commit divided by the number of intervals. *)
Theorem parse_commits_ok cs :
  cs <> [] -> forallb commit_ok cs = true ->
  exists fv, parse_commits cs = Ok fv /\ fv_commits fv = Qlen cs /\
    fv_lines_min fv <= fv_lines_mean fv <= fv_lines_max fv /\
    (forall a z, hd_error cs = Some a -> List.last cs a = z -> (2 <= length cs)%nat ->
       fv_times_mean fv == QZ (cp_date a - cp_date z) / (Qlen cs - 1)).
Proof.
  intros Hn Hok. unfold parse_commits.
  pose proof (parse_loop cs parse_init) as L. rewrite Hok in L.
  destruct L as (st & -> & HL & HT). simpl res_bind. simpl in HL, HT.
  assert (Hne : ps_changed_lines st <> []).
  { rewrite HL. destruct cs; [done|discriminate]. }
  gmv_Ok (ps_changed_lines st). gmv_Ok (ps_changed_chars st).
  gmv_Ok (time_intervals (ps_timestamps st)). gmv_Ok (ps_messages_len st).
  gmv_Ok (ps_added st). gmv_Ok (ps_modified st). gmv_Ok (ps_removed st).
  destruct (py_min_Ok _ Hne) as (lo & -> & _ & Hlo).
  destruct (py_max_Ok _ Hne) as (hi & -> & _ & Hhi). simpl res_bind.
  eexists. split; [reflexivity|]. simpl. split; [done|]. split.
  - rewrite (get_mean_and_variance_mean _ _ _ E) by (destruct (ps_changed_lines st); done).
    apply mean_bounds; [done|]. intros x Hx. split; auto.
  - intros a z Ha Hz Hlen. destruct cs as [|c cs']; [done|]. injection Ha as <-.
    rewrite HT in E1. simpl app in E1.
    rewrite time_intervals_deltas in E1.
    assert (Hd : consecutive_deltas (map cp_date (c :: cs')) <> []).
    { intros Hd. apply (f_equal (@length Z)) in Hd.
      rewrite consecutive_deltas_length, length_map in Hd. simpl in Hd, Hlen. lia. }
    rewrite (get_mean_and_variance_mean _ _ _ E1) by (destruct (consecutive_deltas _); done).
    unfold mean. rewrite qsum_map_QZ, Qlen_map. simpl map.
    rewrite consecutive_deltas_sum.
    change (cp_date c :: map cp_date cs') with (map cp_date (c :: cs')).
    rewrite (last_indep _ 0%Z (cp_date c)) by done. rewrite last_map, Hz.
    apply Qdiv_comp; [reflexivity|]. unfold Qlen.
    rewrite consecutive_deltas_length, length_map. simpl length.
    rewrite Nat.sub_succ, Nat.sub_0_r, Nat2Z.inj_succ, <- Z.add_1_r, inject_Z_plus.
    change (inject_Z 1) with 1. ring.
Qed.
(** ** Witnesses *)

Definition ex_patch : string := py_join newline ["@@ -1 +1 @@"; "+abc"; "-de"; " x"].

Definition ex_commit (date : Z) (patch : string) : CommitPayload :=
  {| cp_date := date; cp_message := "fix"; cp_additions := 1; cp_deletions := 1;
     cp_total := 2; cp_files := [mkFilePayload "a.py" Modified (Some patch) None] |}%Z.

Lemma time_intervals_spec_witness :
  hd_error [50; 30; 10]%Z = Some 50%Z /\ List.last [50; 30; 10]%Z 0%Z = 10%Z /\
  sum_Z (time_intervals [50; 30; 10]%Z) = (50 - 10)%Z.
Proof.
  split; [reflexivity|]. split; [reflexivity|].
  apply (proj2 (proj2 (time_intervals_spec [50; 30; 10]%Z))); reflexivity.
Defined.

Lemma parse_commits_errors_witness :
  forallb commit_ok [ex_commit 100 (ex_patch ++ String newline "")] = false /\
  parse_commits [ex_commit 100 (ex_patch ++ String newline "")] = Raise IndexError.
Proof.
  split; [vm_compute; reflexivity|].
  apply (proj2 (parse_commits_errors _)). vm_compute. reflexivity.
Defined.

Lemma parse_commits_ok_witness :
  exists fv, parse_commits [ex_commit 1000 ex_patch; ex_commit 400 ex_patch] = Ok fv /\
    fv_commits fv = Qlen [ex_commit 1000 ex_patch; ex_commit 400 ex_patch] /\
    fv_lines_min fv <= fv_lines_mean fv <= fv_lines_max fv /\
    (forall a z, hd_error [ex_commit 1000 ex_patch; ex_commit 400 ex_patch] = Some a ->
       List.last [ex_commit 1000 ex_patch; ex_commit 400 ex_patch] a = z ->
       (2 <= length [ex_commit 1000 ex_patch; ex_commit 400 ex_patch])%nat ->
       fv_times_mean fv == QZ (cp_date a - cp_date z) /
         (Qlen [ex_commit 1000 ex_patch; ex_commit 400 ex_patch] - 1)).
Proof. apply parse_commits_ok; [discriminate|vm_compute; reflexivity]. Defined.

End Features.
