(* ===== verification/Ingest.v ===== *)
(** * Ingestion of a repository from the GitHub API

    [get_file] (utils.py, lines 39-58), [save_file_changes] (lines 61-104),
    [get_commits] (lines 189-234), [create_user] and [get_contributors]
    (lines 237-263) and [get_pulls] (lines 266-280).  The database is
    updated in place: SQLAlchemy's autoflush makes every pending object
    visible to the next query, so each write is applied at once.  An ORM
    object that two variables name (a [File] found by one query and again
    by another) is one row, updated by its id ([put_file]).  The
    responses of the GitHub API are the sections' parameters.

    The theorems: the file store keeps its ids, filenames, non-empty
    previous filenames and (commit, file) pairs unique; under that
    invariant [save_file_changes] returns on well-formed entries, and the
    counts it stores are those of [count_files_by_status]; a row written
    by [save_file] is found again by [get_file] under its name.  A merge commit
    whose parents have no known author is stored under the developer the
    loop carries from the previous entry.  Ingestion never changes the
    developers or their baselines ([people_same]). *)

From S2P Require Import Prelude Model Features.

Module Ingest.
Import Model Features.

(** ** The file store *)

Definition files_named (db : Db) (name : string) : list File :=
  List.filter (fun f => String.eqb (filename f) name) (files db).

Definition files_prev_named (db : Db) (name : string) : list File :=
  List.filter (fun f => match previous_filename f with
                        | Some p => String.eqb p name
                        | None => false
                        end) (files db).

(** utils.py, lines 39-58: by [filename], then by [previous_filename]. *)
Definition get_file (db : Db) (query : string) : res (option File) :=
  let* file := one_or_none (files_named db query) in
  match file with
  | Some f => Ok (Some f)
  | None => one_or_none (files_prev_named db query)
  end.

Definition set_files (db : Db) (fs : list File) : Db :=
  mkDb (developers db) (commits db) fs (commits_files db) (commits_stats db)
    (developer_stats db) (repo_stats db) (pulls db).

Definition set_commits_files (db : Db) (cfs : list CommitsFiles) : Db :=
  mkDb (developers db) (commits db) (files db) cfs (commits_stats db)
    (developer_stats db) (repo_stats db) (pulls db).

(** The id SQLite gives the next row of [file]. *)
Definition next_file_id (db : Db) : Z :=
  (1 + fold_right Z.max 0 (map file_id (files db)))%Z.

(** The state of the [File] object [f] written to its row: an update of
    the row with its id, or the insertion of a new row. *)
Definition put_file (db : Db) (f : File) : Db :=
  if existsb (fun g => Z.eqb (file_id g) (file_id f)) (files db)
  then set_files db (map (fun g => if Z.eqb (file_id g) (file_id f) then f else g) (files db))
  else set_files db (files db ++ [f]).

(** [commit.files], as the filenames of the associated files. *)
Definition commit_filenames (db : Db) (cid : Z) : list string :=
  flat_map (fun cf =>
    if Z.eqb (cf_commit cf) cid
    then map filename (List.filter (fun f => Z.eqb (file_id f) (cf_file cf)) (files db))
    else [])
    (commits_files db).

(** [languages[k] = languages[k] + 1], or [= 1] for a new key, on a
    Python dictionary (insertion-ordered). *)
Definition dict_incr (k : string) (d : list (string * Z)) : list (string * Z) :=
  if existsb (fun kv => String.eqb (fst kv) k) d
  then map (fun kv => if String.eqb (fst kv) k then (fst kv, snd kv + 1)%Z else kv) d
  else d ++ [(k, 1%Z)].

(** ** [save_file_changes] *)

(** The loop variables of lines 63-68 and the database. *)
Record SaveState := mkSaveState {
  sv_db : Db;
  sv_languages : list (string * Z);
  sv_changed_chars : Z;
  sv_added : Z;
  sv_modified : Z;
  sv_removed : Z;
  sv_renamed : Z
}.

Definition is_status (s : FileStatus) (fd : FilePayload) : Z :=
  if decide (fp_status fd = s) then 1%Z else 0%Z.

(** Lines 89-93: a renamed file takes over the previous filename from
    the file that held it, which keeps an empty one. *)
Definition track_rename (db : Db) (file : File) (fd : FilePayload) : res (Db * File) :=
  if decide (fp_status fd = Renamed) then
    match fp_previous_filename fd with
    | None => Raise KeyError
    | Some pn =>
        let* previous_file := one_or_none (files_prev_named db pn) in
        let db := match previous_file with
                  | Some p => put_file db (mkFile (file_id p) (filename p) (Some "") (file_owner p))
                  | None => db
                  end in
        Ok (db, mkFile (file_id file) (filename file) (Some pn) (file_owner file))
    end
  else Ok (db, file).

(** Lines 94-96: an added file is owned by the commit's developer. *)
Definition set_owner (file : File) (dev : Developer) (fd : FilePayload) : File :=
  if decide (fp_status fd = Added)
  then mkFile (file_id file) (filename file) (previous_filename file) (Some (dev_id dev))
  else file.

(** Lines 97-98: the association, unless the commit already has a file
    of that name. *)
Definition link_file (db : Db) (cid : Z) (file : File) (fd : FilePayload) : Db :=
  if existsb (String.eqb (filename file)) (commit_filenames db cid) then db
  else set_commits_files db (commits_files db ++ [mkCommitsFiles cid (file_id file) (fp_status fd)]).

(** Lines 69-102: one entry of [commit_data['files']] for the commit
    [cid] of the developer [dev].  A new [File] (line 84) reaches the
    table when it is appended to [commit.files]; the assignments to
    [file.commit.status] (lines 85 and 95) set an attribute of the
    relationship list and change no row. *)
Definition save_file (cid : Z) (dev : Developer) (st : SaveState) (fd : FilePayload)
    : res SaveState :=
  let db := sv_db st in
  let name := fp_filename fd in
  let languages := dict_incr (file_type name) (sv_languages st) in
  let* changed_chars :=
    match fp_patch fd with
    | Some patch => patch_changed_chars (sv_changed_chars st) patch
    | None => Ok (sv_changed_chars st)
    end in
  let* found := get_file db name in
  let file := match found with
              | Some f => f
              | None => mkFile (next_file_id db) name None None
              end in
  let* '(db, file) := track_rename db file fd in
  let file := set_owner file dev fd in
  let db := put_file db file in
  let db := link_file db cid file fd in
  Ok {| sv_db := db; sv_languages := languages; sv_changed_chars := changed_chars;
        sv_added := sv_added st + is_status Added fd;
        sv_modified := sv_modified st + is_status Modified fd;
        sv_removed := sv_removed st + is_status Removed fd;
        sv_renamed := sv_renamed st + is_status Renamed fd |}%Z.

(** Lines 61-104: the database, [commit.languages], and the five counts
    [changed_chars, added, modified, removed, renamed]. *)
Definition save_file_changes (commit_data : CommitPayload) (cid : Z) (db : Db) (dev : Developer)
    : res (Db * list (string * Z) * (Z * Z * Z * Z * Z)) :=
  let* st := res_fold_left (save_file cid dev) (cp_files commit_data)
               (mkSaveState db [] 0 0 0 0 0)%Z in
  Ok (sv_db st, sv_languages st,
      (sv_changed_chars st, sv_added st, sv_modified st, sv_removed st, sv_renamed st)).

(** ** The commits of a developer: [get_commits] *)

(** [GET] of a commit URL: the author's login ([None] when ['author'] is
    null) and the commit data. *)
Record GhCommit := mkGhCommit {
  gh_author : option string;
  gh_data : CommitPayload
}.

(** An entry of the commit list: its URL and its parents' URLs. *)
Record ListedCommit := mkListedCommit {
  lc_url : string;
  lc_parents : list string
}.

Definition set_commits (db : Db) (cs : list Commit) : Db :=
  mkDb (developers db) cs (files db) (commits_files db) (commits_stats db)
    (developer_stats db) (repo_stats db) (pulls db).

Definition next_commit_id (db : Db) : Z :=
  (1 + fold_right Z.max 0 (map commit_id (commits db)))%Z.

(** [commit_timestamp.date()], timestamps being seconds since the epoch. *)
Definition day_of (ts : Z) : Z := (ts / 86400)%Z.

Section GetCommits.
Context (fetch : string -> GhCommit).

(** Lines 203-213: the parents of a merge commit.  [commit_data] is the
    last parent fetched, also when that parent is skipped; [dev_tmp] is
    the developer of the last parent whose author is a known developer,
    and keeps its value from the previous commits otherwise. *)
Definition merge_parents (db : Db) (parents : list string) (dev_tmp : option Developer)
    : res (option CommitPayload * option Developer) :=
  res_fold_left (fun st url =>
      let commit_data := fetch url in
      match gh_author commit_data with
      | None => Ok (Some (gh_data commit_data), snd st)
      | Some username =>
          let* developer := get_developer username db in
          match developer with
          | None => Ok (Some (gh_data commit_data), snd st)
          | Some d => Ok (Some (gh_data commit_data), Some d)
          end
      end)
    parents (None, dev_tmp).

(** Lines 220-231: the [Commits] row of [commit_data], attributed to
    [dev_tmp], with the counts of [save_file_changes]. *)
Definition store_commit (db : Db) (dev_tmp : Developer) (commit_data : CommitPayload)
    : res (Db * option Developer) :=
  let commit_timestamp := cp_date commit_data in
  let cid := next_commit_id db in
  let* '(db, languages, (changed_chars, added, modified, removed, renamed)) :=
    save_file_changes commit_data cid db dev_tmp in
  let commit := mkCommit cid (day_of commit_timestamp) commit_timestamp (cp_message commit_data)
                  (cp_additions commit_data) (cp_deletions commit_data) changed_chars added
                  modified removed renamed (Some (dev_id dev_tmp)) languages in
  Ok (set_commits db (commits db ++ [commit]), Some dev_tmp).

(** Lines 200-219: the commit data of one entry and the developer it
    is stored for. *)
Definition commit_source (dev : Developer) (db : Db) (dev_tmp : option Developer) (tmp : ListedCommit)
    : res (CommitPayload * option Developer) :=
  if (1 <? length (lc_parents tmp))%nat then
    let* '(cd, dt) := merge_parents db (lc_parents tmp) dev_tmp in
    match cd with
    | Some c => Ok (c, dt)
    | None => Raise NameError
    end
  else Ok (gh_data (fetch (lc_url tmp)), Some dev).

(** Lines 200-231: one entry of the list, for the developer [dev]. *)
Definition process_item (dev : Developer) (st : Db * option Developer) (tmp : ListedCommit)
    : res (Db * option Developer) :=
  let '(db, dev_tmp) := st in
  let* '(commit_data, dev_tmp) := commit_source dev db dev_tmp tmp in
  match dev_tmp with
  | None => Raise NameError
  | Some d => store_commit db d commit_data
  end.

(** Lines 192-234: the pages of the list, until an empty page or a page
    of fewer than 100 entries. *)
Fixpoint get_commits_pages (dev : Developer) (pages : list (list ListedCommit))
    (st : Db * option Developer) : res (Db * option Developer) :=
  match pages with
  | [] => Ok st
  | [] :: _ => Ok st
  | data :: rest =>
      let* st' := res_fold_left (process_item dev) data st in
      if (length data <? 100)%nat then Ok st' else get_commits_pages dev rest st'
  end.

(** utils.py, lines 189-234; [dev_tmp] is unbound when the call starts. *)
Definition get_commits (dev : Developer) (pages : list (list ListedCommit)) (db : Db) : res Db :=
  let* '(db, _) := get_commits_pages dev pages (db, None) in
  Ok db.

End GetCommits.

(** ** Contributors and pull requests *)

(** [GET users/{username}]. *)
Record GhUser := mkGhUser {
  gu_login : string;
  gu_created_at : Z;
  gu_followers : Z
}.

(** An entry of [GET repos/{owner}/{repo}/contributors]. *)
Record Contributor := mkContributor {
  ct_login : string;
  ct_contributions : Z
}.

(** An entry of [GET repos/{owner}/{repo}/pulls]: its URL and its
    author's login; and the pull request it points to. *)
Record PullSummary := mkPullSummary {
  ps_url : string;
  ps_login : string
}.

Record GhPull := mkGhPull {
  gp_merged : bool;
  gp_state : string
}.

Definition set_developers (db : Db) (ds : list Developer) : Db :=
  mkDb ds (commits db) (files db) (commits_files db) (commits_stats db)
    (developer_stats db) (repo_stats db) (pulls db).

Definition set_pulls (db : Db) (ps : list Pull) : Db :=
  mkDb (developers db) (commits db) (files db) (commits_files db) (commits_stats db)
    (developer_stats db) (repo_stats db) ps.

Definition next_dev_id (db : Db) : Z :=
  (1 + fold_right Z.max 0 (map dev_id (developers db)))%Z.

Section Contributors.
Context (get_user : string -> GhUser) (get_pull : string -> GhPull).

(** utils.py, lines 237-245. *)
Definition create_user (username : string) (contributions : Z) (db : Db) : Db :=
  let response := get_user username in
  let dev := mkDeveloper (next_dev_id db) (gu_login response) contributions
               (gu_created_at response) (gu_followers response) in
  set_developers db (developers db ++ [dev]).

(** utils.py, lines 248-263: every page, until one of fewer than 100
    entries. *)
Fixpoint get_contributors (pages : list (list Contributor)) (db : Db) : Db :=
  match pages with
  | [] => db
  | data :: rest =>
      let db := fold_left (fun db tmp => create_user (ct_login tmp) (ct_contributions tmp) db)
                  data db in
      if (length data <? 100)%nat then db else get_contributors rest db
  end.

(** Lines 273-277: one pull request; its author is [None] (a NULL
    [developer_id]) when the login is not a developer. *)
Definition save_pull (db : Db) (pull : PullSummary) : res Db :=
  let tmp_pull := get_pull (ps_url pull) in
  let* dev := get_developer (ps_login pull) db in
  let pull_obj := mkPull (gp_merged tmp_pull) (gp_state tmp_pull) (option_map dev_id dev) in
  Ok (set_pulls db (pulls db ++ [pull_obj])).

(** utils.py, lines 266-280. *)
Fixpoint get_pulls (pages : list (list PullSummary)) (db : Db) : res Db :=
  match pages with
  | [] => Ok db
  | data :: rest =>
      let* db := res_fold_left save_pull data db in
      if (length data <? 100)%nat then Ok db else get_pulls rest db
  end.

End Contributors.

(** ** The invariant of the file store *)

(** Ids are the primary key; a filename, and a non-empty previous
    filename, name at most one file; a (commit, file) pair is the primary
    key of [commits_files]. *)
Record store_wf (db : Db) : Prop := {
  wf_ids : List.NoDup (map file_id (files db));
  wf_names : forall f g, In f (files db) -> In g (files db) ->
    filename f = filename g -> file_id f = file_id g;
  wf_prevs : forall f g p, In f (files db) -> In g (files db) ->
    previous_filename f = Some p -> previous_filename g = Some p -> p <> "" ->
    file_id f = file_id g;
  wf_pairs : List.NoDup (map (fun cf => (cf_commit cf, cf_file cf)) (commits_files db))
}.

(** The rows of [db'] are rows of [db] up to their previous filename and
    owner. *)
Definition same_names (db db' : Db) : Prop :=
  forall y, In y (files db') -> exists y0, In y0 (files db) /\
    file_id y0 = file_id y /\ filename y0 = filename y.

(** What the payload entry needs for [save_file] to return. *)
Definition entry_ok (fd : FilePayload) : bool :=
  patch_ok fd && negb (String.eqb (fp_filename fd) "") &&
  (if decide (fp_status fd = Renamed) then
     match fp_previous_filename fd with
     | Some pn => negb (String.eqb pn "")
     | None => false
     end
   else true).

Definition file_changed_chars (fd : FilePayload) : Z :=
  match fp_patch fd with
  | Some p => changed_total (py_split newline p)
  | None => 0%Z
  end.

(** ** Lemmas *)

Lemma filter_le1 {A} (k : A -> Z) (p : A -> bool) l :
  List.NoDup (map k l) ->
  (forall x y, In x l -> In y l -> p x = true -> p y = true -> k x = k y) ->
  (length (List.filter p l) <= 1)%nat.
Proof.
  induction l as [|x t IH]; intros Hn Hk; simpl; [lia|].
  inversion Hn as [|? ? Hx Ht]; subst.
  assert (IH' : (length (List.filter p t) <= 1)%nat) by (apply IH; auto with datatypes).
  destruct (p x) eqn:Px; simpl; [|done].
  destruct (List.filter p t) as [|y r] eqn:E; simpl; [lia|].
  assert (Hy : In y (List.filter p t)) by (rewrite E; left; done).
  apply filter_In in Hy as [Hy Py]. exfalso. apply Hx.
  rewrite (Hk x y); [apply in_map; done | left; done | right; done | done | done].
Qed.

Lemma one_or_none_le1 {A} (l : list A) :
  (length l <= 1)%nat -> exists o, one_or_none l = Ok o /\
    match o with None => l = [] | Some x => l = [x] end.
Proof.
  destruct l as [|x [|y t]]; simpl; intros H.
  - exists None. done.
  - exists (Some x). done.
  - lia.
Qed.

Lemma files_named_le1 db name : store_wf db -> (length (files_named db name) <= 1)%nat.
Proof.
  intros Hw. apply (filter_le1 file_id); [apply Hw|].
  intros x y Hx Hy Px Py. apply String.eqb_eq in Px, Py. apply (wf_names db Hw); congruence.
Qed.

Lemma files_prev_named_spec db name f :
  In f (files_prev_named db name) <-> In f (files db) /\ previous_filename f = Some name.
Proof.
  unfold files_prev_named. rewrite filter_In.
  destruct (previous_filename f) as [p|]; [|naive_solver].
  rewrite String.eqb_eq. naive_solver.
Qed.

Lemma files_prev_named_le1 db name :
  store_wf db -> name <> "" -> (length (files_prev_named db name) <= 1)%nat.
Proof.
  intros Hw Hne. apply (filter_le1 file_id); [apply Hw|].
  intros x y Hx Hy Px Py.
  assert (Hx' : In x (files_prev_named db name)) by (apply filter_In; done).
  assert (Hy' : In y (files_prev_named db name)) by (apply filter_In; done).
  apply files_prev_named_spec in Hx' as [_ Ex], Hy' as [_ Ey].
  exact (wf_prevs db Hw x y name Hx Hy Ex Ey Hne).
Qed.

Lemma get_file_ok db name :
  store_wf db -> name <> "" -> exists o, get_file db name = Ok o /\
    match o with None => files_named db name = [] | Some f => In f (files db) end.
Proof.
  intros Hw Hne. unfold get_file.
  destruct (one_or_none_le1 _ (files_named_le1 db name Hw)) as ([f|] & -> & Hf); simpl.
  - exists (Some f). split; [done|].
    assert (Hin : In f (files_named db name)) by (rewrite Hf; left; done).
    apply filter_In in Hin. apply Hin.
  - destruct (one_or_none_le1 _ (files_prev_named_le1 db name Hw Hne)) as ([g|] & -> & Hg).
    + exists (Some g). split; [done|].
      assert (Hin : In g (files_prev_named db name)) by (rewrite Hg; left; done).
      apply files_prev_named_spec in Hin. apply Hin.
    + exists None. done.
Qed.

Lemma NoDup_snoc {A} (l : list A) x : List.NoDup l -> ~ In x l -> List.NoDup (l ++ [x]).
Proof.
  intros Hl Hx. apply (Permutation_NoDup (Permutation_cons_append l x)). by constructor.
Qed.

Lemma existsb_false {A} (p : A -> bool) l :
  existsb p l = false -> forall x, In x l -> p x = false.
Proof.
  intros E x Hx. destruct (p x) eqn:Px; [|done].
  assert (existsb p l = true) by (apply existsb_exists; eauto). congruence.
Qed.

Lemma in_put_file db f x :
  In x (files (put_file db f)) -> x = f \/ (In x (files db) /\ file_id x <> file_id f).
Proof.
  unfold put_file. destruct (existsb _ _) eqn:E; simpl.
  - intros (y & <- & Hy)%in_map_iff. destruct (Z.eqb_spec (file_id y) (file_id f)); auto.
  - intros [Hx | [<- | []]]%in_app_iff; [right | by left]. split; [done|].
    intros Hid. pose proof (existsb_false _ _ E x Hx) as E'. simpl in E'.
    apply Z.eqb_neq in E'. done.
Qed.

Lemma put_file_in db f : In f (files (put_file db f)).
Proof.
  unfold put_file. destruct (existsb _ _) eqn:E; simpl.
  - apply existsb_exists in E as (y & Hy & Ey). apply in_map_iff. exists y.
    by rewrite Ey.
  - apply in_app_iff. right. left. done.
Qed.

Lemma put_file_commits_files db f : commits_files (put_file db f) = commits_files db.
Proof. unfold put_file. by destruct (existsb _ _). Qed.

Lemma put_file_ids db f :
  List.NoDup (map file_id (files db)) -> List.NoDup (map file_id (files (put_file db f))).
Proof.
  intros Hn. unfold put_file. destruct (existsb _ _) eqn:E; simpl.
  - rewrite map_map. erewrite map_ext; [exact Hn|].
    intros y. destruct (Z.eqb_spec (file_id y) (file_id f)); congruence.
  - rewrite map_app. apply NoDup_snoc; [done|]. intros (y & Hy & Hin)%in_map_iff.
    pose proof (existsb_false _ _ E y Hin) as E'. simpl in E'. apply Z.eqb_neq in E'. done.
Qed.

(** Writing [f] keeps the invariant when no other row has its filename
    or its non-empty previous filename. *)
Lemma put_file_wf db f :
  store_wf db ->
  (forall y, In y (files db) -> file_id y <> file_id f -> filename y <> filename f) ->
  (forall y p, In y (files db) -> file_id y <> file_id f -> previous_filename f = Some p ->
     p <> "" -> previous_filename y <> Some p) ->
  store_wf (put_file db f).
Proof.
  intros Hw Hn Hp. constructor.
  - apply put_file_ids, Hw.
  - intros x y [->|[Hx Ix]]%in_put_file [->|[Hy Iy]]%in_put_file E; try done.
    + exfalso. by apply (Hn y Hy Iy).
    + exfalso. by apply (Hn x Hx Ix).
    + by apply (wf_names db Hw).
  - intros x y p [->|[Hx Ix]]%in_put_file [->|[Hy Iy]]%in_put_file Ex Ey Hne; try done.
    + exfalso. by apply (Hp y p Hy Iy Ex Hne).
    + exfalso. by apply (Hp x p Hx Ix Ey Hne).
    + by apply (wf_prevs db Hw x y p).
  - rewrite put_file_commits_files. apply Hw.
Qed.

Lemma put_file_same_names db f y0 :
  In y0 (files db) -> file_id y0 = file_id f -> filename y0 = filename f ->
  same_names db (put_file db f).
Proof.
  intros Hy0 Ei En y [->|[Hy _]]%in_put_file; [by exists y0|]. by exists y.
Qed.

Lemma same_names_refl db : same_names db db.
Proof. intros y Hy. by exists y. Qed.

Lemma file_id_le_max y l : In y l -> (file_id y <= fold_right Z.max 0 (map file_id l))%Z.
Proof. induction l as [|x t IH]; simpl; [done|]. intros [->|H]; [lia|]. specialize (IH H). lia. Qed.

Lemma next_file_id_fresh db y : In y (files db) -> file_id y <> next_file_id db.
Proof. intros Hy. pose proof (file_id_le_max y _ Hy). unfold next_file_id. lia. Qed.

Lemma prev_named_singleton db pn p y :
  files_prev_named db pn = [p] -> In y (files db) -> previous_filename y = Some pn -> y = p.
Proof.
  intros Hp Hy Ey. assert (Hin : In y (files_prev_named db pn)) by (by apply files_prev_named_spec).
  rewrite Hp in Hin. by destruct Hin as [<-|[]].
Qed.

Lemma track_rename_ok db file fd :
  store_wf db ->
  (fp_status fd = Renamed -> exists pn, fp_previous_filename fd = Some pn /\ pn <> "") ->
  exists db1 file1, track_rename db file fd = Ok (db1, file1) /\ store_wf db1 /\
    same_names db db1 /\ file_id file1 = file_id file /\ filename file1 = filename file /\
    ((db1 = db /\ file1 = file) \/
     (exists pn, previous_filename file1 = Some pn /\ pn <> "" /\
        forall y, In y (files db1) -> previous_filename y <> Some pn)).
Proof.
  intros Hw Hr. unfold track_rename. destruct (decide (fp_status fd = Renamed)) as [R|R].
  2: { exists db, file. split; [done|]. split; [done|]. split; [apply same_names_refl|]. auto. }
  destruct (Hr R) as (pn & -> & Hpn).
  destruct (one_or_none_le1 _ (files_prev_named_le1 db pn Hw Hpn)) as ([p|] & -> & Hp); simpl.
  - assert (Hin : In p (files db)).
    { assert (H : In p (files_prev_named db pn)) by (rewrite Hp; left; done).
      apply files_prev_named_spec in H. apply H. }
    eexists _, _. split; [reflexivity|]. split.
    { apply put_file_wf; [done| |].
      - intros y Hy Iy En. apply Iy. simpl in *. by apply (wf_names db Hw).
      - intros y q Hy Iy Eq Hq. simpl in Eq. by injection Eq as <-. }
    split; [by apply (put_file_same_names _ _ p)|]. do 2 (split; [done|]).
    right. exists pn. do 2 (split; [done|]).
    intros y [->|[Hy Iy]]%in_put_file Ey.
    + simpl in Ey. injection Ey as E. by subst.
    + apply Iy. by rewrite (prev_named_singleton db pn p y Hp Hy Ey).
  - eexists _, _. split; [reflexivity|]. split; [done|]. split; [apply same_names_refl|].
    do 2 (split; [done|]). right. exists pn. do 2 (split; [done|]).
    intros y Hy Ey. assert (Hin : In y (files_prev_named db pn)) by (by apply files_prev_named_spec).
    by rewrite Hp in Hin.
Qed.

Lemma link_file_files db cid file fd : files (link_file db cid file fd) = files db.
Proof. unfold link_file. by destruct (existsb _ _). Qed.

Lemma link_file_wf db cid file fd :
  store_wf db -> In file (files db) -> store_wf (link_file db cid file fd).
Proof.
  intros Hw Hf. unfold link_file. destruct (existsb _ _) eqn:E; [done|].
  constructor; try apply Hw. simpl. rewrite map_app. apply NoDup_snoc; [apply Hw|].
  intros (cf & Ecf & Hcf)%in_map_iff. simpl in Ecf. injection Ecf as E1 E2.
  pose proof (existsb_false _ _ E (filename file)) as E'. rewrite String.eqb_refl in E'.
  assert (Hin : In (filename file) (commit_filenames db cid)).
  { apply in_flat_map. exists cf. split; [done|]. rewrite E1, Z.eqb_refl.
    apply in_map. apply filter_In. split; [done|]. rewrite E2. apply Z.eqb_refl. }
  specialize (E' Hin). discriminate.
Qed.

(** After [link_file], the commit has a file of that name. *)
Lemma link_file_linked db cid file fd :
  In file (files db) -> In (filename file) (commit_filenames (link_file db cid file fd) cid).
Proof.
  intros Hf. unfold link_file. destruct (existsb _ _) eqn:E.
  - apply existsb_exists in E as (n & Hn & En). apply String.eqb_eq in En. by subst n.
  - unfold commit_filenames. cbn [commits_files files set_commits_files]. apply in_flat_map.
    exists (mkCommitsFiles cid (file_id file) (fp_status fd)). split; [apply in_app_iff; right; by left|].
    cbn [cf_commit cf_file]. rewrite Z.eqb_refl. apply in_map. apply filter_In.
    split; [done|]. apply Z.eqb_refl.
Qed.

(** A name that is no file's previous filename is found by its filename. *)
Lemma get_file_named db name f :
  files_prev_named db name = [] -> get_file db name = Ok (Some f) -> filename f = name.
Proof.
  intros Hp. unfold get_file. destruct (files_named db name) as [|g [|h t]] eqn:E; simpl.
  - by rewrite Hp.
  - intros [= <-]. assert (Hin : In g (files_named db name)) by (rewrite E; left; done).
    apply filter_In in Hin as [_ Hn]. by apply String.eqb_eq.
  - discriminate.
Qed.

(** In the store, [get_file] finds a row by its filename. *)
Lemma get_file_in db f : store_wf db -> In f (files db) -> get_file db (filename f) = Ok (Some f).
Proof.
  intros Hw Hf. unfold get_file.
  assert (Hin : In f (files_named db (filename f))) by (apply filter_In; split; [done|apply String.eqb_refl]).
  pose proof (files_named_le1 db (filename f) Hw) as Hl.
  destruct (files_named db (filename f)) as [|g [|h t]]; simpl in *; [done| |lia].
  destruct Hin as [->|[]]. done.
Qed.

Lemma entry_ok_parts fd :
  entry_ok fd = true ->
  patch_ok fd = true /\ fp_filename fd <> "" /\
  (fp_status fd = Renamed -> exists pn, fp_previous_filename fd = Some pn /\ pn <> "").
Proof.
  unfold entry_ok. intros (H12 & H3)%andb_prop. apply andb_prop in H12 as [H1 H2].
  split; [done|]. split.
  - intros E. rewrite E in H2. discriminate.
  - intros R. destruct (decide _) as [_|]; [|done].
    destruct (fp_previous_filename fd) as [pn|]; [|discriminate].
    exists pn. split; [done|]. intros ->. discriminate.
Qed.

Lemma save_changed_chars fd acc :
  patch_ok fd = true ->
  match fp_patch fd with
  | Some patch => patch_changed_chars acc patch
  | None => Ok acc
  end = Ok (acc + file_changed_chars fd)%Z.
Proof.
  unfold patch_ok, file_changed_chars. destruct (fp_patch fd) as [p|]; [|intros; f_equal; lia].
  intros Hp. unfold patch_changed_chars. rewrite changed_chars_fold.
  by destruct (has_empty_line _).
Qed.

(** One entry: [save_file] returns, keeps the invariant and adds the
    entry's counts. *)
Lemma save_file_ok cid dev st fd :
  store_wf (sv_db st) -> entry_ok fd = true ->
  exists st', save_file cid dev st fd = Ok st' /\ store_wf (sv_db st') /\
    sv_languages st' = dict_incr (file_type (fp_filename fd)) (sv_languages st) /\
    sv_changed_chars st' = (sv_changed_chars st + file_changed_chars fd)%Z /\
    sv_added st' = (sv_added st + is_status Added fd)%Z /\
    sv_modified st' = (sv_modified st + is_status Modified fd)%Z /\
    sv_removed st' = (sv_removed st + is_status Removed fd)%Z /\
    sv_renamed st' = (sv_renamed st + is_status Renamed fd)%Z /\
    exists f, In f (files (sv_db st')) /\ In (filename f) (commit_filenames (sv_db st') cid) /\
      (fp_status fd = Added -> file_owner f = Some (dev_id dev)) /\
      (files_prev_named (sv_db st) (fp_filename fd) = [] -> filename f = fp_filename fd).
Proof.
  intros Hw (Hpatch & Hne & Hr)%entry_ok_parts. unfold save_file.
  rewrite (save_changed_chars fd _ Hpatch). cbn [res_bind].
  destruct (get_file_ok _ _ Hw Hne) as (o & Ho & Hof). rewrite Ho. cbn [res_bind].
  set (file := match o with Some f => f | None => mkFile (next_file_id (sv_db st)) (fp_filename fd) None None end).
  assert (HA : forall y, In y (files (sv_db st)) -> file_id y <> file_id file ->
                 filename y <> filename file).
  { destruct o as [f|]; subst file; simpl; intros y Hy Iy En.
    - apply Iy. by apply (wf_names _ Hw).
    - assert (Hin : In y (files_named (sv_db st) (fp_filename fd))).
      { apply filter_In. split; [done|]. by apply String.eqb_eq. }
      by rewrite Hof in Hin. }
  assert (HB : forall y p, In y (files (sv_db st)) -> file_id y <> file_id file ->
                 previous_filename file = Some p -> p <> "" -> previous_filename y <> Some p).
  { destruct o as [f|]; subst file; simpl; intros y p Hy Iy Ef Hp Ey; [|discriminate].
    apply Iy. by apply (wf_prevs _ Hw y f p). }
  destruct (track_rename_ok _ file fd Hw Hr) as (db1 & file1 & Ht & Hw1 & Hs1 & Hid1 & Hn1 & Hcase).
  rewrite Ht. cbn [res_bind].
  set (file2 := set_owner file1 dev fd).
  assert (Hk2 : file_id file2 = file_id file1 /\ filename file2 = filename file1 /\
                previous_filename file2 = previous_filename file1)
    by (unfold file2, set_owner; by destruct (decide _)).
  destruct Hk2 as (Ei2 & En2 & Ep2).
  assert (Hw2 : store_wf (put_file db1 file2)).
  { apply put_file_wf; [done| |].
    - intros y Hy Iy En. destruct (Hs1 y Hy) as (y0 & Hy0 & Ei & Ename).
      apply (HA y0 Hy0); congruence.
    - intros y p Hy Iy Ep Hp. rewrite Ep2 in Ep.
      destruct Hcase as [[-> ->] | (pn & Epn & Hpn & Hall)].
      + apply (HB y p Hy); congruence.
      + rewrite Epn in Ep. injection Ep as <-. by apply Hall. }
  eexists. split; [reflexivity|]. cbn. split; [apply link_file_wf; [done | apply put_file_in]|].
  do 6 (split; [done|]).
  exists file2. split; [rewrite link_file_files; apply put_file_in|].
  split; [apply link_file_linked, put_file_in|]. split.
  - intros Ha. unfold file2, set_owner. by rewrite decide_True.
  - intros Hp. rewrite En2, Hn1. unfold file. destruct o as [f|]; [|done].
    exact (get_file_named _ _ _ Hp Ho).
Qed.

Lemma save_fold cid dev fds st :
  store_wf (sv_db st) -> forallb entry_ok fds = true ->
  exists st', res_fold_left (save_file cid dev) fds st = Ok st' /\ store_wf (sv_db st') /\
    sv_changed_chars st' = (sv_changed_chars st + sum_Z (map file_changed_chars fds))%Z /\
    sv_added st' = (sv_added st + sum_Z (map (is_status Added) fds))%Z /\
    sv_modified st' = (sv_modified st + sum_Z (map (is_status Modified) fds))%Z /\
    sv_removed st' = (sv_removed st + sum_Z (map (is_status Removed) fds))%Z /\
    sv_renamed st' = (sv_renamed st + sum_Z (map (is_status Renamed) fds))%Z.
Proof.
  revert st. induction fds as [|fd t IH]; intros st Hw Hok; simpl.
  - exists st. do 2 (split; [done|]). repeat split; lia.
  - apply andb_prop in Hok as [Hfd Ht].
    destruct (save_file_ok cid dev st fd Hw Hfd) as (st1 & -> & Hw1 & _ & E1 & E2 & E3 & E4 & E5 & _).
    cbn [res_bind]. destruct (IH st1 Hw1 Ht) as (st2 & -> & Hw2 & F1 & F2 & F3 & F4 & F5).
    exists st2. do 2 (split; [done|]). repeat split; lia.
Qed.

Lemma count_files_sum fs a m r :
  fold_left (fun acc f =>
      let st := fp_status f in
      {| sc_added := sc_added acc + (if decide (st = Added) then 1 else 0);
         sc_modified := sc_modified acc + (if decide (st = Modified) then 1 else 0);
         sc_removed := sc_removed acc + (if decide (st = Removed) then 1 else 0) |}%Z)
    fs (mkStatusCount a m r) =
  mkStatusCount (a + sum_Z (map (is_status Added) fs)) (m + sum_Z (map (is_status Modified) fs))
    (r + sum_Z (map (is_status Removed) fs)).
Proof.
  revert a m r. induction fs as [|f t IH]; intros a m r; simpl.
  - f_equal; lia.
  - rewrite IH. unfold is_status. f_equal; lia.
Qed.

(** ** What ingestion leaves unchanged *)

(** The developers and the baselines. *)
Definition people_same (db db' : Db) : Prop :=
  developers db' = developers db /\ developer_stats db' = developer_stats db /\
  repo_stats db' = repo_stats db.

Lemma people_same_refl db : people_same db db.
Proof. done. Qed.

Lemma people_same_trans x y z : people_same x y -> people_same y z -> people_same x z.
Proof. unfold people_same. intros (-> & -> & ->) (-> & -> & ->). done. Qed.

#[local] Hint Resolve people_same_refl people_same_trans : core.

Lemma put_file_people db f : people_same db (put_file db f).
Proof. unfold put_file. by destruct (existsb _ _). Qed.

Lemma link_file_people db cid f fd : people_same db (link_file db cid f fd).
Proof. unfold link_file. by destruct (existsb _ _). Qed.

Lemma track_rename_people db file fd db1 file1 :
  track_rename db file fd = Ok (db1, file1) -> people_same db db1.
Proof.
  unfold track_rename. destruct (decide _); [|intros; by inv_res].
  destruct (fp_previous_filename fd) as [pn|]; [|discriminate].
  intros H. res_inv. destruct x as [p|]; [apply put_file_people | done].
Qed.

Lemma save_file_people cid dev st fd st' :
  save_file cid dev st fd = Ok st' -> people_same (sv_db st) (sv_db st').
Proof.
  unfold save_file. intros H. res_inv. destruct x1 as [db1 file1].
  res_inv. simpl. eapply people_same_trans; [by eapply track_rename_people|].
  eapply people_same_trans; [apply put_file_people | apply link_file_people].
Qed.

Lemma save_file_changes_people cd cid db dev r :
  save_file_changes cd cid db dev = Ok r -> people_same db (fst (fst r)).
Proof.
  unfold save_file_changes.
  destruct (res_fold_left _ _ _) as [st|e] eqn:E; [|discriminate]. intros H.
  cbn [res_bind] in H. inv_res. simpl.
  refine (res_fold_left_rel (fun s s' => people_same (sv_db s) (sv_db s')) _ _ _ _ _ _ _ E);
    eauto using save_file_people.
Qed.

Lemma process_item_people fetch dev s a s' :
  process_item fetch dev s a = Ok s' -> people_same (fst s) (fst s').
Proof.
  destruct s as [d0 t0]. unfold process_item. intros Hp.
  apply res_bind_Ok in Hp as ([c dt'] & _ & Hp). destruct dt' as [d|]; [|discriminate].
  unfold store_commit in Hp.
  apply res_bind_Ok in Hp as ([[db2 langs] [[[[cc ad] mo] re] rn]] & Hs & Hp).
  injection Hp as <-. apply save_file_changes_people in Hs. exact Hs.
Qed.

Lemma get_commits_pages_people fetch dev pages s s' :
  get_commits_pages fetch dev pages s = Ok s' -> people_same (fst s) (fst s').
Proof.
  revert s. induction pages as [|data rest IH]; intros s Hg; simpl in Hg; [by inv_res|].
  destruct data as [|it its]; [by inv_res|].
  apply res_bind_Ok in Hg as (s1 & Hf & Hg).
  assert (H1 : people_same (fst s) (fst s1)).
  { refine (res_fold_left_rel (fun x y => people_same (fst x) (fst y)) _ _ _ _ _ _ _ Hf);
      eauto using process_item_people. }
  destruct (length _ <? 100)%nat; [by inv_res|]. eauto.
Qed.

Lemma get_commits_people fetch dev pages db db' :
  get_commits fetch dev pages db = Ok db' -> people_same db db'.
Proof.
  unfold get_commits. destruct (get_commits_pages _ _ _ _) as [[db1 dt]|e] eqn:E; [|discriminate].
  intros H. cbn [res_bind] in H. inv_res. exact (get_commits_pages_people _ _ _ _ _ E).
Qed.

(** ** Theorems *)

(** C17. On a file store that satisfies the invariant, and a commit whose
    entries have well-formed patches, non-empty filenames and, when
    renamed, a non-empty previous filename, [save_file_changes] returns;
    the store still satisfies the invariant (unique ids, filenames,
    previous filenames and (commit, file) pairs); and the counts stored in
    the [Commits] row are the changed characters of the patches and the
    numbers of [count_files_by_status], the counts the outlier check
    compares with the baseline. *)
Theorem save_file_changes_ok cd cid db dev :
  store_wf db -> forallb entry_ok (cp_files cd) = true ->
  exists db' langs,
    save_file_changes cd cid db dev =
      Ok (db', langs, (sum_Z (map file_changed_chars (cp_files cd)),
                       sc_added (count_files_by_status (cp_files cd)),
                       sc_modified (count_files_by_status (cp_files cd)),
                       sc_removed (count_files_by_status (cp_files cd)),
                       sum_Z (map (is_status Renamed) (cp_files cd)))) /\
    store_wf db'.
Proof.
  intros Hw Hok. unfold save_file_changes.
  destruct (save_fold cid dev (cp_files cd) (mkSaveState db [] 0 0 0 0 0)%Z Hw Hok)
    as (st & -> & Hw' & E1 & E2 & E3 & E4 & E5).
  cbn [res_bind]. unfold count_files_by_status. rewrite count_files_sum. simpl in *.
  exists (sv_db st), (sv_languages st). split; [|done].
  rewrite E1, E2, E3, E4, E5. reflexivity.
Qed.

Section MergeCommits.
Context (fetch : string -> GhCommit).

(** No parent of the list has an author that is a known developer. *)
Definition unknown_authors (db : Db) (parents : list string) : Prop :=
  Forall (fun url => match gh_author (fetch url) with
                     | None => True
                     | Some u => developers_named db u = []
                     end) parents.

Lemma merge_parents_unknown db parents c0 dt :
  parents <> [] -> unknown_authors db parents ->
  res_fold_left (fun st url =>
      let commit_data := fetch url in
      match gh_author commit_data with
      | None => Ok (Some (gh_data commit_data), snd st)
      | Some username =>
          let* developer := get_developer username db in
          match developer with
          | None => Ok (Some (gh_data commit_data), snd st)
          | Some d => Ok (Some (gh_data commit_data), Some d)
          end
      end) parents (c0, dt) =
  Ok (Some (gh_data (fetch (List.last parents ""))), dt).
Proof.
  revert c0. induction parents as [|u t IH]; intros c0 Hne Hu; [done|].
  inversion Hu as [|? ? Hu1 Ht]; subst. simpl.
  destruct (gh_author (fetch u)) as [name|] eqn:Ea.
  - assert (Hg : get_developer name db = Ok None) by (unfold get_developer; by rewrite Hu1).
    rewrite Hg. cbn [res_bind]. destruct t as [|v t']; [done|]. by apply IH.
  - destruct t as [|v t']; [done|]. by apply IH.
Qed.

(** C31. Writing an entry and reading it back: on a store that
    satisfies the invariant, after [save_file] of a well-formed entry
    whose name is no file's previous filename, [get_file] of that name
    returns the row just written, which carries the name, belongs to the
    commit's files, and, for an added file, is owned by the commit's
    developer. *)
Theorem save_file_get_file cid dev st fd :
  store_wf (sv_db st) -> entry_ok fd = true -> files_prev_named (sv_db st) (fp_filename fd) = [] ->
  exists st' f, save_file cid dev st fd = Ok st' /\ get_file (sv_db st') (fp_filename fd) = Ok (Some f) /\
    filename f = fp_filename fd /\ In (fp_filename fd) (commit_filenames (sv_db st') cid) /\
    (fp_status fd = Added -> file_owner f = Some (dev_id dev)).
Proof.
  intros Hw Hok Hp.
  destruct (save_file_ok cid dev st fd Hw Hok) as (st' & Hs & Hw' & _ & _ & _ & _ & _ & _ & f & Hf & Hl & Ho & Hn).
  specialize (Hn Hp). exists st', f. split; [done|].
  rewrite <- Hn. split; [by apply get_file_in|]. done.
Qed.

(** C19. A merge commit none of whose parents has a known developer as
    author is stored as a commit of the developer of the previous entry
    ([dev_tmp] keeps its value across the loop), with the data of its
    last parent; when it is the first entry of the call, [dev_tmp] is
    unbound and [get_commits] raises [NameError]. *)
Theorem process_merge_unknown dev db dt tmp :
  (1 < length (lc_parents tmp))%nat -> unknown_authors db (lc_parents tmp) ->
  process_item fetch dev (db, dt) tmp =
  match dt with
  | None => Raise NameError
  | Some d => store_commit db d (gh_data (fetch (List.last (lc_parents tmp) "")))
  end.
Proof.
  intros Hl Hu. unfold process_item, commit_source. apply Nat.ltb_lt in Hl. rewrite Hl.
  unfold merge_parents. rewrite merge_parents_unknown; [|intros E; rewrite E in Hl; discriminate|done].
  done.
Qed.

End MergeCommits.

(** ** Witnesses *)

Definition ex_dev : Developer := mkDeveloper 1 "alice" 1 0 0.

Definition ex_db : Db := mkDb [ex_dev] [] [mkFile 1 "b.py" None None] [] [] [] [] [].

Definition ex_payload : CommitPayload :=
  mkCommitPayload 0 "m" 3 1 4
    [mkFilePayload "a.py" Added (Some "+x") None;
     mkFilePayload "b.py" Modified (Some "-y") None;
     mkFilePayload "c.py" Renamed None (Some "b.py");
     mkFilePayload "a.py" Modified None None].

Lemma ex_db_wf : store_wf ex_db.
Proof.
  constructor; simpl.
  - repeat constructor. simpl. tauto.
  - intros f g [<-|[]] [<-|[]] _. done.
  - intros f g p [<-|[]] [<-|[]]. done.
  - constructor.
Qed.

Lemma save_file_changes_ok_witness :
  store_wf ex_db /\ forallb entry_ok (cp_files ex_payload) = true /\
  exists db' langs,
    save_file_changes ex_payload 7 ex_db ex_dev = Ok (db', langs, (4, 1, 2, 0, 1)%Z) /\ store_wf db'.
Proof.
  split; [exact ex_db_wf|]. split; [vm_compute; reflexivity|].
  exact (save_file_changes_ok ex_payload 7 ex_db ex_dev ex_db_wf eq_refl).
Defined.

Lemma save_file_get_file_witness :
  store_wf ex_db /\ entry_ok (mkFilePayload "a.py" Added (Some "+x") None) = true /\
  files_prev_named ex_db "a.py" = [] /\
  exists st' f, save_file 7 ex_dev (mkSaveState ex_db [] 0 0 0 0 0)%Z
                  (mkFilePayload "a.py" Added (Some "+x") None) = Ok st' /\
    get_file (sv_db st') "a.py" = Ok (Some f) /\ filename f = "a.py" /\
    In "a.py" (commit_filenames (sv_db st') 7) /\
    (Added = Added -> file_owner f = Some (dev_id ex_dev)).
Proof.
  assert (H1 : entry_ok (mkFilePayload "a.py" Added (Some "+x") None) = true) by (vm_compute; reflexivity).
  assert (H2 : files_prev_named ex_db "a.py" = []) by reflexivity.
  split; [exact ex_db_wf|]. split; [exact H1|]. split; [exact H2|].
  exact (save_file_get_file 7 ex_dev (mkSaveState ex_db [] 0 0 0 0 0)%Z
           (mkFilePayload "a.py" Added (Some "+x") None) ex_db_wf H1 H2).
Defined.

Definition ex_fetch (url : string) : GhCommit :=
  if String.eqb url "p1" then mkGhCommit None ex_payload else mkGhCommit (Some "ghost") ex_payload.

Definition ex_merge : ListedCommit := mkListedCommit "m" ["p1"; "p2"].

Lemma process_merge_unknown_witness :
  (1 < length (lc_parents ex_merge))%nat /\ unknown_authors ex_fetch ex_db (lc_parents ex_merge) /\
  process_item ex_fetch ex_dev (ex_db, None) ex_merge = Raise NameError.
Proof.
  assert (Hl : (1 < length (lc_parents ex_merge))%nat) by (simpl; lia).
  assert (Hu : unknown_authors ex_fetch ex_db (lc_parents ex_merge))
    by (unfold unknown_authors; repeat constructor).
  split; [exact Hl|]. split; [exact Hu|].
  exact (process_merge_unknown ex_fetch ex_dev ex_db None ex_merge Hl Hu).
Defined.

End Ingest.
