(* ===== verification/Paging.v ===== *)
(** * The paging loops of the ingestion (utils.py)

    [get_commits] (lines 189-234), [get_contributors] (lines 248-263) and
    [get_pulls] (lines 266-280) each run a [while True] loop over the
    pages [1, 2, ...] of a GitHub listing ([per_page=100]): fetch the page,
    process its entries, and stop after a page of fewer than 100 entries
    ([get_commits] also stops on an empty page before processing it).
    The listing is the function [list_page] from page numbers to the JSON
    lists; nothing bounds the loop but the listing, so the loop is
    [while_pages] with fuel, and [None] is the fuel running out.

    The session of the commits loop is the record [Session]: the rows
    committed to the database ([committed]), the rows of the session not
    yet committed ([working]), and [committed_head], the commit row that
    a flush has already inserted with NULL [changed_chars] and file
    counts.  Line 91 of
    [save_file_changes] commits the session in the middle of a commit's
    files: a renamed file whose previous name has a row gets
    [previous_filename = ''] and [db_session.commit()] ([line91_commit]);
    the session commits again after each full page (line 233).
    [process_item_s] is one entry of the loop with these commits.

    The theorems: more fuel never changes a result; with more fuel than
    the number of full pages before the first short one, the loop returns
    what the models of Ingest.v compute on the list of those pages (their
    [pages_fold] form), and what is committed when the session is closed
    is the database after the full pages, unless a line-91 commit on the
    last page has committed more, in which case a commit row whose
    [changed_chars] and file counts are NULL is among the committed
    rows; the contributors loop
    stops exactly when the listing has a short page, and runs out of any
    fuel otherwise. *)

From S2P Require Import Prelude Model Features Ingest.

Module Paging.
Import Model Ingest.

Section Loop.
Context {X A : Type}.

(** [while True:] from page [page]: [body] processes a page and may
    raise; after a full page, [next] runs before the next page is
    fetched. *)
Fixpoint while_pages (list_page : nat -> list X) (body : A -> list X -> res A) (next : A -> A)
    (fuel page : nat) (st : A) : option (res A) :=
  match fuel with
  | 0%nat => None
  | S fuel' =>
      let data := list_page page in
      match body st data with
      | Raise e => Some (Raise e)
      | Ok st' =>
          if (length data <? 100)%nat then Some (Ok st')
          else while_pages list_page body next fuel' (S page) (next st')
      end
  end.

(** The same loop over a list of pages. *)
Fixpoint pages_fold (body : A -> list X -> res A) (next : A -> A) (pages : list (list X)) (st : A)
    : res A :=
  match pages with
  | [] => Ok st
  | data :: rest =>
      let* st' := body st data in
      if (length data <? 100)%nat then Ok st' else pages_fold body next rest (next st')
  end.

End Loop.

(** Pages [page .. page + n - 1] are full. *)
Definition full_until {X} (list_page : nat -> list X) (page n : nat) : Prop :=
  forall i, (i < n)%nat -> (100 <= length (list_page (page + i)))%nat.

(** The columns of a [Commits] row its constructor sets (lines
    225-226), flushed at line 228 before [save_file_changes] runs; its
    counts and [languages] are assigned at line 229, after it returns. *)
Record CommitHead := mkCommitHead {
  ch_id : Z;
  ch_day : Z;
  ch_timestamp : Z;
  ch_message : string;
  ch_new_lines : Z;
  ch_removed_lines : Z;
  ch_developer : option Z
}.

Definition commit_head (cid : Z) (d : Developer) (cd : CommitPayload) : CommitHead :=
  mkCommitHead cid (day_of (cp_date cd)) (cp_date cd) (cp_message cd) (cp_additions cd)
    (cp_deletions cd) (Some (dev_id d)).

(** A SQLAlchemy session: what the database file holds, and the rows the
    session sees (autoflush makes every pending row visible to its
    queries).  A commit inside [save_file_changes] (line 91) stores the
    row of the commit being saved with NULL counts: [committed_head].
    Closing the session ([with DBSession() as ...]) discards what was not
    committed. *)
Record Session := mkSession {
  committed : Db;
  committed_head : option CommitHead;
  working : Db
}.

Definition session_begin (db : Db) : Session := mkSession db None db.

(** [session.commit()] at the end of a page (line 234). *)
Definition session_commit (s : Session) : Session := mkSession (working s) None (working s).

(** utils.py, lines 85-91: a renamed entry whose previous filename is
    held by a row empties that row's previous filename and commits the
    session; the database it commits.  The new [File] of line 83 is not
    yet in the session (it is added at line 98). *)
Definition line91_commit (db : Db) (fd : FilePayload) : option Db :=
  if decide (fp_status fd = Renamed) then
    match fp_previous_filename fd with
    | Some pn =>
        match one_or_none (files_prev_named db pn) with
        | Ok (Some p) => Some (put_file db (mkFile (file_id p) (filename p) (Some "") (file_owner p)))
        | _ => None
        end
    | None => None
    end
  else None.

(** The database of the last commit of line 91 while
    [save_file_changes] saves the entries [fds] from the state [st]. *)
Fixpoint save_commit_point (cid : Z) (dev : Developer) (st : SaveState) (fds : list FilePayload)
    : option Db :=
  match fds with
  | [] => None
  | fd :: t =>
      match save_file cid dev st fd with
      | Ok st' =>
          match save_commit_point cid dev st' t with
          | Some db => Some db
          | None => line91_commit (sv_db st) fd
          end
      | Raise _ => None
      end
  end.

Section Loops.
Context (fetch : string -> GhCommit) (get_user : string -> GhUser) (get_pull : string -> GhPull).

(** Lines 200-231: one entry, on the session: [process_item] on the
    rows the session sees, and the commits of line 91. *)
Definition process_item_s (dev : Developer) (st : Session * option Developer) (tmp : ListedCommit)
    : res (Session * option Developer) :=
  let '(s, dev_tmp) := st in
  let db := working s in
  let* '(commit_data, dev_tmp) := commit_source fetch dev db dev_tmp tmp in
  match dev_tmp with
  | None => Raise NameError
  | Some d =>
      let* '(db', dt) := store_commit db d commit_data in
      let cid := next_commit_id db in
      match save_commit_point cid d (mkSaveState db [] 0 0 0 0 0)%Z (cp_files commit_data) with
      | None => Ok (mkSession (committed s) (committed_head s) db', dt)
      | Some snap => Ok (mkSession snap (Some (commit_head cid d commit_data)) db', dt)
      end
  end.

(** Lines 197-231: the body of [get_commits]' loop, on the session. *)
Definition commits_page (dev : Developer) (st : Session * option Developer)
    (data : list ListedCommit) : res (Session * option Developer) :=
  match data with
  | [] => Ok st
  | _ => res_fold_left (process_item_s dev) data st
  end.

(** Line 234: [db_session.commit()], after a full page. *)
Definition commit_step (st : Session * option Developer) : Session * option Developer :=
  (session_commit (fst st), snd st).

(** utils.py, lines 189-234. *)
Definition get_commits_loop (list_page : nat -> list ListedCommit) (dev : Developer)
    (fuel : nat) (s : Session) : option (res Session) :=
  option_map (res_map fst) (while_pages list_page (commits_page dev) commit_step fuel 1 (s, None)).

(** Lines 259-261: the body of [get_contributors]' loop. *)
Definition contributors_page (db : Db) (data : list Contributor) : res Db :=
  Ok (fold_left (fun db tmp => create_user get_user (ct_login tmp) (ct_contributions tmp) db) data db).

(** utils.py, lines 248-263. *)
Definition get_contributors_loop (list_page : nat -> list Contributor) (fuel : nat) (db : Db)
    : option (res Db) :=
  while_pages list_page contributors_page (fun db => db) fuel 1 db.

(** Lines 272-278: the body of [get_pulls]' loop. *)
Definition pulls_page (db : Db) (data : list PullSummary) : res Db :=
  res_fold_left (save_pull get_pull) data db.

(** utils.py, lines 266-280. *)
Definition get_pulls_loop (list_page : nat -> list PullSummary) (fuel : nat) (db : Db)
    : option (res Db) :=
  while_pages list_page pulls_page (fun db => db) fuel 1 db.

End Loops.

(** ** Lemmas on the loop *)

Section LoopFacts.
Context {X A : Type} (list_page : nat -> list X) (body : A -> list X -> res A) (next : A -> A).

(** More fuel gives the same result. *)
Lemma while_pages_mono fuel fuel' page st r :
  (fuel <= fuel')%nat -> while_pages list_page body next fuel page st = Some r ->
  while_pages list_page body next fuel' page st = Some r.
Proof.
  revert fuel' page st. induction fuel as [|fuel IH]; intros fuel' page st Hle H; [discriminate|].
  destruct fuel' as [|fuel']; [lia|]. simpl in *.
  destruct (body st (list_page page)) as [st'|e]; [|done].
  destruct (length (list_page page) <? 100)%nat; [done|]. apply IH; [lia|done].
Qed.

(** With [n] full pages and then a short one, fuel [n + 1] runs the loop
    over exactly those pages. *)
Lemma while_pages_enough n page st :
  full_until list_page page n -> (length (list_page (page + n)) < 100)%nat ->
  while_pages list_page body next (S n) page st = Some (pages_fold body next (map list_page (seq page (S n))) st).
Proof.
  revert page st. induction n as [|n IH]; intros page st Hfull Hshort.
  - rewrite Nat.add_0_r in Hshort. simpl. destruct (body st (list_page page)) as [st'|e]; [|done].
    by apply Nat.ltb_lt in Hshort as ->.
  - assert (Hp : (100 <= length (list_page page))%nat) by (rewrite <- (Nat.add_0_r page); apply Hfull; lia).
    assert (Hn : (length (list_page page) <? 100)%nat = false) by (apply Nat.ltb_ge; lia).
    change (seq page (S (S n))) with (page :: seq (S page) (S n)).
    cbn [while_pages map pages_fold]. destruct (body st (list_page page)) as [st'|e]; [|done].
    cbn [res_bind]. rewrite Hn. apply IH.
    + intros i Hi. replace (S page + i)%nat with (page + S i)%nat by lia. apply Hfull. lia.
    + by replace (S page + n)%nat with (page + S n)%nat by lia.
Qed.

(** A loop that returns has met a short page or an exception. *)
Lemma while_pages_stops fuel page st r :
  while_pages list_page body next fuel page st = Some r ->
  (exists i, (i < fuel)%nat /\ (length (list_page (page + i)) < 100)%nat) \/
  (exists e, r = Raise e).
Proof.
  revert page st. induction fuel as [|fuel IH]; intros page st H; [discriminate|]. simpl in H.
  destruct (body st (list_page page)) as [st'|e]; [|injection H as <-; right; eauto].
  destruct (Nat.ltb_spec (length (list_page page)) 100) as [Hs|Hs].
  - left. exists 0%nat. rewrite Nat.add_0_r. split; [lia|done].
  - destruct (IH _ _ H) as [(i & Hi & Hl)|He]; [left|by right].
    exists (S i). split; [lia|]. by replace (page + S i)%nat with (S page + i)%nat by lia.
Qed.

End LoopFacts.

(** The first short page at or after [page], when one is known. *)
Lemma first_short {X} (list_page : nat -> list X) page k :
  (length (list_page (page + k)) < 100)%nat ->
  exists n, (n <= k)%nat /\ full_until list_page page n /\ (length (list_page (page + n)) < 100)%nat.
Proof.
  revert page. induction k as [|k IH]; intros page H.
  - exists 0%nat. split; [lia|]. split; [intros i Hi; lia|done].
  - destruct (Nat.ltb_spec (length (list_page page)) 100) as [Hs|Hs].
    + exists 0%nat. rewrite Nat.add_0_r. split; [lia|]. split; [intros i Hi; lia|done].
    + replace (page + S k)%nat with (S page + k)%nat in H by lia.
      destruct (IH (S page) H) as (n & Hn & Hf & Hl). exists (S n). split; [lia|]. split.
      * intros [|i] Hi; [by rewrite Nat.add_0_r|].
        replace (page + S i)%nat with (S page + i)%nat by lia. apply Hf. lia.
      * by replace (page + S n)%nat with (S page + n)%nat by lia.
Qed.

(** ** What the session does to the rows of [commits] *)

Lemma put_file_commits db f : commits (put_file db f) = commits db.
Proof. unfold put_file. by destruct (existsb _ _). Qed.

Lemma link_file_commits db cid f fd : commits (link_file db cid f fd) = commits db.
Proof. unfold link_file. by destruct (existsb _ _). Qed.

Lemma track_rename_commits db file fd db1 file1 :
  track_rename db file fd = Ok (db1, file1) -> commits db1 = commits db.
Proof.
  unfold track_rename. destruct (decide _); [|intros; by inv_res].
  destruct (fp_previous_filename fd) as [pn|]; [|discriminate].
  intros H. res_inv. destruct x as [p|]; [apply put_file_commits | done].
Qed.

Lemma save_file_commits cid dev st fd st' :
  save_file cid dev st fd = Ok st' -> commits (sv_db st') = commits (sv_db st).
Proof.
  unfold save_file. intros H. res_inv. destruct x1 as [db1 file1]. res_inv. simpl.
  rewrite link_file_commits, put_file_commits. by eapply track_rename_commits.
Qed.

Lemma save_fold_commits cid dev fds st st' :
  res_fold_left (save_file cid dev) fds st = Ok st' -> commits (sv_db st') = commits (sv_db st).
Proof.
  apply (res_fold_left_rel (fun a b => commits (sv_db b) = commits (sv_db a))); [done|congruence|].
  intros x a y H. exact (save_file_commits _ _ _ _ _ H).
Qed.

Lemma line91_commit_commits db fd snap : line91_commit db fd = Some snap -> commits snap = commits db.
Proof.
  unfold line91_commit. destruct (decide _) as [Hr|Hr]; [|discriminate].
  destruct (fp_previous_filename fd) as [pn|]; [|discriminate].
  destruct (one_or_none _) as [[p|]|err]; [|discriminate..]. intros [= <-]. apply put_file_commits.
Qed.

(** A commit of line 91 stores the rows of [commits] the session had
    before the entry. *)
Lemma save_commit_point_commits cid dev fds st snap :
  save_commit_point cid dev st fds = Some snap -> commits snap = commits (sv_db st).
Proof.
  revert st. induction fds as [|fd t IH]; intros st H; [discriminate|]. simpl in H.
  destruct (save_file cid dev st fd) as [st'|e] eqn:E; [|discriminate].
  destruct (save_commit_point cid dev st' t) as [db|] eqn:E2.
  - injection H as <-. rewrite (IH _ E2). exact (save_file_commits _ _ _ _ _ E).
  - exact (line91_commit_commits _ _ _ H).
Qed.

Lemma store_commit_commits db d cd db' dt :
  store_commit db d cd = Ok (db', dt) ->
  exists c, commits db' = commits db ++ [c] /\ commit_id c = next_commit_id db.
Proof.
  unfold store_commit, save_file_changes. intros H. res_inv.
  destruct (res_fold_left _ _ _) as [st|e] eqn:E; [|discriminate]. cbn [res_bind] in *. res_inv.
  simpl. rewrite (save_fold_commits _ _ _ _ _ E). simpl. by eexists.
Qed.

Lemma commit_id_le_max c l : In c l -> (commit_id c <= fold_right Z.max 0 (map commit_id l))%Z.
Proof. induction l as [|x t IH]; simpl; [done|]. intros [->|H]; [lia|]. specialize (IH H). lia. Qed.

Lemma next_commit_id_fresh db : ~ In (next_commit_id db) (map commit_id (commits db)).
Proof.
  intros (c & Ec & Hc)%in_map_iff. pose proof (commit_id_le_max _ _ Hc).
  unfold next_commit_id in Ec. lia.
Qed.

(** ** The session and the list model *)

(** The database and the developer the loop carries, seen by the session. *)
Definition proj_db (st : Session * option Developer) : Db * option Developer :=
  (working (fst st), snd st).

Lemma process_item_s_working fetch dev s dt tmp :
  res_map proj_db (process_item_s fetch dev (s, dt) tmp) = process_item fetch dev (working s, dt) tmp.
Proof.
  unfold process_item_s, process_item.
  destruct (commit_source _ _ _ _ _) as [[cd [d|]]|e]; cbn [res_bind]; [|done..].
  destruct (store_commit _ _ _) as [[db' dt']|e]; cbn [res_bind]; [|done].
  by destruct (save_commit_point _ _ _ _).
Qed.

Lemma fold_items_working fetch dev data s dt :
  res_map proj_db (res_fold_left (process_item_s fetch dev) data (s, dt)) =
  res_fold_left (process_item fetch dev) data (working s, dt).
Proof.
  revert s dt. induction data as [|x t IH]; intros s dt; [done|]. cbn [res_fold_left].
  rewrite <- process_item_s_working.
  destruct (process_item_s fetch dev (s, dt) x) as [[s' dt']|e]; cbn [res_bind res_map]; [|done].
  apply IH.
Qed.

(** The session's working database follows the list model page by
    page. *)
Lemma pages_fold_working fetch dev pages s dt :
  res_map proj_db (pages_fold (commits_page fetch dev) commit_step pages (s, dt)) =
  get_commits_pages fetch dev pages (working s, dt).
Proof.
  revert s dt. induction pages as [|data rest IH]; intros s dt; [done|].
  destruct data as [|x t]; [done|]. cbn [pages_fold get_commits_pages commits_page].
  rewrite <- fold_items_working.
  destruct (res_fold_left _ (x :: t) (s, dt)) as [[s' dt']|e]; cbn [res_map res_bind]; [|done].
  destruct (_ <? 100)%nat; [done|]. apply IH.
Qed.

(** An entry keeps what the file holds, or commits at line 91. *)
Lemma process_item_s_committed fetch dev s dt tmp s' dt' :
  process_item_s fetch dev (s, dt) tmp = Ok (s', dt') ->
  (committed_head s' = committed_head s /\ committed s' = committed s) \/
  exists h, committed_head s' = Some h.
Proof.
  unfold process_item_s. intros H. res_inv. destruct x as [cd [d|]]; [|discriminate].
  res_inv. destruct x as [db1 dt1].
  destruct (save_commit_point _ _ _ _); inv_res; simpl; [right; by eexists|by left].
Qed.

(** A page after which no commit of line 91 is pending has left the file
    as it was. *)
Lemma fold_items_committed fetch dev data s dt s' dt' :
  res_fold_left (process_item_s fetch dev) data (s, dt) = Ok (s', dt') ->
  committed_head s' = None -> committed_head s = None /\ committed s' = committed s.
Proof.
  revert s dt. induction data as [|x t IH]; intros s dt H Hn; simpl in H; [by inv_res|].
  apply res_bind_Ok in H as ([s1 d1] & H1 & H2).
  destruct (IH _ _ H2 Hn) as [Hn1 E1].
  destruct (process_item_s_committed _ _ _ _ _ _ _ H1) as [[Eh Ec]|[h Eh]]; [|congruence].
  split; congruence.
Qed.

(** When the last page has left no commit of line 91, what the session
    has committed at the end of the loop is the list model's result on
    the full pages. *)
Lemma pages_fold_committed fetch dev list_page n page s dt s' dt1 :
  committed s = working s -> committed_head s = None ->
  full_until list_page page n -> (length (list_page (page + n)) < 100)%nat ->
  pages_fold (commits_page fetch dev) commit_step (map list_page (seq page (S n))) (s, dt) = Ok (s', dt1) ->
  committed_head s' = None ->
  exists dt', get_commits_pages fetch dev (map list_page (seq page n)) (working s, dt) = Ok (committed s', dt').
Proof.
  revert page s dt. induction n as [|n IH]; intros page s dt Hc Hh Hf Hs H Hn.
  - rewrite Nat.add_0_r in Hs. cbn [seq map pages_fold] in H. exists dt. cbn [get_commits_pages].
    destruct (commits_page fetch dev (s, dt) (list_page page)) as [[s1 d1]|e] eqn:E; [|discriminate].
    cbn [res_bind] in H. apply Nat.ltb_lt in Hs. rewrite Hs in H. injection H as <- <-.
    unfold commits_page in E. destruct (list_page page) as [|x t].
    + injection E as <- <-. by rewrite Hc.
    + destruct (fold_items_committed _ _ _ _ _ _ _ E Hn) as [_ ->]. by rewrite Hc.
  - assert (Hp : (100 <= length (list_page page))%nat)
      by (rewrite <- (Nat.add_0_r page); apply Hf; lia).
    change (seq page (S (S n))) with (page :: seq (S page) (S n)) in H.
    change (seq page (S n)) with (page :: seq (S page) n).
    cbn [map pages_fold get_commits_pages] in *.
    destruct (list_page page) as [|x t] eqn:E; [cbn in Hp; lia|]. cbn [commits_page] in H.
    pose proof (fold_items_working fetch dev (x :: t) s dt) as Hw.
    destruct (res_fold_left (process_item_s fetch dev) (x :: t) (s, dt)) as [[s1 d1]|e]; [|discriminate].
    cbn [res_map res_bind] in *. rewrite <- Hw. cbn [res_bind].
    apply Nat.ltb_ge in Hp. rewrite Hp in *.
    apply (IH (S page) (session_commit s1) d1); [done|done| | |exact H|exact Hn].
    + intros i Hi. replace (S page + i)%nat with (page + S i)%nat by lia. apply Hf. lia.
    + by replace (S page + n)%nat with (page + S n)%nat by lia.
Qed.

(** A row committed with NULL counts is not among the committed rows of
    [commits], and the session has completed it. *)
Definition head_pending (s : Session) : Prop :=
  forall h, committed_head s = Some h ->
    ~ In (ch_id h) (map commit_id (commits (committed s))) /\
    In (ch_id h) (map commit_id (commits (working s))).

Lemma process_item_s_pending fetch dev s dt tmp s' dt' :
  head_pending s -> process_item_s fetch dev (s, dt) tmp = Ok (s', dt') -> head_pending s'.
Proof.
  unfold process_item_s. intros Hp H. res_inv. destruct x as [cd [d|]]; [|discriminate].
  res_inv. destruct x as [db1 dt1].
  destruct (store_commit_commits _ _ _ _ _ H1) as (c & Ec & Ic).
  destruct (save_commit_point _ _ _ _) as [snap|] eqn:Es; inv_res; intros h Eh; simpl in *.
  - injection Eh as <-. simpl. rewrite (save_commit_point_commits _ _ _ _ _ Es). simpl. split.
    + apply next_commit_id_fresh.
    + rewrite Ec, map_app, in_app_iff. right. simpl. left. done.
  - destruct (Hp h Eh) as [H3 H4]. split; [done|]. rewrite Ec, map_app, in_app_iff. by left.
Qed.

Lemma fold_items_pending fetch dev data s dt s' dt' :
  head_pending s -> res_fold_left (process_item_s fetch dev) data (s, dt) = Ok (s', dt') ->
  head_pending s'.
Proof.
  revert s dt. induction data as [|x t IH]; intros s dt Hp H; simpl in H; [by inv_res|].
  apply res_bind_Ok in H as ([s1 d1] & H1 & H2). eapply IH; [|exact H2].
  exact (process_item_s_pending _ _ _ _ _ _ _ Hp H1).
Qed.

Lemma pages_fold_pending fetch dev pages s dt s' dt' :
  head_pending s -> pages_fold (commits_page fetch dev) commit_step pages (s, dt) = Ok (s', dt') ->
  head_pending s'.
Proof.
  revert s dt. induction pages as [|data rest IH]; intros s dt Hp H; simpl in H; [by inv_res|].
  apply res_bind_Ok in H as ([s1 d1] & H1 & H2).
  assert (Hp1 : head_pending s1).
  { unfold commits_page in H1. destruct data; [by inv_res|exact (fold_items_pending _ _ _ _ _ _ _ Hp H1)]. }
  destruct (_ <? 100)%nat; [by inv_res|]. eapply IH; [|exact H2]. by intros h Eh.
Qed.

Lemma get_contributors_fold get_user pages db :
  Ok (get_contributors get_user pages db) = pages_fold (contributors_page get_user) (fun db => db) pages db.
Proof.
  revert db. induction pages as [|data rest IH]; intros db; [done|].
  simpl. destruct (_ <? 100)%nat; [done|]. apply IH.
Qed.

Lemma get_pulls_fold get_pull pages db :
  get_pulls get_pull pages db = pages_fold (pulls_page get_pull) (fun db => db) pages db.
Proof.
  revert db. induction pages as [|data rest IH]; intros db; [done|].
  cbn [get_pulls pages_fold]. unfold pulls_page.
  destruct (res_fold_left (save_pull get_pull) data db) as [db'|e]; [|done]. cbn [res_bind].
  destruct (_ <? 100)%nat; [done|]. apply IH.
Qed.

(** A loop whose body never raises returns no exception. *)
Lemma while_pages_total {X A} (list_page : nat -> list X) (body : A -> list X -> res A) next
    fuel page st r :
  (forall st data, exists st', body st data = Ok st') ->
  while_pages list_page body next fuel page st = Some r -> exists st', r = Ok st'.
Proof.
  intros Hb. revert page st. induction fuel as [|fuel IH]; intros page st H; [discriminate|].
  simpl in H. destruct (Hb st (list_page page)) as (st' & E). rewrite E in H.
  destruct (_ <? 100)%nat; [injection H as <-; eauto | eauto].
Qed.

(** ** Theorems *)

(** The simulation of the paging loop of [get_commits] by the list model. *)
Lemma get_commits_loop_sim fetch list_page dev db n fuel :
  full_until list_page 1 n -> (length (list_page (1 + n)) < 100)%nat -> (n < fuel)%nat ->
  exists r, get_commits_loop fetch list_page dev fuel (session_begin db) = Some r /\
    res_map working r = get_commits fetch dev (map list_page (seq 1 (S n))) db /\
    (forall s, r = Ok s ->
       (committed_head s = None -> get_commits fetch dev (map list_page (seq 1 n)) db = Ok (committed s)) /\
       head_pending s).
Proof.
  intros Hf Hs Hn. unfold get_commits_loop.
  rewrite (while_pages_mono _ _ _ (S n) fuel 1 _ _ ltac:(lia) (while_pages_enough _ _ _ n 1 _ Hf Hs)).
  eexists. split; [reflexivity|]. unfold get_commits, session_begin.
  pose proof (pages_fold_working fetch dev (map list_page (seq 1 (S n))) (mkSession db None db) None) as Hw.
  cbn [working] in Hw.
  destruct (pages_fold _ _ _ _) as [[s d]|e] eqn:E; cbn [res_map res_bind option_map] in *.
  - rewrite <- Hw. split; [done|]. intros s' [= <-]. split.
    + intros Hh. destruct (pages_fold_committed fetch dev list_page n 1 (mkSession db None db) None s d
                            eq_refl eq_refl Hf Hs E Hh) as [dt' Hg].
      simpl in Hg. by rewrite Hg.
    + eapply pages_fold_pending; [|exact E]. by intros h.
  - rewrite <- Hw. split; [done|]. discriminate.
Qed.

(** C14. The [while True] loop of [get_commits], on a listing of [n]
    full pages and then a short page [n + 1] and with more fuel than [n],
    returns; the database its session sees is what the list model
    [Ingest.get_commits] computes on pages [1 .. n + 1].  What the
    database file holds at the end: when no commit of line 91 (a renamed
    entry whose previous filename is held by a row) happened on the last
    page, exactly the model's result on the [n] full pages; otherwise the
    file also holds the row of the commit that was being saved, which
    the committed rows of [commits] do not complete (its counts are
    NULL) while the session does. *)
Theorem get_commits_loop_refines fetch list_page dev db n fuel :
  full_until list_page 1 n -> (length (list_page (1 + n)) < 100)%nat -> (n < fuel)%nat ->
  exists r, get_commits_loop fetch list_page dev fuel (session_begin db) = Some r /\
    res_map working r = get_commits fetch dev (map list_page (seq 1 (S n))) db /\
    (forall s, r = Ok s ->
       (committed_head s = None -> get_commits fetch dev (map list_page (seq 1 n)) db = Ok (committed s)) /\
       head_pending s).
Proof. exact (get_commits_loop_sim fetch list_page dev db n fuel). Qed.

(** C30. The [while True] loop of [get_contributors] stops, for some
    fuel, exactly when the listing has a page of fewer than 100 entries;
    over a listing of full pages it runs out of every fuel. *)
Theorem get_contributors_loop_terminates get_user list_page db :
  (exists fuel r, get_contributors_loop get_user list_page fuel db = Some r) <->
  (exists p, (1 <= p)%nat /\ (length (list_page p) < 100)%nat).
Proof.
  unfold get_contributors_loop. split.
  - intros (fuel & r & H).
    destruct (while_pages_stops _ _ _ _ _ _ _ H) as [(i & _ & Hi) | (e & ->)].
    + exists (1 + i)%nat. split; [lia|done].
    + destruct (while_pages_total _ _ _ _ _ _ _ (fun st data => ex_intro _ _ eq_refl) H). discriminate.
  - intros (p & Hp & Hs). replace p with (1 + (p - 1))%nat in Hs by lia.
    destruct (first_short list_page 1 (p - 1) Hs) as (n & _ & Hf & Hn).
    exists (S n). eexists. exact (while_pages_enough _ _ _ n 1 db Hf Hn).
Qed.

(** ** Witnesses *)

Definition ex_pages (p : nat) : list ListedCommit :=
  if (p =? 1)%nat then repeat (mkListedCommit "c" []) 100 else [].

Lemma get_commits_loop_refines_witness :
  full_until ex_pages 1 1 /\ (length (ex_pages 2) < 100)%nat /\
  exists r, get_commits_loop ex_fetch ex_pages ex_dev 5 (session_begin ex_db) = Some r /\
    res_map working r = get_commits ex_fetch ex_dev (map ex_pages (seq 1 2)) ex_db /\
    (forall s, r = Ok s ->
       (committed_head s = None ->
          get_commits ex_fetch ex_dev (map ex_pages (seq 1 1)) ex_db = Ok (committed s)) /\
       head_pending s).
Proof.
  assert (Hf : full_until ex_pages 1 1).
  { intros i Hi. assert (i = 0%nat) as -> by lia. vm_compute. lia. }
  assert (Hs : (length (ex_pages 2) < 100)%nat) by (vm_compute; lia).
  split; [exact Hf|]. split; [exact Hs|].
  exact (get_commits_loop_refines ex_fetch ex_pages ex_dev ex_db 1 5 Hf Hs ltac:(lia)).
Defined.

(** A file row [mid.py] renamed from [old.py], and a listing of one short
    page whose commit renames [old.py] to [new.py]: line 91 commits in
    the last page, and the file keeps that commit's row with NULL
    counts. *)
Definition ex_rename_db : Db := mkDb [ex_dev] [] [mkFile 1 "mid.py" (Some "old.py") None] [] [] [] [] [].

Definition ex_rename_fetch (url : string) : GhCommit :=
  mkGhCommit (Some "alice")
    (mkCommitPayload 0 "rename" 0 0 0 [mkFilePayload "new.py" Renamed None (Some "old.py")]).

Definition ex_rename_pages (p : nat) : list ListedCommit :=
  if (p =? 1)%nat then [mkListedCommit "c" []] else [].

Lemma get_commits_loop_line91 :
  exists s, get_commits_loop ex_rename_fetch ex_rename_pages ex_dev 3 (session_begin ex_rename_db) = Some (Ok s) /\
    committed_head s = Some (mkCommitHead 1 0 0 "rename" 0 0 (Some 1%Z)) /\ commits (committed s) = [].
Proof. eexists. split; [vm_compute; reflexivity|]. split; vm_compute; reflexivity. Qed.

End Paging.
