(* ===== verification/Baseline.v ===== *)
(** * The behavioural baseline store

    [calculate_global_dev_stats] (utils.py, lines 328-361) and
    [calculate_repo_stats] (lines 364-387): five SQL variance queries
    ([calculate_lines_variance_dev] and its three siblings, lines
    288-325), five SQL averages, and [math.sqrt] of each variance, stored
    as a new row of [DeveloperStats] or [RepoStats].

    [math.sqrt] is [math_sqrt]: the integer square root of [num * den]
    over [den], never above the exact root and equal to it on the square
    of a rational; it raises [ValueError] on a negative number, and
    Python raises [TypeError] on [None] (a NULL variance of the repository
    baseline, which the code does not replace by 0).  A second row with
    the same primary key raises [IntegrityError] at [session.commit()].

    The theorems: the stored developer baseline is the statistics of the
    developer's commit history (the refinement of [get_mean_and_variance]);
    the stored standard deviation is a non-negative root not above the
    variance's; recomputing a developer's baseline fails; the repository
    baseline cannot be computed with fewer than two commits. *)

From S2P Require Import Prelude Stats Model.

Module Baseline.
Import Stats Model.

(** [math.sqrt] *)
Definition math_sqrt (q : Q) : res Q :=
  if Qlt_le_dec q 0 then Raise ValueError
  else Ok (Z.sqrt (Qnum q * Zpos (Qden q)) # Qden q).

(** [math.sqrt(v)] where [v] may be SQL NULL ([None]): the variance
    and its root. *)
Definition math_sqrt_opt (v : option Q) : res (Q * Q) :=
  match v with
  | None => Raise TypeError
  | Some q => let* s := math_sqrt q in Ok (q, s)
  end.

(** [v if v else 0] (lines 334-338): NULL and 0 are falsy. *)
Definition or_zero (v : option Q) : Q :=
  match v with
  | Some q => if Qeq_bool q 0 then 0 else q
  | None => 0
  end.

(** The five columns of [Commits] the baseline is computed over. *)
Definition col_new_lines (c : Commit) : Q := QZ (new_lines c).
Definition col_removed_lines (c : Commit) : Q := QZ (removed_lines c).
Definition col_added_files (c : Commit) : Q := QZ (added_files c).
Definition col_modified_files (c : Commit) : Q := QZ (modified_files c).
Definition col_removed_files (c : Commit) : Q := QZ (removed_files c).

(** [commits JOIN developer ON developer_id = developer.id
    WHERE developer_id = dev]. *)
Definition dev_commits (db : Db) (dev : Z) : list Commit :=
  flat_map (fun c =>
    map (fun _ => c)
      (List.filter (fun d => owned_by (commit_developer c) d && Z.eqb (dev_id d) dev)
         (developers db)))
    (commits db).

(** Lines 288-296 and 308-316 (the two functions run the same query). *)
Definition calculate_lines_variance_dev (db : Db) (attr : Commit -> Q) (dev : Z) : option Q :=
  sql_variance (map attr (dev_commits db dev)).

Definition calculate_files_variance_dev (db : Db) (attr : Commit -> Q) (dev : Z) : option Q :=
  sql_variance (map attr (dev_commits db dev)).

(** Lines 299-305 and 319-325. *)
Definition calculate_lines_variance_repo (db : Db) (attr : Commit -> Q) : option Q :=
  sql_variance (map attr (commits db)).

Definition calculate_files_variance_repo (db : Db) (attr : Commit -> Q) : option Q :=
  sql_variance (map attr (commits db)).

(** [session.add(row); session.commit()] on a table keyed by the
    developer. *)
Definition add_developer_stats (db : Db) (row : DeveloperStats) : res Db :=
  if existsb (fun r => Z.eqb (ds_developer r) (ds_developer row)) (developer_stats db)
  then Raise IntegrityError
  else Ok {| developers := developers db; commits := commits db; files := files db;
             commits_files := commits_files db; commits_stats := commits_stats db;
             developer_stats := developer_stats db ++ [row];
             repo_stats := repo_stats db; pulls := pulls db |}.

(** utils.py, lines 328-361. *)
Definition calculate_global_dev_stats (db : Db) (dev_id : Z) : res Db :=
  let new_lines_var := or_zero (calculate_lines_variance_dev db col_new_lines dev_id) in
  let removed_lines_var := or_zero (calculate_lines_variance_dev db col_removed_lines dev_id) in
  let added_files_var := or_zero (calculate_files_variance_dev db col_added_files dev_id) in
  let modified_files_var :=
    or_zero (calculate_files_variance_dev db col_modified_files dev_id) in
  let removed_files_var := or_zero (calculate_files_variance_dev db col_removed_files dev_id) in
  let cs := dev_commits db dev_id in
  let* new_lines_std := math_sqrt new_lines_var in
  let* removed_lines_std := math_sqrt removed_lines_var in
  let* added_files_std := math_sqrt added_files_var in
  let* modified_files_std := math_sqrt modified_files_var in
  let* removed_files_std := math_sqrt removed_files_var in
  add_developer_stats db
    {| ds_developer := dev_id;
       ds_baseline :=
         {| new_lines_avg := sql_avg (map col_new_lines cs);
            new_lines_std := new_lines_std; new_lines_var := new_lines_var;
            removed_lines_avg := sql_avg (map col_removed_lines cs);
            removed_lines_std := removed_lines_std; removed_lines_var := removed_lines_var;
            added_files_avg := sql_avg (map col_added_files cs);
            added_files_std := added_files_std; added_files_var := added_files_var;
            modified_files_avg := sql_avg (map col_modified_files cs);
            modified_files_std := modified_files_std;
            modified_files_var := modified_files_var;
            removed_files_avg := sql_avg (map col_removed_files cs);
            removed_files_std := removed_files_std;
            removed_files_var := removed_files_var |} |}.

(** utils.py, lines 364-387: the variances are stored as SQLite returns
    them, and [math.sqrt] of a NULL raises. *)
Definition calculate_repo_stats (db : Db) : res Db :=
  let repo_new_lines_var := calculate_lines_variance_repo db col_new_lines in
  let repo_removed_lines_var := calculate_lines_variance_repo db col_removed_lines in
  let repo_added_files_var := calculate_files_variance_repo db col_added_files in
  let repo_modified_files_var := calculate_files_variance_repo db col_modified_files in
  let repo_removed_files_var := calculate_files_variance_repo db col_removed_files in
  let cs := commits db in
  let* '(new_lines_var, new_lines_std) := math_sqrt_opt repo_new_lines_var in
  let* '(removed_lines_var, removed_lines_std) := math_sqrt_opt repo_removed_lines_var in
  let* '(added_files_var, added_files_std) := math_sqrt_opt repo_added_files_var in
  let* '(modified_files_var, modified_files_std) := math_sqrt_opt repo_modified_files_var in
  let* '(removed_files_var, removed_files_std) := math_sqrt_opt repo_removed_files_var in
  let row :=
    {| rs_id := Z.of_nat (S (length (repo_stats db)));
       rs_baseline :=
         {| new_lines_avg := sql_avg (map col_new_lines cs);
            new_lines_std := new_lines_std; new_lines_var := new_lines_var;
            removed_lines_avg := sql_avg (map col_removed_lines cs);
            removed_lines_std := removed_lines_std;
            removed_lines_var := removed_lines_var;
            added_files_avg := sql_avg (map col_added_files cs);
            added_files_std := added_files_std;
            added_files_var := added_files_var;
            modified_files_avg := sql_avg (map col_modified_files cs);
            modified_files_std := modified_files_std;
            modified_files_var := modified_files_var;
            removed_files_avg := sql_avg (map col_removed_files cs);
            removed_files_std := removed_files_std;
            removed_files_var := removed_files_var |} |} in
  Ok {| developers := developers db; commits := commits db; files := files db;
        commits_files := commits_files db; commits_stats := commits_stats db;
        developer_stats := developer_stats db;
        repo_stats := repo_stats db ++ [row]; pulls := pulls db |}.

(** ** What a stored column promises *)

(** [avg], [std] and [var] summarise the values [vals] of a column: the
    variance is that of [get_mean_and_variance], the average is SQL's
    (NULL on no rows, the mean otherwise), and the standard deviation is a
    non-negative root of the variance, from below. *)
Definition column_summarises (vals : list Q) (avg : option Q) (std var : Q) : Prop :=
  (exists m v, get_mean_and_variance vals = Ok (m, v) /\ var == v) /\
  (vals = [] -> avg = None) /\ (vals <> [] -> avg = Some (mean vals)) /\
  0 <= std /\ std * std <= var.

Definition baseline_summarises (cs : list Commit) (b : Baseline) : Prop :=
  column_summarises (map col_new_lines cs) (new_lines_avg b) (new_lines_std b) (new_lines_var b) /\
  column_summarises (map col_removed_lines cs) (removed_lines_avg b) (removed_lines_std b)
    (removed_lines_var b) /\
  column_summarises (map col_added_files cs) (added_files_avg b) (added_files_std b)
    (added_files_var b) /\
  column_summarises (map col_modified_files cs) (modified_files_avg b) (modified_files_std b)
    (modified_files_var b) /\
  column_summarises (map col_removed_files cs) (removed_files_avg b) (removed_files_std b)
    (removed_files_var b).

(** ** Lemmas *)

Lemma math_sqrt_spec q :
  0 <= q -> exists s, math_sqrt q = Ok s /\ 0 <= s /\ s * s <= q /\
    q < (s + (1 # Qden q)) * (s + (1 # Qden q)).
Proof.
  intros Hq. unfold math_sqrt. destruct (Qlt_le_dec q 0) as [H|_]; [lra|].
  eexists. split; [reflexivity|]. destruct q as [n d].
  assert (Hn : (0 <= n)%Z).
  { unfold Qle in Hq. simpl in Hq. lia. }
  pose proof (Z.sqrt_spec (n * Z.pos d) ltac:(nia)) as [H1 H2].
  pose proof (Z.sqrt_nonneg (n * Z.pos d)) as H0.
  set (r := Z.sqrt (n * Z.pos d)) in *. simpl Qden.
  unfold Qle, Qlt, Qmult, Qplus; simpl. repeat split; nia.
Qed.

Lemma math_sqrt_neg q : q < 0 -> math_sqrt q = Raise ValueError.
Proof. intros H. unfold math_sqrt. destruct (Qlt_le_dec q 0); [done|lra]. Qed.

Lemma or_zero_variance vals m v :
  get_mean_and_variance vals = Ok (m, v) -> or_zero (sql_variance vals) == v.
Proof.
  intros H. destruct (sql_variance vals) as [s|] eqn:E.
  - simpl. assert (Hs : s == v) by (eapply (proj2 (sql_variance_agrees _ _ _ H)); done).
    destruct (Qeq_bool s 0) eqn:Z0; [|done]. apply Qeq_bool_iff in Z0. rewrite <- Hs, Z0.
    reflexivity.
  - simpl. apply (proj1 (sql_variance_agrees _ _ _ H)) in E.
    destruct (get_mean_and_variance_cases vals) as [[-> E']|[[_ E']|[Hl _]]];
    try (rewrite E' in H; inv_res; reflexivity). lia.
Qed.

Lemma sql_avg_mean vals : (vals = [] -> sql_avg vals = None) /\
  (vals <> [] -> sql_avg vals = Some (mean vals)).
Proof. destruct vals; split; done. Qed.

Lemma variance_nonneg vals : 0 <= or_zero (sql_variance vals).
Proof.
  destruct (gmv_total vals) as (m & v & E & Hv & _).
  rewrite (or_zero_variance _ _ _ E). done.
Qed.

Lemma column_ok vals : exists std,
  math_sqrt (or_zero (sql_variance vals)) = Ok std /\
  column_summarises vals (sql_avg vals) std (or_zero (sql_variance vals)).
Proof.
  destruct (math_sqrt_spec _ (variance_nonneg vals)) as (s & E & H0 & H1 & _).
  exists s. split; [done|].
  destruct (sql_avg_mean vals) as [Ha1 Ha2].
  destruct (gmv_total vals) as (m & v & Em & _).
  refine (conj _ (conj Ha1 (conj Ha2 (conj H0 H1)))).
  exists m, v. split; [done|]. by apply (or_zero_variance _ _ _ Em).
Qed.

Lemma sql_variance_short vals : (length vals < 2)%nat -> sql_variance vals = None.
Proof.
  intros H. rewrite sql_variance_spec. by destruct (Nat.ltb_spec (length vals) 2); [|lia].
Qed.

Lemma repo_column_ok vals : (2 <= length vals)%nat ->
  exists v s : Q, math_sqrt_opt (sql_variance vals) = Ok (v, s) /\
    column_summarises vals (sql_avg vals) s v.
Proof.
  intros Hl. destruct (gmv_total vals) as (m & w & E & Hw & _).
  destruct (sql_variance_agrees _ _ _ E) as [HN HS].
  destruct (sql_variance vals) as [v|]; [|pose proof (proj1 HN eq_refl); lia].
  specialize (HS v eq_refl).
  destruct (math_sqrt_spec v ltac:(rewrite HS; done)) as (s & Es & H0 & H1 & _).
  exists v, s. simpl. rewrite Es. split; [done|].
  destruct (sql_avg_mean vals) as [Ha1 Ha2].
  refine (conj _ (conj Ha1 (conj Ha2 (conj H0 H1)))). exists m, w. done.
Qed.

Ltac repo_column_step vals Hl :=
  let v := fresh "v" in let s := fresh "s" in let E := fresh "E" in let H := fresh "H" in
  destruct (repo_column_ok vals ltac:(rewrite length_map; exact Hl)) as (v & s & E & H);
  rewrite E; simpl res_bind.

Ltac column_step vals :=
  let s := fresh "s" in let E := fresh "E" in let H := fresh "H" in
  destruct (column_ok vals) as (s & E & H); rewrite E; simpl res_bind.

Lemma dev_stats_Ok db dev :
  exists b, calculate_global_dev_stats db dev = add_developer_stats db (mkDeveloperStats dev b) /\
    baseline_summarises (dev_commits db dev) b.
Proof.
  unfold calculate_global_dev_stats, calculate_lines_variance_dev, calculate_files_variance_dev.
  column_step (map col_new_lines (dev_commits db dev)).
  column_step (map col_removed_lines (dev_commits db dev)).
  column_step (map col_added_files (dev_commits db dev)).
  column_step (map col_modified_files (dev_commits db dev)).
  column_step (map col_removed_files (dev_commits db dev)).
  eexists. split; [reflexivity|]. unfold baseline_summarises; simpl.
  repeat (split; [eassumption|]); eassumption.
Qed.

Lemma calculate_repo_stats_rows db db' :
  calculate_repo_stats db = Ok db' ->
  exists r, repo_stats db' = repo_stats db ++ [r] /\ developers db' = developers db /\
    developer_stats db' = developer_stats db.
Proof.
  unfold calculate_repo_stats.
  repeat (destruct (math_sqrt_opt _) as [[? ?]|]; simpl; [|discriminate]).
  intros H. inv_res. eexists. done.
Qed.

(** A repository of fewer than two commits has no variance:
    [math.sqrt(None)] raises [TypeError]. *)
Lemma calculate_repo_stats_short db :
  (length (commits db) < 2)%nat -> calculate_repo_stats db = Raise TypeError.
Proof.
  intros Hl. unfold calculate_repo_stats, calculate_lines_variance_repo.
  rewrite (sql_variance_short (map col_new_lines (commits db))) by (rewrite length_map; lia).
  done.
Qed.

(** ** Theorems *)

(** [math.sqrt] of a non-negative number returns a non-negative
    root from below, within [1/den] of the exact root, and raises
    [ValueError] on a negative number. *)
Theorem math_sqrt_bounds q :
  (q < 0 -> math_sqrt q = Raise ValueError) /\
  (0 <= q -> exists s, math_sqrt q = Ok s /\ 0 <= s /\ s * s <= q /\
     q < (s + (1 # Qden q)) * (s + (1 # Qden q))).
Proof. split; [apply math_sqrt_neg|apply math_sqrt_spec]. Qed.

(** C6. [calculate_global_dev_stats] adds one [DeveloperStats] row for
    the developer whose every column summarises the developer's commit
    history (variance of [get_mean_and_variance], SQL average, root of
    the variance), and raises [IntegrityError] exactly when the developer
    already has a row. *)
Theorem calculate_global_dev_stats_spec db dev :
  match calculate_global_dev_stats db dev with
  | Raise e => e = IntegrityError /\
      existsb (fun r => Z.eqb (ds_developer r) dev) (developer_stats db) = true
  | Ok db' => exists b,
      developer_stats db' = developer_stats db ++ [mkDeveloperStats dev b] /\
      commits db' = commits db /\ developers db' = developers db /\
      baseline_summarises (dev_commits db dev) b
  end.
Proof.
  destruct (dev_stats_Ok db dev) as (b & -> & Hb). unfold add_developer_stats. simpl.
  destruct (existsb _ _) eqn:E; [done|]. exists b. done.
Qed.

(** C32. A developer's baseline cannot be recomputed: once
    [calculate_global_dev_stats] has stored a row for a developer, running
    it again for that developer raises [IntegrityError]. *)
Theorem calculate_global_dev_stats_twice db dev db' :
  calculate_global_dev_stats db dev = Ok db' ->
  calculate_global_dev_stats db' dev = Raise IntegrityError.
Proof.
  intros H. destruct (dev_stats_Ok db dev) as (b & E & _). rewrite E in H.
  unfold add_developer_stats in H. destruct (existsb _ _); [discriminate|]. inv_res.
  match goal with |- calculate_global_dev_stats ?d dev = _ =>
    destruct (dev_stats_Ok d dev) as (b' & -> & _) end.
  unfold add_developer_stats. simpl. rewrite existsb_app. simpl. rewrite Z.eqb_refl.
  by rewrite orb_true_r.
Qed.

(** C27. [calculate_repo_stats] raises [TypeError] ([math.sqrt(None)])
    exactly when the repository has fewer than two commits; otherwise it
    appends a [RepoStats] row that summarises all commits. *)
Theorem calculate_repo_stats_spec db :
  match calculate_repo_stats db with
  | Raise e => e = TypeError /\ (length (commits db) < 2)%nat
  | Ok db' => (2 <= length (commits db))%nat /\ exists r,
      repo_stats db' = repo_stats db ++ [r] /\ commits db' = commits db /\
      developer_stats db' = developer_stats db /\
      baseline_summarises (commits db) (rs_baseline r)
  end.
Proof.
  unfold calculate_repo_stats, calculate_lines_variance_repo, calculate_files_variance_repo.
  destruct (Nat.ltb_spec (length (commits db)) 2) as [Hl|Hl].
  - rewrite (sql_variance_short (map col_new_lines (commits db))) by (rewrite length_map; lia).
    simpl. done.
  - repo_column_step (map col_new_lines (commits db)) Hl.
    repo_column_step (map col_removed_lines (commits db)) Hl.
    repo_column_step (map col_added_files (commits db)) Hl.
    repo_column_step (map col_modified_files (commits db)) Hl.
    repo_column_step (map col_removed_files (commits db)) Hl.
    split; [done|]. eexists. split; [reflexivity|]. do 2 (split; [done|]).
    unfold baseline_summarises; simpl. repeat (split; [eassumption|]); eassumption.
Qed.

(** ** Witnesses *)

Definition ex_commit (id nl : Z) : Commit :=
  mkCommit id 100 (1000 + id) "fix" nl 2 0 1 1 0 0 (Some 1%Z) [].

Definition ex_db : Db :=
  mkDb [mkDeveloper 1 "alice" 10 0 0] [ex_commit 1 4; ex_commit 2 8; ex_commit 3 6]
    [] [] [] [] [] [].

Lemma math_sqrt_bounds_witness :
  0 <= 9 # 4 /\ exists s, math_sqrt (9 # 4) = Ok s /\ 0 <= s /\ s * s <= 9 # 4 /\
    9 # 4 < (s + (1 # Qden (9 # 4))) * (s + (1 # Qden (9 # 4))).
Proof.
  assert (H : 0 <= 9 # 4) by lra. split; [exact H|].
  exact (proj2 (math_sqrt_bounds (9 # 4)) H).
Defined.

Lemma calculate_global_dev_stats_twice_witness :
  exists db', calculate_global_dev_stats ex_db 1 = Ok db' /\
    calculate_global_dev_stats db' 1 = Raise IntegrityError.
Proof.
  exists (match calculate_global_dev_stats ex_db 1 with Ok d => d | Raise _ => ex_db end).
  assert (H : calculate_global_dev_stats ex_db 1 =
    Ok (match calculate_global_dev_stats ex_db 1 with Ok d => d | Raise _ => ex_db end))
    by (vm_compute; reflexivity).
  split; [exact H|]. exact (calculate_global_dev_stats_twice _ _ _ H).
Defined.

End Baseline.
