(* ===== verification/Driver.v ===== *)
(** * The batch driver (run.py)

    [get_repository_info] (run.py, lines 28-42): the contributors are
    loaded when the [developer] table is empty; then, for each developer,
    the commits are loaded ([get_commits]) and the developer's baseline is
    computed ([calculate_global_dev_stats]); last, the repository baseline
    ([calculate_repo_stats]).  The GitHub responses are the section's
    parameters.

    [get_commits_user] (lines 87-90) runs the paging loop of
    [get_commits] (Paging.v) for the developer ['tofu-rocketry'] in a
    session that is closed without a commit.  [run_script] is the
    script's top level (lines 17-21 and 93-102): a database file that does
    not exist is created empty ([create_tables], models.py 166-167), and
    the repository baseline is computed.

    The theorems: on a database without baselines and with unique
    developer ids, a run of [get_repository_info] that returns leaves
    exactly one [DeveloperStats] row per developer, the condition under
    which [outlier_check] finds the developer's baseline (Outlier.v);
    [get_commits_user] raises [AttributeError] without that developer,
    and otherwise keeps only what was committed: the commits of the full
    pages, or, after a line-91 commit on the last page, a commit row the
    database holds with NULL [changed_chars] and file counts; the top level raises
    [TypeError] on a new database and adds a [RepoStats] row per run. *)

From S2P Require Import Prelude Stats Model Features Ingest Paging Baseline.

Module Driver.
Import Model Ingest Paging Baseline.

Section Driver.
Context (get_user : string -> GhUser) (fetch : string -> GhCommit).

(** Lines 36-40: one developer. *)
Definition load_developer (commit_pages : Developer -> list (list ListedCommit)) (db : Db)
    (dev : Developer) : res Db :=
  let* db := get_commits fetch dev (commit_pages dev) db in
  calculate_global_dev_stats db (dev_id dev).

(** run.py, lines 28-42. *)
Definition get_repository_info (contributors : list (list Contributor))
    (commit_pages : Developer -> list (list ListedCommit)) (db : Db) : res Db :=
  let db := if (length (developers db) =? 0)%nat
            then get_contributors get_user contributors db else db in
  let devs := developers db in
  let* db := res_fold_left (load_developer commit_pages) devs db in
  calculate_repo_stats db.

(** run.py, lines 87-90: [get_commits] for the developer
    ['tofu-rocketry'] (its listing is [list_page dev]); [dev.username]
    raises [AttributeError] when there is none, and the session is closed
    without a commit: what persists is what was committed, the rows and
    the commit row a commit of line 91 left with NULL counts. *)
Definition get_commits_user (list_page : Developer -> nat -> list ListedCommit) (fuel : nat) (db : Db)
    : option (res (Db * option CommitHead)) :=
  match get_developer "tofu-rocketry" db with
  | Raise e => Some (Raise e)
  | Ok None => Some (Raise AttributeError)
  | Ok (Some dev) =>
      option_map (res_map (fun s => (committed s, committed_head s)))
        (get_commits_loop fetch (list_page dev) dev fuel (session_begin db))
  end.

(** ** Lemmas *)

Lemma dev_id_le_max d l : In d l -> (dev_id d <= fold_right Z.max 0 (map dev_id l))%Z.
Proof. induction l as [|x t IH]; simpl; [done|]. intros [->|H]; [lia|]. specialize (IH H). lia. Qed.

Lemma create_user_ids u c db :
  List.NoDup (map dev_id (developers db)) ->
  List.NoDup (map dev_id (developers (create_user get_user u c db))) /\
  developer_stats (create_user get_user u c db) = developer_stats db /\
  repo_stats (create_user get_user u c db) = repo_stats db.
Proof.
  intros Hn. split; [|done]. simpl. rewrite map_app. apply NoDup_snoc; [done|].
  intros (d & Ed & Hd)%in_map_iff. pose proof (dev_id_le_max d _ Hd).
  simpl in Ed. unfold next_dev_id in Ed. lia.
Qed.

Lemma get_contributors_ids pages db :
  List.NoDup (map dev_id (developers db)) ->
  List.NoDup (map dev_id (developers (get_contributors get_user pages db))) /\
  developer_stats (get_contributors get_user pages db) = developer_stats db /\
  repo_stats (get_contributors get_user pages db) = repo_stats db.
Proof.
  revert db. induction pages as [|data rest IH]; intros db Hn; simpl; [done|].
  assert (Hf : forall l db0, List.NoDup (map dev_id (developers db0)) ->
            List.NoDup (map dev_id (developers (fold_left (fun db tmp =>
              create_user get_user (ct_login tmp) (ct_contributions tmp) db) l db0))) /\
            developer_stats (fold_left (fun db tmp =>
              create_user get_user (ct_login tmp) (ct_contributions tmp) db) l db0) =
            developer_stats db0 /\
            repo_stats (fold_left (fun db tmp =>
              create_user get_user (ct_login tmp) (ct_contributions tmp) db) l db0) =
            repo_stats db0).
  { induction l as [|x t IHl]; intros db0 H0; simpl; [done|].
    destruct (create_user_ids (ct_login x) (ct_contributions x) db0 H0) as (H1 & E1 & F1).
    destruct (IHl _ H1) as (H2 & E2 & F2). split; [done|]. by rewrite E2, F2. }
  destruct (Hf data db Hn) as (H1 & E1 & F1).
  destruct (length data <? 100)%nat; [done|]. destruct (IH _ H1) as (H2 & E2 & F2).
  split; [done|]. by rewrite E2, F2.
Qed.

Lemma global_dev_stats_rows db dev db' :
  calculate_global_dev_stats db dev = Ok db' ->
  developers db' = developers db /\
  map ds_developer (developer_stats db') = map ds_developer (developer_stats db) ++ [dev] /\
  repo_stats db' = repo_stats db.
Proof.
  destruct (dev_stats_Ok db dev) as (b & -> & _). unfold add_developer_stats.
  destruct (existsb _ _); [discriminate|]. intros H. inv_res. simpl.
  rewrite map_app. done.
Qed.

Lemma load_developers_rows commit_pages devs db db' :
  res_fold_left (load_developer commit_pages) devs db = Ok db' ->
  developers db' = developers db /\
  map ds_developer (developer_stats db') = map ds_developer (developer_stats db) ++ map dev_id devs /\
  repo_stats db' = repo_stats db.
Proof.
  revert db. induction devs as [|d t IH]; intros db H; simpl in H.
  - inv_res. rewrite app_nil_r. done.
  - apply res_bind_Ok in H as (db1 & H1 & H2). unfold load_developer in H1.
    apply res_bind_Ok in H1 as (db0 & H0 & H1).
    destruct (get_commits_people _ _ _ _ _ H0) as (P1 & P2 & P3).
    destruct (global_dev_stats_rows _ _ _ H1) as (Q1 & Q2 & Q3).
    destruct (IH _ H2) as (R1 & R2 & R3). split; [congruence|]. split; [|congruence].
    rewrite R2, Q2, P2. simpl. by rewrite <- app_assoc.
Qed.

Lemma filter_absent_key (l : list DeveloperStats) i :
  ~ In i (map ds_developer l) -> List.filter (fun r => Z.eqb (ds_developer r) i) l = [].
Proof.
  induction l as [|x t IH]; intros Hn; simpl; [done|].
  destruct (Z.eqb_spec (ds_developer x) i) as [E|E].
  - exfalso. apply Hn. left. done.
  - apply IH. intros Hin. apply Hn. right. done.
Qed.

Lemma filter_unique_key (l : list DeveloperStats) (ids : list Z) i :
  map ds_developer l = ids -> List.NoDup ids -> In i ids ->
  exists ds, List.filter (fun r => Z.eqb (ds_developer r) i) l = [ds].
Proof.
  revert ids. induction l as [|r t IH]; intros ids Hm Hn Hi; simpl in Hm; subst ids; [done|].
  inversion Hn as [|? ? Hr Ht]; subst. simpl.
  destruct (Z.eqb_spec (ds_developer r) i) as [E|E].
  - exists r. f_equal. subst i. by apply filter_absent_key.
  - destruct Hi as [Hi|Hi]; [done|]. exact (IH _ eq_refl Ht Hi).
Qed.

(** What a run of [get_repository_info] that returns leaves: the ids stay
    unique, one [DeveloperStats] row per developer, and the last step is
    [calculate_repo_stats] on a database with the initial [RepoStats]. *)
Lemma get_repository_info_rows contributors commit_pages db db' :
  developer_stats db = [] -> List.NoDup (map dev_id (developers db)) ->
  get_repository_info contributors commit_pages db = Ok db' ->
  List.NoDup (map dev_id (developers db')) /\
  (forall d, In d (developers db') ->
    exists ds, List.filter (fun r => Z.eqb (ds_developer r) (dev_id d)) (developer_stats db') = [ds]) /\
  exists db2, calculate_repo_stats db2 = Ok db' /\ repo_stats db2 = repo_stats db.
Proof.
  intros H0 Hn H. unfold get_repository_info in H.
  set (db1 := if (length (developers db) =? 0)%nat
              then get_contributors get_user contributors db else db) in H.
  assert (H1 : List.NoDup (map dev_id (developers db1)) /\ developer_stats db1 = [] /\
               repo_stats db1 = repo_stats db).
  { subst db1. destruct (length (developers db) =? 0)%nat; [|done].
    destruct (get_contributors_ids contributors db Hn) as (A & B & C). split; [done|]. split; congruence. }
  destruct H1 as (N1 & S1 & T1).
  apply res_bind_Ok in H as (db2 & H2 & H3).
  destruct (load_developers_rows _ _ _ _ H2) as (E1 & E2 & E3).
  destruct (calculate_repo_stats_rows _ _ H3) as (r & _ & F1 & F2).
  rewrite S1 in E2. simpl in E2.
  split; [congruence|]. split.
  - intros d Hd. apply (filter_unique_key _ (map dev_id (developers db1))).
    + rewrite F2, E2. reflexivity.
    + exact N1.
    + apply in_map. rewrite <- E1, <- F1. exact Hd.
  - exists db2. split; [done|]. congruence.
Qed.

(** ** Theorems *)

(** C20. On a database without baselines whose developer ids are unique,
    a run of [get_repository_info] that returns keeps the ids unique and
    leaves exactly one [DeveloperStats] row per developer: the condition
    under which [outlier_check] finds the developer's baseline. *)
Theorem get_repository_info_baselines contributors commit_pages db db' :
  developer_stats db = [] -> List.NoDup (map dev_id (developers db)) ->
  get_repository_info contributors commit_pages db = Ok db' ->
  List.NoDup (map dev_id (developers db')) /\
  forall d, In d (developers db') ->
    exists ds, List.filter (fun r => Z.eqb (ds_developer r) (dev_id d)) (developer_stats db') = [ds].
Proof.
  intros H0 Hn H. destruct (get_repository_info_rows _ _ _ _ H0 Hn H) as (A & B & _). by split.
Qed.

(** C23. [get_commits_user] raises [AttributeError] when no developer
    is named ['tofu-rocketry']; for that developer, on a listing of [n]
    full pages and then a short page, it returns.  When no commit of
    line 91 happened on the last page, the database it leaves is the one
    [get_commits] computes on the [n] full pages only: the commits of the
    last page (all of them when the history fits in one page) are rolled
    back when the session closes.  Otherwise it also leaves a commit row
    with NULL counts, which is none of the complete rows it leaves. *)
Theorem get_commits_user_rollback list_page fuel db :
  (get_developer "tofu-rocketry" db = Ok None ->
     get_commits_user list_page fuel db = Some (Raise AttributeError)) /\
  (forall dev n, get_developer "tofu-rocketry" db = Ok (Some dev) ->
     full_until (list_page dev) 1 n -> (length (list_page dev (1 + n)) < 100)%nat -> (n < fuel)%nat ->
     exists r, get_commits_user list_page fuel db = Some r /\
       forall db' h, r = Ok (db', h) ->
         (h = None -> get_commits fetch dev (map (list_page dev) (seq 1 n)) db = Ok db') /\
         (forall hd, h = Some hd -> ~ In (ch_id hd) (map commit_id (commits db')))).
Proof.
  unfold get_commits_user. split; [intros ->; done|].
  intros dev n Hd Hf Hs Hn. rewrite Hd.
  destruct (get_commits_loop_sim fetch (list_page dev) dev db n fuel Hf Hs Hn) as (r & -> & _ & Hc).
  eexists. split; [reflexivity|]. intros db' h Hr.
  destruct r as [s|e]; [|discriminate]. injection Hr as <- <-.
  destruct (Hc s eq_refl) as [H1 H2]. split; [exact H1|].
  intros hd Eh. exact (proj1 (H2 hd Eh)).
Qed.

End Driver.

(** models.py, lines 166-167: [create_tables] on a new database file:
    every table, empty. *)
Definition create_tables : Db := mkDb [] [] [] [] [] [] [] [].

(** run.py, lines 17-21: the database file named in [config.ini]
    ([None] when it does not exist, and [create_tables] makes it). *)
Definition open_database (file : option Db) : Db :=
  match file with Some db => db | None => create_tables end.

(** run.py, lines 93-102: the top level, the repository baseline,
    committed by [calculate_repo_stats]. *)
Definition run_script (file : option Db) : res Db :=
  let db := open_database file in
  calculate_repo_stats db.

(** The script's top level on a database file that does not exist
    (tables created empty), or on a repository of fewer than two commits,
    raises [TypeError] ([math.sqrt(None)]); each run that returns appends
    one more [RepoStats] row. *)
Theorem run_script_spec :
  run_script None = Raise TypeError /\
  (forall db, (length (commits db) < 2)%nat -> run_script (Some db) = Raise TypeError) /\
  (forall db db', run_script (Some db) = Ok db' -> exists r, repo_stats db' = repo_stats db ++ [r]).
Proof.
  unfold run_script. split; [apply calculate_repo_stats_short; simpl; lia|].
  split; [intros db Hl; by apply calculate_repo_stats_short|].
  intros db db' H. destruct (calculate_repo_stats_rows _ _ H) as (r & Hr & _). by exists r.
Qed.

(** ** Witnesses *)

Definition ex_user (login : string) : GhUser := mkGhUser login 0 5.

Definition ex_fetch (url : string) : GhCommit := mkGhCommit (Some "alice") Ingest.ex_payload.

Definition ex_pages (d : Developer) : list (list ListedCommit) :=
  [[mkListedCommit "c1" []; mkListedCommit "c2" []]].

Definition ex_empty : Db := mkDb [] [] [] [] [] [] [] [].

Definition ex_run : res Db :=
  get_repository_info ex_user ex_fetch [[mkContributor "alice" 3]] ex_pages ex_empty.

Lemma get_repository_info_baselines_witness :
  developer_stats ex_empty = [] /\ List.NoDup (map dev_id (developers ex_empty)) /\
  exists db', get_repository_info ex_user ex_fetch [[mkContributor "alice" 3]] ex_pages ex_empty = Ok db' /\
    List.NoDup (map dev_id (developers db')) /\
    forall d, In d (developers db') ->
      exists ds, List.filter (fun r => Z.eqb (ds_developer r) (dev_id d)) (developer_stats db') = [ds].
Proof.
  assert (H0 : developer_stats ex_empty = []) by reflexivity.
  assert (Hn : List.NoDup (map dev_id (developers ex_empty))) by constructor.
  split; [exact H0|]. split; [exact Hn|].
  exists (match ex_run with Ok d => d | Raise _ => ex_empty end).
  assert (H : get_repository_info ex_user ex_fetch [[mkContributor "alice" 3]] ex_pages ex_empty =
              Ok (match ex_run with Ok d => d | Raise _ => ex_empty end)) by (vm_compute; reflexivity).
  split; [exact H|].
  exact (get_repository_info_baselines ex_user ex_fetch [[mkContributor "alice" 3]] ex_pages
           ex_empty (match ex_run with Ok d => d | Raise _ => ex_empty end) H0 Hn H).
Defined.

Definition ex_tofu : Developer := mkDeveloper 2 "tofu-rocketry" 1 0 0.

Definition ex_listing (d : Developer) (p : nat) : list ListedCommit :=
  if (p =? 1)%nat then [mkListedCommit "c1" []] else [].

Definition ex_tofu_db : Db := mkDb [ex_tofu] [] [] [] [] [] [] [].

Lemma get_commits_user_rollback_witness :
  get_developer "tofu-rocketry" ex_tofu_db = Ok (Some ex_tofu) /\
  exists r, get_commits_user ex_fetch ex_listing 3 ex_tofu_db = Some r /\
    forall db' h, r = Ok (db', h) ->
      (h = None -> get_commits ex_fetch ex_tofu (map (ex_listing ex_tofu) (seq 1 0)) ex_tofu_db = Ok db') /\
      (forall hd, h = Some hd -> ~ In (ch_id hd) (map commit_id (commits db'))).
Proof.
  assert (Hd : get_developer "tofu-rocketry" ex_tofu_db = Ok (Some ex_tofu)) by reflexivity.
  assert (Hf : full_until (ex_listing ex_tofu) 1 0) by (intros i Hi; lia).
  assert (Hs : (length (ex_listing ex_tofu (1 + 0)) < 100)%nat) by (vm_compute; lia).
  split; [exact Hd|].
  exact (proj2 (get_commits_user_rollback ex_fetch ex_listing 3 ex_tofu_db) ex_tofu 0%nat Hd Hf Hs
           ltac:(lia)).
Defined.

End Driver.
