(* ===== verification/Integrity.v ===== *)
(** * Referential integrity of the database (models.py)

    The foreign keys of models.py: [Commits.developer_id],
    [File.owner_id] (the file's [developer_id]), [Pull.developer_id] and
    the developer of [CommitsStats] and [DeveloperStats] name a
    [Developer]; a [CommitsFiles] row names a commit and a file.  SQLite
    does not enforce them (foreign keys are off by default), so they hold
    only if every write of the code keeps them.  [fk_with pending db]
    allows [CommitsFiles] rows of the commits in [pending]: inside
    [save_file_changes] the associations of the commit being stored
    refer to a [Commits] row that [get_commits] appends afterwards.

    The theorems: every write of the ingestion and of the baselines keeps
    the foreign keys, and so does the whole batch [get_repository_info]. *)

From S2P Require Import Prelude Stats Model Features Ingest Baseline Driver.

Module Integrity.
Import Model Ingest Baseline Driver.

Definition dev_ids (db : Db) : list Z := map dev_id (developers db).

(** A nullable [developer_id]. *)
Definition ref_ok (db : Db) (o : option Z) : Prop :=
  match o with
  | None => True
  | Some i => In i (dev_ids db)
  end.

Record fk_with (pending : list Z) (db : Db) : Prop := {
  fk_commits : forall c, In c (commits db) -> ref_ok db (commit_developer c);
  fk_files : forall f, In f (files db) -> ref_ok db (file_owner f);
  fk_commits_files : forall cf, In cf (commits_files db) ->
    In (cf_commit cf) (map commit_id (commits db) ++ pending) /\
    In (cf_file cf) (map file_id (files db));
  fk_commits_stats : forall s, In s (commits_stats db) -> In (cs_developer s) (dev_ids db);
  fk_developer_stats : forall s, In s (developer_stats db) -> In (ds_developer s) (dev_ids db);
  fk_pulls : forall p, In p (pulls db) -> ref_ok db (pull_developer p)
}.

(** The foreign keys of the database. *)
Definition fk_wf (db : Db) : Prop := fk_with [] db.

(** A developer the loop of [get_commits] carries is a developer. *)
Definition dev_in (db : Db) (dt : option Developer) : Prop :=
  match dt with
  | None => True
  | Some d => In d (developers db)
  end.

(** ** Lemmas on single writes *)

Lemma ref_ok_devs db db' o : developers db' = developers db -> ref_ok db o -> ref_ok db' o.
Proof. unfold ref_ok, dev_ids. by intros ->. Qed.

Lemma ref_ok_dev db d : In d (developers db) -> ref_ok db (Some (dev_id d)).
Proof. intros H. by apply in_map. Qed.

Lemma one_or_none_in {A} (l : list A) x : one_or_none l = Ok (Some x) -> In x l.
Proof. destruct l as [|y [|z t]]; simpl; [discriminate| |discriminate]. intros [= ->]. by left. Qed.

Lemma get_developer_in u db d : get_developer u db = Ok (Some d) -> In d (developers db).
Proof. intros H%one_or_none_in. by apply filter_In in H as [H _]. Qed.

Lemma get_file_in_files db name f : get_file db name = Ok (Some f) -> In f (files db).
Proof.
  unfold get_file. destruct (one_or_none (files_named db name)) as [[g|]|e] eqn:E; simpl.
  - intros [= <-]. apply one_or_none_in, filter_In in E. apply E.
  - intros H%one_or_none_in. apply files_prev_named_spec in H. apply H.
  - discriminate.
Qed.

Lemma create_user_fk p get_user u c db : fk_with p db -> fk_with p (create_user get_user u c db).
Proof.
  intros [Hc Hf Hcf Hs Hd Hp]. unfold create_user, set_developers.
  assert (Hm : forall i, In i (dev_ids db) ->
            In i (dev_ids (create_user get_user u c db))).
  { intros i Hi. unfold dev_ids in *. simpl. rewrite map_app. apply in_app_iff. by left. }
  assert (Hr : forall o, ref_ok db o -> ref_ok (create_user get_user u c db) o)
    by (intros [i|]; simpl; auto).
  constructor; simpl; auto.
Qed.

Lemma get_contributors_fk get_user pages db : fk_wf db -> fk_wf (get_contributors get_user pages db).
Proof.
  revert db. induction pages as [|data rest IH]; intros db H; simpl; [done|].
  assert (Hf : forall l db0, fk_wf db0 -> fk_wf (fold_left (fun db tmp =>
             create_user get_user (ct_login tmp) (ct_contributions tmp) db) l db0)).
  { induction l as [|x t IHl]; intros db0 H0; simpl; [done|]. by apply IHl, create_user_fk. }
  destruct (_ <? 100)%nat; [by apply Hf|]. by apply IH, Hf.
Qed.

Lemma save_pull_fk get_pull db pull db' : fk_wf db -> save_pull get_pull db pull = Ok db' -> fk_wf db'.
Proof.
  intros [Hc Hf Hcf Hs Hd Hp] H. unfold save_pull in H.
  destruct (get_developer (ps_login pull) db) as [dev|e] eqn:E; [|discriminate].
  cbn [res_bind] in H. injection H as <-.
  set (db' := set_pulls db _).
  assert (Hr : forall o, ref_ok db o -> ref_ok db' o) by (intros o Ho; exact Ho).
  assert (Hm : forall i, In i (dev_ids db) -> In i (dev_ids db')) by (intros i Hi; exact Hi).
  constructor; simpl; auto.
  intros q [Hq|[<-|[]]]%in_app_iff; [by auto|]. simpl.
  destruct dev as [d|]; [|exact I]. apply ref_ok_dev. exact (get_developer_in _ _ _ E).
Qed.

Lemma get_pulls_fk get_pull pages db db' : fk_wf db -> get_pulls get_pull pages db = Ok db' -> fk_wf db'.
Proof.
  revert db. induction pages as [|data rest IH]; intros db H0 H; simpl in H; [by inv_res|].
  assert (Hf : forall l db0 db1, fk_wf db0 -> res_fold_left (save_pull get_pull) l db0 = Ok db1 ->
             fk_wf db1).
  { induction l as [|x t IHl]; intros db0 db1 Hw Hl; simpl in Hl; [by inv_res|].
    apply res_bind_Ok in Hl as (db2 & H2 & H3). eapply IHl; [|exact H3]. by eapply save_pull_fk. }
  apply res_bind_Ok in H as (db1 & H1 & H2). pose proof (Hf _ _ _ H0 H1) as Hw1.
  destruct (_ <? 100)%nat; [by inv_res|]. by apply (IH db1).
Qed.

Lemma put_file_file_ids db f i :
  In i (map file_id (files db)) -> In i (map file_id (files (put_file db f))).
Proof.
  unfold put_file. destruct (existsb _ _) eqn:E; simpl.
  - intros (y & <- & Hy)%in_map_iff. rewrite map_map. apply in_map_iff. exists y.
    split; [|done]. destruct (Z.eqb_spec (file_id y) (file_id f)); congruence.
  - intros H. rewrite map_app. apply in_app_iff. by left.
Qed.

Lemma put_file_fk p db f : fk_with p db -> ref_ok db (file_owner f) -> fk_with p (put_file db f).
Proof.
  intros [Hc Hf Hcf Hs Hd Hp] Ho.
  assert (Hdev : developers (put_file db f) = developers db) by (unfold put_file; by destruct (existsb _ _)).
  assert (Hr : forall o, ref_ok db o -> ref_ok (put_file db f) o) by (intros o; by apply ref_ok_devs).
  assert (Hid : forall i, In i (dev_ids db) -> In i (dev_ids (put_file db f)))
    by (unfold dev_ids; by rewrite Hdev).
  assert (Ht : commits (put_file db f) = commits db /\ commits_stats (put_file db f) = commits_stats db /\
               developer_stats (put_file db f) = developer_stats db /\ pulls (put_file db f) = pulls db)
    by (unfold put_file; by destruct (existsb _ _)).
  destruct Ht as (E1 & E2 & E3 & E4).
  constructor; rewrite ?E1, ?E2, ?E3, ?E4, ?put_file_commits_files; auto.
  - intros x [->|[Hx _]]%in_put_file; auto.
  - intros cf Hcf'. destruct (Hcf cf Hcf') as [A B]. split; [done|]. by apply put_file_file_ids.
Qed.

Lemma link_file_fk p db cid f fd :
  fk_with p db -> In f (files db) -> In cid p -> fk_with p (link_file db cid f fd).
Proof.
  intros Hw Hf Hp. unfold link_file. destruct (existsb _ _); [done|].
  destruct Hw as [Hc Hf' Hcf Hs Hd Hpl]. unfold set_commits_files.
  constructor; simpl; auto.
  intros cf [Hcf'|[<-|[]]]%in_app_iff; [auto|]. simpl. split.
  - apply in_app_iff. by right.
  - by apply in_map.
Qed.

Lemma track_rename_fk p db file fd db1 file1 :
  fk_with p db -> track_rename db file fd = Ok (db1, file1) ->
  fk_with p db1 /\ developers db1 = developers db /\ file_owner file1 = file_owner file /\
  file_id file1 = file_id file.
Proof.
  intros Hw. unfold track_rename. destruct (decide _); [|intros [= <- <-]; done].
  destruct (fp_previous_filename fd) as [pn|]; [|discriminate].
  destruct (one_or_none (files_prev_named db pn)) as [prev|err] eqn:E; [|discriminate].
  cbn [res_bind]. intros [= <- <-]. simpl. split; [|split; [|done]].
  - destruct prev as [q|]; [|done]. apply put_file_fk; [done|]. simpl.
    apply one_or_none_in, files_prev_named_spec in E as [Hq _]. exact (fk_files _ _ Hw q Hq).
  - destruct prev as [q|]; [|done]. unfold put_file. by destruct (existsb _ _).
Qed.

(** One entry of [save_file_changes]: the file written is owned by a
    developer, and its association names the pending commit. *)
Lemma save_file_fk p cid dev st fd st' :
  In cid p -> In dev (developers (sv_db st)) -> fk_with p (sv_db st) ->
  save_file cid dev st fd = Ok st' ->
  fk_with p (sv_db st') /\ developers (sv_db st') = developers (sv_db st).
Proof.
  intros Hcid Hdev Hw H. unfold save_file in H.
  apply res_bind_Ok in H as (cc & _ & H).
  apply res_bind_Ok in H as (found & Hfound & H).
  apply res_bind_Ok in H as ([db1 file1] & Ht & H). injection H as <-. cbn [sv_db].
  set (file := match found with Some f => f | None => mkFile (next_file_id (sv_db st)) (fp_filename fd) None None end) in Ht.
  assert (Hfo : ref_ok (sv_db st) (file_owner file)).
  { unfold file. destruct found as [f|]; [|done]. apply (fk_files _ _ Hw). by eapply get_file_in_files. }
  destruct (track_rename_fk _ _ _ _ _ _ Hw Ht) as (Hw1 & Hd1 & Ho1 & _).
  set (file2 := set_owner file1 dev fd).
  assert (Ho2 : ref_ok db1 (file_owner file2)).
  { unfold file2, set_owner. destruct (decide _); simpl.
    - apply ref_ok_dev. by rewrite Hd1.
    - rewrite Ho1. by apply (ref_ok_devs (sv_db st)). }
  pose proof (put_file_fk _ _ _ Hw1 Ho2) as Hw2. split.
  - apply link_file_fk; [done | apply put_file_in | done].
  - destruct (link_file_people (put_file db1 file2) cid file2 fd) as [E _]. rewrite E.
    destruct (put_file_people db1 file2) as [E' _]. rewrite E'. exact Hd1.
Qed.

Lemma fk_with_pending p q db : fk_with p db -> (forall i, In i p -> In i q) -> fk_with q db.
Proof.
  intros [Hc Hf Hcf Hs Hd Hp] Hpq. constructor; auto.
  intros cf Hcf'. destruct (Hcf cf Hcf') as [A B]. split; [|done].
  apply in_app_iff in A as [A|A]; apply in_app_iff; [by left | right; auto].
Qed.

Lemma save_fold_fk p cid dev fds st st' :
  In cid p -> In dev (developers (sv_db st)) -> fk_with p (sv_db st) ->
  res_fold_left (save_file cid dev) fds st = Ok st' ->
  fk_with p (sv_db st') /\ developers (sv_db st') = developers (sv_db st).
Proof.
  intros Hcid. revert st. induction fds as [|fd t IH]; intros st Hdev Hw H; simpl in H; [by inv_res|].
  apply res_bind_Ok in H as (st1 & H1 & H2).
  destruct (save_file_fk _ _ _ _ _ _ Hcid Hdev Hw H1) as [Hw1 Hd1].
  destruct (IH st1 ltac:(by rewrite Hd1) Hw1 H2) as [Hw2 Hd2]. split; [done|congruence].
Qed.

(** Appending the commit whose associations were pending. *)
Lemma set_commits_fk p db c :
  fk_with (commit_id c :: p) db -> ref_ok db (commit_developer c) ->
  fk_with p (set_commits db (commits db ++ [c])).
Proof.
  intros [Hc Hf Hcf Hs Hd Hp] Ho. set (db' := set_commits db _).
  assert (Hr : forall o, ref_ok db o -> ref_ok db' o) by (intros o H; exact H).
  assert (Hm : forall i, In i (dev_ids db) -> In i (dev_ids db')) by (intros i H; exact H).
  constructor; simpl; auto.
  - intros x [Hx|[<-|[]]]%in_app_iff; auto.
  - intros cf Hcf'. destruct (Hcf cf Hcf') as [A B]. split; [|done].
    rewrite map_app, <- app_assoc. simpl. exact A.
Qed.

Lemma store_commit_fk db d cd db' dt :
  In d (developers db) -> fk_wf db -> store_commit db d cd = Ok (db', dt) ->
  fk_wf db' /\ developers db' = developers db /\ dt = Some d.
Proof.
  intros Hd Hw H. unfold store_commit in H.
  apply res_bind_Ok in H as ([[db1 langs] [[[[cc ad] mo] re] rn]] & Hs & H). injection H as <- <-.
  unfold save_file_changes in Hs. apply res_bind_Ok in Hs as (st & Hf & Hs). injection Hs as <- _ _ _ _ _ _.
  destruct (save_fold_fk [next_commit_id db] (next_commit_id db) d (cp_files cd)
              (mkSaveState db [] 0 0 0 0 0)%Z st (or_introl eq_refl) Hd
              (fk_with_pending _ _ _ Hw (fun i (H : In i []) => False_ind _ H)) Hf) as [Hw1 Hd1].
  cbn [sv_db] in Hw1, Hd1. split; [|split; [exact Hd1|done]].
  apply set_commits_fk; [exact Hw1|]. apply ref_ok_dev. by rewrite Hd1.
Qed.

Lemma merge_parents_dev (fetch : string -> GhCommit) db parents (x : option CommitPayload) dt cd dt' :
  dev_in db dt ->
  res_fold_left (fun st url =>
      let commit_data := fetch url in
      match gh_author commit_data with
      | None => Ok (Some (gh_data commit_data), snd st)
      | Some username =>
          let* developer := get_developer username db in
          match developer with
          | None => Ok (Some (gh_data commit_data), snd st)
          | Some d => Ok (Some (gh_data commit_data), Some d)
          end
      end) parents (x, dt) = Ok (cd, dt') ->
  dev_in db dt'.
Proof.
  revert x dt. induction parents as [|u t IH]; intros x dt Hdt H; simpl in H; [by inv_res|].
  destruct (gh_author (fetch u)) as [name|]; [|exact (IH _ _ Hdt H)].
  destruct (get_developer name db) as [[d|]|e] eqn:E; simpl in H; [|exact (IH _ _ Hdt H)|discriminate].
  exact (IH _ (Some d) (get_developer_in _ _ _ E) H).
Qed.

Lemma process_item_fk fetch dev db dt tmp db' dt' :
  In dev (developers db) -> dev_in db dt -> fk_wf db ->
  process_item fetch dev (db, dt) tmp = Ok (db', dt') ->
  fk_wf db' /\ developers db' = developers db /\ dev_in db' dt'.
Proof.
  intros Hdev Hdt Hw H. unfold process_item in H.
  apply res_bind_Ok in H as ([cdata dtmp] & H1 & H2).
  assert (Hdtmp : dev_in db dtmp).
  { unfold commit_source in H1. destruct (1 <? length (lc_parents tmp))%nat; [|injection H1 as _ <-; exact Hdev].
    apply res_bind_Ok in H1 as ([cd dt1] & Hm & H1). unfold merge_parents in Hm.
    destruct cd as [c|]; [|discriminate]. injection H1 as _ <-.
    exact (merge_parents_dev _ _ _ _ _ _ _ Hdt Hm). }
  destruct dtmp as [d|]; [|discriminate].
  destruct (store_commit_fk _ _ _ _ _ Hdtmp Hw H2) as (Hw' & Hd' & ->).
  split; [done|]. split; [done|]. simpl. by rewrite Hd'.
Qed.

Lemma get_commits_pages_fk fetch dev pages db dt r :
  In dev (developers db) -> dev_in db dt -> fk_wf db ->
  get_commits_pages fetch dev pages (db, dt) = Ok r -> fk_wf (fst r) /\ developers (fst r) = developers db.
Proof.
  assert (Hfold : forall l db0 dt0 r0, In dev (developers db0) -> dev_in db0 dt0 -> fk_wf db0 ->
            res_fold_left (process_item fetch dev) l (db0, dt0) = Ok r0 ->
            fk_wf (fst r0) /\ developers (fst r0) = developers db0 /\ dev_in (fst r0) (snd r0)).
  { induction l as [|x t IH]; intros db0 dt0 r0 Hd Ht Hw H; simpl in H; [by inv_res|].
    apply res_bind_Ok in H as ([db1 dt1] & H1 & H2).
    destruct (process_item_fk _ _ _ _ _ _ _ Hd Ht Hw H1) as (Hw1 & Hd1 & Ht1).
    destruct (IH _ _ _ ltac:(by rewrite Hd1) Ht1 Hw1 H2) as (Hw2 & Hd2 & Ht2).
    split; [done|]. split; [congruence|done]. }
  revert db dt. induction pages as [|data rest IH]; intros db dt Hd Ht Hw H; simpl in H; [by inv_res|].
  destruct data as [|x t]; [by inv_res|].
  apply res_bind_Ok in H as ([db1 dt1] & H1 & H2).
  destruct (Hfold _ _ _ _ Hd Ht Hw H1) as (Hw1 & Hd1 & Ht1). cbn [fst snd] in *.
  destruct (_ <? 100)%nat; [by inv_res|].
  destruct (IH _ _ ltac:(by rewrite Hd1) Ht1 Hw1 H2) as [Hw2 Hd2]. split; [done|congruence].
Qed.

Lemma get_commits_fk fetch dev pages db db' :
  In dev (developers db) -> fk_wf db -> get_commits fetch dev pages db = Ok db' ->
  fk_wf db' /\ developers db' = developers db.
Proof.
  intros Hd Hw H. unfold get_commits in H.
  apply res_bind_Ok in H as ([db1 dt1] & H1 & H2). injection H2 as <-.
  exact (get_commits_pages_fk _ _ _ _ None _ Hd I Hw H1).
Qed.

Lemma calculate_global_dev_stats_fk db i db' :
  In i (dev_ids db) -> fk_wf db -> calculate_global_dev_stats db i = Ok db' ->
  fk_wf db' /\ developers db' = developers db.
Proof.
  intros Hi Hw H. destruct (dev_stats_Ok db i) as (b & E & _). rewrite E in H.
  unfold add_developer_stats in H. destruct (existsb _ _); [discriminate|]. injection H as <-.
  split; [|done]. destruct Hw as [Hc Hf Hcf Hs Hd Hp].
  constructor; simpl; auto.
  intros s [Hs'|[<-|[]]]%in_app_iff; [auto|exact Hi].
Qed.

Lemma calculate_repo_stats_fk db db' : fk_wf db -> calculate_repo_stats db = Ok db' -> fk_wf db'.
Proof.
  intros [Hc Hf Hcf Hs Hd Hp] H. unfold calculate_repo_stats in H.
  repeat (destruct (math_sqrt_opt _) as [[? ?]|]; simpl in H; [|discriminate]).
  injection H as <-. constructor; simpl; auto.
Qed.

Lemma load_developers_fk fetch commit_pages devs db db' :
  (forall d, In d devs -> In d (developers db)) -> fk_wf db ->
  res_fold_left (load_developer fetch commit_pages) devs db = Ok db' ->
  fk_wf db' /\ developers db' = developers db.
Proof.
  revert db. induction devs as [|d t IH]; intros db Hin Hw H; simpl in H; [by inv_res|].
  apply res_bind_Ok in H as (db2 & H1 & H2). unfold load_developer in H1.
  apply res_bind_Ok in H1 as (dba & Ha & Hb).
  destruct (get_commits_fk _ _ _ _ _ (Hin d (or_introl eq_refl)) Hw Ha) as [Hwa Hda].
  assert (Hid : In (dev_id d) (dev_ids dba))
    by (unfold dev_ids; rewrite Hda; apply in_map, Hin; by left).
  destruct (calculate_global_dev_stats_fk _ _ _ Hid Hwa Hb) as [Hwb Hdb].
  destruct (IH db2) as [Hw2 Hd2]; [|done|done|].
  - intros x Hx. rewrite Hdb, Hda. apply Hin. by right.
  - split; [done|congruence].
Qed.

(** ** Theorems *)

(** C22. The writes of the ingestion keep the foreign keys: from a
    database whose foreign keys hold, a run of the batch
    [get_repository_info] (contributors, commits and their files,
    developer baselines, repository baseline) and a run of [get_pulls]
    that return leave a database whose foreign keys hold. *)
Theorem ingestion_keeps_fk get_user fetch get_pull contributors commit_pages pull_pages db :
  fk_wf db ->
  (forall db', get_repository_info get_user fetch contributors commit_pages db = Ok db' -> fk_wf db') /\
  (forall db', get_pulls get_pull pull_pages db = Ok db' -> fk_wf db').
Proof.
  intros Hw. split; [|intros db'; by apply get_pulls_fk].
  intros db' H. unfold get_repository_info in H.
  set (db1 := if (length (developers db) =? 0)%nat then get_contributors get_user contributors db else db) in H.
  assert (Hw1 : fk_wf db1) by (unfold db1; destruct (_ =? 0)%nat; [by apply get_contributors_fk|done]).
  apply res_bind_Ok in H as (db2 & H2 & H3).
  destruct (load_developers_fk _ _ _ _ _ (fun d Hd => Hd) Hw1 H2) as [Hw2 _].
  exact (calculate_repo_stats_fk _ _ Hw2 H3).
Qed.

(** ** Witnesses *)

Lemma ingestion_keeps_fk_witness :
  fk_wf ex_empty /\
  get_repository_info ex_user ex_fetch [[mkContributor "alice" 3]] ex_pages ex_empty =
    Ok (match ex_run with Ok d => d | Raise _ => ex_empty end) /\
  fk_wf (match ex_run with Ok d => d | Raise _ => ex_empty end).
Proof.
  assert (Hw : fk_wf ex_empty) by (constructor; simpl; tauto).
  assert (H : get_repository_info ex_user ex_fetch [[mkContributor "alice" 3]] ex_pages ex_empty =
              Ok (match ex_run with Ok d => d | Raise _ => ex_empty end)) by (vm_compute; reflexivity).
  pose proof (ingestion_keeps_fk ex_user ex_fetch (fun _ => mkGhPull true "closed")
                [[mkContributor "alice" 3]] ex_pages [] ex_empty Hw) as L.
  split; [exact Hw|]. split; [exact H|]. apply (proj1 L). exact H.
Defined.

End Integrity.
