(* ===== verification/Outlier.v ===== *)
(** * The statistical outlier detector

    [outlier_stats_check] (rule_check.py, lines 91-114) and
    [outlier_check] (lines 117-127).  The check reads the five
    [*_avg]/[*_std] columns of a [DeveloperStats] or a [RepoStats] row:
    Python's duck typing is the class [HasBaseline] with an instance for
    each table.  A NULL average raises [TypeError] ([None + float]).

    The theorems: when every average is defined the check is the
    disjunction, over the five metrics, of "the observed value lies
    strictly outside [mean - std, mean + std]"; when the stored standard
    deviation is the root of the variance this is the squared-deviation
    test [(x - mean)^2 > var] (a refinement to the abstract detector of
    the specification); [outlier_check] flags a commit exactly when the
    repository baseline does, or, for a known developer, the developer's
    baseline does; a known developer without a baseline row makes it
    raise [NoResultFound]; and once [calculate_repo_stats] has run
    twice, it raises [MultipleResultsFound] for a first-time author. *)

From S2P Require Import Prelude Stats Model Features Baseline.

Module Outlier.
Import Stats Model Features Baseline.

(** What [outlier_stats_check] reads of its [stats] argument. *)
Class HasBaseline (S : Type) := baseline_of : S -> Model.Baseline.

#[export] Instance DeveloperStats_baseline : HasBaseline DeveloperStats := ds_baseline.
#[export] Instance RepoStats_baseline : HasBaseline RepoStats := rs_baseline.

(** [upper < x or lower > x] with [upper = avg + std], [lower = avg - std]. *)
Definition out_of_band (avg : option Q) (std : Q) (x : Z) : res bool :=
  match avg with
  | None => Raise TypeError
  | Some a => Ok (Qltb (a + std) (QZ x) || Qltb (QZ x) (a - std))
  end.

(** rule_check.py, lines 91-114: five tests, each returning [True] early. *)
Definition outlier_stats_check {S} `{HasBaseline S} (stats : S) (commit_data : CommitPayload)
    (file_status : StatusCount) : res bool :=
  let b := baseline_of stats in
  let* o := out_of_band (new_lines_avg b) (new_lines_std b) (cp_additions commit_data) in
  if o then Ok true else
  let* o := out_of_band (removed_lines_avg b) (removed_lines_std b) (cp_deletions commit_data) in
  if o then Ok true else
  let* o := out_of_band (added_files_avg b) (added_files_std b) (sc_added file_status) in
  if o then Ok true else
  let* o := out_of_band (modified_files_avg b) (modified_files_std b) (sc_modified file_status) in
  if o then Ok true else
  let* o := out_of_band (removed_files_avg b) (removed_files_std b) (sc_removed file_status) in
  if o then Ok true else Ok false.

(** rule_check.py, lines 117-127. *)
Definition outlier_check (db : Db) (username : string) (commit_data : CommitPayload) : res bool :=
  let files_status := count_files_by_status (cp_files commit_data) in
  let* first := first_commit db username in
  let* dev_out :=
    if negb first then
      let* dev_id := one (map dev_id (developers_named db username)) in
      let* dev_stats :=
        one (List.filter (fun r => Z.eqb (ds_developer r) dev_id) (developer_stats db)) in
      outlier_stats_check dev_stats commit_data files_status
    else Ok false in
  if dev_out then Ok true else
  let* repo_stats := one (repo_stats db) in
  outlier_stats_check repo_stats commit_data files_status.

(** ** The abstract detector *)

(** The five (average, standard deviation, variance, observed value)
    quadruples, in the order of the code. *)
Definition metrics (b : Model.Baseline) (cd : CommitPayload) (fs : StatusCount)
    : list (option Q * Q * Q * Z) :=
  [(new_lines_avg b, new_lines_std b, new_lines_var b, cp_additions cd);
   (removed_lines_avg b, removed_lines_std b, removed_lines_var b, cp_deletions cd);
   (added_files_avg b, added_files_std b, added_files_var b, sc_added fs);
   (modified_files_avg b, modified_files_std b, modified_files_var b, sc_modified fs);
   (removed_files_avg b, removed_files_std b, removed_files_var b, sc_removed fs)].

(** The observed value lies strictly outside [[a - s, a + s]]. *)
Definition outside (a s : Q) (x : Z) : Prop := QZ x < a - s \/ a + s < QZ x.

(** The specification's detector: some metric deviates from its mean by
    more than one standard deviation, i.e. its squared deviation exceeds
    the variance. *)
Definition deviates (a v : Q) (x : Z) : Prop := v < (QZ x - a) * (QZ x - a).

(** Some metric of the baseline [b] flags the commit. *)
Definition flagged (b : Model.Baseline) (cd : CommitPayload) (fs : StatusCount) : Prop :=
  exists a s v x, In (Some a, s, v, x) (metrics b cd fs) /\ outside a s x.

Definition averages_defined (b : Model.Baseline) : Prop :=
  Forall is_Some [new_lines_avg b; removed_lines_avg b; added_files_avg b;
                  modified_files_avg b; removed_files_avg b].

(** The stored standard deviations are the roots of the variances. *)
Definition exact_std (b : Model.Baseline) : Prop :=
  Forall (fun sv => 0 <= fst sv /\ fst sv * fst sv == snd sv)
    [(new_lines_std b, new_lines_var b); (removed_lines_std b, removed_lines_var b);
     (added_files_std b, added_files_var b); (modified_files_std b, modified_files_var b);
     (removed_files_std b, removed_files_var b)].

(** The early-return chain of [outlier_stats_check] over a list of
    metrics. *)
Fixpoint band_chain (l : list (option Q * Q * Q * Z)) : res bool :=
  match l with
  | [] => Ok false
  | (a, s, _, x) :: t => let* o := out_of_band a s x in if o then Ok true else band_chain t
  end.

(** ** Lemmas *)

Lemma outlier_stats_check_chain {S} `{HasBaseline S} (stats : S) cd fs :
  outlier_stats_check stats cd fs = band_chain (metrics (baseline_of stats) cd fs).
Proof.
  unfold outlier_stats_check, metrics. simpl.
  repeat (destruct (out_of_band _ _ _) as [[]|]; simpl; try reflexivity).
Qed.

Lemma out_of_band_Some a s x : out_of_band (Some a) s x = Ok true <-> outside a s x.
Proof.
  unfold out_of_band, outside. split.
  - intros H. injection H as H. apply orb_true_iff in H as [H|H];
      apply Qltb_iff in H; auto.
  - intros [H|H]; f_equal; apply orb_true_iff; [right|left]; by apply Qltb_iff.
Qed.

Lemma outside_deviates a s x : 0 <= s -> outside a s x <-> deviates a (s * s) x.
Proof.
  intros Hs. unfold outside, deviates. split.
  - intros [H|H]; nra.
  - intros H. destruct (Qlt_le_dec (QZ x) (a - s)); [by left|].
    destruct (Qlt_le_dec (a + s) (QZ x)); [by right|]. nra.
Qed.

Lemma band_chain_spec l :
  (forall a s v x, In (a, s, v, x) l -> is_Some a) ->
  exists r, band_chain l = Ok r /\
    (r = true <-> exists a s v x, In (Some a, s, v, x) l /\ outside a s x).
Proof.
  induction l as [|[[[a s] v] x] t IH]; intros Hd.
  - exists false. split; [done|]. split; [discriminate|]. intros (? & ? & ? & ? & [] & _).
  - destruct (Hd a s v x (or_introl eq_refl)) as [a' ->].
    destruct (IH (fun a s v x H => Hd a s v x (or_intror H))) as (r & Er & Hr).
    cbn [band_chain]. destruct (out_of_band (Some a') s x) as [o|] eqn:Eo; [|discriminate].
    simpl. destruct o.
    + exists true. split; [done|]. split; [|done]. intros _.
      exists a', s, v, x. split; [now left|]. by apply out_of_band_Some.
    + exists r. split; [done|]. rewrite Hr. split.
      * intros (a0 & s0 & v0 & x0 & Hin & Ho). eauto 10.
      * intros (a0 & s0 & v0 & x0 & [Heq|Hin] & Ho); [|eauto 10].
        injection Heq as <- <- <- <-. apply out_of_band_Some in Ho. congruence.
Qed.

Lemma metrics_defined b cd fs :
  averages_defined b -> forall a s v x, In (a, s, v, x) (metrics b cd fs) -> is_Some a.
Proof.
  unfold averages_defined. rewrite !Forall_cons. intros (H1 & H2 & H3 & H4 & H5 & _).
  intros a s v x Hin. simpl in Hin.
  repeat (destruct Hin as [Hin|Hin]; [injection Hin; intros; subst; assumption|]). done.
Qed.

Lemma metrics_exact b cd fs :
  exact_std b -> forall a s v x, In (a, s, v, x) (metrics b cd fs) -> 0 <= s /\ s * s == v.
Proof.
  unfold exact_std. rewrite !Forall_cons. intros (H1 & H2 & H3 & H4 & H5 & _).
  intros a s v x Hin. simpl in Hin.
  repeat (destruct Hin as [Hin|Hin]; [injection Hin; intros; subst; assumption|]). done.
Qed.

Lemma check_flagged {S} `{HasBaseline S} (stats : S) cd fs :
  averages_defined (baseline_of stats) ->
  exists r, outlier_stats_check stats cd fs = Ok r /\ (r = true <-> flagged (baseline_of stats) cd fs).
Proof.
  intros Hd. rewrite outlier_stats_check_chain. apply band_chain_spec.
  by apply metrics_defined.
Qed.

Lemma out_of_band_raises E a s x : In TypeError E -> raises_in E (out_of_band a s x).
Proof. intros H. destruct a; simpl; auto. Qed.
#[export] Hint Resolve out_of_band_raises : raises.

Lemma outlier_stats_check_raises {S} `{HasBaseline S} E (stats : S) cd fs :
  In TypeError E -> raises_in E (outlier_stats_check stats cd fs).
Proof. intros HT. unfold outlier_stats_check. raises_auto. Qed.
#[export] Hint Resolve outlier_stats_check_raises : raises.

Lemma outlier_check_raises E db u cd :
  In TypeError E -> In MultipleResultsFound E -> In NoResultFound E ->
  raises_in E (outlier_check db u cd).
Proof. intros. unfold outlier_check. raises_auto. Qed.
#[export] Hint Resolve outlier_check_raises : raises.

(** ** Theorems *)

(** C7. When every average of the baseline is defined,
    [outlier_stats_check] returns, and returns [True] exactly when some
    metric lies strictly outside [[mean - std, mean + std]]. *)
Theorem outlier_stats_check_spec {S} `{HasBaseline S} (stats : S) cd fs :
  averages_defined (baseline_of stats) ->
  exists r, outlier_stats_check stats cd fs = Ok r /\
    (r = true <-> exists a s v x,
       In (Some a, s, v, x) (metrics (baseline_of stats) cd fs) /\ outside a s x).
Proof. apply check_flagged. Qed.

(** Refinement: on a baseline whose standard deviations are the
    roots of its variances, [outlier_stats_check] flags a commit exactly
    when the squared deviation of some metric from its mean exceeds the
    variance. *)
Theorem outlier_stats_check_refines {S} `{HasBaseline S} (stats : S) cd fs :
  averages_defined (baseline_of stats) -> exact_std (baseline_of stats) ->
  (outlier_stats_check stats cd fs = Ok true <->
   exists a s v x, In (Some a, s, v, x) (metrics (baseline_of stats) cd fs) /\ deviates a v x).
Proof.
  intros Hd He. rewrite outlier_stats_check_chain.
  destruct (band_chain_spec _ (metrics_defined _ cd fs Hd)) as (r & -> & Hr).
  pose proof (metrics_exact _ cd fs He) as Hx.
  split.
  - intros Hok. injection Hok as ->. destruct (proj1 Hr eq_refl) as (a & s & v & x & Hin & Ho).
    exists a, s, v, x. split; [done|]. destruct (Hx _ _ _ _ Hin) as [Hs Hv].
    unfold deviates. rewrite <- Hv. by apply outside_deviates.
  - intros (a & s & v & x & Hin & Hdev). f_equal. apply Hr. exists a, s, v, x.
    split; [done|]. destruct (Hx _ _ _ _ Hin) as [Hs Hv]. apply outside_deviates; [done|].
    unfold deviates in *. by rewrite Hv.
Qed.

(** C33. Once [calculate_repo_stats] has run twice (run.py runs it on
    every start), [outlier_check] raises [MultipleResultsFound] for every
    first-time committer: [session.query(RepoStats).one()] finds two rows. *)
Theorem outlier_check_repo_stats_twice db db1 db2 u cd :
  calculate_repo_stats db = Ok db1 -> calculate_repo_stats db1 = Ok db2 ->
  first_commit db2 u = Ok true ->
  outlier_check db2 u cd = Raise MultipleResultsFound.
Proof.
  intros H1 H2 Hf.
  destruct (calculate_repo_stats_rows _ _ H1) as (r1 & R1 & _).
  destruct (calculate_repo_stats_rows _ _ H2) as (r2 & R2 & _).
  unfold outlier_check. rewrite Hf. simpl. rewrite R2, R1.
  destruct (repo_stats db) as [|x l]; simpl; [done|]. by destruct l.
Qed.

(** An author who has a [Developer] row but no [DeveloperStats]
    row (a contributor created after the baseline batch) makes
    [outlier_check] raise [NoResultFound]. *)
Theorem outlier_check_missing_baseline db u cd d :
  developers_named db u = [d] ->
  List.filter (fun r => Z.eqb (ds_developer r) (dev_id d)) (developer_stats db) = [] ->
  outlier_check db u cd = Raise NoResultFound.
Proof.
  intros Hd Hs. unfold outlier_check, first_commit. rewrite Hd. simpl. by rewrite Hs.
Qed.

(** C12. [outlier_check] with a single [RepoStats] row and defined
    averages: for a first-time author it returns, and flags the commit
    exactly when the repository baseline does; for a known developer
    with one [DeveloperStats] row it returns, and flags the commit exactly
    when the developer's or the repository's baseline does. *)
Theorem outlier_check_spec db u cd r :
  repo_stats db = [r] -> averages_defined (rs_baseline r) ->
  let fs := count_files_by_status (cp_files cd) in
  (developers_named db u = [] ->
     exists b, outlier_check db u cd = Ok b /\ (b = true <-> flagged (rs_baseline r) cd fs)) /\
  (forall d ds, developers_named db u = [d] ->
     List.filter (fun x => Z.eqb (ds_developer x) (dev_id d)) (developer_stats db) = [ds] ->
     averages_defined (ds_baseline ds) ->
     exists b, outlier_check db u cd = Ok b /\
       (b = true <-> flagged (ds_baseline ds) cd fs \/ flagged (rs_baseline r) cd fs)).
Proof.
  intros Hr Hrd. cbv zeta. split.
  - intros Hn. unfold outlier_check, first_commit. rewrite Hn. simpl. rewrite Hr. simpl.
    exact (check_flagged r cd _ Hrd).
  - intros d ds Hn Hs Hd. unfold outlier_check, first_commit. rewrite Hn. simpl. rewrite Hs.
    simpl. destruct (@check_flagged _ DeveloperStats_baseline ds cd (count_files_by_status (cp_files cd)) Hd) as (b1 & E1 & H1). rewrite E1. simpl.
    destruct b1.
    + exists true. split; [done|]. split; [intros _; left; by apply H1 | done].
    + rewrite Hr. simpl. destruct (@check_flagged _ RepoStats_baseline r cd (count_files_by_status (cp_files cd)) Hrd) as (b2 & E2 & H2).
      exists b2. split; [done|]. rewrite H2. split; [tauto|].
      intros [F|F]; [apply H1 in F; discriminate | done].
Qed.

(** ** Witnesses *)

Definition ex_stats : DeveloperStats :=
  mkDeveloperStats 1 (mkBaseline (Some 10) 2 4 (Some 3) 1 1 (Some 1) 1 1 (Some 2) 1 1 (Some 0) 0 0).

Definition ex_payload (add : Z) : CommitPayload :=
  mkCommitPayload 0 "msg" add 3 (add + 3) [mkFilePayload "a.py" Added None None;
                                           mkFilePayload "b.py" Modified None None].

Lemma ex_stats_defined : averages_defined (baseline_of ex_stats).
Proof. repeat econstructor. Qed.

Lemma ex_stats_exact : exact_std (baseline_of ex_stats).
Proof. repeat (constructor; [split; [simpl; lra|reflexivity]|]). constructor. Qed.

Lemma outlier_stats_check_spec_witness :
  averages_defined (baseline_of ex_stats) /\
  exists r, outlier_stats_check ex_stats (ex_payload 13) (count_files_by_status (cp_files (ex_payload 13))) = Ok r /\
    (r = true <-> exists a s v x,
       In (Some a, s, v, x) (metrics (baseline_of ex_stats) (ex_payload 13)
                               (count_files_by_status (cp_files (ex_payload 13)))) /\
       outside a s x).
Proof. split; [exact ex_stats_defined|]. apply outlier_stats_check_spec. exact ex_stats_defined. Defined.

Lemma outlier_stats_check_refines_witness :
  averages_defined (baseline_of ex_stats) /\ exact_std (baseline_of ex_stats) /\
  (outlier_stats_check ex_stats (ex_payload 11) (count_files_by_status (cp_files (ex_payload 11))) = Ok true <->
   exists a s v x, In (Some a, s, v, x) (metrics (baseline_of ex_stats) (ex_payload 11)
                     (count_files_by_status (cp_files (ex_payload 11)))) /\ deviates a v x).
Proof.
  split; [exact ex_stats_defined|]. split; [exact ex_stats_exact|].
  apply outlier_stats_check_refines; [exact ex_stats_defined|exact ex_stats_exact].
Defined.

Definition ex_repo : RepoStats := mkRepoStats 1 (ds_baseline ex_stats).

Definition ex_repo_db : Db :=
  mkDb [mkDeveloper 1 "alice" 10 0 0] [] [] [] [] [ex_stats] [ex_repo] [].

Lemma outlier_check_spec_witness :
  repo_stats ex_repo_db = [ex_repo] /\ averages_defined (rs_baseline ex_repo) /\
  (developers_named ex_repo_db "bob" = [] ->
     exists b, outlier_check ex_repo_db "bob" (ex_payload 13) = Ok b /\
       (b = true <-> flagged (rs_baseline ex_repo) (ex_payload 13)
                       (count_files_by_status (cp_files (ex_payload 13))))).
Proof.
  split; [reflexivity|]. split; [exact ex_stats_defined|].
  exact (proj1 (outlier_check_spec ex_repo_db "bob" (ex_payload 13) ex_repo eq_refl ex_stats_defined)).
Defined.

Lemma outlier_check_repo_stats_twice_witness :
  exists db1 db2, calculate_repo_stats ex_db = Ok db1 /\ calculate_repo_stats db1 = Ok db2 /\
    first_commit db2 "bob" = Ok true /\
    outlier_check db2 "bob" (ex_payload 5) = Raise MultipleResultsFound.
Proof.
  set (db1 := match calculate_repo_stats ex_db with Ok d => d | Raise _ => ex_db end).
  set (db2 := match calculate_repo_stats db1 with Ok d => d | Raise _ => ex_db end).
  assert (H1 : calculate_repo_stats ex_db = Ok db1) by (vm_compute; reflexivity).
  assert (H2 : calculate_repo_stats db1 = Ok db2) by (vm_compute; reflexivity).
  assert (H3 : first_commit db2 "bob" = Ok true) by (vm_compute; reflexivity).
  exists db1, db2. split; [exact H1|]. split; [exact H2|]. split; [exact H3|].
  exact (outlier_check_repo_stats_twice _ _ _ _ _ H1 H2 H3).
Defined.

Lemma outlier_check_missing_baseline_witness :
  developers_named ex_db "alice" = [mkDeveloper 1 "alice" 10 0 0] /\
  List.filter (fun r => Z.eqb (ds_developer r) 1) (developer_stats ex_db) = [] /\
  outlier_check ex_db "alice" (ex_payload 5) = Raise NoResultFound.
Proof.
  split; [reflexivity|]. split; [reflexivity|].
  apply (outlier_check_missing_baseline _ _ _ (mkDeveloper 1 "alice" 10 0 0)); reflexivity.
Defined.

End Outlier.
