(* ===== verification/Pipeline.v ===== *)
(** * The batch and the webhook together

    The two programs of anomaluser share the database: the batch
    (run.py, [get_repository_info]) writes the developers, their commits,
    one [DeveloperStats] row per developer and a [RepoStats] row; the
    webhook's [outlier_check] (rule_check.py, lines 117-127) reads them
    back with SQLAlchemy's [one()], which raises [NoResultFound] or
    [MultipleResultsFound] unless exactly one row matches.

    This file composes Driver.v and Outlier.v: after one run of the
    batch on a database without baselines, the lookups of
    [outlier_check] all find their row, so for a username held by at
    most one developer the check raises nothing but the [TypeError] of a
    NULL average; a first-time author is always checked; and a
    developer whose baseline has its averages is always checked.  A
    contributor the batch loaded without any commit gets a baseline of
    NULL averages, so the check of that developer's pushes raises. *)

From S2P Require Import Prelude Stats Model Features Ingest Paging Baseline Driver Outlier.

Module Pipeline.
Import Model Features Ingest Baseline Driver Outlier.

(** ** Lemmas *)

Lemma calculate_repo_stats_defined db db' :
  calculate_repo_stats db = Ok db' ->
  exists r, repo_stats db' = repo_stats db ++ [r] /\ averages_defined (rs_baseline r) /\
    developers db' = developers db /\ developer_stats db' = developer_stats db.
Proof.
  intros H. destruct (Nat.lt_ge_cases (length (commits db)) 2) as [Hl|Hl].
  { rewrite calculate_repo_stats_short in H by done. discriminate. }
  unfold calculate_repo_stats in H.
  repeat (destruct (math_sqrt_opt _) as [[? ?]|]; simpl in H; [|discriminate]).
  inv_res. eexists. split; [reflexivity|]. split; [|done].
  destruct (commits db) as [|c t]; [simpl in Hl; lia|].
  repeat (constructor; [eexists; reflexivity|]). constructor.
Qed.

Lemma one_singleton {A} (x : A) : one [x] = Ok x.
Proof. reflexivity. Qed.

(** The lookups of [outlier_check] on a database with one [RepoStats] row
    with its averages and one [DeveloperStats] row per developer. *)
Lemma outlier_check_lookups db u cd r :
  repo_stats db = [r] -> averages_defined (rs_baseline r) ->
  (forall d, In d (developers db) ->
     exists ds, List.filter (fun x => Z.eqb (ds_developer x) (dev_id d)) (developer_stats db) = [ds]) ->
  (length (developers_named db u) <= 1)%nat ->
  raises_in [TypeError] (outlier_check db u cd) /\
  (developers_named db u = [] -> exists b, outlier_check db u cd = Ok b) /\
  (forall d ds, developers_named db u = [d] ->
     List.filter (fun x => Z.eqb (ds_developer x) (dev_id d)) (developer_stats db) = [ds] ->
     averages_defined (ds_baseline ds) -> exists b, outlier_check db u cd = Ok b).
Proof.
  intros Hr Hrd Hds Hl.
  set (fs := count_files_by_status (cp_files cd)).
  destruct (check_flagged r cd fs Hrd) as (br & Ebr & _).
  assert (Hrepo : res_bind (one (repo_stats db)) (fun rs => outlier_stats_check rs cd fs) = Ok br)
    by (rewrite Hr; exact Ebr).
  unfold outlier_check, first_commit. fold fs.
  destruct (developers_named db u) as [|d [|d' t]] eqn:E; [| |simpl in Hl; lia]; cbn [one_or_none res_bind negb].
  - rewrite Hrepo. split; [done|]. split; [by exists br|]. by intros ? ? ?.
  - assert (Hd : In d (developers db)).
    { assert (Hin : In d (developers_named db u)) by (rewrite E; by left).
      apply filter_In in Hin. apply Hin. }
    destruct (Hds d Hd) as [ds Eds]. cbn [map]. rewrite one_singleton. cbn [res_bind].
    rewrite Eds, one_singleton. cbn [res_bind].
    split; [|split; [discriminate|]].
    + pose proof (outlier_stats_check_raises [TypeError] ds cd fs (or_introl eq_refl)) as HT.
      destruct (outlier_stats_check ds cd fs) as [[|]|e]; simpl; [done|by rewrite Hrepo|done].
    + intros d0 ds0 Heq Eds0 Hdd. injection Heq as <-. rewrite Eds0 in Eds. injection Eds as Eq. subst.
      destruct (@check_flagged _ DeveloperStats_baseline ds cd fs Hdd) as (bd & Ebd & _). rewrite Ebd.
      destruct bd; [by exists true|]. rewrite Hrepo. by exists br.
Qed.

Section Pipeline.
Context (get_user : string -> GhUser) (fetch : string -> GhCommit).

(** ** Theorems *)

(** C21. After a run of the batch [get_repository_info] that returns,
    from a database without baselines and with unique developer ids,
    the webhook's [outlier_check] for a username held by at most one
    developer never fails on a lookup ([NoResultFound],
    [MultipleResultsFound]): it raises at most the [TypeError] of a NULL
    average; it returns for a first-time author; and it returns for a
    developer whose baseline has its averages. *)
Theorem batch_enables_outlier_check contributors commit_pages db db' u cd :
  developer_stats db = [] -> repo_stats db = [] -> List.NoDup (map dev_id (developers db)) ->
  get_repository_info get_user fetch contributors commit_pages db = Ok db' ->
  (length (developers_named db' u) <= 1)%nat ->
  raises_in [TypeError] (outlier_check db' u cd) /\
  (developers_named db' u = [] -> exists b, outlier_check db' u cd = Ok b) /\
  (forall d ds, developers_named db' u = [d] ->
     List.filter (fun x => Z.eqb (ds_developer x) (dev_id d)) (developer_stats db') = [ds] ->
     averages_defined (ds_baseline ds) -> exists b, outlier_check db' u cd = Ok b).
Proof.
  intros H0 Hr0 Hn H Hl.
  destruct (get_repository_info_rows get_user fetch _ _ _ _ H0 Hn H) as (_ & Hds & db2 & H2 & E2).
  destruct (calculate_repo_stats_defined _ _ H2) as (r & Er & Hrd & _).
  rewrite E2, Hr0 in Er. exact (outlier_check_lookups db' u cd r Er Hrd Hds Hl).
Qed.

End Pipeline.

(** ** Witnesses *)

(** Alice has two commits in the listing; Bob, a contributor, has none. *)
Definition ex_pages2 (d : Developer) : list (list ListedCommit) :=
  if String.eqb (username d) "alice" then [[mkListedCommit "c1" []; mkListedCommit "c2" []]] else [].

Definition ex_contributors : list (list Contributor) :=
  [[mkContributor "alice" 3; mkContributor "bob" 1]].

Definition ex_batch : Db :=
  match get_repository_info ex_user ex_fetch ex_contributors ex_pages2 ex_empty with
  | Ok d => d
  | Raise _ => ex_empty
  end.

Lemma ex_batch_run :
  get_repository_info ex_user ex_fetch ex_contributors ex_pages2 ex_empty = Ok ex_batch.
Proof. vm_compute. reflexivity. Qed.

(** Bob's baseline has NULL averages: after the batch, the check of a
    push by Bob raises [TypeError]. *)
Lemma batch_no_commit_contributor :
  outlier_check ex_batch "bob" Ingest.ex_payload = Raise TypeError.
Proof. vm_compute. reflexivity. Qed.

Lemma batch_enables_outlier_check_witness :
  developer_stats ex_empty = [] /\ repo_stats ex_empty = [] /\
  List.NoDup (map dev_id (developers ex_empty)) /\
  get_repository_info ex_user ex_fetch ex_contributors ex_pages2 ex_empty = Ok ex_batch /\
  (length (developers_named ex_batch "alice") <= 1)%nat /\
  raises_in [TypeError] (outlier_check ex_batch "alice" Ingest.ex_payload).
Proof.
  assert (H0 : developer_stats ex_empty = []) by reflexivity.
  assert (Hr : repo_stats ex_empty = []) by reflexivity.
  assert (Hn : List.NoDup (map dev_id (developers ex_empty))) by constructor.
  assert (Hl : (length (developers_named ex_batch "alice") <= 1)%nat) by (vm_compute; lia).
  do 4 (split; [assumption || exact ex_batch_run|]). split; [exact Hl|].
  exact (proj1 (batch_enables_outlier_check ex_user ex_fetch ex_contributors ex_pages2 ex_empty
                  ex_batch "alice" Ingest.ex_payload H0 Hr Hn ex_batch_run Hl)).
Defined.

End Pipeline.
