(* ===== verification/Trust.v ===== *)
(** * The trust evaluator

    [is_trusted] (rule_check.py, lines 140-148) and its six predicates:
    [is_contributor] (151-152, through [user_contributions], utils.py
    22-28), [recent_account] (155-159), [commits_threshold] (162-165),
    [first_commit] (168-170), [commits_per_day] (173-179) and
    [rejected_pulls] (182-189).  Each predicate is a function of the
    database, the configuration and the environment, returning a [res];
    [recent_account] returns [None] for an author without a [Developer]
    row, as the Python function falls off its end.  [user_contributions]
    returns an [int] or the [str] ['0'] ([PyValue]), which
    [is_contributor] converts with [int()] ([py_int]).

    The theorems: Python's rounding is monotone, hence the verdict is
    monotone in the predicates; the rejected-pulls predicate ignores its
    threshold (any threshold in [[0, 1)] means "at most half rejected");
    a first-time committer gets the "not a recent account" point; the
    verdict of a first-time committer in closed form; the errors the
    evaluator raises; and, since [CommitsStats.date] is a SQLite [Date]
    column whose bind processor accepts only [datetime.date] values
    ([date_param]), a day passed as a [str] makes the evaluator raise
    [TypeError] ([is_trusted_str]). *)

From S2P Require Import Prelude Stats Model.

Module Trust.
Import Model.

(** A Python value of the types a function may return where the code
    mixes them: an [int] or a [str]. *)
Inductive PyValue :=
  | PyInt (n : Z)
  | PyStr (s : string).

(** The digits of a decimal numeral, most significant first. *)
Fixpoint decimal_digits (s : string) (acc : Z) : option Z :=
  match s with
  | EmptyString => Some acc
  | String c t =>
      let d := (Z.of_nat (nat_of_ascii c) - 48)%Z in
      if (0 <=? d)%Z && (d <=? 9)%Z then decimal_digits t (10 * acc + d)%Z else None
  end.

(** [int(v)]: an [int] is itself; a [str] must be a decimal numeral,
    optionally signed, or [ValueError] (surrounding blanks and
    underscores, which Python also accepts, are not modelled). *)
Definition py_int (v : PyValue) : res Z :=
  match v with
  | PyInt n => Ok n
  | PyStr s =>
      let parsed :=
        match s with
        | String "-" (String _ _ as t) => option_map Z.opp (decimal_digits t 0)
        | String "+" (String _ _ as t) => decimal_digits t 0
        | String _ _ => decimal_digits s 0
        | EmptyString => None
        end in
      match parsed with
      | Some n => Ok n
      | None => Raise ValueError
      end
  end.


Section Trust.
Context (cfg : Config) (env : Env).

(** utils.py, lines 22-28: the [int] [total_count] of the search, or
    the [str] ['0']. *)
Definition user_contributions (username : string) : PyValue :=
  match search_total_count env username with
  | Some n => PyInt n
  | None => PyStr "0"
  end.

(** rule_check.py, lines 151-152: [int(user_contributions(username)) != 0]. *)
Definition is_contributor (username : string) : res bool :=
  let* n := py_int (user_contributions username) in
  Ok (negb (Z.eqb n 0)).

Definition seconds_per_day : Z := 86400.

(** rule_check.py, lines 155-159: [None] when there is no such developer. *)
Definition recent_account (db : Db) (username : string) : res (option bool) :=
  let* dev := one_or_none (developers_named db username) in
  match dev with
  | Some d =>
      let date_diff := (today env - account_creation d / seconds_per_day)%Z in
      Ok (Some (Z.leb date_diff (min_time_contributor cfg)))
  | None => Ok None
  end.

(** [not x] for the value of [recent_account]: [None] is falsy. *)
Definition py_not_opt (b : option bool) : bool :=
  match b with
  | Some true => false
  | _ => true
  end.

(** rule_check.py, lines 162-165. *)
Definition commits_threshold (db : Db) (username : string) : res bool :=
  let number_commits := QZ (Z.of_nat (length (commits_of_user db username))) in
  let total_commits := QZ (Z.of_nat (length (commits db))) in
  let* r := py_div number_commits total_commits in
  Ok (Qle_bool (few_commits_threshold cfg) (py_round_n 2 r)).

(** [query(CommitsStats.number_commits).join(Developer)
      .filter(Developer.username == u, CommitsStats.date == day)] *)
Definition stats_of_user_day (db : Db) (username : string) (day : Z) : list Z :=
  flat_map (fun s =>
    map (fun _ => cs_number_commits s)
      (List.filter (fun d => Z.eqb (cs_developer s) (dev_id d) && Z.eqb (cs_date s) day)
         (developers_named db username)))
    (commits_stats db).

(** [SELECT SUM(number_commits) ... WHERE date == day]: NULL on no rows. *)
Definition day_total (db : Db) (day : Z) : option Z :=
  match List.filter (fun s => Z.eqb (cs_date s) day) (commits_stats db) with
  | [] => None
  | rows => Some (fold_right Z.add 0%Z (map cs_number_commits rows))
  end.

(** The Python value bound to [day] in [CommitsStats.date == day]: a
    [datetime.date] (a day number) or a [str]. *)
Inductive DayArg :=
  | DateArg (d : Z)
  | StrArg (s : string).

(** The bind processor of SQLAlchemy's SQLite [Date] type, the type of
    the column [CommitsStats.date] (models.py, line 82): a
    [datetime.date] is bound, any other value raises [TypeError] when the
    query is executed. *)
Definition date_param (day : DayArg) : res Z :=
  match day with
  | DateArg d => Ok d
  | StrArg _ => Raise TypeError
  end.

(** rule_check.py, lines 173-179.  The first query (line 174) binds
    [day]; a result row is a one-element tuple, truthy even when it
    holds 0. *)
Definition commits_per_day (db : Db) (username : string) (day_arg : DayArg) : res bool :=
  let* day := date_param day_arg in
  let total := day_total db day in
  let* row := one_or_none (stats_of_user_day db username day) in
  match row with
  | Some n =>
      match total with
      | None => Raise TypeError
      | Some t =>
          let* r := py_div (QZ n) (QZ t) in
          Ok (Qle_bool (same_day_commits cfg) (py_round_n 1 r))
      end
  | None => Ok false
  end.

Definition is_rejected (p : Pull) : bool :=
  String.eqb (pull_state p) "closed" && negb (pull_merged p).

(** rule_check.py, lines 182-189. *)
Definition rejected_pulls (db : Db) (username : string) : res bool :=
  let pulls := length (pulls_of_user db username) in
  let pulls_rejected := length (List.filter is_rejected (pulls_of_user db username)) in
  if (0 <? pulls)%nat then
    let* r := py_div (QZ (Z.of_nat pulls_rejected)) (QZ (Z.of_nat pulls)) in
    Ok (Qle_bool (py_round r) (rejected_pr cfg))
  else Ok true.

(** The verdict on [tmp] true predicates: [round(tmp / 6, 1) >= threshold]. *)
Definition trust_verdict (tmp : Z) : bool :=
  Qle_bool (trust_threshold cfg) (py_round_n 1 (QZ tmp / 6)).

(** rule_check.py, lines 140-148. *)
Definition is_trusted (db : Db) (username : string) (day : DayArg) : res bool :=
  let* contributor := is_contributor username in
  let tmp := b2Z contributor in
  let* recent := recent_account db username in
  let tmp := (tmp + b2Z (py_not_opt recent))%Z in
  let* few := commits_threshold db username in
  let tmp := (tmp + b2Z few)%Z in
  let* first := first_commit db username in
  let tmp := (tmp + b2Z (negb first))%Z in
  let* per_day := commits_per_day db username day in
  let tmp := (tmp + b2Z per_day)%Z in
  let* rejected := rejected_pulls db username in
  let tmp := (tmp + b2Z rejected)%Z in
  Ok (trust_verdict tmp).

(** ** Lemmas *)

Lemma py_div_nonzero a b : ~ b == 0 -> py_div a b = Ok (a / b).
Proof.
  intros H. unfold py_div. destruct (Qeq_bool b 0) eqn:E; [|done].
  apply Qeq_bool_iff in E. contradiction.
Qed.

Lemma QZ_nat_pos n : (0 < n)%nat -> ~ QZ (Z.of_nat n) == 0.
Proof.
  intros H Hz. unfold QZ in Hz. change 0 with (inject_Z 0) in Hz.
  rewrite inject_Z_injective in Hz. lia.
Qed.

Lemma commits_of_user_nobody db u :
  developers_named db u = [] -> commits_of_user db u = [].
Proof.
  unfold commits_of_user. intros ->. induction (commits db); simpl; done.
Qed.

Lemma pulls_of_user_nobody db u :
  developers_named db u = [] -> pulls_of_user db u = [].
Proof.
  unfold pulls_of_user. intros ->. induction (pulls db); simpl; done.
Qed.

Lemma stats_of_user_day_nobody db u day :
  developers_named db u = [] -> stats_of_user_day db u day = [].
Proof.
  unfold stats_of_user_day. intros ->. induction (commits_stats db); simpl; done.
Qed.

(** [int()] of what [user_contributions] returns never raises. *)
Lemma is_contributor_Ok u :
  is_contributor u =
  Ok (negb (Z.eqb (match search_total_count env u with Some n => n | None => 0%Z end) 0)).
Proof. unfold is_contributor, user_contributions. by destruct (search_total_count env u). Qed.

Lemma is_contributor_raises E u : raises_in E (is_contributor u).
Proof. by rewrite is_contributor_Ok. Qed.

Lemma recent_account_raises E db u :
  In MultipleResultsFound E -> raises_in E (recent_account db u).
Proof. intros. unfold recent_account. raises_auto. Qed.

Lemma commits_threshold_raises E db u :
  In ZeroDivisionError E -> raises_in E (commits_threshold db u).
Proof. intros. unfold commits_threshold. raises_auto. Qed.

Lemma commits_per_day_raises E db u day :
  In MultipleResultsFound E -> In TypeError E -> In ZeroDivisionError E ->
  raises_in E (commits_per_day db u day).
Proof. intros. unfold commits_per_day, date_param. raises_auto. Qed.

Lemma rejected_pulls_raises E db u :
  In ZeroDivisionError E -> raises_in E (rejected_pulls db u).
Proof. intros. unfold rejected_pulls. raises_auto. Qed.

#[local] Hint Resolve is_contributor_raises recent_account_raises commits_threshold_raises commits_per_day_raises
  rejected_pulls_raises : raises.

Lemma commits_per_day_str db u s : commits_per_day db u (StrArg s) = Raise TypeError.
Proof. reflexivity. Qed.

(** With a [str] day, [commits_per_day] raises [TypeError] at its first
    query: [is_trusted] never returns. *)
Lemma is_trusted_str E db u s :
  In MultipleResultsFound E -> In TypeError E -> In ZeroDivisionError E ->
  raises_one_of E (is_trusted db u (StrArg s)).
Proof. intros. unfold is_trusted. rewrite commits_per_day_str. raises_one_auto. Qed.

Lemma is_trusted_raises E db u day :
  In MultipleResultsFound E -> In TypeError E -> In ZeroDivisionError E ->
  raises_in E (is_trusted db u day).
Proof. intros. unfold is_trusted. raises_auto. Qed.

(** ** Theorems *)

(** The trust verdict is monotone in the number of satisfied
    predicates: Python's rounding to one decimal preserves the order, so
    an author who satisfies more predicates is never less trusted. *)
Theorem trust_verdict_mono k1 k2 :
  (k1 <= k2)%Z -> trust_verdict k1 = true -> trust_verdict k2 = true.
Proof.
  unfold trust_verdict. intros Hk H. apply Qle_bool_iff in H. apply Qle_bool_iff.
  eapply Qle_trans; [exact H|]. apply py_round_n_mono.
  apply Qmult_le_compat_r; [|unfold Qle; simpl; lia]. unfold QZ. by rewrite <- inject_Z_le_iff.
Qed.

(** C8. [rejected_pulls] rounds the rejection rate to an integer before
    comparing it with its threshold: for every threshold in [[0, 1)] the
    predicate holds exactly when the author has no pull request or at most
    half of them were closed without merge (a rate of exactly one half
    rounds to 0). *)
Theorem rejected_pulls_threshold db u :
  0 <= rejected_pr cfg < 1 ->
  rejected_pulls db u =
  Ok (Nat.eqb (length (pulls_of_user db u)) 0 ||
      Nat.leb (2 * length (List.filter is_rejected (pulls_of_user db u)))
              (length (pulls_of_user db u))).
Proof.
  intros [T0 T1]. unfold rejected_pulls.
  set (n := length (pulls_of_user db u)).
  set (k := length (List.filter is_rejected (pulls_of_user db u))).
  assert (Hk : (k <= n)%nat) by apply filter_length_le.
  destruct (Nat.ltb_spec 0 n) as [Hn|Hn]; [|replace n with 0%nat by lia; done].
  rewrite py_div_nonzero by (apply QZ_nat_pos; lia). simpl res_bind.
  unfold py_round, QZ. rewrite round_ratio by lia.
  replace (Nat.eqb n 0) with false by (symmetry; apply Nat.eqb_neq; lia). cbn [orb].
  destruct (Z.leb_spec (2 * Z.of_nat k) (Z.of_nat n)).
  - replace (Nat.leb (2 * k) n) with true by (symmetry; apply Nat.leb_le; lia).
    f_equal. by apply Qle_bool_iff.
  - replace (Nat.leb (2 * k) n) with false by (symmetry; apply Nat.leb_gt; lia).
    f_equal. destruct (Qle_bool (inject_Z 1) _) eqn:E; [|done].
    apply Qle_bool_iff in E. change (inject_Z 1) with 1 in E. lra.
Qed.

(** C2. For an author without a [Developer] row, [recent_account]
    returns [None] and [not None] is [True]: a first-time committer gets
    the "account is not recent" point.  With a non-empty commit table the
    verdict is, in closed form, that of
    [is_contributor + 2 + (0 >= Few_Commits_Threshold)]. *)
Theorem is_trusted_first_time db u day :
  developers_named db u = [] -> commits db <> [] ->
  recent_account db u = Ok None /\
  exists c, is_contributor u = Ok c /\
  is_trusted db u (DateArg day) =
  Ok (trust_verdict (b2Z c + 2 + b2Z (Qle_bool (few_commits_threshold cfg) 0))).
Proof.
  intros Hd Hc.
  assert (Hr : recent_account db u = Ok None) by (unfold recent_account; by rewrite Hd).
  split; [done|]. eexists. split; [apply is_contributor_Ok|].
  unfold is_trusted. rewrite is_contributor_Ok. simpl res_bind. rewrite Hr. simpl res_bind.
  unfold commits_threshold. rewrite commits_of_user_nobody by done.
  rewrite py_div_nonzero by (apply QZ_nat_pos; destruct (commits db); [done|simpl; lia]).
  simpl res_bind. unfold first_commit. rewrite Hd. simpl res_bind.
  unfold commits_per_day. cbn [date_param res_bind]. rewrite stats_of_user_day_nobody by done. simpl res_bind.
  unfold rejected_pulls. rewrite pulls_of_user_nobody by done. simpl.
  assert (Z0 : py_round_n 2 (QZ (Z.of_nat 0) / QZ (Z.of_nat (length (commits db)))) == 0).
  { unfold py_round_n, QZ, Qdiv. change (inject_Z (Z.of_nat 0)) with 0.
    rewrite !Qmult_0_l. reflexivity. }
  rewrite (Qle_bool_comp _ _ _ _ (Qeq_refl _) Z0). do 2 f_equal. lia.
Qed.

(** An empty commit table makes [commits_threshold] divide by zero:
    [is_trusted] raises [ZeroDivisionError] for any author with at most
    one [Developer] row. *)
Theorem is_trusted_no_commits db u day :
  commits db = [] -> (length (developers_named db u) <= 1)%nat ->
  is_trusted db u day = Raise ZeroDivisionError.
Proof.
  intros Hc Hd. unfold is_trusted. rewrite is_contributor_Ok. cbn [res_bind]. unfold recent_account.
  destruct (developers_named db u) as [|d [|d' l]] eqn:E; simpl in Hd; try lia; simpl;
  unfold commits_threshold, py_div; rewrite Hc; reflexivity.
Qed.

(** Two [CommitsStats] rows for the same author and day (which the
    daily batch produces, see [DailyStats]) make [commits_per_day], and so
    [is_trusted], raise [MultipleResultsFound]. *)
Theorem commits_per_day_duplicate db u day :
  (2 <= length (stats_of_user_day db u day))%nat ->
  commits_per_day db u (DateArg day) = Raise MultipleResultsFound.
Proof.
  intros H. unfold commits_per_day. simpl date_param. cbn [res_bind].
  destruct (stats_of_user_day db u day) as [|x [|y l]]; simpl in H; [lia|lia|done].
Qed.

End Trust.

#[export] Hint Resolve is_trusted_raises is_trusted_str : raises.

(** ** Witnesses *)

Definition ex_cfg : Config :=
  mkConfig ["py"; "sh"] 2 (1 # 2) (1 # 2) 2 10 (1 # 2) 30 (1 # 10) (1 # 2) (1 # 2).

Definition ex_env : Env := mkEnv 20000 (fun _ => Some 5%Z).

Definition ex_commit (id : Z) : Commit := mkCommit id 5 (1000 + id) "fix" 3 1 10 0 1 0 0 (Some 1%Z) [].

Definition ex_stats_row : CommitsStats :=
  mkCommitsStats 5 2 1000 1100 50 0 4 4 4 0 10 10 10 0 3 3 3 0 0 0 1 0 0 0 1.

(** Alice: 10 pull requests, 6 of them closed without merge. *)
Definition ex_trust_db : Db :=
  mkDb [mkDeveloper 1 "alice" 10 0 0] [ex_commit 1; ex_commit 2] [] []
    [ex_stats_row; ex_stats_row] [] []
    (repeat (mkPull false "closed" (Some 1%Z)) 6 ++ repeat (mkPull true "closed" (Some 1%Z)) 4).

Lemma rejected_pulls_threshold_witness :
  0 <= rejected_pr ex_cfg < 1 /\
  rejected_pulls ex_cfg ex_trust_db "alice" =
  Ok (Nat.eqb (length (pulls_of_user ex_trust_db "alice")) 0 ||
      Nat.leb (2 * length (List.filter is_rejected (pulls_of_user ex_trust_db "alice")))
              (length (pulls_of_user ex_trust_db "alice"))).
Proof.
  assert (H : 0 <= rejected_pr ex_cfg < 1) by (simpl; lra).
  split; [exact H|]. exact (rejected_pulls_threshold ex_cfg ex_trust_db "alice" H).
Defined.

Lemma is_trusted_first_time_witness :
  developers_named ex_trust_db "bob" = [] /\ commits ex_trust_db <> [] /\
  recent_account ex_cfg ex_env ex_trust_db "bob" = Ok None /\
  exists c, is_contributor ex_env "bob" = Ok c /\
  is_trusted ex_cfg ex_env ex_trust_db "bob" (DateArg 5) =
  Ok (trust_verdict ex_cfg (b2Z c + 2 + b2Z (Qle_bool (few_commits_threshold ex_cfg) 0))).
Proof.
  assert (H1 : developers_named ex_trust_db "bob" = []) by reflexivity.
  assert (H2 : commits ex_trust_db <> []) by discriminate.
  split; [exact H1|]. split; [exact H2|]. exact (is_trusted_first_time _ _ _ _ 5 H1 H2).
Defined.

Lemma is_trusted_no_commits_witness :
  commits (mkDb [] [] [] [] [] [] [] []) = [] /\
  (length (developers_named (mkDb [] [] [] [] [] [] [] []) "bob") <= 1)%nat /\
  is_trusted ex_cfg ex_env (mkDb [] [] [] [] [] [] [] []) "bob" (DateArg 5) = Raise ZeroDivisionError.
Proof.
  assert (H1 : commits (mkDb [] [] [] [] [] [] [] []) = []) by reflexivity.
  assert (H2 : (length (developers_named (mkDb [] [] [] [] [] [] [] []) "bob") <= 1)%nat)
    by (simpl; lia).
  split; [exact H1|]. split; [exact H2|]. exact (is_trusted_no_commits _ _ _ _ (DateArg 5) H1 H2).
Defined.

Lemma commits_per_day_duplicate_witness :
  (2 <= length (stats_of_user_day ex_trust_db "alice" 5))%nat /\
  commits_per_day ex_cfg ex_trust_db "alice" (DateArg 5) = Raise MultipleResultsFound.
Proof.
  assert (H : (2 <= length (stats_of_user_day ex_trust_db "alice" 5))%nat)
    by (vm_compute; lia).
  split; [exact H|]. exact (commits_per_day_duplicate ex_cfg _ _ _ H).
Defined.

End Trust.
