(* ===== verification/Rules.v ===== *)
(** * The deterministic rule evaluator

    [rules_violated] (rule_check.py, lines 15-24) and its rule
    predicates: [touched_sensitive_files] (27-34),
    [not_first_never_touched] (37-47), [not_first_owned_files] (50-55),
    [adds_and_does_not_touch] (58-61) with [is_major_contributor_to_files]
    (64-73); it also calls [outlier_check] ([Outlier]) and [is_trusted]
    ([Trust]).  The queries [files_already_touched] and [owned_files]
    (130-136), which the code does not call, are modelled as well.
    Python sets of file names are stdpp [gset string]s; the dictionary of
    [is_major_contributor_to_files] is a [gmap string Z].

    The theorems: the violation score is [k * 100 / 7] for the number [k]
    of rules that hold, and since the code evaluates only six rules it
    never exceeds [600 / 7] (the specification promises seven rules and a
    score up to 100); the stale-familiarity rule does not depend on the
    author's history (the set difference of a set with its subset is
    empty); a first-time committer never triggers rules 2 and 3; the
    sensitive-file rule is monotone in the touched files; a file is a
    major contribution exactly when the summed changed lines of its rows
    in the query of lines 66-67 reach the threshold, and that query only
    has rows for the files the author owns, each counted with all of the
    author's commits; the scoring raises only [ZeroDivisionError],
    [MultipleResultsFound], [NoResultFound] or [TypeError], and with the
    day passed as a [str] (as the webhook does) it always raises. *)

From S2P Require Import Prelude Stats Model Features Baseline Outlier Trust.

Module Rules.
Import Model Features Outlier Trust.

Section Rules.
Context (cfg : Config) (env : Env).

(** rule_check.py, lines 27-34: [touched_files] is a Python set. *)
Definition touched_sensitive_files (touched_files : gset string) : bool :=
  let extensions := map extension (elements touched_files) in
  let total := length (List.filter (fun e => existsb (String.eqb e) (sensitive_files cfg))
                         extensions) in
  Z.leb (sensitive_files_threshold cfg) (Z.of_nat total).

(** [commit.files]: the names of the files a commit is associated with. *)
Definition files_of_commit (db : Db) (c : Commit) : list string :=
  flat_map (fun cf =>
    if Z.eqb (cf_commit cf) (commit_id c)
    then map filename (List.filter (fun f => Z.eqb (file_id f) (cf_file cf)) (files db))
    else [])
    (commits_files db).

(** rule_check.py, lines 37-47.  Python's [and] evaluates
    [not first_commit(...)] before the division. *)
Definition not_first_never_touched (db : Db) (username : string) (touched_files : gset string)
    : res bool :=
  let commits_dev := commits_of_user db username in
  let user_touched_files : gset string :=
    list_to_set (flat_map (files_of_commit db) commits_dev) in
  let touched := touched_files in
  let prev_touched := user_touched_files ∩ touched in
  let diff := prev_touched ∖ touched in
  let* first := first_commit db username in
  if negb first then
    let* r := py_div (QZ (Z.of_nat (size diff))) (QZ (Z.of_nat (size touched))) in
    Ok (Qle_bool (not_touched_files cfg) (py_round_n 2 r))
  else Ok false.

(** rule_check.py, lines 50-55: [File JOIN Developer] on the file's owner. *)
Definition owned_files_touched (db : Db) (username : string) (touched_files : gset string)
    : list File :=
  flat_map (fun f =>
    map (fun _ => f)
      (List.filter (fun d => owned_by (file_owner f) d && bool_decide (filename f ∈ touched_files))
         (developers_named db username)))
    (files db).

Definition not_first_owned_files (db : Db) (username : string) (touched_files : gset string)
    : res bool :=
  let owned_count := length (owned_files_touched db username touched_files) in
  let number_files := length (files db) in
  let* first := first_commit db username in
  if negb first then
    let* r := py_div (QZ (Z.of_nat owned_count)) (QZ (Z.of_nat number_files)) in
    Ok (Qle_bool (owned_majority_files cfg) (py_round_n 2 r))
  else Ok false.

(** The rows [(new_lines, removed_lines, filename)] of the query of
    lines 66-67.  [join(File.commit)] joins each file to its
    [CommitsFiles] rows; [join(Developer)] joins from the only entity
    with a foreign key to [developer], the file ([File.developer_id], its
    owner); [join(Commits)] joins from the developer, the right side of
    the join so far, to the developer's commits ([Commits.developer_id]).
    So for each file the author owns there is one row per pair of a
    [CommitsFiles] row of the file and a commit of the author, whether or
    not that commit touched the file. *)
Definition major_rows (db : Db) (username : string) : list (Z * Z * string) :=
  flat_map (fun d =>
    flat_map (fun f =>
      if owned_by (file_owner f) d then
        flat_map (fun _ =>
          map (fun c => (new_lines c, removed_lines c, filename f))
            (List.filter (fun c => owned_by (commit_developer c) d) (commits db)))
          (List.filter (fun cf => Z.eqb (cf_file cf) (file_id f)) (commits_files db))
      else []) (files db))
    (developers_named db username).

(** Lines 68-72: the dictionary [tmp]. *)
Definition contribution_step (tmp : gmap string Z) (row : Z * Z * string) : gmap string Z :=
  let '(nl, rl, filename) := row in
  match tmp !! filename with
  | Some v => <[filename := (v + (nl + rl))%Z]> tmp
  | None => <[filename := (nl + rl)%Z]> tmp
  end.

Definition contribution_map (rows : list (Z * Z * string)) : gmap string Z :=
  fold_left contribution_step rows ∅.

(** rule_check.py, lines 64-73. *)
Definition is_major_contributor_to_files (db : Db) (username : string) : list string :=
  let tmp := contribution_map (major_rows db username) in
  map fst (List.filter (fun kv => Z.leb (contributions_threshold cfg) (snd kv))
             (map_to_list tmp)).

(** rule_check.py, lines 58-61: [added_files] is the payload's list. *)
Definition adds_and_does_not_touch (db : Db) (username : string) (added_files : list string)
    (touched_files : gset string) : bool :=
  let major_contributions : gset string := list_to_set (is_major_contributor_to_files db username) in
  let diff := major_contributions ∩ touched_files in
  Qle_bool (new_files_outlier cfg) (QZ (Z.of_nat (length added_files))) &&
  Nat.eqb (size diff) 0.

(** rule_check.py, lines 130-132 (not called by the code): the names
    of the files of the author's commits. *)
Definition files_already_touched (db : Db) (username : string) : list string :=
  flat_map (files_of_commit db) (commits_of_user db username).

(** rule_check.py, lines 135-136 (not called by the code): the names of
    the files the author owns. *)
Definition owned_files (db : Db) (username : string) : list string :=
  map filename (flat_map (fun f =>
    map (fun _ => f) (List.filter (owned_by (file_owner f)) (developers_named db username)))
    (files db)).

(** rule_check.py, lines 15-24: the score and the trust verdict. *)
Definition rules_violated (db : Db) (username : string) (added_files : list string)
    (touched_files : gset string) (day : DayArg) (commit_data : CommitPayload) : res (Q * bool) :=
  let tmp := b2Z (touched_sensitive_files (touched_files ∪ list_to_set added_files)) in
  let* never := not_first_never_touched db username touched_files in
  let tmp := (tmp + b2Z never)%Z in
  let* owned := not_first_owned_files db username touched_files in
  let tmp := (tmp + b2Z owned)%Z in
  let tmp := (tmp + b2Z (adds_and_does_not_touch db username added_files touched_files))%Z in
  let* outlier := outlier_check db username commit_data in
  let tmp := (tmp + b2Z outlier)%Z in
  let* trusted := is_trusted cfg env db username day in
  let tmp := (tmp + b2Z (negb trusted))%Z in
  Ok (QZ tmp / 7 * 100, trusted).

(** ** Lemmas *)

Lemma b2Z_range b : (0 <= b2Z b <= 1)%Z.
Proof. destruct b; simpl; lia. Qed.

Lemma b2Z_negb_false : b2Z (negb false) = 1%Z.
Proof. reflexivity. Qed.

Lemma diff_of_subset (A B : gset string) : (A ∩ B) ∖ B = ∅.
Proof. set_solver. Qed.

Definition row_sum (f : string) (rows : list (Z * Z * string)) : Z :=
  fold_right (fun '(nl, rl, n) acc => if String.eqb n f then (nl + rl + acc)%Z else acc)
    0%Z rows.

Definition row_names (rows : list (Z * Z * string)) : list string :=
  map (fun '(_, _, n) => n) rows.

(** The changed lines of all the commits of developer [d]. *)
Definition author_lines (db : Db) (d : Developer) : Z :=
  fold_right Z.add 0%Z (map (fun c => (new_lines c + removed_lines c)%Z)
    (List.filter (fun c => owned_by (commit_developer c) d) (commits db))).

(** The number of [CommitsFiles] rows of the files named [n] that [d]
    owns. *)
Definition owned_links (db : Db) (d : Developer) (n : string) : nat :=
  length (flat_map (fun f =>
    if owned_by (file_owner f) d && String.eqb (filename f) n
    then List.filter (fun cf => Z.eqb (cf_file cf) (file_id f)) (commits_files db) else [])
    (files db)).

Lemma row_sum_app n l1 l2 : row_sum n (l1 ++ l2) = (row_sum n l1 + row_sum n l2)%Z.
Proof. induction l1 as [|[[a b] m] t IH]; simpl; [done|]. rewrite IH. destruct (String.eqb m n); lia. Qed.

Lemma row_sum_map n m cs :
  row_sum n (map (fun c => (new_lines c, removed_lines c, m)) cs) =
  if String.eqb m n then fold_right Z.add 0%Z (map (fun c => (new_lines c + removed_lines c)%Z) cs)
  else 0%Z.
Proof. induction cs as [|c t IH]; simpl; [by destruct (String.eqb m n)|]. rewrite IH. destruct (String.eqb m n); lia. Qed.

Lemma row_sum_repeat {A} n (l : list A) rows :
  row_sum n (flat_map (fun _ => rows) l) = (Z.of_nat (length l) * row_sum n rows)%Z.
Proof. induction l as [|x t IH]; simpl; [done|]. rewrite row_sum_app, IH. lia. Qed.

Lemma row_sum_names n rows : row_sum n rows <> 0%Z -> In n (row_names rows).
Proof.
  induction rows as [|[[a b] m] t IH]; simpl; [done|]. intros H.
  destruct (String.eqb_spec m n) as [->|_]; [by left|]. right. by apply IH.
Qed.

Lemma contribution_fold_lookup rows (m : gmap string Z) f :
  fold_left contribution_step rows m !! f =
  match m !! f with
  | Some v => Some (v + row_sum f rows)%Z
  | None => if existsb (String.eqb f) (row_names rows) then Some (row_sum f rows) else None
  end.
Proof.
  revert m. induction rows as [|[[nl rl] n] rows IH]; intros m; simpl.
  - destruct (m !! f); [f_equal; lia|done].
  - rewrite IH. unfold contribution_step.
    destruct (String.eqb_spec n f) as [->|Hne].
    + rewrite String.eqb_refl. simpl.
      destruct (m !! f) eqn:E; rewrite lookup_insert_eq; f_equal; lia.
    + replace (String.eqb f n) with false by (symmetry; apply String.eqb_neq; congruence).
      simpl. destruct (m !! n); rewrite lookup_insert_ne by congruence; done.
Qed.

Lemma NoDup_filter_incl {A} (q : A -> bool) (l l' : list A) :
  List.NoDup l -> incl l l' -> (length (List.filter q l) <= length (List.filter q l'))%nat.
Proof.
  intros Hn Hi. apply NoDup_incl_length.
  - by apply List.NoDup_filter.
  - intros x Hx. apply filter_In in Hx as [Hx Hq]. apply filter_In. split; [by apply Hi|done].
Qed.

Lemma not_first_never_touched_raises E db u touched :
  In MultipleResultsFound E -> In ZeroDivisionError E ->
  raises_in E (not_first_never_touched db u touched).
Proof. intros. unfold not_first_never_touched. raises_auto. Qed.

Lemma not_first_owned_files_raises E db u touched :
  In MultipleResultsFound E -> In ZeroDivisionError E ->
  raises_in E (not_first_owned_files db u touched).
Proof. intros. unfold not_first_owned_files. raises_auto. Qed.

#[local] Hint Resolve not_first_never_touched_raises not_first_owned_files_raises : raises.

Lemma rules_violated_raises E db u added touched day cd :
  In ZeroDivisionError E -> In MultipleResultsFound E -> In NoResultFound E -> In TypeError E ->
  raises_in E (rules_violated db u added touched day cd).
Proof. intros. unfold rules_violated. raises_auto. Qed.

(** Every row of the query of lines 66-67 names a file the author owns. *)
Lemma major_rows_owned db u n :
  In n (row_names (major_rows db u)) -> In n (owned_files db u).
Proof.
  unfold row_names, major_rows, owned_files. rewrite !in_map_iff.
  intros ([[nl rl] n'] & <- & Hin).
  apply in_flat_map in Hin as (d & Hd & Hin). apply in_flat_map in Hin as (f & Hf & Hin).
  destruct (owned_by (file_owner f) d) eqn:Ho; [|done].
  apply in_flat_map in Hin as (cf & _ & Hin). apply in_map_iff in Hin as (c & Ec & _).
  injection Ec as _ _ <-. exists f. split; [done|]. apply in_flat_map. exists f. split; [done|].
  apply in_map_iff. exists d. split; [done|]. by apply filter_In.
Qed.

(** For an author held by one developer [d], the contribution the query
    counts for the name [n] is the number of [CommitsFiles] rows of the
    files named [n] that [d] owns times the changed lines of all of
    [d]'s commits. *)
Lemma major_rows_sum db u d n :
  developers_named db u = [d] ->
  row_sum n (major_rows db u) = (Z.of_nat (owned_links db d n) * author_lines db d)%Z.
Proof.
  intros Hd. unfold major_rows, owned_links, author_lines. rewrite Hd. cbn [flat_map].
  rewrite app_nil_r. induction (files db) as [|f fs IH]; simpl; [done|].
  rewrite row_sum_app, length_app, IH.
  destruct (owned_by (file_owner f) d); simpl; [|lia].
  rewrite row_sum_repeat, row_sum_map. destruct (String.eqb (filename f) n); simpl; lia.
Qed.

(** With the day passed as a [str], [is_trusted] raises: the scoring
    never returns. *)
Lemma rules_violated_str E db u added touched s cd :
  In ZeroDivisionError E -> In MultipleResultsFound E -> In NoResultFound E -> In TypeError E ->
  raises_one_of E (rules_violated db u added touched (StrArg s) cd).
Proof. intros. unfold rules_violated. raises_one_auto. Qed.

(** ** Theorems *)

(** C1. The violation score is [k / 7 * 100] for the number [k] of rules
    that hold, and [k] is at most 6: the code evaluates six rules (the
    specification announces seven), so the score never exceeds
    [600 / 7 < 100]; an untrusted author scores at least [100 / 7]. *)
Theorem rules_violated_score db u added touched day cd s t :
  rules_violated db u added touched day cd = Ok (s, t) ->
  exists k, (0 <= k <= 6)%Z /\ s == QZ k / 7 * 100 /\ s <= 600 # 7 /\
    (t = false -> 100 # 7 <= s).
Proof.
  unfold rules_violated.
  destruct (not_first_never_touched db u touched) as [b1|]; simpl; [|discriminate].
  destruct (not_first_owned_files db u touched) as [b2|]; simpl; [|discriminate].
  destruct (outlier_check db u cd) as [b3|]; simpl; [|discriminate].
  destruct (is_trusted cfg env db u day) as [b4|]; simpl; [|discriminate].
  intros H. injection H as <- <-.
  set (k := (b2Z (touched_sensitive_files _) + b2Z b1 + b2Z b2 +
             b2Z (adds_and_does_not_touch db u added touched) + b2Z b3 + b2Z (negb b4))%Z).
  assert (Hk : (0 <= k <= 6)%Z).
  { unfold k. repeat match goal with |- context [b2Z ?b] =>
      let H := fresh in pose proof (b2Z_range b) as H; revert H; generalize (b2Z b) end.
    intros; lia. }
  exists k. split; [done|]. split; [reflexivity|].
  assert (Hq : QZ k <= 6) by (unfold QZ; change 6 with (inject_Z 6); rewrite <- inject_Z_le_iff; lia).
  assert (E : QZ k / 7 * 100 == QZ k * (100 # 7)) by field.
  rewrite E. split; [lra|].
  intros ->. assert (Hk1 : (1 <= k)%Z).
  { unfold k. rewrite b2Z_negb_false. repeat match goal with |- context [b2Z ?b] =>
      let H := fresh in pose proof (b2Z_range b) as H; revert H; generalize (b2Z b) end.
    intros; lia. }
  assert (Hq1 : 1 <= QZ k) by (unfold QZ; change 1 with (inject_Z 1); rewrite <- inject_Z_le_iff; lia).
    lra.
Qed.

(** C16. The stale-familiarity rule does not depend on the author's
    history: the code subtracts the touched files from their own subset,
    so the ratio is always 0.  The rule is [False] for a first-time
    committer, raises [ZeroDivisionError] on an empty set of touched files,
    and otherwise holds exactly when the threshold is at most 0. *)
Theorem not_first_never_touched_closed db u touched :
  not_first_never_touched db u touched =
  let* first := first_commit db u in
  if first then Ok false
  else if Nat.eqb (size touched) 0 then Raise ZeroDivisionError
  else Ok (Qle_bool (not_touched_files cfg) 0).
Proof.
  unfold not_first_never_touched. rewrite diff_of_subset, size_empty.
  destruct (first_commit db u) as [[]|]; simpl; [done| |done].
  unfold py_div. destruct (Nat.eqb_spec (size touched) 0) as [->|Hn]; [done|].
  replace (Qeq_bool _ 0) with false.
  - simpl. f_equal. apply Qle_bool_comp; [reflexivity|]. apply py_round_n_0.
    unfold QZ, Qdiv. apply Qmult_0_l.
  - symmetry. apply not_true_iff_false. intros E. apply Qeq_bool_iff in E.
    unfold QZ in E. change 0 with (inject_Z 0) in E. rewrite inject_Z_injective in E. lia.
Qed.

(** A first-time committer (no [Developer] row) never triggers the
    stale-familiarity rule nor the majority-ownership rule, whatever the
    touched files. *)
Theorem first_commit_rules_false db u touched :
  first_commit db u = Ok true ->
  not_first_never_touched db u touched = Ok false /\
  not_first_owned_files db u touched = Ok false.
Proof.
  intros H. unfold not_first_never_touched, not_first_owned_files. by rewrite H.
Qed.

Lemma length_filter_map {A B} (p : B -> bool) (f : A -> B) l :
  length (List.filter p (map f l)) = length (List.filter (fun x => p (f x)) l).
Proof. induction l as [|x t IH]; simpl; [done|]. destruct (p (f x)); simpl; auto. Qed.

(** The sensitive-file rule is monotone in the set of touched files:
    touching more files never turns it off. *)
Theorem touched_sensitive_files_mono (t t' : gset string) :
  t ⊆ t' -> touched_sensitive_files t = true -> touched_sensitive_files t' = true.
Proof.
  unfold touched_sensitive_files. rewrite !length_filter_map. intros Hsub H.
  apply Z.leb_le in H. apply Z.leb_le.
  enough (length (List.filter (fun x => existsb (String.eqb (extension x)) (sensitive_files cfg))
            (elements t)) <= length (List.filter (fun x => existsb (String.eqb (extension x))
            (sensitive_files cfg)) (elements t')))%nat by lia.
  apply NoDup_filter_incl.
  - apply NoDup_ListNoDup, NoDup_elements.
  - intros x Hx. apply list_elem_of_In, elem_of_elements.
    apply list_elem_of_In, elem_of_elements in Hx. set_solver.
Qed.

(** [is_major_contributor_to_files] lists exactly the files that
    occur in the author's (lines, file) rows and whose accumulated
    [new_lines + removed_lines] reaches the [Contributions] threshold. *)
Theorem is_major_contributor_spec db u f :
  In f (is_major_contributor_to_files db u) <->
  In f (row_names (major_rows db u)) /\
  (contributions_threshold cfg <= row_sum f (major_rows db u))%Z.
Proof.
  unfold is_major_contributor_to_files, contribution_map.
  set (rows := major_rows db u). rewrite in_map_iff. split.
  - intros ([k v] & <- & Hin). apply filter_In in Hin as [Hin Hle]. simpl in *.
    apply list_elem_of_In, elem_of_map_to_list in Hin.
    rewrite contribution_fold_lookup, lookup_empty in Hin.
    destruct (existsb _ _) eqn:E; [|discriminate]. injection Hin as <-.
    apply existsb_exists in E as (n & Hn & Heq). apply String.eqb_eq in Heq. subst n.
    split; [done|]. by apply Z.leb_le.
  - intros [Hin Hle]. exists (f, row_sum f rows). split; [done|].
    apply filter_In. split; [|by apply Z.leb_le].
    apply list_elem_of_In, elem_of_map_to_list.
    rewrite contribution_fold_lookup, lookup_empty.
    replace (existsb _ _) with true; [done|]. symmetry. apply existsb_exists.
    exists f. split; [done|]. apply String.eqb_refl.
Qed.

(** C38. The query of [is_major_contributor_to_files] (rule_check.py,
    lines 66-67) does not tie a commit to the files it touched: for an
    author held by one developer [d] and a positive [Contributions]
    threshold, the name [n] is a major contribution exactly when the
    number of [CommitsFiles] rows of the files named [n] that [d] owns,
    times the changed lines of all of [d]'s commits, reaches the
    threshold; a file the author does not own is never one. *)
Theorem is_major_contributor_closed db u d n :
  (0 < contributions_threshold cfg)%Z -> developers_named db u = [d] ->
  In n (is_major_contributor_to_files db u) <->
  (contributions_threshold cfg <= Z.of_nat (owned_links db d n) * author_lines db d)%Z.
Proof.
  intros Ht Hd. rewrite is_major_contributor_spec, <- (major_rows_sum db u d n Hd).
  split; [tauto|]. intros Hle. split; [|done]. apply row_sum_names. lia.
Qed.


(** The exceptions of the scoring: [rules_violated] raises only
    [ZeroDivisionError] (an empty [touched_files], [File] or [Commits]
    table), [MultipleResultsFound] and [NoResultFound] (SQLAlchemy's
    [one()] and [one_or_none()]) and [TypeError] (a NULL average of a
    baseline); never [IndexError], [ValueError], [StatisticsError],
    [IntegrityError] or [NameError]. *)
Theorem rules_violated_exceptions db u added touched day cd :
  raises_in [ZeroDivisionError; MultipleResultsFound; NoResultFound; TypeError]
    (rules_violated db u added touched day cd).
Proof. apply rules_violated_raises; simpl; tauto. Qed.

End Rules.

#[export] Hint Resolve rules_violated_raises rules_violated_str : raises.

(** ** Witnesses *)

Definition ex_rules_db : Db :=
  mkDb [mkDeveloper 1 "alice" 10 0 0] [Trust.ex_commit 1; Trust.ex_commit 2]
    [mkFile 7 "a.py" None (Some 1%Z)] [mkCommitsFiles 1 7 Modified]
    [Trust.ex_stats_row] [Outlier.ex_stats] [mkRepoStats 1 (ds_baseline Outlier.ex_stats)]
    [mkPull true "closed" (Some 1%Z)].

Definition ex_rules_result : res (Q * bool) :=
  rules_violated Trust.ex_cfg Trust.ex_env ex_rules_db "alice" ["new.py"] {["a.py"]} (DateArg 5)
    (Outlier.ex_payload 13).

Lemma rules_violated_score_witness :
  exists s t, ex_rules_result = Ok (s, t) /\
  exists k, (0 <= k <= 6)%Z /\ s == QZ k / 7 * 100 /\ s <= 600 # 7 /\
    (t = false -> 100 # 7 <= s).
Proof.
  exists (match ex_rules_result with Ok (s, _) => s | Raise _ => 0 end).
  exists (match ex_rules_result with Ok (_, t) => t | Raise _ => false end).
  assert (H : ex_rules_result =
    Ok (match ex_rules_result with Ok (s, _) => s | Raise _ => 0 end,
        match ex_rules_result with Ok (_, t) => t | Raise _ => false end))
    by (vm_compute; reflexivity).
  split; [exact H|]. exact (rules_violated_score _ _ _ _ _ _ _ _ _ _ H).
Defined.

Lemma first_commit_rules_false_witness :
  first_commit ex_rules_db "bob" = Ok true /\
  not_first_never_touched Trust.ex_cfg ex_rules_db "bob" {["a.py"]} = Ok false /\
  not_first_owned_files Trust.ex_cfg ex_rules_db "bob" {["a.py"]} = Ok false.
Proof.
  assert (H : first_commit ex_rules_db "bob" = Ok true) by reflexivity.
  split; [exact H|]. exact (first_commit_rules_false _ _ _ _ H).
Defined.

(** Alice owns [a.py] and [b.py]; her commit 1 (4 lines) touched
    [a.py], commits 2 (4 lines) and 3 (10 lines) touched [b.py]. *)
Definition ex_major_db : Db :=
  mkDb [mkDeveloper 1 "alice" 10 0 0]
    [Trust.ex_commit 1; Trust.ex_commit 2; mkCommit 3 6 2000 "big" 5 5 10 0 1 0 0 (Some 1%Z) []]
    [mkFile 7 "a.py" None (Some 1%Z); mkFile 8 "b.py" None (Some 1%Z)]
    [mkCommitsFiles 1 7 Modified; mkCommitsFiles 2 8 Modified; mkCommitsFiles 3 8 Modified]
    [] [] [] [].

(** Alice changed 4 lines of [a.py], yet the query counts 18 for it (all
    her commits), above the threshold 10: [a.py] is a major contribution. *)
Lemma is_major_contributor_example :
  row_sum "a.py" (major_rows ex_major_db "alice") = 18%Z /\
  is_major_contributor_to_files Trust.ex_cfg ex_major_db "alice" = ["a.py"; "b.py"].
Proof. split; vm_compute; reflexivity. Qed.

Lemma is_major_contributor_closed_witness :
  (0 < contributions_threshold Trust.ex_cfg)%Z /\
  developers_named ex_major_db "alice" = [mkDeveloper 1 "alice" 10 0 0] /\
  (In "a.py" (is_major_contributor_to_files Trust.ex_cfg ex_major_db "alice") <->
   (contributions_threshold Trust.ex_cfg <=
      Z.of_nat (owned_links ex_major_db (mkDeveloper 1 "alice" 10 0 0) "a.py") *
      author_lines ex_major_db (mkDeveloper 1 "alice" 10 0 0))%Z).
Proof.
  assert (Ht : (0 < contributions_threshold Trust.ex_cfg)%Z) by (vm_compute; reflexivity).
  assert (Hd : developers_named ex_major_db "alice" = [mkDeveloper 1 "alice" 10 0 0]) by reflexivity.
  split; [exact Ht|]. split; [exact Hd|].
  exact (is_major_contributor_closed Trust.ex_cfg ex_major_db "alice" _ "a.py" Ht Hd).
Defined.

(** The example of the specification: three touched files, two of them
    with a sensitive extension: the rule holds with threshold 2, not 3. *)
End Rules.
