(* ===== verification/DailyStats.v ===== *)
(** * The daily statistics batch

    [calculate_daily_stats] (utils.py, lines 152-186) walks the
    developers and, for each, their commits ordered by day (most recent
    first), accumulating seven lists for the current day and calling
    [daily_commit_stats] (lines 117-149) to store one [CommitsStats] row
    whenever the day changes and once after the developer's last commit.

    The loop state (the current [day] and the seven lists) is the record
    [DayAcc]; one commit is [process_commit], the end of a developer is
    [process_dev].  The code does not reset the state between developers:
    the next developer starts with the previous developer's last day and
    its lists.  [daily_spec] states the whole batch with that carried
    group made explicit, and [group_by_day] is what the batch means to do
    for one developer.

    The theorems: every reachable loop state is well formed (the lists
    have one entry per commit of the current group, and are empty exactly
    before the first commit) — an invariant by induction on the reachability
    relation; the batch equals [daily_spec]; for a single developer it
    stores one row per run of equal days, computed from exactly that run's
    commits ([group_by_day] partitions the commits); for two developers
    the second one's rows are those of the first one's last-day commits
    followed by its own, so those commits are stored twice, and merged
    into the second developer's first row when the days agree; a first
    developer without commits makes the batch raise [ValueError]. *)

From S2P Require Import Prelude Stats Model Features Trust.

Module DailyStats.
Import Stats Model Features.

(** The loop variables of lines 153-160. *)
Record DayAcc := mkDayAcc {
  acc_day : option Z;
  acc_lines : list Z;       (** [lines_changed] *)
  acc_chars : list Z;       (** [changed_chars] *)
  acc_times : list Z;       (** [commits_time] *)
  acc_msgs : list Z;        (** [commits_messages_len] *)
  acc_added : list Z;
  acc_modified : list Z;
  acc_removed : list Z
}.

Definition acc_empty (d : option Z) : DayAcc := mkDayAcc d [] [] [] [] [] [] [].

(** Lines 178-184: the appends for one commit. *)
Definition push (a : DayAcc) (c : Commit) : DayAcc :=
  {| acc_day := acc_day a;
     acc_lines := acc_lines a ++ [(new_lines c + removed_lines c)%Z];
     acc_chars := acc_chars a ++ [changed_chars c];
     acc_times := acc_times a ++ [timestamp c];
     acc_msgs := acc_msgs a ++ [Z.of_nat (String.length (message c))];
     acc_added := acc_added a ++ [added_files c];
     acc_modified := acc_modified a ++ [modified_files c];
     acc_removed := acc_removed a ++ [removed_files c] |}.

(** utils.py, lines 117-149: the row for one developer and day. *)
Definition daily_commit_stats (date developer_id : Z) (a : DayAcc) : res CommitsStats :=
  let* '(lines_mean, lines_variance) := gmv_Z (acc_lines a) in
  let* '(chars_mean, chars_variance) := gmv_Z (acc_chars a) in
  let* '(times_mean, times_variance) := gmv_Z (time_intervals (acc_times a)) in
  let* '(comments_size_mean, comments_size_var) := gmv_Z (acc_msgs a) in
  let* '(added_files_mean, added_files_var) := gmv_Z (acc_added a) in
  let* '(modified_files_mean, modified_files_var) := gmv_Z (acc_modified a) in
  let* '(removed_files_mean, removed_files_var) := gmv_Z (acc_removed a) in
  let* tmin := py_min (acc_times a) in
  let* tmax := py_max (acc_times a) in
  let* lmin := py_min (acc_lines a) in
  let* lmax := py_max (acc_lines a) in
  let* cmin := py_min (acc_chars a) in
  let* cmax := py_max (acc_chars a) in
  let* mmin := py_min (acc_msgs a) in
  let* mmax := py_max (acc_msgs a) in
  Ok (mkCommitsStats date (Z.of_nat (length (acc_lines a))) tmin tmax times_mean times_variance
        lmin lmax lines_mean lines_variance cmin cmax chars_mean chars_variance
        mmin mmax comments_size_mean comments_size_var added_files_mean added_files_var
        modified_files_mean modified_files_var removed_files_mean removed_files_var
        developer_id).

(** Lines 164-184: one commit of developer [dev]. *)
Definition process_commit (dev : Z) (st : DayAcc * list CommitsStats) (c : Commit)
    : res (DayAcc * list CommitsStats) :=
  let '(a, rows) := st in
  match acc_day a with
  | None => Ok (push {| acc_day := Some (day c); acc_lines := acc_lines a;
                        acc_chars := acc_chars a; acc_times := acc_times a;
                        acc_msgs := acc_msgs a; acc_added := acc_added a;
                        acc_modified := acc_modified a; acc_removed := acc_removed a |} c, rows)
  | Some d =>
      if Z.eqb d (day c) then Ok (push a c, rows)
      else let* row := daily_commit_stats d dev a in
           Ok (push (acc_empty (Some (day c))) c, rows ++ [row])
  end.

(** Lines 162-186: one developer; the state is not reset afterwards.  A
    [None] day means no commit was seen, so the lists are empty
    ([acc_wf]) and [min(commits_time)] raises [ValueError]. *)
Definition process_dev (st : DayAcc * list CommitsStats) (dc : Z * list Commit)
    : res (DayAcc * list CommitsStats) :=
  let '(dev, cs) := dc in
  let* '(a, rows) := res_fold_left (process_commit dev) cs st in
  match acc_day a with
  | None => Raise ValueError
  | Some d => let* row := daily_commit_stats d dev a in Ok (a, rows ++ [row])
  end.

(** Lines 152-186: the developers with their commits as the query of
    line 163 returns them. *)
Definition calculate_daily_stats (devs : list (Z * list Commit)) : res (list CommitsStats) :=
  let* '(_, rows) := res_fold_left process_dev devs (acc_empty None, []) in
  Ok rows.

(** Insertion into a list ordered by [day], most recent first; a stable
    stand-in for [order_by(desc(Commits.day))]. *)
Fixpoint insert_desc (c : Commit) (l : list Commit) : list Commit :=
  match l with
  | [] => [c]
  | x :: t => if Z.ltb (day x) (day c) then c :: x :: t else x :: insert_desc c t
  end.

Definition commits_desc (db : Db) (dev : Z) : list Commit :=
  fold_right insert_desc []
    (List.filter (fun c => match commit_developer c with
                           | Some i => Z.eqb i dev | None => false end) (commits db)).

(** Line 161: [query(Developer.id).all()]. *)
Definition daily_input (db : Db) : list (Z * list Commit) :=
  map (fun d => (dev_id d, commits_desc db (dev_id d))) (developers db).

(** ** What the batch computes *)

(** The accumulator after the commits [g] of the day [d]. *)
Definition acc_of (d : Z) (g : list Commit) : DayAcc := fold_left push g (acc_empty (Some d)).

(** Runs of equal days: the closed runs, and the open one, of [cs]
    continuing the open run [(d, g)]. *)
Fixpoint runs_from (d : Z) (g : list Commit) (cs : list Commit)
    : list (Z * list Commit) * (Z * list Commit) :=
  match cs with
  | [] => ([], (d, g))
  | c :: t =>
      if Z.eqb d (day c) then runs_from d (g ++ [c]) t
      else let '(gs, last) := runs_from (day c) [c] t in ((d, g) :: gs, last)
  end.

(** One developer's commits split into runs of equal days: one day each
    when the commits are ordered by day. *)
Definition group_by_day (cs : list Commit) : list (Z * list Commit) :=
  match cs with
  | [] => []
  | c :: t => let '(gs, last) := runs_from (day c) [c] t in gs ++ [last]
  end.

(** The commits of the last run of [cs]: the open group when the loop
    over [cs] ends. *)
Definition last_group (cs : list Commit) : list Commit :=
  match cs with
  | [] => []
  | c :: t => snd (snd (runs_from (day c) [c] t))
  end.

Definition rows_of (dev : Z) (gs : list (Z * list Commit)) : res (list CommitsStats) :=
  res_mapM (fun dg => daily_commit_stats (fst dg) dev (acc_of (fst dg) (snd dg))) gs.

(** The batch with the carried group explicit: developer [dev] starts with
    the open group [carry] left by the previous developer. *)
Fixpoint daily_spec (carry : option (Z * list Commit)) (devs : list (Z * list Commit))
    : res (list CommitsStats) :=
  match devs with
  | [] => Ok []
  | (dev, cs) :: rest =>
      match carry, cs with
      | None, [] => Raise ValueError
      | None, c :: t =>
          let '(gs, (d', g')) := runs_from (day c) [c] t in
          let* r := rows_of dev (gs ++ [(d', g')]) in
          let* rs := daily_spec (Some (d', g')) rest in Ok (r ++ rs)
      | Some (d, g), _ =>
          let '(gs, (d', g')) := runs_from d g cs in
          let* r := rows_of dev (gs ++ [(d', g')]) in
          let* rs := daily_spec (Some (d', g')) rest in Ok (r ++ rs)
      end
  end.

(** The well-formedness of the loop state: one entry per commit of the
    current group in every list, and no entry before the first commit. *)
Definition acc_wf (a : DayAcc) : Prop :=
  let n := length (acc_lines a) in
  length (acc_chars a) = n /\ length (acc_times a) = n /\ length (acc_msgs a) = n /\
  length (acc_added a) = n /\ length (acc_modified a) = n /\ length (acc_removed a) = n /\
  (acc_day a = None <-> n = 0%nat).

(** The loop states the batch can reach. *)
Inductive reachable : DayAcc -> Prop :=
  | reach_init : reachable (acc_empty None)
  | reach_commit dev a rows c a' rows' :
      reachable a -> process_commit dev (a, rows) c = Ok (a', rows') -> reachable a'.

(** ** Lemmas *)

Lemma push_acc_of d g c : push (acc_of d g) c = acc_of d (g ++ [c]).
Proof. unfold acc_of. by rewrite fold_left_app. Qed.

Lemma acc_of_day d g : acc_day (acc_of d g) = Some d.
Proof.
  unfold acc_of. generalize (acc_empty (Some d)) (eq_refl (Some d) : acc_day (acc_empty (Some d)) = Some d).
  induction g as [|c t IH]; intros a Ha; simpl; [done|]. apply IH. done.
Qed.

Lemma res_mapM_app {A B} (f : A -> res B) l1 l2 :
  res_mapM f (l1 ++ l2) = let* r1 := res_mapM f l1 in let* r2 := res_mapM f l2 in Ok (r1 ++ r2).
Proof.
  induction l1 as [|x t IH]; simpl.
  - by destruct (res_mapM f l2).
  - destruct (f x); simpl; [|done]. rewrite IH.
    destruct (res_mapM f t); simpl; [|done]. by destruct (res_mapM f l2).
Qed.

Lemma process_commit_same dev d g rows c :
  day c = d -> process_commit dev (acc_of d g, rows) c = Ok (acc_of d (g ++ [c]), rows).
Proof.
  intros <-. unfold process_commit. rewrite acc_of_day, Z.eqb_refl. by rewrite push_acc_of.
Qed.

Lemma process_commit_other dev d g rows c :
  d <> day c -> process_commit dev (acc_of d g, rows) c =
  let* row := daily_commit_stats d dev (acc_of d g) in Ok (acc_of (day c) [c], rows ++ [row]).
Proof.
  intros Hne. unfold process_commit. rewrite acc_of_day.
  by replace (Z.eqb d (day c)) with false by (symmetry; apply Z.eqb_neq; done).
Qed.

(** The loop over one developer's commits, from an open group. *)
Lemma fold_runs dev cs d g rows :
  res_fold_left (process_commit dev) cs (acc_of d g, rows) =
  let '(gs, (d', g')) := runs_from d g cs in
  let* new := rows_of dev gs in Ok (acc_of d' g', rows ++ new).
Proof.
  revert d g rows. induction cs as [|c t IH]; intros d g rows; cbn [res_fold_left runs_from].
  - simpl. by rewrite app_nil_r.
  - destruct (Z.eqb_spec d (day c)) as [E|E].
    + rewrite process_commit_same by done. simpl. apply IH.
    + rewrite process_commit_other by done.
      destruct (daily_commit_stats d dev (acc_of d g)) as [row|e] eqn:Er; simpl.
      * rewrite IH. destruct (runs_from (day c) [c] t) as [gs [d' g']].
        unfold rows_of at 2. simpl. rewrite Er. simpl.
        fold (rows_of dev gs). destruct (rows_of dev gs); simpl; [|done].
        by rewrite <- app_assoc.
      * destruct (runs_from (day c) [c] t) as [gs [d' g']].
        unfold rows_of. simpl. by rewrite Er.
Qed.

Lemma first_commit_acc c rows :
  process_commit 0 (acc_empty None, rows) c = Ok (acc_of (day c) [c], rows).
Proof. reflexivity. Qed.

Lemma process_commit_start dev c rows :
  process_commit dev (acc_empty None, rows) c = Ok (acc_of (day c) [c], rows).
Proof. reflexivity. Qed.

Lemma rows_of_snoc dev gs d g :
  rows_of dev (gs ++ [(d, g)]) =
  let* r := rows_of dev gs in
  let* row := daily_commit_stats d dev (acc_of d g) in Ok (r ++ [row]).
Proof.
  unfold rows_of. rewrite res_mapM_app. simpl.
  destruct (res_mapM _ gs); simpl; [|done].
  by destruct (daily_commit_stats d dev (acc_of d g)).
Qed.

Lemma process_dev_open dev cs d g rows :
  process_dev (acc_of d g, rows) (dev, cs) =
  let '(gs, (d', g')) := runs_from d g cs in
  let* r := rows_of dev (gs ++ [(d', g')]) in Ok (acc_of d' g', rows ++ r).
Proof.
  unfold process_dev. rewrite fold_runs.
  destruct (runs_from d g cs) as [gs [d' g']]. rewrite rows_of_snoc.
  destruct (rows_of dev gs) as [new|e]; simpl; [|done].
  rewrite acc_of_day. destruct (daily_commit_stats d' dev (acc_of d' g')); simpl; [|done].
  by rewrite app_assoc.
Qed.

Lemma fold_devs_open devs d g rows :
  res_map snd (res_fold_left process_dev devs (acc_of d g, rows)) =
  res_map (fun rs => rows ++ rs) (daily_spec (Some (d, g)) devs).
Proof.
  revert d g rows. induction devs as [|[dev cs] rest IH]; intros d g rows;
    cbn [res_fold_left daily_spec].
  - simpl. by rewrite app_nil_r.
  - rewrite process_dev_open. destruct (runs_from d g cs) as [gs [d' g']].
    destruct (rows_of dev (gs ++ [(d', g')])) as [r|e]; simpl; [|done].
    rewrite IH. destruct (daily_spec (Some (d', g')) rest); simpl; [|done].
    by rewrite app_assoc.
Qed.

Lemma runs_from_partition d g cs :
  let '(gs, (d', g')) := runs_from d g cs in
  concat (map snd (gs ++ [(d', g')])) = g ++ cs /\
  Forall (fun dg => snd dg <> [] \/ dg = (d, g)) (gs ++ [(d', g')]) /\
  (Forall (fun c => day c = d) g ->
   Forall (fun dg => Forall (fun c => day c = fst dg) (snd dg)) (gs ++ [(d', g')])).
Proof.
  revert d g. induction cs as [|c t IH]; intros d g; simpl.
  - rewrite app_nil_r. split; [done|]. split; [repeat constructor; by right|].
    intros H. repeat constructor. done.
  - destruct (Z.eqb_spec d (day c)) as [E|E].
    + specialize (IH d (g ++ [c])). destruct (runs_from d (g ++ [c]) t) as [gs [d' g']].
      destruct IH as (H1 & H2 & H3). split; [rewrite H1, <- app_assoc; done|]. split.
      * eapply Forall_impl; [exact H2|]. intros dg [Hn | ->]; left; [done|].
        simpl. intros Hc. apply app_eq_nil in Hc as [_ Hc]. discriminate.
      * intros Hg. apply H3. apply Forall_app. split; [done|]. constructor; [done|constructor].
    + specialize (IH (day c) [c]). destruct (runs_from (day c) [c] t) as [gs [d' g']].
      destruct IH as (H1 & H2 & H3). simpl. split; [rewrite H1; done|]. split.
      * constructor; [by right|]. eapply Forall_impl; [exact H2|].
        intros dg [Hn | ->]; left; [done|discriminate].
      * intros Hg. constructor; [done|]. apply H3. constructor; [done|constructor].
Qed.

(** Commits of the open group's day join the open group. *)
Lemma runs_from_shift d g g0 cs :
  Forall (fun c => day c = d) g0 -> runs_from d (g ++ g0) cs = runs_from d g (g0 ++ cs).
Proof.
  revert g. induction g0 as [|x t IH]; intros g Hg; simpl; [by rewrite app_nil_r|].
  apply Forall_cons in Hg as [Hx Ht]. rewrite Hx, Z.eqb_refl, <- IH by done.
  by rewrite <- app_assoc.
Qed.

(** The batch continues a developer's loop from an open group as it would
    group the group's commits followed by the developer's. *)
Lemma runs_open_group d' g' cs :
  g' <> [] -> Forall (fun c => day c = d') g' ->
  (let '(gs, last) := runs_from d' g' cs in gs ++ [last]) = group_by_day (g' ++ cs).
Proof.
  intros Hn Hd. destruct g' as [|c0 g0]; [done|]. apply Forall_cons in Hd as [H0 Hd].
  change (c0 :: g0) with ([c0] ++ g0). rewrite runs_from_shift by done.
  simpl. by rewrite H0.
Qed.

(** The last run of a non-empty list of commits: the last group of
    [group_by_day], non-empty, of one day. *)
Lemma last_group_spec cs :
  cs <> [] -> exists gs d, group_by_day cs = gs ++ [(d, last_group cs)] /\
    last_group cs <> [] /\ Forall (fun c => day c = d) (last_group cs).
Proof.
  destruct cs as [|c t]; [done|]. intros _. simpl.
  pose proof (runs_from_partition (day c) [c] t) as P.
  destruct (runs_from (day c) [c] t) as [gs [d' g']]. destruct P as (_ & P2 & P3).
  exists gs, d'. split; [done|].
  specialize (P3 ltac:(repeat constructor)). apply Forall_app in P2 as [_ P2], P3 as [_ P3].
  apply Forall_cons in P2 as [P2 _]. apply Forall_cons in P3 as [P3 _].
  cbn [fst snd] in *. split; [|done].
  destruct P2 as [P2 | P2]; [done|]. injection P2 as _ ->. discriminate.
Qed.

(** ** Theorems *)

(** C34. Every loop state the batch reaches is well formed: the seven
    lists have one entry per commit of the current group, and they are
    empty exactly while no day has been seen (so the final
    [daily_commit_stats] of a developer without commits raises
    [ValueError] on [min(commits_time)], as [process_dev] has it, and
    once a day is set the lists are never empty). *)
Theorem reachable_wf a : reachable a -> acc_wf a.
Proof.
  induction 1 as [|dev a rows c a' rows' Hr IH Hs].
  - unfold acc_wf. simpl. repeat split; done.
  - destruct a as [[d|] l1 l2 l3 l4 l5 l6 l7]; unfold process_commit in Hs; simpl in Hs.
    + destruct (Z.eqb d (day c)).
      * injection Hs as <- <-. unfold acc_wf in *; simpl in *.
        rewrite !length_app. simpl. destruct IH as (? & ? & ? & ? & ? & ? & _).
        repeat split; [lia..|discriminate|lia].
      * apply res_bind_Ok in Hs as (row & _ & Hs). injection Hs as <- <-.
        unfold acc_wf. simpl. repeat split; discriminate.
    + injection Hs as <- <-. unfold acc_wf in *; simpl in *.
      destruct IH as (? & ? & ? & ? & ? & ? & H0). pose proof (proj1 H0 eq_refl).
      rewrite !length_app. simpl. repeat split; [lia..|discriminate|lia].
Qed.

Lemma daily_stats_eq devs :
  calculate_daily_stats devs = daily_spec None devs.
Proof.
  unfold calculate_daily_stats. destruct devs as [|[dev cs] rest]; [done|].
  destruct cs as [|c t].
  - done.
  - cbn [res_fold_left]. unfold process_dev at 1. cbn [res_fold_left].
    rewrite process_commit_start. simpl res_bind.
    pose proof (process_dev_open dev t (day c) [c] []) as P. unfold process_dev in P.
    rewrite P. cbn [daily_spec].
    destruct (runs_from (day c) [c] t) as [gs [d' g']].
    destruct (rows_of dev (gs ++ [(d', g')])) as [r|e]; simpl; [|done].
    pose proof (fold_devs_open rest d' g' r) as F.
    destruct (res_fold_left process_dev rest (acc_of d' g', r)) as [[a rows]|e];
    destruct (daily_spec (Some (d', g')) rest); simpl in F |- *; congruence.
Qed.

(** C3. The batch, with the state it carries from one developer to the
    next made explicit: [calculate_daily_stats] equals [daily_spec None]
    on every input. *)
Theorem calculate_daily_stats_spec devs :
  calculate_daily_stats devs = daily_spec None devs.
Proof. apply daily_stats_eq. Qed.

(** For a single developer the batch stores one row per run of equal
    days, each computed from exactly that run's commits; the runs
    partition the commits and each run's commits share its day. *)
Theorem calculate_daily_stats_single dev cs :
  cs <> [] ->
  calculate_daily_stats [(dev, cs)] = rows_of dev (group_by_day cs) /\
  concat (map snd (group_by_day cs)) = cs /\
  Forall (fun dg => snd dg <> [] /\ Forall (fun c => day c = fst dg) (snd dg)) (group_by_day cs).
Proof.
  intros Hn. destruct cs as [|c t]; [done|]. rewrite daily_stats_eq.
  pose proof (runs_from_partition (day c) [c] t) as P. simpl.
  destruct (runs_from (day c) [c] t) as [gs [d' g']]. destruct P as (P1 & P2 & P3).
  split; [by destruct (rows_of dev (gs ++ [(d', g')])) as [r|]; simpl; rewrite ?app_nil_r|].
  split; [done|]. specialize (P3 ltac:(repeat constructor)).
  apply Forall_forall. intros dg Hin. split.
  - eapply Forall_forall in P2; [|exact Hin]. destruct P2 as [? | ->]; [done|discriminate].
  - by eapply Forall_forall in P3.
Qed.

(** C9. The batch does not reset its state between developers: for two
    developers, the first one's rows are those of its runs of equal days,
    and the second one's rows are computed from the first one's last-day
    commits followed by its own.  So those commits are stored twice,
    under each developer id (also when the second developer has no
    commit), and they are merged into the second developer's first row
    when it has commits on the same day. *)
Theorem daily_stats_carry dev1 cs1 dev2 cs2 :
  cs1 <> [] ->
  (exists gs d, group_by_day cs1 = gs ++ [(d, last_group cs1)] /\
    last_group cs1 <> [] /\ Forall (fun c => day c = d) (last_group cs1)) /\
  calculate_daily_stats [(dev1, cs1); (dev2, cs2)] =
    let* r1 := rows_of dev1 (group_by_day cs1) in
    let* r2 := rows_of dev2 (group_by_day (last_group cs1 ++ cs2)) in
    Ok (r1 ++ r2).
Proof.
  intros Hn. pose proof (last_group_spec cs1 Hn) as Hl. split; [exact Hl|].
  destruct Hl as (gs0 & d & Eg & Hne & Hd).
  rewrite daily_stats_eq. destruct cs1 as [|c t]; [done|].
  cbn [daily_spec group_by_day last_group] in *.
  destruct (runs_from (day c) [c] t) as [gs [d' g']]. cbn [snd] in *.
  rewrite <- (runs_open_group d' g' cs2 Hne) by (apply app_inj_tail in Eg as [_ E]; injection E as ->; done).
  destruct (rows_of dev1 (gs ++ [(d', g')])) as [r1|e]; cbn [res_bind]; [|done].
  destruct (runs_from d' g' cs2) as [gs2 [d2 g2]]. cbn [daily_spec res_bind].
  destruct (rows_of dev2 (gs2 ++ [(d2, g2)])); cbn [res_bind]; [|done]. by rewrite !app_nil_r.
Qed.

Definition ex_commit (id d ts : Z) (dev : Z) : Commit :=
  mkCommit id d ts "change" 10 2 100 1 1 0 0 (Some dev) [].

(** Alice (1) committed on day 5; Bob (2) on day 7 and on day 5. *)
Definition ex_devs : list (Z * list Commit) :=
  [(1%Z, [ex_commit 1 5 5000 1]); (2%Z, [ex_commit 2 7 7000 2; ex_commit 3 5 5100 2])].

Definition ex_daily_db (rows : list CommitsStats) : Db :=
  mkDb [mkDeveloper 1 "alice" 1 0 0; mkDeveloper 2 "bob" 1 0 0]
    [ex_commit 1 5 5000 1; ex_commit 2 7 7000 2; ex_commit 3 5 5100 2] [] [] rows [] [] [].

(** The example of [ex_devs]: four rows for three commits, Alice's day-5
    commit is stored a second time as Bob's, and Bob gets two rows for
    day 5, so that [commits_per_day] of the trust evaluator then raises
    [MultipleResultsFound] for Bob on that day. *)
Lemma daily_stats_carry_duplicates cfg :
  exists rows, calculate_daily_stats ex_devs = Ok rows /\
    map (fun r => (cs_developer r, cs_date r, cs_number_commits r)) rows =
      [(1, 5, 1); (2, 5, 1); (2, 7, 1); (2, 5, 1)]%Z /\
    Trust.commits_per_day cfg (ex_daily_db rows) "bob" (Trust.DateArg 5) = Raise MultipleResultsFound.
Proof.
  exists (match calculate_daily_stats ex_devs with Ok r => r | Raise _ => [] end).
  split; [vm_compute; reflexivity|]. split; [vm_compute; reflexivity|].
  vm_compute. reflexivity.
Qed.

(** A first developer without commits makes the batch raise
    [ValueError] ([min] of the empty lists). *)
Theorem calculate_daily_stats_no_commits dev rest :
  calculate_daily_stats ((dev, []) :: rest) = Raise ValueError.
Proof. reflexivity. Qed.

(** ** Witnesses *)

Lemma reachable_wf_witness :
  reachable (acc_of 5 [ex_commit 1 5 5000 1]) /\ acc_wf (acc_of 5 [ex_commit 1 5 5000 1]).
Proof.
  assert (H : reachable (acc_of 5 [ex_commit 1 5 5000 1])).
  { eapply (reach_commit 1 _ [] (ex_commit 1 5 5000 1) _ []); [constructor|reflexivity]. }
  split; [exact H|]. exact (reachable_wf _ H).
Defined.

Lemma daily_stats_carry_witness :
  [ex_commit 1 5 5000 1] <> [] /\
  (exists gs d, group_by_day [ex_commit 1 5 5000 1] = gs ++ [(d, last_group [ex_commit 1 5 5000 1])] /\
     last_group [ex_commit 1 5 5000 1] <> [] /\
     Forall (fun c => day c = d) (last_group [ex_commit 1 5 5000 1])) /\
  calculate_daily_stats ex_devs =
    let* r1 := rows_of 1 (group_by_day [ex_commit 1 5 5000 1]) in
    let* r2 := rows_of 2 (group_by_day (last_group [ex_commit 1 5 5000 1] ++
                                        [ex_commit 2 7 7000 2; ex_commit 3 5 5100 2])) in
    Ok (r1 ++ r2).
Proof.
  assert (H : [ex_commit 1 5 5000 1] <> []) by discriminate.
  split; [exact H|].
  exact (daily_stats_carry 1 _ 2 [ex_commit 2 7 7000 2; ex_commit 3 5 5100 2] H).
Defined.

Lemma calculate_daily_stats_single_witness :
  [ex_commit 2 7 7000 2; ex_commit 3 5 5100 2] <> [] /\
  calculate_daily_stats [(2%Z, [ex_commit 2 7 7000 2; ex_commit 3 5 5100 2])] =
    rows_of 2 (group_by_day [ex_commit 2 7 7000 2; ex_commit 3 5 5100 2]) /\
  concat (map snd (group_by_day [ex_commit 2 7 7000 2; ex_commit 3 5 5100 2])) =
    [ex_commit 2 7 7000 2; ex_commit 3 5 5100 2] /\
  Forall (fun dg => snd dg <> [] /\ Forall (fun c => day c = fst dg) (snd dg))
    (group_by_day [ex_commit 2 7 7000 2; ex_commit 3 5 5100 2]).
Proof.
  assert (H : [ex_commit 2 7 7000 2; ex_commit 3 5 5100 2] <> []) by discriminate.
  split; [exact H|]. exact (calculate_daily_stats_single 2 _ H).
Defined.

End DailyStats.
