(* ===== verification/Webhook.v ===== *)
(** * The webhook handler (webhook_handler.py)

    [push_payload] (lines 37-50): for a GitHub push event it fetches every
    pushed commit ([utils.get_commit_info], an HTTP request, here the
    function [get_commit_info] of the section), gathers the removed and
    modified files of all pushed commits into one set, and then evaluates
    [rules_violated] once, for the variables the loop left behind: the
    last commit's author, added files, day and data.  The day is
    [commit['timestamp'][:10]], a [str] ([commit_day], passed as
    [Trust.StrArg]).  An empty [commits]
    list leaves [commit] unbound: Python raises [UnboundLocalError], a
    [NameError].  [push_payload] returns the arguments of [write_file];
    [push_payload_fs] is the whole handler, with [write_file] (lines
    21-34) appending the report text to the file
    [reports/report_<user>_<id>] of the report store ([Reports], a map
    from file names to contents).  [str] of the float score is the
    parameter [str_float].  [pull_payload] (lines 53-57) only prints, and
    [get_commit] (lines 60-66) reads a forged commit by id ([IndexError]
    for an unknown id; [json.loads] is a parameter).

    The theorems: a push is scored once, with the rules evaluated on the
    last commit and on the files touched by the whole push; a payload
    without [commits] writes nothing, and an empty list raises; and since
    [commits_per_day] binds the [str] day to a SQLite [Date] column,
    which raises [TypeError], a push with commits never returns and no
    report is ever written. *)

From stdpp Require Import pretty.
From S2P Require Import Prelude Model Features Outlier Trust Rules.

Module Webhook.
Import Model Rules.

(** An element of the push payload's ['commits']. *)
Record PushCommit := mkPushCommit {
  pc_url : string;
  pc_username : string;       (** ['author']['username'] *)
  pc_added : list string;
  pc_removed : list string;
  pc_modified : list string;
  pc_id : string;
  pc_timestamp : string;
  pc_author_name : string;    (** ['author']['name'] *)
  pc_committer_name : string; (** ['committer']['name'] *)
  pc_message : string
}.

(** The report files: a file name to its contents. *)
Abbreviation Reports := (gmap string string).

Definition nl : string := String (Ascii.ascii_of_nat 10) EmptyString.

(** Line 49: [commit['timestamp'][:10]], the first ten characters of the
    ISO timestamp (all of it when shorter), a [str]. *)
Definition commit_day (c : PushCommit) : string := substring 0 10 (pc_timestamp c).

Section Webhook.
Context (cfg : Config) (env : Env) (get_commit_info : string -> CommitPayload).

(** Lines 44-48: the loop, with the last commit and its data. *)
Definition push_loop (commits : list PushCommit)
    : gset string * option (PushCommit * CommitPayload) :=
  fold_left (fun st c =>
      let commit_data := get_commit_info (pc_url c) in
      (fst st ∪ list_to_set (pc_removed c ++ pc_modified c), Some (c, commit_data)))
    commits (∅, None).

(** Lines 37-50; [None] is a payload without a ['commits'] key. *)
Definition push_payload (db : Db) (payload : option (list PushCommit))
    : res (option (PushCommit * (Q * bool))) :=
  match payload with
  | None => Ok None
  | Some commits =>
      let '(touched_files, last) := push_loop commits in
      match last with
      | None => Raise NameError
      | Some (commit, commit_data) =>
          let* violations := rules_violated cfg env db (pc_username commit) (pc_added commit)
                               touched_files (Trust.StrArg (commit_day commit)) commit_data in
          Ok (Some (commit, violations))
      end
  end.

(** webhook_handler.py, lines 22-23. *)
Definition report_filename (c : PushCommit) : string :=
  ("reports/report_" ++ pc_username c ++ "_" ++ pc_id c)%string.

(** Lines 25-34: what one call writes; the score is a float, printed by
    [str_float]. *)
Definition report_text (str_float : Q -> string) (c : PushCommit) (violations : Q * bool) : string :=
  ("Commit: " ++ pc_id c ++ nl ++ nl ++
  "URL: " ++ pc_url c ++ nl ++ nl ++
  "Authored on " ++ pc_timestamp c ++ " by " ++ pc_author_name c ++ nl ++
  "Committed on " ++ pc_timestamp c ++ " by " ++ pc_committer_name c ++ nl ++
  "Commit Message: " ++ pc_message c ++ nl ++ nl ++
  "This commit added " ++ pretty (length (pc_added c)) ++ " files." ++ nl ++
  "This commit modified " ++ pretty (length (pc_modified c)) ++ " files." ++ nl ++
  "This commit removed " ++ pretty (length (pc_removed c)) ++ " files." ++ nl ++ nl ++
  pc_username c ++ " is " ++ (if snd violations then "TRUSTED" ++ nl ++ nl else "NOT TRUSTED" ++ nl ++ nl) ++
  "This commit violated " ++ str_float (fst violations) ++ "% of the rules." ++ nl)%string.

(** Lines 21-34: [open(filename, 'a')] appends to the file, created
    empty when missing. *)
Definition write_file (str_float : Q -> string) (fs : Reports) (c : PushCommit) (violations : Q * bool)
    : Reports :=
  let f := report_filename c in
  <[f := (from_option id "" (fs !! f) ++ report_text str_float c violations)%string]> fs.

(** Lines 37-50 with the report written. *)
Definition push_payload_fs (str_float : Q -> string) (db : Db) (fs : Reports)
    (payload : option (list PushCommit)) : res Reports :=
  let* r := push_payload db payload in
  match r with
  | None => Ok fs
  | Some (commit, violations) => Ok (write_file str_float fs commit violations)
  end.

(** Lines 53-57: the payload is printed; nothing is written. *)
Definition pull_payload {J} (fs : Reports) (payload : J) : Reports := fs.

(** Lines 60-66: [fetchall()[0][0]] of the forged commits with that id
    (the table [forged_commits] as its (id, commit_data) rows), then
    [json.loads], the section's [json_loads]. *)
Definition get_commit {J} (json_loads : string -> res J) (forged : list (string * string))
    (commit_id : string) : res J :=
  match List.filter (fun r => String.eqb (fst r) commit_id) forged with
  | [] => Raise IndexError
  | r :: _ => json_loads (snd r)
  end.

(** All the files removed or modified by a push. *)
Definition push_touched (commits : list PushCommit) : gset string :=
  ⋃ (map (fun c => list_to_set (pc_removed c ++ pc_modified c)) commits).

(** ** Lemmas *)

Lemma push_loop_fst commits (acc : gset string) last :
  fst (fold_left (fun (st : gset string * option (PushCommit * CommitPayload)) c =>
      (fst st ∪ list_to_set (pc_removed c ++ pc_modified c), Some (c, get_commit_info (pc_url c))))
    commits (acc, last)) = acc ∪ push_touched commits.
Proof.
  unfold push_touched.
  revert acc last. induction commits as [|c t IH]; intros acc last; simpl.
  - set_solver.
  - rewrite IH. set_solver.
Qed.

Lemma push_loop_snd commits c (acc : gset string) last :
  snd (fold_left (fun (st : gset string * option (PushCommit * CommitPayload)) c =>
      (fst st ∪ list_to_set (pc_removed c ++ pc_modified c), Some (c, get_commit_info (pc_url c))))
    (commits ++ [c]) (acc, last)) = Some (c, get_commit_info (pc_url c)).
Proof.
  revert acc last. induction commits as [|x t IH]; intros acc last; simpl; [done|]. apply IH.
Qed.

Lemma push_payload_snoc db cs c :
  push_payload db (Some (cs ++ [c])) =
  let* violations := rules_violated cfg env db (pc_username c) (pc_added c)
                       (push_touched (cs ++ [c])) (Trust.StrArg (commit_day c)) (get_commit_info (pc_url c)) in
  Ok (Some (c, violations)).
Proof.
  unfold push_payload, push_loop.
  pose proof (push_loop_fst (cs ++ [c]) ∅ None) as H1.
  pose proof (push_loop_snd cs c ∅ None) as H2.
  destruct (fold_left _ (cs ++ [c]) (∅, None)) as [t l]. simpl in H1, H2. subst l.
  replace t with (push_touched (cs ++ [c])) by set_solver. done.
Qed.

Lemma string_app_assoc (a b c : string) : ((a ++ b) ++ c = a ++ (b ++ c))%string.
Proof. induction a as [|x a IH]; [reflexivity|]. exact (f_equal (String x) IH). Qed.

Lemma push_payload_fs_snoc str_float db fs cs c :
  push_payload_fs str_float db fs (Some (cs ++ [c])) =
  let* violations := rules_violated cfg env db (pc_username c) (pc_added c)
                       (push_touched (cs ++ [c])) (Trust.StrArg (commit_day c)) (get_commit_info (pc_url c)) in
  Ok (write_file str_float fs c violations).
Proof.
  unfold push_payload_fs. rewrite push_payload_snoc.
  by destruct (rules_violated _ _ _ _ _ _ _ _).
Qed.

(** ** Theorems *)

(** C10. A push of the commits [cs ++ [c]] produces a single report: the
    rules are evaluated once, for the last commit [c] (its author, added
    files, day and data), against the files removed or modified by the
    whole push; the earlier commits are not scored. *)
Theorem push_payload_last db cs c :
  push_payload db (Some (cs ++ [c])) =
  let* violations := rules_violated cfg env db (pc_username c) (pc_added c)
                       (push_touched (cs ++ [c])) (Trust.StrArg (commit_day c)) (get_commit_info (pc_url c)) in
  Ok (Some (c, violations)).
Proof. apply push_payload_snoc. Qed.

(** A payload without ['commits'] produces no report, and a push
    raises [NameError] exactly when its ['commits'] list is empty: with
    at least one commit the handler either reports or fails with one of
    the exceptions of [rules_violated], never [NameError]. *)
Theorem push_payload_name_error db :
  push_payload db None = Ok None /\
  forall cs, push_payload db (Some cs) = Raise NameError <-> cs = [].
Proof.
  split; [reflexivity|]. intros cs. split; [|intros ->; reflexivity].
  destruct cs as [|c cs _] using rev_ind; [done|]. rewrite push_payload_snoc. intros H.
  exfalso. revert H.
  apply (raises_in_not [ZeroDivisionError; MultipleResultsFound; NoResultFound; TypeError]);
    [raises_auto | simpl; intuition discriminate].
Qed.

(** A push with at least one commit raises, among the exceptions of the
    rules: its day is a [str]. *)
Lemma push_payload_raises_one db cs :
  cs <> [] ->
  raises_one_of [ZeroDivisionError; MultipleResultsFound; NoResultFound; TypeError]
    (push_payload db (Some cs)).
Proof.
  intros Hcs. destruct cs as [|c cs _] using rev_ind; [done|].
  rewrite push_payload_snoc. raises_one_auto; simpl; tauto.
Qed.

(** C11. The day the handler passes to the rules is
    [commit['timestamp'][:10]], a [str], and [commits_per_day] compares
    the SQLite [Date] column [CommitsStats.date] with it: SQLAlchemy's
    [Date] type raises [TypeError] on a [str].  So a push with at least
    one commit never returns: the scoring raises [TypeError], or one of
    the exceptions of the rules evaluated before the trust verdict, and
    no report is written. *)
Theorem push_payload_never_returns str_float db fs cs :
  cs <> [] ->
  raises_one_of [ZeroDivisionError; MultipleResultsFound; NoResultFound; TypeError]
    (push_payload db (Some cs)) /\
  raises_one_of [ZeroDivisionError; MultipleResultsFound; NoResultFound; TypeError]
    (push_payload_fs str_float db fs (Some cs)).
Proof.
  intros Hcs. pose proof (push_payload_raises_one db cs Hcs) as H.
  split; [exact H|]. by apply raises_one_of_bind_l.
Qed.

End Webhook.
(** ** Witnesses *)

Definition ex_push : PushCommit :=
  mkPushCommit "u1" "alice" ["new.py"] [] ["a.py"] "abc" "2024-01-05T10:00:00Z" "Alice" "Alice" "fix".

Definition ex_info (_ : string) : CommitPayload := Outlier.ex_payload 13.

Definition ex_str_float (_ : Q) : string := "14.29".

(** The push of [ex_push] on the database of the rules' example: all the
    rules before the trust verdict return, and [commits_per_day] raises
    [TypeError] on the day ["2024-01-05"]. *)
Lemma push_payload_type_error :
  commit_day ex_push = "2024-01-05" /\
  push_payload Trust.ex_cfg Trust.ex_env ex_info Rules.ex_rules_db (Some [ex_push]) = Raise TypeError.
Proof. split; vm_compute; reflexivity. Qed.

Lemma push_payload_never_returns_witness :
  [ex_push] <> [] /\
  raises_one_of [ZeroDivisionError; MultipleResultsFound; NoResultFound; TypeError]
    (push_payload_fs Trust.ex_cfg Trust.ex_env ex_info ex_str_float Rules.ex_rules_db ∅ (Some [ex_push])).
Proof.
  assert (H : [ex_push] <> []) by discriminate.
  split; [exact H|].
  exact (proj2 (push_payload_never_returns Trust.ex_cfg Trust.ex_env ex_info ex_str_float
                  Rules.ex_rules_db ∅ [ex_push] H)).
Defined.

End Webhook.
