(* ===== verification/Server.v ===== *)
(** * The Flask application of webhook_handler.py

    [app = Flask(__name__)] (line 10) serves three routes (lines 37, 53
    and 60): [POST /push-payload] runs [push_payload], [POST
    /pull-payload] runs [pull_payload], and [GET /commit/<commit_id>]
    runs [get_commit]; [app.run(port=8080)] (lines 69-71) serves them
    until the process stops.  A request is [handle]d by its view: the
    views of Webhook.v with the report store threaded through.  An
    exception raised by a view does not stop the server: Flask answers
    [500 Internal Server Error] and serves the next request.

    The server is a step relation on [Server]: a request arrives (with a
    fresh connection number) or one pending request is served.  Flask's
    development server is threaded, so any pending request may be served
    next; a report is written through one buffered file object and
    appended on close, so one request's appends are not interleaved with
    another's.  The database is only read by the handlers and is fixed.

    The theorems: the reachable states keep distinct connection numbers
    (an invariant by rule induction on the steps); the report store only
    grows, every file being extended at its end; and no push with commits
    is ever reported (the day the view passes to the rules is a [str],
    see Webhook.v): a pending push can be served, and once it has been
    served, whatever the order of the other requests, its response is a
    [500] for [TypeError] or another exception of the rules, and the
    report store is still the one the server started with. *)

From S2P Require Import Prelude Model Features Outlier Trust Rules Webhook.

Module Server.
Import Model Webhook.

(** The HTTP requests the application routes (lines 37, 53, 60); the
    pull payload is what [print] shows. *)
Inductive Request :=
  | PushReq (payload : option (list PushCommit))
  | PullReq (payload : string)
  | CommitReq (commit_id : string).

Section Server.
Context (cfg : Config) (env : Env) (get_commit_info : string -> CommitPayload)
        (str_float : Q -> string) (db : Db)
        {J : Type} (json_loads : string -> res J) (forged : list (string * string)).

(** The responses: [('', 201)], the JSON of [get_commit], or the [500]
    Flask answers when the view raises. *)
Inductive Response :=
  | Created
  | JsonBody (j : J)
  | InternalServerError (e : PyExc).

(** The dispatch of one request to its view, lines 37-66. *)
Definition handle (fs : Reports) (req : Request) : Reports * Response :=
  match req with
  | PushReq p =>
      match push_payload_fs cfg env get_commit_info str_float db fs p with
      | Ok fs' => (fs', Created)
      | Raise e => (fs, InternalServerError e)
      end
  | PullReq p => (pull_payload fs p, Created)
  | CommitReq i =>
      match get_commit json_loads forged i with
      | Ok j => (fs, JsonBody j)
      | Raise e => (fs, InternalServerError e)
      end
  end.

(** The state of [app.run]: the pending requests with their connection
    numbers, the report files, the responses sent, and the next
    connection number. *)
Record Server := mkServer {
  pending : list (nat * Request);
  store : Reports;
  sent : list (nat * Response);
  next_conn : nat
}.

Definition server_init (fs : Reports) : Server := mkServer [] fs [] 0.

(** Line 71: one step of the server. *)
Inductive step : Server -> Server -> Prop :=
  | step_arrive s req :
      step s (mkServer (pending s ++ [(next_conn s, req)]) (store s) (sent s) (S (next_conn s)))
  | step_serve s q1 i req q2 :
      pending s = q1 ++ (i, req) :: q2 ->
      step s (mkServer (q1 ++ q2) (fst (handle (store s) req))
                       (sent s ++ [(i, snd (handle (store s) req))]) (next_conn s)).

Definition reachable (fs : Reports) (s : Server) : Prop := rtc step (server_init fs) s.

(** The connection numbers: distinct, and below the next one. *)
Definition server_wf (s : Server) : Prop :=
  NoDup (map fst (pending s) ++ map fst (sent s)) /\
  Forall (fun i => i < next_conn s)%nat (map fst (pending s) ++ map fst (sent s)).

(** Every file of [fs] is extended at its end in [fs']. *)
Definition store_le (fs fs' : Reports) : Prop :=
  forall f c, fs !! f = Some c -> exists d, fs' !! f = Some (c ++ d)%string.


(** ** Lemmas *)

Lemma string_app_nil_r (a : string) : (a ++ "")%string = a.
Proof. induction a as [|x a IH]; [reflexivity|]. exact (f_equal (String x) IH). Qed.

#[export] Instance store_le_preorder : PreOrder store_le.
Proof.
  split.
  - intros fs f c H. exists ""%string. by rewrite string_app_nil_r.
  - intros fs1 fs2 fs3 H12 H23 f c H. destruct (H12 f c H) as [d Hd].
    destruct (H23 f _ Hd) as [e He]. exists (d ++ e)%string. by rewrite <- string_app_assoc.
Qed.

(** No request changes the report store: a payload without ['commits']
    writes nothing, an empty list raises [NameError], and a push with
    commits raises in the rules. *)
Lemma handle_store fs req : fst (handle fs req) = fs.
Proof.
  destruct req as [[cs|]|p|i]; simpl; [|done|done|by destruct (get_commit _ _ _)].
  destruct (decide (cs = [])) as [->|Hcs]; [done|].
  pose proof (push_payload_raises_one cfg env get_commit_info db cs Hcs) as H.
  unfold push_payload_fs. by destruct (push_payload _ _ _ _ _) as [|e].
Qed.

Lemma handle_le fs req : store_le fs (fst (handle fs req)).
Proof. rewrite handle_store. reflexivity. Qed.

(** A push with commits is answered [500], with an exception of the
    rules. *)
Lemma handle_push_500 fs cs :
  cs <> [] ->
  exists e, handle fs (PushReq (Some cs)) = (fs, InternalServerError e) /\
    In e [ZeroDivisionError; MultipleResultsFound; NoResultFound; TypeError].
Proof.
  intros Hcs. pose proof (push_payload_raises_one cfg env get_commit_info db cs Hcs) as H.
  simpl. unfold push_payload_fs.
  destruct (push_payload _ _ _ _ _) as [|e]; [done|]. by exists e.
Qed.

(** What one step does to a pending request: it stays, or it is served. *)
Lemma step_pending s s1 i req :
  step s s1 -> (i, req) ∈ pending s ->
  (i, req) ∈ pending s1 \/
  (sent s1 = sent s ++ [(i, snd (handle (store s) req))] /\ store s1 = fst (handle (store s) req)).
Proof.
  intros [s0 r|s0 q1 j r q2 Hq] Hin; simpl; [left; set_solver|].
  rewrite Hq in Hin. apply elem_of_app in Hin as [Hin|Hin%elem_of_cons]; [left; set_solver|].
  destruct Hin as [[= -> ->]|Hin]; [by right|left; set_solver].
Qed.

Lemma step_mono s s1 :
  step s s1 -> store_le (store s) (store s1) /\ exists l, sent s1 = sent s ++ l.
Proof.
  intros [s0 r|s0 q1 j r q2 _]; simpl.
  - split; [done|exists []; by rewrite app_nil_r].
  - split; [apply handle_le|by eexists].
Qed.

Lemma rtc_mono s s' :
  rtc step s s' -> store_le (store s) (store s') /\ exists l, sent s' = sent s ++ l.
Proof.
  induction 1 as [s|s s1 s' H _ [IH1 [l IH2]]]; [split; [done|exists []; by rewrite app_nil_r]|].
  destruct (step_mono _ _ H) as [H1 [l1 H2]]. split; [by etrans|].
  exists (l1 ++ l). by rewrite IH2, H2, app_assoc.
Qed.

Lemma step_wf s s1 : step s s1 -> server_wf s -> server_wf s1.
Proof.
  intros [s0 r|s0 q1 j r q2 Hq] [Hnd Hlt]; unfold server_wf in *; simpl in *.
  - rewrite map_app, <- app_assoc. simpl.
    assert (Hp : map fst (pending s0) ++ next_conn s0 :: map fst (sent s0) ≡ₚ
                 next_conn s0 :: map fst (pending s0) ++ map fst (sent s0)) by solve_Permutation.
    rewrite Hp. split.
    + apply NoDup_cons. split; [|done]. intros Hin.
      rewrite Forall_forall in Hlt. specialize (Hlt _ Hin). lia.
    + constructor; [lia|]. eapply Forall_impl; [done|]. simpl. lia.
  - rewrite Hq in Hnd, Hlt. rewrite !map_app in *. simpl in *.
    assert (Hp : map fst q1 ++ j :: map fst q2 ++ map fst (sent s0) ≡ₚ
                 (map fst q1 ++ map fst q2) ++ map fst (sent s0) ++ [j]) by solve_Permutation.
    rewrite <- !app_assoc in Hnd, Hlt. simpl in Hnd, Hlt. split; [by rewrite <- Hp|by rewrite <- Hp].
Qed.

Lemma rtc_wf s s' : server_wf s -> rtc step s s' -> server_wf s'.
Proof. intros Hs H. induction H; eauto using step_wf. Qed.

Lemma server_init_wf fs : server_wf (server_init fs).
Proof. split; constructor. Qed.

Lemma elem_of_map_fst {A B} (i : A) (x : B) l : (i, x) ∈ l -> i ∈ map fst l.
Proof. rewrite !list_elem_of_In. intros H. exact (in_map fst _ _ H). Qed.

Lemma rtc_store s s' : rtc step s s' -> store s' = store s.
Proof.
  induction 1 as [|s s1 s' H _ IH]; [done|]. rewrite IH.
  destruct H; simpl; [done|apply handle_store].
Qed.

(** Once a push with commits has left the queue, a [500] with an
    exception of the rules was sent for it, in every later state. *)
Lemma served_push_500 s s' i cs :
  cs <> [] -> rtc step s s' -> (i, PushReq (Some cs)) ∈ pending s -> i ∉ map fst (pending s') ->
  exists e, (i, InternalServerError e) ∈ sent s' /\
    In e [ZeroDivisionError; MultipleResultsFound; NoResultFound; TypeError].
Proof.
  intros Hcs H. induction H as [s|s s1 s' Hs Hrest IH]; intros Hin Hnot.
  - by apply elem_of_map_fst in Hin.
  - destruct (step_pending _ _ _ _ Hs Hin) as [Hin1|[Hsent _]]; [by apply IH|].
    destruct (handle_push_500 (store s) cs Hcs) as (e & He & HE).
    rewrite He in Hsent. simpl in Hsent.
    destruct (rtc_mono _ _ Hrest) as [_ [l Hl]]. exists e. split; [|done].
    rewrite Hl, Hsent. set_solver.
Qed.

(** A pending request can be served, and then its number has left the
    queue. *)
Lemma serve_leaves s i req :
  server_wf s -> (i, req) ∈ pending s -> exists s1, step s s1 /\ i ∉ map fst (pending s1).
Proof.
  intros [Hnd _] Hin. apply list_elem_of_split in Hin as (q1 & q2 & Hq).
  eexists; split; [by eapply step_serve|]. simpl.
  rewrite Hq, !map_app in Hnd. simpl in Hnd.
  assert (Hp : map fst q1 ++ i :: map fst q2 ++ map fst (sent s) ≡ₚ
               i :: (map fst q1 ++ map fst q2) ++ map fst (sent s)) by solve_Permutation.
  rewrite <- app_assoc in Hnd. simpl in Hnd. rewrite Hp in Hnd.
  apply NoDup_cons in Hnd as [Hi _]. rewrite map_app. set_solver.
Qed.

(** ** Theorems *)


(** C15. No push with commits is ever reported: in a reachable state a
    pending push with at least one commit can be served; and on every run
    of the server, once it has been served, whatever the order of the
    other requests, the response sent for it is a [500] for [TypeError]
    (the [str] day bound to the [Date] column) or another exception of
    the rules, and the report store is still the one the server started
    with. *)
Theorem push_never_reported fs s i cs :
  reachable fs s -> (i, PushReq (Some cs)) ∈ pending s -> cs <> [] ->
  (exists s1, step s s1 /\ i ∉ map fst (pending s1)) /\
  (forall s', rtc step s s' -> i ∉ map fst (pending s') ->
     store s' = fs /\
     exists e, (i, InternalServerError e) ∈ sent s' /\
       In e [ZeroDivisionError; MultipleResultsFound; NoResultFound; TypeError]).
Proof.
  intros Hr Hin Hcs. split.
  - exact (serve_leaves _ _ _ (rtc_wf _ _ (server_init_wf fs) Hr) Hin).
  - intros s' H Hnot. split.
    + rewrite (rtc_store _ _ H). exact (rtc_store _ _ Hr).
    + exact (served_push_500 _ _ _ _ Hcs H Hin Hnot).
Qed.

End Server.

(** ** Witnesses *)

Definition ex_json (t : string) : res string := Ok t.

Definition ex_req : Request := PushReq (Some [ex_push]).

(** A push has arrived at a server started with no report. *)
Definition ex_server : @Server string := mkServer [(0%nat, ex_req)] ∅ [] 1.

Lemma ex_server_reachable :
  reachable Trust.ex_cfg Trust.ex_env ex_info ex_str_float Rules.ex_rules_db ex_json [] ∅ ex_server.
Proof. apply rtc_once. exact (step_arrive _ _ _ _ _ _ _ (server_init ∅) ex_req). Qed.


Lemma push_never_reported_witness :
  reachable Trust.ex_cfg Trust.ex_env ex_info ex_str_float Rules.ex_rules_db ex_json [] ∅ ex_server /\
  (0%nat, ex_req) ∈ pending ex_server /\ [ex_push] <> [] /\
  (exists s1, step Trust.ex_cfg Trust.ex_env ex_info ex_str_float Rules.ex_rules_db ex_json []
                ex_server s1 /\ 0%nat ∉ map fst (pending s1)) /\
  (forall s', rtc (step Trust.ex_cfg Trust.ex_env ex_info ex_str_float Rules.ex_rules_db ex_json [])
                ex_server s' -> 0%nat ∉ map fst (pending s') ->
     store s' = ∅ /\
     exists e, (0%nat, InternalServerError e) ∈ sent s' /\
       In e [ZeroDivisionError; MultipleResultsFound; NoResultFound; TypeError]).
Proof.
  assert (Hin : (0%nat, ex_req) ∈ pending ex_server) by apply list_elem_of_here.
  assert (Hcs : [ex_push] <> []) by discriminate.
  split; [exact ex_server_reachable|]. split; [exact Hin|]. split; [exact Hcs|].
  exact (push_never_reported Trust.ex_cfg Trust.ex_env ex_info ex_str_float Rules.ex_rules_db
           ex_json [] ∅ ex_server 0%nat [ex_push] ex_server_reachable Hin Hcs).
Defined.

End Server.
