(* ===== verification/Classifier.v ===== *)
(** * The anomaly classifier (anomaly_detection.py)

    [get_dev_commits_stats] (lines 138-153) reads a developer's
    [CommitsStats] rows ordered by date, sixteen columns rounded by
    SQLite's [round] (half away from zero, [sqlite_round]), and scales
    them with a [MinMaxScaler] fitted on the same rows ([minmax_fit],
    [minmax_transform]: [(x - min) / (max - min)] per column, a constant
    column scaled by 1).  [split_array] (lines 186-199; the same code is
    repeated in [divide_train_predict], lines 204-215) cuts the rows into
    a training and a test part: [np.split(data, 2)] raises [ValueError]
    on an odd number of rows, and the [except] branch takes [data[:index]]
    and [data[index:-1]], which drops the last row; with at most three
    rows the same data is used twice.  [model] (lines 172-183) fits a
    one-class SVM and returns the accuracy, false-positive rate and F1
    score it prints; [divide_train_predict] (lines 202-248) runs it eight
    times.  [analyze_user_behaviour] (lines 156-163), [predict_over_rules]
    (lines 166-169, with [rule_simulation.clever_commit] a section
    variable) and the script's evaluation of forged commits
    ([evaluate_user], lines 251-283) are modelled too.

    The SVM's learning is scikit-learn's: the section variable [svm_fit]
    maps a kernel, a gamma, a [nu] and the training rows to a decision
    function with values [1]/[-1] ([Prediction]); what the code does with
    it (fit and predict on no row raise, the counts, the rates, the F1
    score and its length check) is modelled.  The forged commits are the
    variable [forged_commits], the rows of the SQLite file the script
    opens.

    The theorems: the scaled history is in [[0, 1]] and is missing only
    for a developer without history; [model] prints rates that add up to
    100, and [divide_train_predict] always returns its eight runs; the
    split's two parts have the same length; [analyze_user_behaviour]
    and [predict_over_rules] always raise; the forged-commit evaluation raises unless there are
    exactly 500 forged commits. *)

From Stdlib Require Import Qminmax.
From S2P Require Import Prelude Model Features.

Module Classifier.
Import Model Features.

(** [np.split(data, 2)] on the rows: two equal halves, or [ValueError]. *)
Definition np_split2 {A} (data : list A) : res (list (list A)) :=
  let n := length data in
  if Nat.even n then Ok [firstn (n / 2)%nat data; skipn (n / 2)%nat data] else Raise ValueError.

(** [data[index:-1]] *)
Definition slice_to_last {A} (index : nat) (data : list A) : list A :=
  firstn (length data - 1 - index) (skipn index data).

(** anomaly_detection.py, lines 186-199. *)
Definition split_array {A} (data : list A) : list (list A) :=
  if (3 <? length data)%nat then
    match np_split2 data with
    | Ok halves => halves
    | Raise _ =>
        let rows := length data in
        let index := (rows / 2)%nat in
        [firstn index data; slice_to_last index data]
    end
  else [data; data].

(** ** The history of a developer: [get_dev_commits_stats] *)

(** SQLite's [round(X)]: to the nearest integer, ties away from zero. *)
Definition sqlite_round (q : Q) : Q :=
  if Qle_bool 0 q then inject_Z (Qfloor (q + (1 # 2)))
  else inject_Z (- Qfloor (- q + (1 # 2))).

(** SQLite's [round(X, N)]. *)
Definition sqlite_round_n (n : nat) (q : Q) : Q :=
  let s := inject_Z (10 ^ Z.of_nat n) in
  sqlite_round (q * s) / s.

(** Lines 140-147: the sixteen selected columns of a [CommitsStats] row. *)
Definition stats_row (s : CommitsStats) : list Q :=
  [sqlite_round_n 4 (cs_time_intervals_mean s); QZ (cs_number_commits s);
   sqlite_round (cs_changed_chars_mean s); sqlite_round (cs_changed_chars_var s);
   sqlite_round (cs_changed_lines_mean s); sqlite_round (cs_changed_lines_var s);
   sqlite_round (QZ (cs_changed_lines_min s)); sqlite_round (QZ (cs_changed_lines_max s));
   sqlite_round (cs_comments_size_mean s); sqlite_round (cs_comments_size_var s);
   sqlite_round (cs_added_files_mean s); sqlite_round (cs_added_files_var s);
   sqlite_round (cs_modified_files_mean s); sqlite_round (cs_modified_files_var s);
   sqlite_round (cs_removed_files_mean s); sqlite_round (cs_removed_files_var s)].

(** Line 148: [.join(Developer).filter(Developer.username == username)],
    one result per matching (row, developer) pair. *)
Definition stats_of_user (db : Db) (name : string) : list CommitsStats :=
  flat_map (fun s =>
      flat_map (fun d =>
          if Z.eqb (dev_id d) (cs_developer s) && String.eqb (username d) name then [s] else [])
        (developers db))
    (commits_stats db).

(** [.order_by(CommitsStats.date)]: a stable insertion sort.  SQLite
    leaves the order of rows of the same date unspecified; here they keep
    the scan order. *)
Fixpoint insert_by_date (s : CommitsStats) (l : list CommitsStats) : list CommitsStats :=
  match l with
  | [] => [s]
  | x :: t => if Z.leb (cs_date s) (cs_date x) then s :: x :: t else x :: insert_by_date s t
  end.

Definition order_by_date (l : list CommitsStats) : list CommitsStats :=
  fold_right insert_by_date [] l.

(** scikit-learn's [MinMaxScaler] with its default range [(0, 1)]: the
    fitted attributes [data_min_], [data_max_], [scale_] and [min_]. *)
Record MinMaxScaler := mkMinMaxScaler {
  data_min : list Q;
  data_max : list Q;
  scale : list Q;
  min_ : list Q
}.

(** [_handle_zeros_in_scale]: a constant feature is scaled by 1. *)
Definition handle_zeros_in_scale (r : Q) : Q := if Qeq_bool r 0 then 1 else r.

(** [scaler.fit(data)]: [ValueError] on no row (and on rows of different
    widths, which [np.asarray] refuses, or of no column). *)
Definition minmax_fit (data : list (list Q)) : res MinMaxScaler :=
  match data with
  | [] => Raise ValueError
  | r :: rs =>
      if forallb (fun x => Nat.eqb (length x) (length r)) rs && negb (Nat.eqb (length r) 0) then
        let dmin := fold_left (zip_with Qmin) rs r in
        let dmax := fold_left (zip_with Qmax) rs r in
        let sc := map (fun rg => 1 / handle_zeros_in_scale rg) (zip_with Qminus dmax dmin) in
        Ok (mkMinMaxScaler dmin dmax sc (zip_with (fun m s => 0 - m * s) dmin sc))
      else Raise ValueError
  end.

(** [scaler.transform(X)]: [X * scale_ + min_], row by row; [ValueError]
    on a row of another width than the fitted data. *)
Definition minmax_transform_row (sc : MinMaxScaler) (x : list Q) : res (list Q) :=
  if Nat.eqb (length x) (length (scale sc))
  then Ok (zip_with (fun v sm => v * fst sm + snd sm) x (zip (scale sc) (min_ sc)))
  else Raise ValueError.

Definition minmax_transform (sc : MinMaxScaler) (data : list (list Q)) : res (list (list Q)) :=
  res_mapM (minmax_transform_row sc) data.

(** anomaly_detection.py, lines 138-153. *)
Definition get_dev_commits_stats (db : Db) (name : string)
    : res (MinMaxScaler * list (list Q)) :=
  let data := map stats_row (order_by_date (stats_of_user db name)) in
  let* scaler := minmax_fit data in
  let* out := minmax_transform scaler data in
  Ok (scaler, out).

(** ** The one-class SVM and its metrics *)

(** [OneClassSVM.predict]: [1] for an inlier, [-1] for an outlier. *)
Inductive Prediction := Inlier | Outlier.

#[export] Instance Prediction_eq_dec : EqDecision Prediction.
Proof. solve_decision. Defined.

Inductive Kernel := Rbf | Poly | Sigmoid | Linear.
Inductive Gamma := GammaAuto | GammaScale.

(** [len(where(predict == p)[0])] *)
Definition count_pred (p : Prediction) (l : list Prediction) : nat :=
  length (List.filter (fun q => bool_decide (q = p)) l).

Definition count_pairs (a b : Prediction) (l : list (Prediction * Prediction)) : nat :=
  length (List.filter (fun pq => bool_decide (pq = (a, b))) l).

(** [sklearn.metrics.f1_score(y_true, y_pred)] for the labels [1]/[-1]
    with [pos_label=1]: [ValueError] on arrays of different lengths, and
    0 when there is no true or predicted positive. *)
Definition f1_score (y_true y_pred : list Prediction) : res Q :=
  if negb (Nat.eqb (length y_true) (length y_pred)) then Raise ValueError else
  let pairs := zip y_true y_pred in
  let tp := count_pairs Inlier Inlier pairs in
  let fp := count_pairs Outlier Inlier pairs in
  let fn := count_pairs Inlier Outlier pairs in
  let d := (2 * tp + fp + fn)%nat in
  if Nat.eqb d 0 then Ok 0 else Ok (inject_Z (Z.of_nat (2 * tp)) / inject_Z (Z.of_nat d)).

(** The three numbers [model] prints. *)
Record Metrics := mkMetrics {
  accuracy : Q;
  fp_rate : Q;
  f1 : Q
}.

(** Lines 219-248: the eight (kernel, gamma, nu) runs. *)
Definition model_runs : list (Kernel * Gamma * Q) :=
  [(Rbf, GammaAuto, 1 # 10); (Poly, GammaAuto, 1 # 10); (Sigmoid, GammaAuto, 1 # 10);
   (Linear, GammaAuto, 1 # 10); (Rbf, GammaScale, 1 # 10); (Poly, GammaScale, 1 # 10);
   (Sigmoid, GammaScale, 1 # 10); (Linear, GammaScale, 2 # 10)].

(** What [svm_user.fit] receives: an array of rows, or the pair
    [(scaler, rows)] that [get_dev_commits_stats] returns. *)
Inductive FitInput :=
  | Rows (rows : list (list Q))
  | ScalerAndRows (sc : MinMaxScaler) (rows : list (list Q)).

(** [check_array]: NumPy cannot make a numeric array of the pair. *)
Definition as_array (x : FitInput) : res (list (list Q)) :=
  match x with
  | Rows rows => Ok rows
  | ScalerAndRows _ _ => Raise ValueError
  end.

(** Line 90: the row of [np.asarray([(...)])]. *)
Definition feature_list (fv : FeatureVector) : list Q :=
  [fv_times_mean fv; fv_commits fv; fv_changed_chars_mean fv; fv_changed_chars_var fv;
   fv_lines_mean fv; fv_lines_var fv; fv_lines_min fv; fv_lines_max fv;
   fv_comments_size_mean fv; fv_comments_size_var fv; fv_added_files_mean fv;
   fv_added_files_var fv; fv_modified_files_mean fv; fv_modified_files_var fv;
   fv_removed_files_mean fv; fv_removed_files_var fv].

Section Svm.
(** The decision function scikit-learn's [OneClassSVM] learns from a
    kernel, a gamma, a [nu] and training rows. *)
Context (svm_fit : Kernel -> Gamma -> Q -> list (list Q) -> list Q -> Prediction).
(** The table [forged_commits] of [results/forged_commits-clever-<user>.db]. *)
Context (forged_commits : string -> list CommitPayload).

(** [OneClassSVM(...).fit(train)]: [ValueError] on no row. *)
Definition one_class_svm_fit (k : Kernel) (g : Gamma) (nu : Q) (x : FitInput)
    : res (list Q -> Prediction) :=
  let* train := as_array x in
  match train with
  | [] => Raise ValueError
  | _ => Ok (svm_fit k g nu train)
  end.

(** [svm_user.predict(X)]: [ValueError] on no row. *)
Definition svm_predict (clf : list Q -> Prediction) (X : list (list Q)) : res (list Prediction) :=
  match X with
  | [] => Raise ValueError
  | _ => Ok (map clf X)
  end.

(** Lines 172-183; the printed metrics are the result. *)
Definition model (train predict : list (list Q)) (kernel : Kernel) (gamma : Gamma) (nu : Q)
    : res Metrics :=
  let* clf := one_class_svm_fit kernel gamma nu (Rows train) in
  let* pred := svm_predict clf predict in
  let tp := count_pred Inlier pred in
  let fp := count_pred Outlier pred in
  let* train_pred := svm_predict clf train in
  let* acc := py_div (inject_Z (Z.of_nat tp)) (Qlen pred) in
  let* fpr := py_div (inject_Z (Z.of_nat fp)) (Qlen pred) in
  let* f := f1_score train_pred pred in
  Ok (mkMetrics (acc * 100) (fpr * 100) (f * 100)).

(** Lines 202-248: the split of lines 204-215 is [split_array]'s. *)
Definition divide_train_predict (db : Db) (name : string) : res (list Metrics) :=
  let* '(_, dev_stats) := get_dev_commits_stats db name in
  match split_array dev_stats with
  | [train; test] => res_mapM (fun '(k, g, nu) => model train test k g nu) model_runs
  | _ => Raise IndexError
  end.

(** Lines 156-163: the model is fitted on the pair [get_dev_commits_stats]
    returns, and [data] is classified unscaled. *)
Definition analyze_user_behaviour (db : Db) (name : string) (data : list (list Q))
    : res (list Prediction) :=
  let* '(scaler, rows) := get_dev_commits_stats db name in
  let* clf := one_class_svm_fit Poly GammaAuto (1 # 10) (ScalerAndRows scaler rows) in
  svm_predict clf data.

(** [rule_simulation.clever_commit] (a module that is not in the
    repository): the commit forged for a user. *)
Context (clever_commit : string -> CommitPayload).

(** Lines 166-169: the forged commit is parsed, then classified. *)
Definition predict_over_rules (db : Db) (username : string) : res (list Prediction) :=
  let forged_commit := [clever_commit username] in
  let* parsed_commit := parse_commits forged_commit in
  analyze_user_behaviour db username [feature_list parsed_commit].

(** Lines 272-276: one forged commit, parsed alone and scaled. *)
Definition predict_forged (scaler : MinMaxScaler) (clf : list Q -> Prediction)
    (c : CommitPayload) : res (list Prediction) :=
  let* parsed_commit := parse_commits [c] in
  let* x := minmax_transform scaler [feature_list parsed_commit] in
  svm_predict clf x.

(** Lines 253-283: one user of the script; the rates are over 500. *)
Definition evaluate_user (db : Db) (name : string) : res Metrics :=
  let* '(scaler, dev_stats) := get_dev_commits_stats db name in
  let* clf := one_class_svm_fit Poly GammaAuto (1 # 10) (Rows dev_stats) in
  let* predict := res_mapM (predict_forged scaler clf) (forged_commits name) in
  let predict := concat predict in
  let tp := count_pred Outlier predict in
  let fp := count_pred Inlier predict in
  let* f := f1_score (repeat Inlier 500) predict in
  Ok (mkMetrics (inject_Z (Z.of_nat tp) / 500 * 100) (inject_Z (Z.of_nat fp) / 500 * 100) (f * 100)).

(** Lines 251-283: the script's loop over [usernames]. *)
Definition anomaly_detection_main (db : Db) (usernames : list string) : res (list Metrics) :=
  res_mapM (evaluate_user db) usernames.

End Svm.

(** ** Lemmas on the history and the scaler *)

Lemma length_insert_by_date s l : length (insert_by_date s l) = S (length l).
Proof. induction l as [|x t IH]; simpl; [done|]. destruct (Z.leb _ _); simpl; auto. Qed.

Lemma length_order_by_date l : length (order_by_date l) = length l.
Proof. induction l as [|x t IH]; simpl; [done|]. by rewrite length_insert_by_date, IH. Qed.

Lemma length_stats_row s : length (stats_row s) = 16%nat.
Proof. reflexivity. Qed.

Section FoldBound.
Context (f : Q -> Q -> Q) (R : Q -> Q -> Prop) `{!Reflexive R} `{!Transitive R}.
Hypothesis (Hl : forall a b, R (f a b) a) (Hr : forall a b, R (f a b) b).

(** A column-wise fold of [f] over rows of one width is a row of that
    width, below (for [R]) every row at every column. *)
Lemma fold_zip_with_bound rs r :
  Forall (fun x => length x = length r) rs ->
  length (fold_left (zip_with f) rs r) = length r /\
  forall i m, fold_left (zip_with f) rs r !! i = Some m ->
    Forall (fun x => forall v, x !! i = Some v -> R m v) (r :: rs).
Proof.
  revert r. induction rs as [|x rs IH]; intros r Hlen; simpl.
  - split; [done|]. intros i m Hm. constructor; [|done]. intros v Hv. rewrite Hm in Hv. by inversion Hv.
  - inversion Hlen as [|? ? Hx Hrs]; subst.
    assert (Hr' : length (zip_with f r x) = length r) by (rewrite length_zip_with; lia).
    destruct (IH (zip_with f r x)) as [IHl IHb].
    { rewrite Hr'. exact Hrs. }
    split; [congruence|]. intros i m Hm.
    specialize (IHb i m Hm). inversion IHb as [|? ? H0 Hrest]; subst.
    assert (Hi : (i < length (zip_with f r x))%nat)
      by (rewrite <- IHl; apply lookup_lt_is_Some; eauto).
    destruct (lookup_lt_is_Some_2 _ _ Hi) as [z Hz].
    apply lookup_zip_with_Some in Hz as Hz'. destruct Hz' as (a & b & -> & Ha & Hb).
    specialize (H0 _ Hz).
    constructor; [intros v Hv; rewrite Ha in Hv; injection Hv as <-; by trans (f a b)|].
    constructor; [intros v Hv; rewrite Hb in Hv; injection Hv as <-; by trans (f a b)|].
    exact Hrest.
Qed.
End FoldBound.

(** A value between the column's minimum and maximum is scaled into
    [[0, 1]]; on a constant column it becomes 0. *)
Lemma minmax_value_bounds m M v :
  m <= v -> v <= M ->
  0 <= v * (1 / handle_zeros_in_scale (M - m)) + (0 - m * (1 / handle_zeros_in_scale (M - m))) <= 1.
Proof.
  intros H1 H2. unfold handle_zeros_in_scale. destruct (Qeq_bool (M - m) 0) eqn:E.
  - apply Qeq_bool_eq in E.
    assert (Heq : v * (1 / 1) + (0 - m * (1 / 1)) == v - m) by field. rewrite Heq. lra.
  - apply Qeq_bool_neq in E. assert (Hd : 0 < M - m) by lra.
    assert (Heq : v * (1 / (M - m)) + (0 - m * (1 / (M - m))) == (v - m) / (M - m))
      by (field; lra).
    rewrite Heq. split.
    + apply Qle_shift_div_l; lra.
    + apply Qle_shift_div_r; lra.
Qed.

Lemma Qle_refl_inst : Reflexive Qle.
Proof. intros x. apply Qle_refl. Qed.

Lemma Qle_trans_inst : Transitive Qle.
Proof. intros x y z. apply Qle_trans. Qed.

Lemma Qge_refl_inst : Reflexive (fun a b : Q => b <= a).
Proof. intros x. apply Qle_refl. Qed.

Lemma Qge_trans_inst : Transitive (fun a b : Q => b <= a).
Proof. intros x y z H1 H2. eapply Qle_trans; eauto. Qed.

(** Fitting the scaler on rows of one non-zero width and transforming
    them returns rows of that width with every value in [[0, 1]]. *)
Lemma minmax_fit_transform_bounds data n :
  data <> [] -> Forall (fun x => length x = n) data -> n <> 0%nat ->
  exists sc out, minmax_fit data = Ok sc /\ minmax_transform sc data = Ok out /\
    length (scale sc) = n /\ Forall2 (fun _ y => length y = n /\ Forall (fun v => 0 <= v <= 1) y) data out.
Proof.
  intros Hne Hall Hn. destruct data as [|r rs]; [done|].
  pose proof Hall as [Hr Hrs]%Forall_cons. subst n.
  assert (Hc : forallb (fun x => Nat.eqb (length x) (length r)) rs && negb (Nat.eqb (length r) 0) = true).
  { apply andb_true_intro. split.
    - apply forallb_forall. intros x Hx. apply Nat.eqb_eq. by apply (proj1 (List.Forall_forall _ _) Hrs).
    - apply negb_true_iff. apply Nat.eqb_neq. done. }
  unfold minmax_fit. rewrite Hc.
  destruct (fold_zip_with_bound Qmin Qle (Reflexive0 := Qle_refl_inst) (Transitive0 := Qle_trans_inst)
              Q.le_min_l Q.le_min_r rs r Hrs) as [Hlmin Hmin].
  destruct (fold_zip_with_bound Qmax (fun a b => b <= a) (Reflexive0 := Qge_refl_inst)
              (Transitive0 := Qge_trans_inst) Q.le_max_l Q.le_max_r rs r Hrs) as [Hlmax Hmax].
  set (dmin := fold_left (zip_with Qmin) rs r) in *.
  set (dmax := fold_left (zip_with Qmax) rs r) in *.
  set (sc := map (fun rg => 1 / handle_zeros_in_scale rg) (zip_with Qminus dmax dmin)).
  assert (Hsc : length sc = length r) by (unfold sc; rewrite length_map, length_zip_with; lia).
  match goal with |- exists sc out, Ok ?s = Ok sc /\ _ => set (S0 := s); exists S0 end.
  unfold minmax_transform.
  destruct (res_mapM_Forall2 (fun (_ : list Q) y => length y = length r /\ Forall (fun v => 0 <= v <= 1) y)
              (minmax_transform_row S0) (r :: rs)) as (out & Hout & HP).
  2: { exists out. split; [done|]. split; [done|]. split; [exact Hsc|exact HP]. }
  intros x Hx.
  assert (Hxl : length x = length r) by (apply (proj1 (List.Forall_forall _ _) Hall x Hx)).
  unfold minmax_transform_row, S0. cbn [scale min_]. rewrite Hxl, Hsc, Nat.eqb_refl.
  eexists. split; [reflexivity|]. split.
  { rewrite !length_zip_with, Hsc, Hlmin. lia. }
  apply Forall_lookup. intros i v Hv.
  apply lookup_zip_with_Some in Hv as (a & [s mm] & -> & Ha & Hsm).
  apply lookup_zip_with_Some in Hsm as (s' & mm' & Hp & Hs & Hmm). injection Hp as <- <-.
  apply lookup_zip_with_Some in Hmm as (m & s2 & -> & Hm & Hs2). rewrite Hs in Hs2. injection Hs2 as <-.
  unfold sc in Hs. rewrite list_lookup_fmap in Hs.
  destruct (zip_with Qminus dmax dmin !! i) as [rg|] eqn:Hrg; [|discriminate]. injection Hs as <-.
  apply lookup_zip_with_Some in Hrg as (M & m' & -> & HM & Hm'). rewrite Hm in Hm'. injection Hm' as <-.
  simpl. apply minmax_value_bounds.
  - specialize (Hmin i m Hm). apply (proj1 (List.Forall_forall _ _) Hmin x Hx). done.
  - specialize (Hmax i M HM). apply (proj1 (List.Forall_forall _ _) Hmax x Hx). done.
Qed.

Lemma firstn_skipn_app {A} (i k : nat) (l : list A) :
  firstn i l ++ firstn k (skipn i l) ++ skipn (k + i) l = l.
Proof. rewrite <- skipn_skipn, firstn_skipn, firstn_skipn. reflexivity. Qed.

Lemma even_div2 n : Nat.even n = true -> (n = 2 * (n / 2))%nat.
Proof. intros H. apply Nat.even_spec in H as [m ->]. rewrite Nat.mul_comm, Nat.div_mul; lia. Qed.

Lemma odd_div2 n : Nat.even n = false -> (n = 2 * (n / 2) + 1)%nat.
Proof.
  intros H. assert (Ho : Nat.odd n = true) by (rewrite <- Nat.negb_even, H; reflexivity).
  apply Nat.odd_spec in Ho as [m ->]. rewrite <- (Nat.div_unique (2 * m + 1) 2 m 1); lia.
Qed.

(** [split_array] returns a training and a test part of the same
    length.  With more than 3 rows, the training part is the first
    [n / 2] rows and the test part the following [n / 2]: for an odd [n]
    the last row is in neither part.  With at most 3 rows both parts are
    the whole data. *)
Theorem split_array_spec {A} (data : list A) :
  exists train test, split_array data = [train; test] /\ length train = length test /\
    ((length data <= 3)%nat -> train = data /\ test = data) /\
    ((3 < length data)%nat -> length train = (length data / 2)%nat /\
       data = train ++ test ++ (if Nat.even (length data) then [] else skipn (length data - 1) data)).
Proof.
  unfold split_array, np_split2, slice_to_last.
  destruct (Nat.ltb_spec 3 (length data)) as [Hlt | Hle].
  - destruct (Nat.even (length data)) eqn:He.
    + pose proof (even_div2 _ He) as Hn.
      do 2 eexists. split; [reflexivity|].
      rewrite length_firstn, length_skipn. split; [lia|]. split; [lia|].
      split; [lia|]. rewrite app_nil_r, firstn_skipn. reflexivity.
    + pose proof (odd_div2 _ He) as Hn.
      do 2 eexists. split; [reflexivity|].
      rewrite !length_firstn, length_skipn. split; [lia|]. split; [lia|].
      split; [lia|].
      set (k := (length data - 1 - length data / 2)%nat).
      replace (length data - 1)%nat with (k + length data / 2)%nat by (subst k; lia).
      rewrite firstn_skipn_app. reflexivity.
  - do 2 eexists. split; [reflexivity|]. split; [reflexivity|]. split; [done | lia].
Qed.

(** ** Lemmas on the history, the split and the metrics *)

Lemma Forall2_Forall_snd {A B} (P : B -> Prop) (l : list A) (k : list B) :
  Forall2 (fun _ y => P y) l k -> Forall P k.
Proof. induction 1; constructor; auto. Qed.

(** The history of [name] is empty and the scaler raises, or it is
    scaled into rows of sixteen values in [[0, 1]], one per row of the
    history. *)
Lemma get_dev_commits_stats_cases db name :
  (stats_of_user db name = [] /\ get_dev_commits_stats db name = Raise ValueError) \/
  (stats_of_user db name <> [] /\ exists sc out, get_dev_commits_stats db name = Ok (sc, out) /\
     length (scale sc) = 16%nat /\ length out = length (stats_of_user db name) /\
     Forall (fun row => length row = 16%nat /\ Forall (fun v => 0 <= v <= 1) row) out).
Proof.
  unfold get_dev_commits_stats.
  destruct (stats_of_user db name) as [|s0 ss] eqn:E; [left; done|right].
  split; [done|].
  set (data := map stats_row (order_by_date (s0 :: ss))).
  assert (Hl : length data = length (s0 :: ss)) by (unfold data; by rewrite length_map, length_order_by_date).
  destruct (minmax_fit_transform_bounds data 16) as (sc & out & Hf & Ht & Hsc & H2).
  - intros Hd. rewrite Hd in Hl. discriminate.
  - apply List.Forall_forall. intros x (y & <- & _)%in_map_iff. apply length_stats_row.
  - done.
  - exists sc, out. rewrite Hf. cbn [res_bind]. rewrite Ht. split; [done|]. split; [done|]. split.
    + rewrite <- Hl. symmetry. exact (Forall2_length _ _ _ H2).
    + exact (Forall2_Forall_snd _ _ _ H2).
Qed.

Lemma split_array_shape {A} (data : list A) :
  exists train test, split_array data = [train; test] /\ length train = length test /\
    (data <> [] -> train <> []).
Proof.
  unfold split_array, np_split2, slice_to_last.
  destruct (Nat.ltb_spec 3 (length data)) as [Hlt | Hle].
  - assert (Hpos : (2 <= length data / 2)%nat) by (apply Nat.div_le_lower_bound; lia).
    destruct (Nat.even (length data)) eqn:He;
      [pose proof (even_div2 _ He) as Hn | pose proof (odd_div2 _ He) as Hn];
      eexists _, _; (split; [reflexivity|]);
      rewrite ?length_firstn, ?length_skipn; (split; [lia|]);
      intros _ Hnil; apply (f_equal (@length A)) in Hnil; rewrite length_firstn in Hnil;
      cbn [length] in Hnil; lia.
  - eexists _, _. split; [reflexivity|]. split; [done|auto].
Qed.

Lemma count_pred_total l : (count_pred Inlier l + count_pred Outlier l = length l)%nat.
Proof.
  unfold count_pred. induction l as [|p t IH]; [done|]. simpl.
  destruct p; simpl; lia.
Qed.

Lemma Qnat_le (a b : nat) : (a <= b)%nat -> inject_Z (Z.of_nat a) <= inject_Z (Z.of_nat b).
Proof. intros H. rewrite <- inject_Z_le_iff. lia. Qed.

Lemma Qnat_pos (a : nat) : (a <> 0)%nat -> 0 < inject_Z (Z.of_nat a).
Proof. intros H. change 0 with (inject_Z 0). rewrite <- inject_Z_lt_iff. lia. Qed.

(** Two counts that add up to [n] give rates that add up to 100. *)
Lemma rates_sum (tp fp n : nat) :
  (tp + fp = n)%nat -> n <> 0%nat ->
  inject_Z (Z.of_nat tp) / inject_Z (Z.of_nat n) * 100 +
  inject_Z (Z.of_nat fp) / inject_Z (Z.of_nat n) * 100 == 100.
Proof.
  intros H Hn. pose proof (Qnat_pos n Hn) as Hp. subst n.
  rewrite Nat2Z.inj_add, inject_Z_plus in *. field. lra.
Qed.

Lemma Qlen_nonzero {A} (l : list A) : l <> [] -> Qeq_bool (Qlen l) 0 = false.
Proof.
  intros Hl. destruct (Qeq_bool _ _) eqn:E; [|done]. apply Qeq_bool_eq in E.
  assert (H : length l <> 0%nat) by (destruct l; [done|discriminate]).
  pose proof (Qnat_pos (length l) H). unfold Qlen in E. lra.
Qed.

Lemma f1_score_ok a b : length a = length b -> exists f, f1_score a b = Ok f /\ 0 <= f <= 1.
Proof.
  intros H. unfold f1_score. rewrite H, Nat.eqb_refl. cbn [negb].
  destruct (Nat.eqb_spec (2 * count_pairs Inlier Inlier (zip a b) + count_pairs Outlier Inlier (zip a b)
                          + count_pairs Inlier Outlier (zip a b)) 0) as [E|E].
  - exists 0. split; [done|]. lra.
  - eexists. split; [reflexivity|]. pose proof (Qnat_pos _ E) as Hp. split.
    + apply Qle_shift_div_l; [done|]. rewrite Qmult_0_l. change 0 with (inject_Z (Z.of_nat 0)).
      apply Qnat_le. lia.
    + apply Qle_shift_div_r; [done|]. rewrite Qmult_1_l. apply Qnat_le. lia.
Qed.

Lemma f1_score_length a b : length a <> length b -> f1_score a b = Raise ValueError.
Proof. intros H. unfold f1_score. by apply Nat.eqb_neq in H as ->. Qed.

Lemma concat_singletons {A B} (l : list A) (ys : list (list B)) :
  Forall2 (fun _ y => length y = 1%nat) l ys -> length (concat ys) = length l.
Proof. induction 1 as [|x y l ys Hy _ IH]; [done|]. simpl. rewrite length_app, Hy, IH. done. Qed.

Section SvmFacts.
Context (svm_fit : Kernel -> Gamma -> Q -> list (list Q) -> list Q -> Prediction).
Context (forged_commits : string -> list CommitPayload).

(** [model] on a non-empty training and test part of the same length
    prints an accuracy and a false-positive rate that add up to 100, and
    an F1 score between 0 and 100. *)
Lemma model_ok train predict k g nu :
  train <> [] -> predict <> [] -> length train = length predict ->
  exists m, model svm_fit train predict k g nu = Ok m /\
    accuracy m + fp_rate m == 100 /\ 0 <= f1 m <= 100.
Proof.
  intros Ht Hp Hl. destruct train as [|t ts]; [done|]. destruct predict as [|p ps]; [done|].
  set (clf := svm_fit k g nu (t :: ts)).
  destruct (f1_score_ok (map clf (t :: ts)) (map clf (p :: ps))) as (f & Hf & Hf01);
    [by rewrite !length_map|].
  unfold model, one_class_svm_fit, svm_predict, py_div. cbn [as_array res_bind]. fold clf.
  rewrite Qlen_nonzero by discriminate. cbn [res_bind]. rewrite Hf. cbn [res_bind].
  eexists. split; [reflexivity|]. cbn [accuracy fp_rate f1]. split; [|lra].
  apply rates_sum; [apply count_pred_total | discriminate].
Qed.

Lemma predict_forged_ok sc clf c fv :
  length (scale sc) = 16%nat -> parse_commits [c] = Ok fv ->
  exists y, predict_forged sc clf c = Ok y /\ length y = 1%nat.
Proof.
  intros Hsc Hp. unfold predict_forged, minmax_transform, minmax_transform_row. rewrite Hp.
  cbn [res_bind res_mapM]. rewrite Hsc. cbn. eexists. split; reflexivity.
Qed.

(** ** Theorems *)

(** C13. [get_dev_commits_stats] raises [ValueError] exactly when the
    developer has no [CommitsStats] row; otherwise it returns one scaled
    row per row of the history, each of the sixteen selected columns,
    with every value in [[0, 1]]. *)
Theorem get_dev_commits_stats_bounds db name :
  (stats_of_user db name = [] /\ get_dev_commits_stats db name = Raise ValueError) \/
  (exists sc out, get_dev_commits_stats db name = Ok (sc, out) /\
     length out = length (stats_of_user db name) /\ out <> [] /\
     Forall (fun row => length row = 16%nat /\ Forall (fun v => 0 <= v <= 1) row) out).
Proof.
  destruct (get_dev_commits_stats_cases db name) as [H | (Hne & sc & out & H & _ & Hl & Hf)];
    [by left | right].
  exists sc, out. do 2 (split; [done|]). split; [|done].
  intros ->. destruct (stats_of_user db name); [done | discriminate].
Qed.

(** C36. [model] on non-empty training and test rows of the same length
    prints an accuracy and a false-positive rate that add up to 100 and
    an F1 score between 0 and 100; on rows of different lengths
    [f1_score] raises [ValueError]. *)
Theorem model_spec train predict k g nu :
  train <> [] -> predict <> [] ->
  (length train = length predict -> exists m, model svm_fit train predict k g nu = Ok m /\
     accuracy m + fp_rate m == 100 /\ 0 <= f1 m <= 100) /\
  (length train <> length predict -> model svm_fit train predict k g nu = Raise ValueError).
Proof.
  intros Ht Hp. split; [by apply model_ok|]. intros Hl.
  destruct train as [|t ts]; [done|]. destruct predict as [|p ps]; [done|].
  unfold model, one_class_svm_fit, svm_predict, py_div. cbn [as_array res_bind].
  rewrite Qlen_nonzero by discriminate. cbn [res_bind].
  rewrite f1_score_length; [done|]. by rewrite !length_map.
Qed.

(** C18. [divide_train_predict] raises [ValueError] for a developer
    without history; otherwise its eight runs of [model] all return, each
    with an accuracy and a false-positive rate that add up to 100: the
    two parts of [split_array] are never empty and always of the same
    length, so [f1_score] never raises. *)
Theorem divide_train_predict_metrics db name :
  (stats_of_user db name = [] /\ divide_train_predict svm_fit db name = Raise ValueError) \/
  (exists ms, divide_train_predict svm_fit db name = Ok ms /\ length ms = 8%nat /\
     Forall (fun m => accuracy m + fp_rate m == 100 /\ 0 <= f1 m <= 100) ms).
Proof.
  unfold divide_train_predict.
  destruct (get_dev_commits_stats_cases db name) as [[Hn ->] | (Hne & sc & out & -> & _ & Hl & _)];
    [by left | right]. cbn [res_bind].
  destruct (split_array_shape out) as (tr & te & -> & Hte & Htr).
  assert (Hout : out <> []) by (intros ->; destruct (stats_of_user db name); done).
  specialize (Htr Hout). assert (Hte' : te <> []) by (intros ->; destruct tr; done).
  destruct (res_mapM_Forall2 (fun _ m => accuracy m + fp_rate m == 100 /\ 0 <= f1 m <= 100)
              (fun '(k, g, nu) => model svm_fit tr te k g nu) model_runs) as (ms & Hms & HP).
  - intros [[k g] nu] _. by apply model_ok.
  - exists ms. split; [done|]. split.
    + by rewrite (res_mapM_length _ _ _ Hms).
    + exact (Forall2_Forall_snd _ _ _ HP).
Qed.

(** [analyze_user_behaviour] never classifies: it fits the SVM on
    the pair [(scaler, rows)] that [get_dev_commits_stats] returns, which
    raises [ValueError], as does the history lookup of a developer
    without history. *)
Theorem analyze_user_behaviour_raises db name data :
  analyze_user_behaviour svm_fit db name data = Raise ValueError.
Proof.
  unfold analyze_user_behaviour.
  destruct (get_dev_commits_stats_cases db name) as [[_ ->] | (_ & sc & out & -> & _)]; done.
Qed.

(** [predict_over_rules] never returns a prediction: it raises
    the exception of [parse_commits] on the forged commit, or else the
    [ValueError] of [analyze_user_behaviour]. *)
Theorem predict_over_rules_raises clever_commit db name :
  exists e, predict_over_rules svm_fit clever_commit db name = Raise e /\
    (parse_commits [clever_commit name] = Raise e \/ e = ValueError).
Proof.
  unfold predict_over_rules. destruct (parse_commits [clever_commit name]) as [fv|e]; cbn [res_bind].
  - exists ValueError. split; [apply analyze_user_behaviour_raises|by right].
  - exists e. split; [done|by left].
Qed.

(** C25. The script's evaluation of the forged commits of a developer
    with history, when every forged commit parses: it raises
    [ValueError] unless there are exactly 500 forged commits (the labels
    are [np.full(500, 1)]), and with 500 its accuracy and false-positive
    rate add up to 100. *)
Theorem evaluate_user_500 db name :
  stats_of_user db name <> [] ->
  (forall c, In c (forged_commits name) -> exists fv, parse_commits [c] = Ok fv) ->
  (length (forged_commits name) <> 500%nat ->
     evaluate_user svm_fit forged_commits db name = Raise ValueError) /\
  (length (forged_commits name) = 500%nat -> exists m,
     evaluate_user svm_fit forged_commits db name = Ok m /\ accuracy m + fp_rate m == 100).
Proof.
  intros Hne Hparse. unfold evaluate_user.
  destruct (get_dev_commits_stats_cases db name) as [[Hn _] | (_ & sc & out & -> & Hsc & Hl & _)];
    [done|]. cbn [res_bind].
  destruct out as [|o os]; [destruct (stats_of_user db name); done|].
  unfold one_class_svm_fit. cbn [as_array res_bind].
  set (clf := svm_fit Poly GammaAuto (1 # 10) (o :: os)).
  destruct (res_mapM_Forall2 (fun _ y => length y = 1%nat) (predict_forged sc clf) (forged_commits name))
    as (ys & -> & HP).
  { intros c Hc. destruct (Hparse c Hc) as (fv & Hfv). exact (predict_forged_ok sc clf c fv Hsc Hfv). }
  cbn [res_bind]. pose proof (concat_singletons _ _ HP) as Hlen. split.
  - intros H5. rewrite f1_score_length; [done|]. rewrite repeat_length, Hlen. lia.
  - intros H5. destruct (f1_score_ok (repeat Inlier 500) (concat ys)) as (f & -> & _);
      [by rewrite repeat_length, Hlen|].
    eexists. split; [reflexivity|]. cbn [accuracy fp_rate].
    apply (rates_sum _ _ 500); [|discriminate]. rewrite Nat.add_comm, count_pred_total. lia.
Qed.

End SvmFacts.

(** ** Witnesses *)

Definition ex_svm (_ : Kernel) (_ : Gamma) (_ : Q) (_ : list (list Q)) (_ : list Q) : Prediction :=
  Inlier.

Definition ex_stats (date lines : Z) : CommitsStats :=
  mkCommitsStats date 2 0 0 (301 # 10) 0 1 lines (QZ lines) 4 10 20 (31 # 2) 25 5 9 7 1 1 0 0 0 0 0 1.

Definition ex_stats_db : Db :=
  mkDb [mkDeveloper 1 "mlp" 3 0 0] [] [] [] [ex_stats 19001 8; ex_stats 19000 5] [] [] [].

Lemma model_spec_witness :
  exists m, model ex_svm [[1]] [[2]] Rbf GammaAuto (1 # 10) = Ok m /\
    accuracy m + fp_rate m == 100 /\ 0 <= f1 m <= 100.
Proof.
  apply (proj1 (model_spec ex_svm [[1]] [[2]] Rbf GammaAuto (1 # 10) ltac:(discriminate)
                  ltac:(discriminate))).
  reflexivity.
Defined.

Lemma evaluate_user_500_witness :
  stats_of_user ex_stats_db "mlp" <> [] /\
  evaluate_user ex_svm (fun _ => []) ex_stats_db "mlp" = Raise ValueError.
Proof.
  assert (H1 : stats_of_user ex_stats_db "mlp" <> []) by (intros H; vm_compute in H; discriminate H).
  split; [exact H1|].
  apply (proj1 (evaluate_user_500 ex_svm (fun _ => []) ex_stats_db "mlp" H1 (fun c Hc => False_ind _ Hc))).
  discriminate.
Defined.

End Classifier.
