(* ===== verification/Reports.v ===== *)
(** * The console reports and the plot (run.py, anomaly_detection.py)

    [get_dev_commits] (run.py, lines 45-55) prints a developer and the
    developer's commits with the names of their files;
    [get_all_dev_daily_stats] (lines 58-84) prints, for every developer,
    every row of [commits_stats]; [create_graph_commits]
    (anomaly_detection.py, lines 95-135) plots a developer's daily means.

    What a function prints is a list of lines, one per [print] call; a
    computation that prints and may raise is an [Out]: the lines printed,
    and the result or the exception that stopped it (the lines printed
    before an exception stay printed).  Python's [print(obj)] shows the
    object's [__repr__] (models.py, lines 33-35, 58-60): the class [Repr]
    with one instance per model class.  [str] of a datetime, of a date, of
    a float column and the JSON text of the [languages] column are the
    section's parameters.  A figure is the data matplotlib is given:
    titles, axis labels, and the points of each scatter plot;
    [scatter(x, y)] raises [ValueError] when the two sequences differ in
    length.  Colours, style and [plt.show()] are not modelled.

    The theorems: [get_all_dev_daily_stats] prints, per developer, a
    framed block of eighteen lines per statistics row and never prints
    the variance of the changed lines; [get_dev_commits] stops with
    [AttributeError] at the first commit that has a file (the
    association rows of [commit.files] have no [filename]); and
    [create_graph_commits] never raises, plotting each daily mean against
    its date in date order. *)

From Stdlib Require Import Sorted.
From stdpp Require Import pretty.
From S2P Require Import Prelude Model Features Classifier.

Module Reports.
Import Model Classifier.

(** ** Printing *)

(** What a computation prints, and its outcome. *)
Record Out (A : Type) := mkOut {
  out_lines : list string;
  out_res : res A
}.
Arguments mkOut {A} out_lines out_res.
Arguments out_lines {A} o.
Arguments out_res {A} o.

Definition out_ret {A} (a : A) : Out A := mkOut [] (Ok a).

Definition out_bind {A B} (m : Out A) (k : A -> Out B) : Out B :=
  match out_res m with
  | Ok a => let m' := k a in mkOut (out_lines m ++ out_lines m') (out_res m')
  | Raise e => mkOut (out_lines m) (Raise e)
  end.

(** A computation that prints nothing. *)
Definition out_lift {A} (r : res A) : Out A := mkOut [] r.

Definition print (s : string) : Out unit := mkOut [s] (Ok tt).

Declare Scope out_scope.
Delimit Scope out_scope with out.
Notation "'let!' x := m 'in' k" := (out_bind m (fun x => k))
  (at level 10, x name, m at level 100, k at level 200) : out_scope.
Open Scope out_scope.

(** A [for] loop whose body prints and may raise. *)
Fixpoint out_iter {A} (f : A -> Out unit) (l : list A) : Out unit :=
  match l with
  | [] => out_ret tt
  | x :: t => let! _ := f x in out_iter f t
  end.

(** Python's [repr], the [__repr__] of a class. *)
Class Repr (A : Type) := repr : A -> string.

(** [print('#' * 81)]. *)
Fixpoint hashes (n : nat) : string :=
  match n with
  | O => EmptyString
  | S n => String "#" (hashes n)
  end.

Definition sep : string := hashes 81.

(** [print(None)] and [print(s)]. *)
Definition str_opt (o : option string) : string :=
  match o with Some s => s | None => "None" end.

(** ** The figures *)

(** One [Axes]: its title and labels, and the points of its scatter
    plot. *)
Record Axes := mkAxes {
  ax_title : string;
  ax_xlabel : string;
  ax_ylabel : string;
  ax_points : list (Z * Q)
}.

Record Figure := mkFigure {
  fig_suptitle : string;
  fig_axes : list Axes
}.

(** [ax.scatter(x, y)]: matplotlib raises [ValueError] on sequences of
    different sizes. *)
Definition scatter (title xlabel ylabel : string) (x : list Z) (y : list Q) : res Axes :=
  if (length x =? length y)%nat then Ok (mkAxes title xlabel ylabel (zip x y))
  else Raise ValueError.

(** The six lists of lines 101-106. *)
Record Series := mkSeries {
  s_dates : list Z;
  s_commits : list Q;
  s_changed_lines : list Q;
  s_added_files : list Q;
  s_modified_files : list Q;
  s_removed_files : list Q
}.

(** Lines 107-113: one row of the query appended to every list. *)
Definition series_push (ser : Series) (s : CommitsStats) : Series :=
  mkSeries (s_dates ser ++ [cs_date s])
           (s_commits ser ++ [QZ (cs_number_commits s)])
           (s_changed_lines ser ++ [cs_changed_lines_mean s])
           (s_added_files ser ++ [cs_added_files_mean s])
           (s_modified_files ser ++ [cs_modified_files_mean s])
           (s_removed_files ser ++ [cs_removed_files_mean s]).

Definition series_empty : Series := mkSeries [] [] [] [] [] [].

(** anomaly_detection.py, lines 95-135: the query of lines 97-100 (the
    developer's rows by date), the loop, and the two figures of lines
    115-134. *)
Definition create_graph_commits (db : Db) (username : string) : res (list Figure) :=
  let stats := order_by_date (stats_of_user db username) in
  let ser := fold_left series_push stats series_empty in
  let dates := s_dates ser in
  let* ax := scatter ("Number of commits (per day) for the user " ++ username) "Days" "Commits"
               dates (s_commits ser) in
  let* a10 := scatter "Changed lines" "" "Lines" dates (s_changed_lines ser) in
  let* a11 := scatter "Added files" "" "Files" dates (s_added_files ser) in
  let* a20 := scatter "Modified files" "Days" "Files" dates (s_modified_files ser) in
  let* a21 := scatter "Removed files" "Days" "Files" dates (s_removed_files ser) in
  Ok [mkFigure "" [ax];
      mkFigure ("Some mean stats (per day) for the user " ++ username) [a10; a11; a20; a21]].

Section Reports.
Context (str_datetime : Z -> string) (str_date : Z -> string) (str_num : Q -> string)
        (json_text : list (string * Z) -> string).

(** models.py, lines 33-35. *)
#[local] Instance repr_developer : Repr Developer := fun d =>
  ("Developer account: " ++ username d ++ " | created_at " ++ str_datetime (account_creation d) ++
   " | " ++ pretty (follower_number d) ++ " followers | contributions: " ++
   pretty (contributions d) ++ " ")%string.

(** models.py, lines 58-60; the [languages] column holds the JSON text. *)
#[local] Instance repr_commit : Repr Commit := fun c =>
  ("Id " ++ pretty (commit_id c) ++ " | Timestamp " ++ str_datetime (timestamp c) ++
   " | New lines " ++ pretty (new_lines c) ++ " | Removed lines " ++ pretty (removed_lines c) ++
   " | Languages " ++ json_text (languages c))%string.

(** [query(Commits).filter_by(developer=dev).all()], in table order. *)
Definition commits_of_dev (db : Db) (d : Developer) : list Commit :=
  List.filter (fun c => owned_by (commit_developer c) d) (commits db).

(** [commit.files]: the association rows of the commit. *)
Definition commit_files (db : Db) (c : Commit) : list CommitsFiles :=
  List.filter (fun cf => Z.eqb (cf_commit cf) (commit_id c)) (commits_files db).

(** Line 54: [[tmp.filename for tmp in commit.files]]; [tmp] is a
    [CommitsFiles] (models.py, lines 8-15), which has no attribute
    [filename]. *)
Definition file_names (db : Db) (c : Commit) : res (list string) :=
  res_mapM (fun _ : CommitsFiles => Raise AttributeError) (commit_files db c).

(** [print] of a list of strings (names without quotes or backslashes). *)
Definition str_list (l : list string) : string :=
  ("[" ++ String.concat ", " (map (fun s => "'" ++ s ++ "'") l) ++ "]")%string.

(** Lines 52-55: one commit. *)
Definition print_commit (db : Db) (c : Commit) : Out unit :=
  let! _ := print (repr c) in
  let! names := out_lift (file_names db c) in
  let! _ := print (str_list names) in
  print sep.

(** run.py, lines 45-55.  [if dev:] holds for every [Developer]. *)
Definition get_dev_commits (db : Db) (username : string) : Out unit :=
  let! dev := out_lift (get_developer username db) in
  match dev with
  | None => out_ret tt
  | Some d =>
      let! _ := print (repr d) in
      let! _ := print sep in
      out_iter (print_commit db) (commits_of_dev db d)
  end.

(** [query(CommitsStats).filter_by(developer=dev).all()]. *)
Definition stats_of_dev (db : Db) (d : Developer) : list CommitsStats :=
  List.filter (fun s => Z.eqb (cs_developer s) (dev_id d)) (commits_stats db).

(** Lines 66-83: the lines printed for one row.  Line 74 prints the mean
    under the label of the variance. *)
Definition stat_lines (s : CommitsStats) : list string :=
  [("Day: " ++ str_date (cs_date s))%string;
   ("Time interval from " ++ str_datetime (cs_time_intervals_min s) ++ " to " ++
      str_datetime (cs_time_intervals_max s))%string;
   ("Number of commits: " ++ pretty (cs_number_commits s))%string;
   ("Time mean(s): " ++ str_num (cs_time_intervals_mean s))%string;
   ("Time variance(s): " ++ str_num (cs_time_intervals_var s))%string;
   ("Changed lines min: " ++ pretty (cs_changed_lines_min s))%string;
   ("Changed lines max: " ++ pretty (cs_changed_lines_max s))%string;
   ("Changed lines mean: " ++ str_num (cs_changed_lines_mean s))%string;
   ("Changed lines variance: " ++ str_num (cs_changed_lines_mean s))%string;
   ("Changed chars min: " ++ pretty (cs_changed_chars_min s))%string;
   ("Changed chars max: " ++ pretty (cs_changed_chars_max s))%string;
   ("Changed chars mean: " ++ str_num (cs_changed_chars_mean s))%string;
   ("Changed chars variance: " ++ str_num (cs_changed_chars_var s))%string;
   ("Commit messages min size: " ++ pretty (cs_comments_size_min s))%string;
   ("Commit messages max size: " ++ pretty (cs_comments_size_max s))%string;
   ("Commit messages mean: " ++ str_num (cs_comments_size_mean s))%string;
   ("Commit messages variance: " ++ str_num (cs_comments_size_var s))%string;
   ""%string].

(** Lines 65-83: the eighteen [print] calls for one row. *)
Definition print_stat (s : CommitsStats) : Out unit := out_iter print (stat_lines s).

(** Lines 61-84: one developer. *)
Definition print_dev (db : Db) (d : Developer) : Out unit :=
  let! _ := print sep in
  let! _ := print (repr d) in
  let! _ := out_iter print_stat (stats_of_dev db d) in
  print sep.

(** run.py, lines 58-84. *)
Definition get_all_dev_daily_stats (db : Db) : Out unit :=
  out_iter (print_dev db) (developers db).

(** ** Lemmas *)

Lemma out_bind_ok {A B} (m : Out A) (k : A -> Out B) a :
  out_res m = Ok a -> out_bind m k = mkOut (out_lines m ++ out_lines (k a)) (out_res (k a)).
Proof. unfold out_bind. by intros ->. Qed.

(** A loop whose bodies all return prints the bodies' lines in order. *)
Lemma out_iter_ok {A} (f : A -> Out unit) l :
  (forall x, In x l -> out_res (f x) = Ok tt) ->
  out_iter f l = mkOut (flat_map (fun x => out_lines (f x)) l) (Ok tt).
Proof.
  induction l as [|x t IH]; intros H; [done|]. simpl.
  rewrite (out_bind_ok _ _ tt) by (apply H; by left). rewrite IH by (intros y Hy; apply H; by right).
  done.
Qed.

(** A loop stopped by the body of [c], the bodies before it returning. *)
Lemma out_iter_raise {A} (f : A -> Out unit) pre c post e :
  Forall (fun x => out_res (f x) = Ok tt) pre -> out_res (f c) = Raise e ->
  out_iter f (pre ++ c :: post) =
    mkOut (flat_map (fun x => out_lines (f x)) pre ++ out_lines (f c)) (Raise e).
Proof.
  intros Hpre Hc. induction Hpre as [|x t Hx _ IH]; simpl.
  - unfold out_bind. by rewrite Hc.
  - rewrite (out_bind_ok _ _ tt Hx), IH. simpl. by rewrite app_assoc.
Qed.

Lemma out_iter_print l : out_iter print l = mkOut l (Ok tt).
Proof. rewrite out_iter_ok by done. f_equal. induction l; simpl; by f_equal. Qed.

Lemma fold_series l ser :
  fold_left series_push l ser =
  mkSeries (s_dates ser ++ map cs_date l) (s_commits ser ++ map (fun s => QZ (cs_number_commits s)) l)
           (s_changed_lines ser ++ map cs_changed_lines_mean l)
           (s_added_files ser ++ map cs_added_files_mean l)
           (s_modified_files ser ++ map cs_modified_files_mean l)
           (s_removed_files ser ++ map cs_removed_files_mean l).
Proof.
  revert ser. induction l as [|s t IH]; intros ser; simpl.
  - destruct ser; simpl. by rewrite !app_nil_r.
  - rewrite IH. simpl. by rewrite <- !app_assoc.
Qed.

Lemma zip_map_same {A B C} (f : A -> B) (g : A -> C) l :
  zip (map f l) (map g l) = map (fun x => (f x, g x)) l.
Proof. induction l as [|x t IH]; simpl; by f_equal. Qed.

Lemma scatter_map title xl yl (f : CommitsStats -> Q) l :
  scatter title xl yl (map cs_date l) (map f l) =
  Ok (mkAxes title xl yl (map (fun s => (cs_date s, f s)) l)).
Proof. unfold scatter. rewrite !length_map, Nat.eqb_refl. by rewrite zip_map_same. Qed.

Lemma insert_by_date_sorted s l :
  Sorted (fun a b => cs_date a <= cs_date b)%Z l ->
  Sorted (fun a b => cs_date a <= cs_date b)%Z (insert_by_date s l).
Proof.
  induction 1 as [|x t Ht IH Hx]; simpl; [by repeat constructor|].
  destruct (Z.leb_spec (cs_date s) (cs_date x)).
  - constructor; [by constructor|by constructor].
  - constructor; [done|]. destruct t as [|y t]; simpl; [constructor; lia|].
    inversion Hx; subst. destruct (Z.leb (cs_date s) (cs_date y)); constructor; lia.
Qed.

Lemma order_by_date_sorted l : Sorted (fun a b => cs_date a <= cs_date b)%Z (order_by_date l).
Proof. induction l as [|s t IH]; simpl; [constructor|]. by apply insert_by_date_sorted. Qed.


(** The rows of [commits_stats] with one column changed. *)
Definition with_lines_var (v : CommitsStats -> Q) (db : Db) : Db :=
  mkDb (developers db) (commits db) (files db) (commits_files db)
       (map (fun s => mkCommitsStats (cs_date s) (cs_number_commits s) (cs_time_intervals_min s)
              (cs_time_intervals_max s) (cs_time_intervals_mean s) (cs_time_intervals_var s)
              (cs_changed_lines_min s) (cs_changed_lines_max s) (cs_changed_lines_mean s) (v s)
              (cs_changed_chars_min s) (cs_changed_chars_max s) (cs_changed_chars_mean s)
              (cs_changed_chars_var s) (cs_comments_size_min s) (cs_comments_size_max s)
              (cs_comments_size_mean s) (cs_comments_size_var s) (cs_added_files_mean s)
              (cs_added_files_var s) (cs_modified_files_mean s) (cs_modified_files_var s)
              (cs_removed_files_mean s) (cs_removed_files_var s) (cs_developer s))
          (commits_stats db))
       (developer_stats db) (repo_stats db) (pulls db).

Definition dev_block (db : Db) (d : Developer) : list string :=
  [sep; repr d] ++ flat_map stat_lines (stats_of_dev db d) ++ [sep].

Lemma print_dev_out db d : print_dev db d = mkOut (dev_block db d) (Ok tt).
Proof.
  unfold print_dev. rewrite out_iter_ok by (intros s _; unfold print_stat; by rewrite out_iter_print).
  reflexivity.
Qed.

Lemma get_all_dev_daily_stats_out db :
  get_all_dev_daily_stats db = mkOut (flat_map (dev_block db) (developers db)) (Ok tt).
Proof.
  unfold get_all_dev_daily_stats. rewrite out_iter_ok by (intros d _; by rewrite print_dev_out).
  f_equal. apply flat_map_ext. intros d. by rewrite print_dev_out.
Qed.

Lemma stats_of_dev_lines_var v db d :
  flat_map stat_lines (stats_of_dev (with_lines_var v db) d) = flat_map stat_lines (stats_of_dev db d).
Proof.
  unfold stats_of_dev. simpl. induction (commits_stats db) as [|s t IH]; simpl; [done|].
  destruct (Z.eqb (cs_developer s) (dev_id d)); simpl; by rewrite IH.
Qed.

Lemma length_stat_lines s : length (stat_lines s) = 18%nat.
Proof. reflexivity. Qed.

Lemma length_flat_map_const {A B} (f : A -> list B) n l :
  (forall x, length (f x) = n) -> length (flat_map f l) = (n * length l)%nat.
Proof.
  intros H. induction l as [|x t IH]; simpl; [lia|]. rewrite length_app, H, IH. lia.
Qed.

(** ** Theorems *)

(** C26. [get_all_dev_daily_stats] never raises and prints, for every
    developer in table order, a separator, the developer, the eighteen
    lines of each of the developer's statistics rows and a separator:
    three lines per developer and eighteen per row.  The label "Changed
    lines variance" is followed by the mean: the output is the same
    whatever the [changed_lines_var] column holds. *)
Theorem get_all_dev_daily_stats_spec db v :
  get_all_dev_daily_stats db = mkOut (flat_map (dev_block db) (developers db)) (Ok tt) /\
  length (out_lines (get_all_dev_daily_stats db)) =
    list_sum (map (fun d => 3 + 18 * length (stats_of_dev db d))%nat (developers db)) /\
  get_all_dev_daily_stats (with_lines_var v db) = get_all_dev_daily_stats db.
Proof.
  split; [apply get_all_dev_daily_stats_out|]. rewrite !get_all_dev_daily_stats_out. split.
  - simpl. induction (developers db) as [|d t IH]; simpl; [done|].
    rewrite length_app, IH. unfold dev_block. rewrite !length_app.
    rewrite (length_flat_map_const _ 18) by apply length_stat_lines. simpl. lia.
  - f_equal. apply flat_map_ext. intros d. unfold dev_block. by rewrite stats_of_dev_lines_var.
Qed.

(** The three lines printed for a commit without files. *)
Definition commit_block (c : Commit) : list string := [repr c; "[]"%string; sep].

Lemma print_commit_no_files db c :
  commit_files db c = [] -> print_commit db c = mkOut (commit_block c) (Ok tt).
Proof. intros H. unfold print_commit, file_names. by rewrite H. Qed.

Lemma print_commit_files db c :
  commit_files db c <> [] -> print_commit db c = mkOut [repr c] (Raise AttributeError).
Proof.
  intros H. unfold print_commit, file_names. destruct (commit_files db c); [done|]. reflexivity.
Qed.

Lemma print_commits_ok db l :
  Forall (fun c => commit_files db c = []) l ->
  flat_map (fun x => out_lines (print_commit db x)) l = flat_map commit_block l /\
  Forall (fun x => out_res (print_commit db x) = Ok tt) l.
Proof.
  induction 1 as [|c t Hc _ [IH1 IH2]]; [done|]. cbn [flat_map].
  split; [by rewrite (print_commit_no_files _ _ Hc), IH1|].
  constructor; [by rewrite print_commit_no_files|done].
Qed.

(** C24. For a username held by one developer, [get_dev_commits] prints
    the developer, a separator, then for each of the developer's commits
    the commit, [[]] and a separator; at the first commit that has a row
    in [commits_files] it prints the commit and stops with
    [AttributeError]: the association rows of [commit.files] have no
    attribute [filename]. *)
Theorem get_dev_commits_attribute_error db u d :
  developers_named db u = [d] ->
  (Forall (fun c => commit_files db c = []) (commits_of_dev db d) ->
     get_dev_commits db u = mkOut ([repr d; sep] ++ flat_map commit_block (commits_of_dev db d)) (Ok tt)) /\
  (forall pre c post, commits_of_dev db d = pre ++ c :: post ->
     Forall (fun c => commit_files db c = []) pre -> commit_files db c <> [] ->
     get_dev_commits db u =
       mkOut ([repr d; sep] ++ flat_map commit_block pre ++ [repr c]) (Raise AttributeError)).
Proof.
  intros Hu. unfold get_dev_commits, get_developer. rewrite Hu. cbn. split.
  - intros H. destruct (print_commits_ok _ _ H) as [H1 H2].
    rewrite out_iter_ok by (by apply List.Forall_forall). by rewrite H1.
  - intros pre c post Hl Hpre Hc. destruct (print_commits_ok _ _ Hpre) as [H1 H2].
    rewrite Hl, (out_iter_raise _ _ _ _ AttributeError H2) by (by rewrite print_commit_files).
    by rewrite H1, print_commit_files.
Qed.

End Reports.

(** [create_graph_commits] never raises: the six lists built by the
    loop all have one entry per row, so every [scatter] gets sequences of
    the same size.  The first figure plots the number of commits, the
    second the means of changed lines, added, modified and removed files,
    each against the date of its row, the rows in ascending date order. *)
Theorem create_graph_commits_spec db u :
  let st := order_by_date (stats_of_user db u) in
  create_graph_commits db u =
    Ok [mkFigure "" [mkAxes ("Number of commits (per day) for the user " ++ u) "Days" "Commits"
                       (map (fun s => (cs_date s, QZ (cs_number_commits s))) st)];
        mkFigure ("Some mean stats (per day) for the user " ++ u)
          [mkAxes "Changed lines" "" "Lines" (map (fun s => (cs_date s, cs_changed_lines_mean s)) st);
           mkAxes "Added files" "" "Files" (map (fun s => (cs_date s, cs_added_files_mean s)) st);
           mkAxes "Modified files" "Days" "Files" (map (fun s => (cs_date s, cs_modified_files_mean s)) st);
           mkAxes "Removed files" "Days" "Files" (map (fun s => (cs_date s, cs_removed_files_mean s)) st)]] /\
  Sorted Z.le (map cs_date st).
Proof.
  intros st. split.
  - unfold create_graph_commits. fold st. rewrite fold_series. simpl.
    rewrite (scatter_map _ _ _ (fun s => QZ (cs_number_commits s))). simpl.
    by rewrite !scatter_map.
  - pose proof (order_by_date_sorted (stats_of_user db u)) as H. fold st in H.
    induction H as [|x t _ IH Hx]; simpl; constructor; [done|].
    destruct Hx; simpl; constructor; done.
Qed.


(** ** Witnesses *)

Definition ex_str (_ : Z) : string := "2024-01-01".

Definition ex_json (_ : list (string * Z)) : string := "{}".

Definition ex_dev : Developer := mkDeveloper 1 "alice" 1 0 0.

Definition ex_commit : Commit := mkCommit 7 19000 1641000000 "fix" 3 1 20 1 0 0 0 (Some 1%Z) [].

(** Alice has one commit, which has one file. *)
Definition ex_report_db : Db :=
  mkDb [ex_dev] [ex_commit] [mkFile 1 "a.py" None (Some 1%Z)] [mkCommitsFiles 7 1 Added]
       [] [] [] [].

Lemma get_dev_commits_attribute_error_witness :
  developers_named ex_report_db "alice" = [ex_dev] /\
  out_res (get_dev_commits ex_str ex_json ex_report_db "alice") = Raise AttributeError.
Proof.
  assert (Hu : developers_named ex_report_db "alice" = [ex_dev]) by reflexivity.
  split; [exact Hu|].
  destruct (get_dev_commits_attribute_error ex_str ex_json ex_report_db "alice" ex_dev Hu)
    as [_ H].
  rewrite (H [] ex_commit [] ltac:(reflexivity) ltac:(constructor) ltac:(cbv; discriminate)).
  reflexivity.
Defined.

End Reports.
